(** * Certificate Protection System (RBAC): the back end, embedded and verified

  The development follows the layout of [backend/src]:
  - [Js]: the fragments of the JavaScript run time the code relies on
    (truthiness, [||], strings, hex buffers, exceptions);
  - [Rbac]: [config/rbac.js];
  - [Jwt]: [utils/jwt.js] over an idealised [jsonwebtoken];
  - [User], [Certificate], [AuditLog]: the three Mongoose models;
  - [Auth], [AuthController], [UserController], [CertificateController]:
    the middleware and the request handlers.

  Handlers are functions in a state-and-exception monad over [World.t],
  the process-wide state (the three collections, the clock, the entropy
  source, the environment and the console). *)

From Stdlib Require Import String Ascii List ZArith NArith Bool Arith Lia.
Import ListNotations.
Local Open Scope string_scope.
Local Open Scope list_scope.

(* ===================================================================== *)
(** * JavaScript run-time fragments *)
(* ===================================================================== *)

Module Js.

(** Exceptions that the modelled code can raise or observe. *)
Inductive Exn : Type :=
| TypeError (msg : string)
| RangeError (msg : string)
| ValidationError (path : string)
| MongoServerError (code : Z)
| DocumentNotFoundError
| CastError (value path model : string)
| JsonWebTokenError (msg : string)
| TokenExpiredError
| Error (msg : string).

(** The completion of a call: a value, or an exception in flight. *)
Inductive Outcome (A : Type) : Type :=
| Returns (a : A)
| Throws (e : Exn).
Arguments Returns {A} a.
Arguments Throws {A} e.

(** [ToBoolean] on a value that is a string or [undefined]. *)
Definition truthy (v : option string) : bool :=
  match v with
  | Some s => negb (s =? "")
  | None => false
  end.

(** [a || b] where [a] is a string or [undefined] and [b] a string. *)
Definition or_else (a : option string) (b : string) : string :=
  match a with
  | Some s => if s =? "" then b else s
  | None => b
  end.

(** [a || b] where both may be [undefined]. *)
Definition or_opt (a b : option string) : option string :=
  if truthy a then a else b.

(** [`${v}`] for a string or [undefined]. *)
Definition template (v : option string) : string :=
  match v with
  | Some s => s
  | None => "undefined"
  end.

(** The double-quote character, for messages that contain one. *)
Definition quote : string := String (ascii_of_nat 34) EmptyString.

(** [Array.prototype.includes] on arrays of strings. *)
Definition includes (x : string) (xs : list string) : bool :=
  existsb (String.eqb x) xs.

(** ** Strings

    A string holds the UTF-8 encoding of the JavaScript string. *)

Definition bytes (ns : list nat) : string :=
  fold_right (fun n s => String (ascii_of_nat n) s) EmptyString ns.

(** [s.length]: the number of UTF-16 code units. A code point of the basic
    plane is one unit, in one to three bytes; every other code point is
    two units, in four bytes of which the first is 240 or more. The bytes
    from 128 to 191 continue a code point. *)
Definition units (c : ascii) : nat :=
  let n := nat_of_ascii c in
  if (n <? 128)%nat then 1
  else if (n <? 192)%nat then 0
  else if (n <? 240)%nat then 1
  else 2.

Fixpoint utf16_length (s : string) : nat :=
  match s with
  | String c rest => units c + utf16_length rest
  | EmptyString => 0
  end.

(** The code points of the ECMAScript [WhiteSpace] and [LineTerminator]
    productions, which [String.prototype.trim] removes and [\s] matches:
    U+0009 to U+000D, U+0020, U+00A0, U+1680, U+2000 to U+200A, U+2028,
    U+2029, U+202F, U+205F, U+3000 and U+FEFF. *)
Definition WhiteSpace : list string :=
  map bytes
    [ [9]; [10]; [11]; [12]; [13]; [32];
      [194; 160];
      [225; 154; 128];
      [226; 128; 128]; [226; 128; 129]; [226; 128; 130]; [226; 128; 131];
      [226; 128; 132]; [226; 128; 133]; [226; 128; 134]; [226; 128; 135];
      [226; 128; 136]; [226; 128; 137]; [226; 128; 138];
      [226; 128; 168]; [226; 128; 169];
      [226; 128; 175];
      [226; 129; 159];
      [227; 128; 128];
      [239; 187; 191] ].

(** [s] without its prefix [p]. *)
Fixpoint strip (p s : string) : option string :=
  match p, s with
  | EmptyString, _ => Some s
  | String a p', String b s' => if Ascii.eqb a b then strip p' s' else None
  | String _ _, EmptyString => None
  end.

(** [s] without the first of the [prefixes] that it starts with. *)
Fixpoint strip_one (prefixes : list string) (s : string) : option string :=
  match prefixes with
  | p :: more =>
      match strip p s with
      | Some rest => Some rest
      | None => strip_one more s
      end
  | [] => None
  end.

(** At most [n] times. *)
Fixpoint strip_all (prefixes : list string) (n : nat) (s : string) : string :=
  match n with
  | S n' =>
      match strip_one prefixes s with
      | Some rest => strip_all prefixes n' rest
      | None => s
      end
  | O => s
  end.

Fixpoint reverse_onto (s acc : string) : string :=
  match s with
  | String c rest => reverse_onto rest (String c acc)
  | EmptyString => acc
  end.

Definition reverse (s : string) : string := reverse_onto s EmptyString.

Definition trimStart (s : string) : string :=
  strip_all WhiteSpace (String.length s) s.

(** [trimEnd] is [trimStart] read from the end. *)
Definition trimEnd (s : string) : string :=
  reverse (strip_all (map reverse WhiteSpace) (String.length s) (reverse s)).

Definition trim (s : string) : string := trimEnd (trimStart s).

(** ** Hex buffers: [Buffer.from(s, 'hex')] and [buf.toString('hex')] *)

Definition hexval (c : ascii) : option N :=
  let n := N_of_ascii c in
  if ((48 <=? n) && (n <=? 57))%N then Some (n - 48)%N
  else if ((97 <=? n) && (n <=? 102))%N then Some (n - 87)%N
  else if ((65 <=? n) && (n <=? 70))%N then Some (n - 55)%N
  else None.

(** Decoding stops at the first pair that is not two hex digits; an odd
    last digit is dropped. *)
Fixpoint Buffer_from_hex (s : string) : list N :=
  match s with
  | String a (String b rest) =>
      match hexval a, hexval b with
      | Some h, Some l => (16 * h + l)%N :: Buffer_from_hex rest
      | _, _ => []
      end
  | _ => []
  end.

Definition hexdigit (n : N) : ascii :=
  ascii_of_N (if (n <? 10)%N then n + 48 else n + 87)%N.

Fixpoint toString_hex (bs : list N) : string :=
  match bs with
  | b :: rest =>
      String (hexdigit ((b mod 256) / 16)) (String (hexdigit (b mod 16)) (toString_hex rest))
  | [] => EmptyString
  end.

Definition upper (c : ascii) : ascii :=
  let n := nat_of_ascii c in
  if ((97 <=? n) && (n <=? 122))%nat then ascii_of_nat (n - 32) else c.

Fixpoint toUpperCase (s : string) : string :=
  match s with
  | String c s' => String (upper c) (toUpperCase s')
  | EmptyString => EmptyString
  end.

(** [crypto.timingSafeEqual]: a [RangeError] on buffers of different
    lengths, otherwise equality of contents. *)
Definition timingSafeEqual (a b : list N) : Outcome bool :=
  if Nat.eqb (List.length a) (List.length b)
  then Returns (if list_eq_dec N.eq_dec a b then true else false)
  else Throws (RangeError "Input buffers must have the same byte length").

(** [s.startsWith(prefix)] *)
Definition startsWith (s prefix : string) : bool := String.prefix prefix s.

(** [s.split(sep)] for a separator of one character: the pieces between
    its occurrences, of which there is always one at least. *)
Fixpoint String_split (sep : ascii) (s : string) : list string :=
  match s with
  | String c rest =>
      if Ascii.eqb c sep then EmptyString :: String_split sep rest
      else
        match String_split sep rest with
        | piece :: pieces => String c piece :: pieces
        | [] => [String c EmptyString]
        end
  | EmptyString => [EmptyString]
  end.

(** [xs.join(',')], which is also how an array of strings prints. *)
Definition join (xs : list string) : string := String.concat "," xs.

(** A value of a JSON body where the code expects a boolean: a boolean, a
    number (an integer here) or a string. *)
Inductive Value : Type :=
| VBool (b : bool)
| VNum (n : Z)
| VStr (s : string).

(** [ToBoolean] on such a value. *)
Definition ToBoolean (v : Value) : bool :=
  match v with
  | VBool b => b
  | VNum n => negb (n =? 0)%Z
  | VStr s => negb (s =? "")
  end.

End Js.

Import Js.

(* ===================================================================== *)
(** * config/rbac.js *)
(* ===================================================================== *)

Module Rbac.

(** ** [ROLES] *)
Definition SUPER_ADMIN := "super_admin".
Definition ADMIN := "admin".
Definition ISSUER := "issuer".
Definition VERIFIER := "verifier".
Definition HOLDER := "holder".

(** [Object.values(ROLES)] *)
Definition ROLES_values : list string :=
  [SUPER_ADMIN; ADMIN; ISSUER; VERIFIER; HOLDER].

(** ** [PERMISSIONS] *)
Definition CERTIFICATE_CREATE := "certificate:create".
Definition CERTIFICATE_READ := "certificate:read".
Definition CERTIFICATE_READ_OWN := "certificate:read:own".
Definition CERTIFICATE_UPDATE := "certificate:update".
Definition CERTIFICATE_DELETE := "certificate:delete".
Definition CERTIFICATE_REVOKE := "certificate:revoke".
Definition CERTIFICATE_VERIFY := "certificate:verify".
Definition CERTIFICATE_EXPORT := "certificate:export".
Definition CERTIFICATE_SIGN := "certificate:sign".
Definition USER_CREATE := "user:create".
Definition USER_READ := "user:read".
Definition USER_READ_OWN := "user:read:own".
Definition USER_UPDATE := "user:update".
Definition USER_UPDATE_OWN := "user:update:own".
Definition USER_DELETE := "user:delete".
Definition USER_ASSIGN_ROLE := "user:assign_role".
Definition ROLE_CREATE := "role:create".
Definition ROLE_READ := "role:read".
Definition ROLE_UPDATE := "role:update".
Definition ROLE_DELETE := "role:delete".
Definition AUDIT_READ := "audit:read".
Definition AUDIT_EXPORT := "audit:export".
Definition SYSTEM_CONFIG := "system:config".
Definition SYSTEM_BACKUP := "system:backup".

(** [Object.values(PERMISSIONS)], in insertion order. *)
Definition PERMISSIONS_values : list string :=
  [ CERTIFICATE_CREATE; CERTIFICATE_READ; CERTIFICATE_READ_OWN;
    CERTIFICATE_UPDATE; CERTIFICATE_DELETE; CERTIFICATE_REVOKE;
    CERTIFICATE_VERIFY; CERTIFICATE_EXPORT; CERTIFICATE_SIGN;
    USER_CREATE; USER_READ; USER_READ_OWN; USER_UPDATE; USER_UPDATE_OWN;
    USER_DELETE; USER_ASSIGN_ROLE;
    ROLE_CREATE; ROLE_READ; ROLE_UPDATE; ROLE_DELETE;
    AUDIT_READ; AUDIT_EXPORT;
    SYSTEM_CONFIG; SYSTEM_BACKUP ].

(** ** [ROLE_PERMISSIONS]: the own properties of the object literal *)
Definition ROLE_PERMISSIONS : list (string * list string) :=
  [ (SUPER_ADMIN, PERMISSIONS_values);
    (ADMIN,
      [ CERTIFICATE_CREATE; CERTIFICATE_READ; CERTIFICATE_UPDATE;
        CERTIFICATE_DELETE; CERTIFICATE_REVOKE; CERTIFICATE_VERIFY;
        CERTIFICATE_EXPORT; CERTIFICATE_SIGN;
        USER_CREATE; USER_READ; USER_UPDATE; USER_DELETE; USER_ASSIGN_ROLE;
        ROLE_READ; AUDIT_READ; AUDIT_EXPORT ]);
    (ISSUER,
      [ CERTIFICATE_CREATE; CERTIFICATE_READ; CERTIFICATE_UPDATE;
        CERTIFICATE_REVOKE; CERTIFICATE_VERIFY; CERTIFICATE_EXPORT;
        CERTIFICATE_SIGN; USER_READ; AUDIT_READ ]);
    (VERIFIER,
      [ CERTIFICATE_READ; CERTIFICATE_VERIFY; USER_READ_OWN; USER_UPDATE_OWN ]);
    (HOLDER,
      [ CERTIFICATE_READ_OWN; CERTIFICATE_VERIFY; USER_READ_OWN; USER_UPDATE_OWN ]) ].

Definition ROLE_HIERARCHY : list string :=
  [HOLDER; VERIFIER; ISSUER; ADMIN; SUPER_ADMIN].

(** ** Property access on the object literal

    [ROLE_PERMISSIONS[role]] is an ordinary property read: when [role] is
    not an own key the lookup continues in [Object.prototype]. *)
Definition Object_prototype_keys : list string :=
  [ "constructor"; "__defineGetter__"; "__defineSetter__"; "hasOwnProperty";
    "__lookupGetter__"; "__lookupSetter__"; "isPrototypeOf";
    "propertyIsEnumerable"; "toString"; "valueOf"; "__proto__";
    "toLocaleString" ].

Inductive Property : Type :=
| PArray (perms : list string)   (* an own property: a permission array *)
| PInherited                     (* a function or object of Object.prototype *)
| PUndefined.

Fixpoint own (role : string) (o : list (string * list string)) : option (list string) :=
  match o with
  | (k, v) :: rest => if k =? role then Some v else own role rest
  | [] => None
  end.

Definition get (role : string) : Property :=
  match own role ROLE_PERMISSIONS with
  | Some perms => PArray perms
  | None => if includes role Object_prototype_keys then PInherited else PUndefined
  end.

(** [const permissions = ROLE_PERMISSIONS[role] || [];
    return permissions.includes(permission);]
    An inherited property is truthy and has no [includes] method. *)
Definition hasPermission (role permission : string) : Outcome bool :=
  match get role with
  | PArray perms => Returns (includes permission perms)
  | PUndefined => Returns (includes permission [])
  | PInherited => Throws (TypeError "permissions.includes is not a function")
  end.

(** [permissionList.some(p => hasPermission(role, p))] *)
Fixpoint hasAnyPermission (role : string) (permissionList : list string) : Outcome bool :=
  match permissionList with
  | p :: rest =>
      match hasPermission role p with
      | Returns true => Returns true
      | Returns false => hasAnyPermission role rest
      | Throws e => Throws e
      end
  | [] => Returns false
  end.

(** [ROLE_PERMISSIONS[role] || []] *)
Definition getPermissions (role : string) : Property :=
  match get role with
  | PUndefined => PArray []
  | p => p
  end.

(** The permission array of a role, empty when the role has no own entry. *)
Definition entry (role : string) : list string :=
  match own role ROLE_PERMISSIONS with
  | Some perms => perms
  | None => []
  end.

Definition is_role (r : string) : bool := includes r ROLES_values.

End Rbac.

(* ===================================================================== *)
(** * Documents of the three collections *)
(* ===================================================================== *)

(** A Mongo [ObjectId]. *)
Definition ObjectId := nat.

(** [id.toString()]: the twelve bytes of the id as 24 hexadecimal digits. *)
Fixpoint be_bytes (n : nat) (v : N) : list N :=
  match n with
  | S n' => be_bytes n' (v / 256)%N ++ [(v mod 256)%N]
  | O => []
  end.

Definition ObjectId_toString (id : ObjectId) : string :=
  toString_hex (be_bytes 12 (N.of_nat id)).

(** The cast of a string to an [ObjectId], as a query makes it of the id
    it is given: 24 hexadecimal digits, in either case, read as twelve
    bytes; no other string is cast. *)
Fixpoint from_be_bytes (bs : list N) (acc : N) : N :=
  match bs with
  | b :: rest => from_be_bytes rest (acc * 256 + b)%N
  | [] => acc
  end.

Definition ObjectId_cast (s : string) : option ObjectId :=
  let bs := Buffer_from_hex s in
  if ((String.length s =? 24) && (List.length bs =? 12))%nat
  then Some (N.to_nat (from_be_bytes bs 0))
  else None.

(** Schema validators shared by the models. A [required] string path
    rejects [undefined] and the empty string. *)
Definition required (v : option string) : bool := truthy v.

Definition maxlength (n : nat) (v : option string) : bool :=
  match v with
  | Some s => (utf16_length s <=? n)%nat
  | None => true
  end.

Definition minlength (n : nat) (v : option string) : bool :=
  match v with
  | Some s => (n <=? utf16_length s)%nat
  | None => true
  end.

Definition enum (allowed : list string) (v : option string) : bool :=
  match v with
  | Some s => includes s allowed
  | None => true
  end.

Definition in_range (lo : Z) (hi : option Z) (v : option Z) : bool :=
  match v with
  | Some x => (lo <=? x)%Z && match hi with Some h => (x <=? h)%Z | None => true end
  | None => true
  end.

(** The first failing path of a list of (path, check) pairs, in schema
    order. *)
Fixpoint first_failure (checks : list (string * bool)) : option string :=
  match checks with
  | (path, ok) :: rest => if ok then first_failure rest else Some path
  | [] => None
  end.

(** ** models/User.js: the schema *)

Module UserDoc.

Record t : Type := Build {
  _id : ObjectId;
  fullName : option string;
  email : option string;
  password : option string;
  role : string;
  isActive : bool;
  lastLogin : option Z;
  loginAttempts : Z;
  lockUntil : option Z;
  organization : option string;
  department : option string;
  nationalId : option string;
  phoneNumber : option string;
  createdBy : option ObjectId
}.

Definition set_password (v : option string) (d : t) : t :=
  {| _id := _id d; fullName := fullName d; email := email d; password := v;
     role := role d; isActive := isActive d; lastLogin := lastLogin d;
     loginAttempts := loginAttempts d; lockUntil := lockUntil d;
     organization := organization d; department := department d;
     nationalId := nationalId d; phoneNumber := phoneNumber d;
     createdBy := createdBy d |}.

Definition set_role (v : string) (d : t) : t :=
  {| _id := _id d; fullName := fullName d; email := email d; password := password d;
     role := v; isActive := isActive d; lastLogin := lastLogin d;
     loginAttempts := loginAttempts d; lockUntil := lockUntil d;
     organization := organization d; department := department d;
     nationalId := nationalId d; phoneNumber := phoneNumber d;
     createdBy := createdBy d |}.

Definition set_isActive (v : bool) (d : t) : t :=
  {| _id := _id d; fullName := fullName d; email := email d; password := password d;
     role := role d; isActive := v; lastLogin := lastLogin d;
     loginAttempts := loginAttempts d; lockUntil := lockUntil d;
     organization := organization d; department := department d;
     nationalId := nationalId d; phoneNumber := phoneNumber d;
     createdBy := createdBy d |}.

Definition set_lastLogin (v : option Z) (d : t) : t :=
  {| _id := _id d; fullName := fullName d; email := email d; password := password d;
     role := role d; isActive := isActive d; lastLogin := v;
     loginAttempts := loginAttempts d; lockUntil := lockUntil d;
     organization := organization d; department := department d;
     nationalId := nationalId d; phoneNumber := phoneNumber d;
     createdBy := createdBy d |}.

Definition set_loginAttempts (v : Z) (d : t) : t :=
  {| _id := _id d; fullName := fullName d; email := email d; password := password d;
     role := role d; isActive := isActive d; lastLogin := lastLogin d;
     loginAttempts := v; lockUntil := lockUntil d; organization := organization d;
     department := department d; nationalId := nationalId d;
     phoneNumber := phoneNumber d; createdBy := createdBy d |}.

Definition set_lockUntil (v : option Z) (d : t) : t :=
  {| _id := _id d; fullName := fullName d; email := email d; password := password d;
     role := role d; isActive := isActive d; lastLogin := lastLogin d;
     loginAttempts := loginAttempts d; lockUntil := v; organization := organization d;
     department := department d; nationalId := nationalId d;
     phoneNumber := phoneNumber d; createdBy := createdBy d |}.


(** The [trim] and [lowercase] setters of the schema. *)
Definition lower (c : ascii) : ascii :=
  let n := nat_of_ascii c in
  if ((65 <=? n) && (n <=? 90))%nat then ascii_of_nat (n + 32) else c.

Fixpoint toLowerCase (s : string) : string :=
  match s with
  | String c s' => String (lower c) (toLowerCase s')
  | EmptyString => EmptyString
  end.

(** [/^\S+@\S+\.\S+$/]: no white space anywhere, an [@] after at least one
    character and, at least one character after it, a dot followed by at
    least one character. *)
Fixpoint dot_then_more (s : string) : bool :=
  match s with
  | String c rest =>
      (Ascii.eqb c "."%char && negb (rest =? "")) || dot_then_more rest
  | EmptyString => false
  end.

Definition dot_in_the_middle (s : string) : bool :=
  match s with
  | String _ rest => dot_then_more rest
  | EmptyString => false
  end.

Fixpoint at_then (s : string) : bool :=
  match s with
  | String c rest =>
      (Ascii.eqb c "@"%char && dot_in_the_middle rest) || at_then rest
  | EmptyString => false
  end.

Fixpoint no_space (s : string) : bool :=
  match s with
  | String _ rest =>
      match strip_one WhiteSpace s with
      | Some _ => false
      | None => no_space rest
      end
  | EmptyString => true
  end.

Definition email_match (v : option string) : bool :=
  match v with
  | Some (String _ rest as s) => no_space s && at_then rest
  | Some EmptyString => false
  | None => true
  end.

(** The validators of the paths a loaded document carries ([password] is
    [select: false] and is not validated unless it was set). *)
Definition checks_loaded (u : t) : list (string * bool) :=
  [ ("fullName", required (fullName u) && minlength 2 (fullName u) && maxlength 100 (fullName u));
    ("email", required (email u) && email_match (email u));
    ("role", enum Rbac.ROLES_values (Some (role u)));
    ("organization", maxlength 200 (organization u));
    ("department", maxlength 200 (department u)) ].

(** The validators of a new document: every path. *)
Definition checks_new (u : t) : list (string * bool) :=
  checks_loaded u ++
  [ ("password", required (password u) && minlength 8 (password u)) ].

(** [userSchema.virtual('isLocked')]:
    [!!(this.lockUntil && this.lockUntil > Date.now())] *)
Definition isLocked (now : Z) (u : t) : bool :=
  match lockUntil u with
  | Some l => (now <? l)%Z
  | None => false
  end.

End UserDoc.

(** ** models/Certificate.js: the schema *)

Module CertificateDoc.

Definition CERTIFICATE_TYPES_values : list string :=
  ["academic"; "professional"; "training"; "achievement"; "medical";
   "government"; "other"].

Definition DRAFT := "draft".
Definition PENDING := "pending".
Definition ACTIVE := "active".
Definition EXPIRED := "expired".
Definition REVOKED := "revoked".
Definition SUSPENDED := "suspended".

Definition CERTIFICATE_STATUS_values : list string :=
  [DRAFT; PENDING; ACTIVE; EXPIRED; REVOKED; SUSPENDED].

(** An element of [verificationHistory]. *)
Record HistoryEntry : Type := {
  verifiedBy : option ObjectId;
  verifiedAt : Z;
  ipAddress : option string;
  userAgent : option string;
  result : option string
}.

(** [result: { type: String, enum: [...] }] *)
Definition HISTORY_RESULT_values : list string :=
  ["valid"; "invalid"; "expired"; "revoked"].

(** The certificate document. Paths that no modelled operation reads and
    that carry no validator (attachments, template, access list, skills,
    tags, metadata, grade, duration, isPublic, publicKey, suspendedAt) are
    left out; [score] and [credits] range over integers. *)
Record t : Type := Build {
  _id : ObjectId;
  certificateId : option string;
  serialNumber : option string;
  title : option string;
  description : option string;
  type : option string;
  status : string;
  holder : option ObjectId;
  holderName : option string;
  holderNationalId : option string;
  issuedBy : option ObjectId;
  issuerName : option string;
  issuingOrganization : option string;
  issuingDepartment : option string;
  issuedAt : Z;
  expiresAt : option Z;
  revokedAt : option Z;
  revokedBy : option ObjectId;
  revocationReason : option string;
  digitalSignature : option string;
  signatureAlgorithm : string;
  checksum : option string;
  qrCode : option string;
  verificationUrl : option string;
  verificationToken : option string;
  score : option Z;
  credits : option Z;
  verificationHistory : list HistoryEntry
}.

Definition set_certificateId (v : option string) (d : t) : t :=
  {| _id := _id d; certificateId := v; serialNumber := serialNumber d;
     title := title d; description := description d; type := type d;
     status := status d; holder := holder d; holderName := holderName d;
     holderNationalId := holderNationalId d; issuedBy := issuedBy d;
     issuerName := issuerName d; issuingOrganization := issuingOrganization d;
     issuingDepartment := issuingDepartment d; issuedAt := issuedAt d;
     expiresAt := expiresAt d; revokedAt := revokedAt d; revokedBy := revokedBy d;
     revocationReason := revocationReason d; digitalSignature := digitalSignature d;
     signatureAlgorithm := signatureAlgorithm d; checksum := checksum d;
     qrCode := qrCode d; verificationUrl := verificationUrl d;
     verificationToken := verificationToken d; score := score d; credits := credits d;
     verificationHistory := verificationHistory d |}.

Definition set_serialNumber (v : option string) (d : t) : t :=
  {| _id := _id d; certificateId := certificateId d; serialNumber := v;
     title := title d; description := description d; type := type d;
     status := status d; holder := holder d; holderName := holderName d;
     holderNationalId := holderNationalId d; issuedBy := issuedBy d;
     issuerName := issuerName d; issuingOrganization := issuingOrganization d;
     issuingDepartment := issuingDepartment d; issuedAt := issuedAt d;
     expiresAt := expiresAt d; revokedAt := revokedAt d; revokedBy := revokedBy d;
     revocationReason := revocationReason d; digitalSignature := digitalSignature d;
     signatureAlgorithm := signatureAlgorithm d; checksum := checksum d;
     qrCode := qrCode d; verificationUrl := verificationUrl d;
     verificationToken := verificationToken d; score := score d; credits := credits d;
     verificationHistory := verificationHistory d |}.

Definition set_status (v : string) (d : t) : t :=
  {| _id := _id d; certificateId := certificateId d; serialNumber := serialNumber d;
     title := title d; description := description d; type := type d; status := v;
     holder := holder d; holderName := holderName d;
     holderNationalId := holderNationalId d; issuedBy := issuedBy d;
     issuerName := issuerName d; issuingOrganization := issuingOrganization d;
     issuingDepartment := issuingDepartment d; issuedAt := issuedAt d;
     expiresAt := expiresAt d; revokedAt := revokedAt d; revokedBy := revokedBy d;
     revocationReason := revocationReason d; digitalSignature := digitalSignature d;
     signatureAlgorithm := signatureAlgorithm d; checksum := checksum d;
     qrCode := qrCode d; verificationUrl := verificationUrl d;
     verificationToken := verificationToken d; score := score d; credits := credits d;
     verificationHistory := verificationHistory d |}.

Definition set_revokedAt (v : option Z) (d : t) : t :=
  {| _id := _id d; certificateId := certificateId d; serialNumber := serialNumber d;
     title := title d; description := description d; type := type d;
     status := status d; holder := holder d; holderName := holderName d;
     holderNationalId := holderNationalId d; issuedBy := issuedBy d;
     issuerName := issuerName d; issuingOrganization := issuingOrganization d;
     issuingDepartment := issuingDepartment d; issuedAt := issuedAt d;
     expiresAt := expiresAt d; revokedAt := v; revokedBy := revokedBy d;
     revocationReason := revocationReason d; digitalSignature := digitalSignature d;
     signatureAlgorithm := signatureAlgorithm d; checksum := checksum d;
     qrCode := qrCode d; verificationUrl := verificationUrl d;
     verificationToken := verificationToken d; score := score d; credits := credits d;
     verificationHistory := verificationHistory d |}.

Definition set_revokedBy (v : option ObjectId) (d : t) : t :=
  {| _id := _id d; certificateId := certificateId d; serialNumber := serialNumber d;
     title := title d; description := description d; type := type d;
     status := status d; holder := holder d; holderName := holderName d;
     holderNationalId := holderNationalId d; issuedBy := issuedBy d;
     issuerName := issuerName d; issuingOrganization := issuingOrganization d;
     issuingDepartment := issuingDepartment d; issuedAt := issuedAt d;
     expiresAt := expiresAt d; revokedAt := revokedAt d; revokedBy := v;
     revocationReason := revocationReason d; digitalSignature := digitalSignature d;
     signatureAlgorithm := signatureAlgorithm d; checksum := checksum d;
     qrCode := qrCode d; verificationUrl := verificationUrl d;
     verificationToken := verificationToken d; score := score d; credits := credits d;
     verificationHistory := verificationHistory d |}.

Definition set_revocationReason (v : option string) (d : t) : t :=
  {| _id := _id d; certificateId := certificateId d; serialNumber := serialNumber d;
     title := title d; description := description d; type := type d;
     status := status d; holder := holder d; holderName := holderName d;
     holderNationalId := holderNationalId d; issuedBy := issuedBy d;
     issuerName := issuerName d; issuingOrganization := issuingOrganization d;
     issuingDepartment := issuingDepartment d; issuedAt := issuedAt d;
     expiresAt := expiresAt d; revokedAt := revokedAt d; revokedBy := revokedBy d;
     revocationReason := v; digitalSignature := digitalSignature d;
     signatureAlgorithm := signatureAlgorithm d; checksum := checksum d;
     qrCode := qrCode d; verificationUrl := verificationUrl d;
     verificationToken := verificationToken d; score := score d; credits := credits d;
     verificationHistory := verificationHistory d |}.

Definition set_digitalSignature (v : option string) (d : t) : t :=
  {| _id := _id d; certificateId := certificateId d; serialNumber := serialNumber d;
     title := title d; description := description d; type := type d;
     status := status d; holder := holder d; holderName := holderName d;
     holderNationalId := holderNationalId d; issuedBy := issuedBy d;
     issuerName := issuerName d; issuingOrganization := issuingOrganization d;
     issuingDepartment := issuingDepartment d; issuedAt := issuedAt d;
     expiresAt := expiresAt d; revokedAt := revokedAt d; revokedBy := revokedBy d;
     revocationReason := revocationReason d; digitalSignature := v;
     signatureAlgorithm := signatureAlgorithm d; checksum := checksum d;
     qrCode := qrCode d; verificationUrl := verificationUrl d;
     verificationToken := verificationToken d; score := score d; credits := credits d;
     verificationHistory := verificationHistory d |}.

Definition set_checksum (v : option string) (d : t) : t :=
  {| _id := _id d; certificateId := certificateId d; serialNumber := serialNumber d;
     title := title d; description := description d; type := type d;
     status := status d; holder := holder d; holderName := holderName d;
     holderNationalId := holderNationalId d; issuedBy := issuedBy d;
     issuerName := issuerName d; issuingOrganization := issuingOrganization d;
     issuingDepartment := issuingDepartment d; issuedAt := issuedAt d;
     expiresAt := expiresAt d; revokedAt := revokedAt d; revokedBy := revokedBy d;
     revocationReason := revocationReason d; digitalSignature := digitalSignature d;
     signatureAlgorithm := signatureAlgorithm d; checksum := v; qrCode := qrCode d;
     verificationUrl := verificationUrl d; verificationToken := verificationToken d;
     score := score d; credits := credits d;
     verificationHistory := verificationHistory d |}.

Definition set_qrCode (v : option string) (d : t) : t :=
  {| _id := _id d; certificateId := certificateId d; serialNumber := serialNumber d;
     title := title d; description := description d; type := type d;
     status := status d; holder := holder d; holderName := holderName d;
     holderNationalId := holderNationalId d; issuedBy := issuedBy d;
     issuerName := issuerName d; issuingOrganization := issuingOrganization d;
     issuingDepartment := issuingDepartment d; issuedAt := issuedAt d;
     expiresAt := expiresAt d; revokedAt := revokedAt d; revokedBy := revokedBy d;
     revocationReason := revocationReason d; digitalSignature := digitalSignature d;
     signatureAlgorithm := signatureAlgorithm d; checksum := checksum d; qrCode := v;
     verificationUrl := verificationUrl d; verificationToken := verificationToken d;
     score := score d; credits := credits d;
     verificationHistory := verificationHistory d |}.

Definition set_verificationUrl (v : option string) (d : t) : t :=
  {| _id := _id d; certificateId := certificateId d; serialNumber := serialNumber d;
     title := title d; description := description d; type := type d;
     status := status d; holder := holder d; holderName := holderName d;
     holderNationalId := holderNationalId d; issuedBy := issuedBy d;
     issuerName := issuerName d; issuingOrganization := issuingOrganization d;
     issuingDepartment := issuingDepartment d; issuedAt := issuedAt d;
     expiresAt := expiresAt d; revokedAt := revokedAt d; revokedBy := revokedBy d;
     revocationReason := revocationReason d; digitalSignature := digitalSignature d;
     signatureAlgorithm := signatureAlgorithm d; checksum := checksum d;
     qrCode := qrCode d; verificationUrl := v;
     verificationToken := verificationToken d; score := score d; credits := credits d;
     verificationHistory := verificationHistory d |}.

Definition set_verificationToken (v : option string) (d : t) : t :=
  {| _id := _id d; certificateId := certificateId d; serialNumber := serialNumber d;
     title := title d; description := description d; type := type d;
     status := status d; holder := holder d; holderName := holderName d;
     holderNationalId := holderNationalId d; issuedBy := issuedBy d;
     issuerName := issuerName d; issuingOrganization := issuingOrganization d;
     issuingDepartment := issuingDepartment d; issuedAt := issuedAt d;
     expiresAt := expiresAt d; revokedAt := revokedAt d; revokedBy := revokedBy d;
     revocationReason := revocationReason d; digitalSignature := digitalSignature d;
     signatureAlgorithm := signatureAlgorithm d; checksum := checksum d;
     qrCode := qrCode d; verificationUrl := verificationUrl d; verificationToken := v;
     score := score d; credits := credits d;
     verificationHistory := verificationHistory d |}.

Definition set_verificationHistory (v : list HistoryEntry) (d : t) : t :=
  {| _id := _id d; certificateId := certificateId d; serialNumber := serialNumber d;
     title := title d; description := description d; type := type d;
     status := status d; holder := holder d; holderName := holderName d;
     holderNationalId := holderNationalId d; issuedBy := issuedBy d;
     issuerName := issuerName d; issuingOrganization := issuingOrganization d;
     issuingDepartment := issuingDepartment d; issuedAt := issuedAt d;
     expiresAt := expiresAt d; revokedAt := revokedAt d; revokedBy := revokedBy d;
     revocationReason := revocationReason d; digitalSignature := digitalSignature d;
     signatureAlgorithm := signatureAlgorithm d; checksum := checksum d;
     qrCode := qrCode d; verificationUrl := verificationUrl d;
     verificationToken := verificationToken d; score := score d; credits := credits d;
     verificationHistory := v |}.


Definition set_title (v : option string) (d : t) : t :=
  {| _id := _id d; certificateId := certificateId d; serialNumber := serialNumber d;
     title := v; description := description d; type := type d; status := status d;
     holder := holder d; holderName := holderName d;
     holderNationalId := holderNationalId d; issuedBy := issuedBy d;
     issuerName := issuerName d; issuingOrganization := issuingOrganization d;
     issuingDepartment := issuingDepartment d; issuedAt := issuedAt d;
     expiresAt := expiresAt d; revokedAt := revokedAt d; revokedBy := revokedBy d;
     revocationReason := revocationReason d; digitalSignature := digitalSignature d;
     signatureAlgorithm := signatureAlgorithm d; checksum := checksum d;
     qrCode := qrCode d; verificationUrl := verificationUrl d;
     verificationToken := verificationToken d; score := score d; credits := credits d;
     verificationHistory := verificationHistory d |}.

Definition history_ok (h : HistoryEntry) : bool :=
  enum HISTORY_RESULT_values (result h).

(** The validators of the schema, in path order. *)
Definition checks (c : t) : list (string * bool) :=
  [ ("title", required (title c) && maxlength 200 (title c));
    ("description", maxlength 1000 (description c));
    ("type", required (type c) && enum CERTIFICATE_TYPES_values (type c));
    ("status", enum CERTIFICATE_STATUS_values (Some (status c)));
    ("holder", match holder c with Some _ => true | None => false end);
    ("holderName", required (holderName c));
    ("issuedBy", match issuedBy c with Some _ => true | None => false end);
    ("issuerName", required (issuerName c));
    ("issuingOrganization", required (issuingOrganization c));
    ("revocationReason", maxlength 500 (revocationReason c));
    ("score", in_range 0 (Some 100%Z) (score c));
    ("credits", in_range 0 None (credits c));
    ("verificationHistory.result", forallb history_ok (verificationHistory c)) ].

(** [certificateSchema.virtual('isExpired')]:
    [this.expiresAt && this.expiresAt < new Date()] *)
Definition isExpired (now : Z) (c : t) : bool :=
  match expiresAt c with
  | Some e => (e <? now)%Z
  | None => false
  end.

(** [certificateSchema.virtual('isValid')] *)
Definition isValid (now : Z) (c : t) : bool :=
  if negb (status c =? ACTIVE) then false
  else if isExpired now c then false
  else true.

(** A populated reference: the fields of the user that the call of
    [populate] selects. *)
Record Party : Type := {
  party_id : ObjectId;
  party_fullName : option string;
  party_email : option string;
  party_organization : option string
}.

(** What a path that refers to a user holds in a document in memory: the
    id, or the user document once the path was populated. *)
Inductive Reference : Type :=
| Unpopulated (id : ObjectId)
| PopulatedWith (user : Party).

(** A document that a query with [populate('holder')] and
    [populate('issuedBy')] returned, as its validators see the two paths: a
    path holds a value when the user was found and [null] when not. The
    other paths are as stored. *)
Definition with_parties (h i : option Party) (d : t) : t :=
  {| _id := _id d; certificateId := certificateId d; serialNumber := serialNumber d;
     title := title d; description := description d; type := type d; status := status d;
     holder := option_map party_id h; holderName := holderName d;
     holderNationalId := holderNationalId d; issuedBy := option_map party_id i;
     issuerName := issuerName d; issuingOrganization := issuingOrganization d;
     issuingDepartment := issuingDepartment d; issuedAt := issuedAt d;
     expiresAt := expiresAt d; revokedAt := revokedAt d; revokedBy := revokedBy d;
     revocationReason := revocationReason d; digitalSignature := digitalSignature d;
     signatureAlgorithm := signatureAlgorithm d; checksum := checksum d;
     qrCode := qrCode d; verificationUrl := verificationUrl d;
     verificationToken := verificationToken d; score := score d; credits := credits d;
     verificationHistory := verificationHistory d |}.

(** What the pre-save hook serialises and hashes. [cd_holder] is what
    [this.holder?.toString()] is taken of: the id, the populated user
    document, or nothing. *)
Record ChecksumData : Type := {
  cd_title : option string;
  cd_holder : option Reference;
  cd_holderName : option string;
  cd_issuingOrganization : option string;
  cd_issuedAt : Z;
  cd_type : option string
}.

Definition checksumData_of (h : option Reference) (c : t) : ChecksumData :=
  {| cd_title := title c; cd_holder := h; cd_holderName := holderName c;
     cd_issuingOrganization := issuingOrganization c; cd_issuedAt := issuedAt c;
     cd_type := type c |}.

(** On a document whose [holder] holds the id. *)
Definition checksumData (c : t) : ChecksumData :=
  checksumData_of (option_map Unpopulated (holder c)) c.

(** What [createCertificate] encodes in the QR code. *)
Record QrData : Type := {
  qr_id : option string;
  qr_serial : option string;
  qr_verifyUrl : option string;
  qr_holder : option string;
  qr_issuer : option string;
  qr_issuedAt : Z
}.

End CertificateDoc.

(** ** models/AuditLog.js: the schema *)

Module AuditEntry.

Definition AUTH_LOGIN := "auth.login".
Definition AUTH_LOGOUT := "auth.logout".
Definition AUTH_REGISTER := "auth.register".
Definition AUTH_LOGIN_FAILED := "auth.login_failed".
Definition AUTH_ACCOUNT_LOCKED := "auth.account_locked".
Definition AUTH_PASSWORD_RESET := "auth.password_reset".
Definition AUTH_TOKEN_REFRESH := "auth.token_refresh".
Definition CERT_CREATE := "certificate.create".
Definition CERT_VIEW := "certificate.view".
Definition CERT_UPDATE := "certificate.update".
Definition CERT_DELETE := "certificate.delete".
Definition CERT_REVOKE := "certificate.revoke".
Definition CERT_SIGN := "certificate.sign".
Definition CERT_VERIFY := "certificate.verify".
Definition CERT_EXPORT := "certificate.export".
Definition CERT_VERIFY_FAILED := "certificate.verify_failed".
Definition CERT_ACCESS_DENIED := "certificate.access_denied".
Definition USER_CREATE := "user.create".
Definition USER_UPDATE := "user.update".
Definition USER_DELETE := "user.delete".
Definition USER_ROLE_ASSIGN := "user.role_assign".
Definition USER_ACTIVATE := "user.activate".
Definition USER_DEACTIVATE := "user.deactivate".
Definition SECURITY_UNAUTHORIZED := "security.unauthorized".
Definition SECURITY_FORBIDDEN := "security.forbidden".
Definition SECURITY_RATE_LIMIT := "security.rate_limit".
Definition SECURITY_SUSPICIOUS := "security.suspicious_activity".

Definition AUDIT_ACTIONS_values : list string :=
  [ AUTH_LOGIN; AUTH_LOGOUT; AUTH_REGISTER; AUTH_LOGIN_FAILED;
    AUTH_ACCOUNT_LOCKED; AUTH_PASSWORD_RESET; AUTH_TOKEN_REFRESH;
    CERT_CREATE; CERT_VIEW; CERT_UPDATE; CERT_DELETE; CERT_REVOKE; CERT_SIGN;
    CERT_VERIFY; CERT_EXPORT; CERT_VERIFY_FAILED; CERT_ACCESS_DENIED;
    USER_CREATE; USER_UPDATE; USER_DELETE; USER_ROLE_ASSIGN; USER_ACTIVATE;
    USER_DEACTIVATE;
    SECURITY_UNAUTHORIZED; SECURITY_FORBIDDEN; SECURITY_RATE_LIMIT;
    SECURITY_SUSPICIOUS ].

Definition INFO := "info".
Definition WARNING := "warning".
Definition CRITICAL := "critical".
Definition ERROR := "error".

Definition AUDIT_SEVERITY_values : list string := [INFO; WARNING; CRITICAL; ERROR].

(** A stored audit entry. [details] and [changes] are [Mixed]: they are
    kept as key/value pairs of strings. *)
Record t : Type := {
  action : option string;
  severity : string;
  performedBy : option ObjectId;
  performedByEmail : option string;
  performedByRole : option string;
  targetResource : option string;
  targetId : option ObjectId;
  targetName : option string;
  ipAddress : option string;
  userAgent : option string;
  requestMethod : option string;
  requestPath : option string;
  success : bool;
  errorMessage : option string;
  statusCode : option Z;
  details : list (string * string);
  changes : option (list (string * string) * list (string * string));
  timestamp : Z
}.

Definition checks (e : t) : list (string * bool) :=
  [ ("action", required (action e) && enum AUDIT_ACTIONS_values (action e));
    ("severity", enum AUDIT_SEVERITY_values (Some (severity e))) ].

(** The argument of [AuditLog.log]. *)
Record Data : Type := {
  d_action : option string;
  d_severity : option string;
  d_userId : option ObjectId;
  d_userEmail : option string;
  d_userRole : option string;
  d_resource : option string;
  d_resourceId : option ObjectId;
  d_resourceName : option string;
  d_ipAddress : option string;
  d_userAgent : option string;
  d_method : option string;
  d_path : option string;
  d_success : option bool;
  d_errorMessage : option string;
  d_statusCode : option Z;
  d_details : option (list (string * string));
  d_changes : option (list (string * string) * list (string * string))
}.

End AuditEntry.

(* ===================================================================== *)
(** * The process state and the handler monad *)
(* ===================================================================== *)

Module World.

(** [process.env], read with [process.env.X || default]. The two token
    lifetimes are kept in seconds. *)
Record Env : Type := {
  CERT_SIGNING_SECRET : option string;
  APP_BASE_URL : option string;
  JWT_SECRET : option string;
  JWT_REFRESH_SECRET : option string;
  JWT_EXPIRES_IN : option Z;
  JWT_REFRESH_EXPIRES_IN : option Z
}.

(** The three collections in insertion order, the health of the audit
    collection ([auditStoreUp = false]: every write to it is rejected), the
    clock ([Date.now()], milliseconds; one request is served at one
    instant), the bytes the system entropy source will deliver next, the
    next fresh [ObjectId], what was written to the console, and a count of
    the calls of [bcrypt.compare]. *)
Record t : Type := Build {
  users : list UserDoc.t;
  certificates : list CertificateDoc.t;
  auditLogs : list AuditEntry.t;
  auditStoreUp : bool;
  now : Z;
  entropy : list N;
  nextId : nat;
  console : list string;
  passwordChecks : nat;
  env : Env
}.

Definition set_users (v : list UserDoc.t) (d : t) : t :=
  {| users := v; certificates := certificates d; auditLogs := auditLogs d;
     auditStoreUp := auditStoreUp d; now := now d; entropy := entropy d;
     nextId := nextId d; console := console d; passwordChecks := passwordChecks d;
     env := env d |}.

Definition set_certificates (v : list CertificateDoc.t) (d : t) : t :=
  {| users := users d; certificates := v; auditLogs := auditLogs d;
     auditStoreUp := auditStoreUp d; now := now d; entropy := entropy d;
     nextId := nextId d; console := console d; passwordChecks := passwordChecks d;
     env := env d |}.

Definition set_auditLogs (v : list AuditEntry.t) (d : t) : t :=
  {| users := users d; certificates := certificates d; auditLogs := v;
     auditStoreUp := auditStoreUp d; now := now d; entropy := entropy d;
     nextId := nextId d; console := console d; passwordChecks := passwordChecks d;
     env := env d |}.

Definition set_auditStoreUp (v : bool) (d : t) : t :=
  {| users := users d; certificates := certificates d; auditLogs := auditLogs d;
     auditStoreUp := v; now := now d; entropy := entropy d; nextId := nextId d;
     console := console d; passwordChecks := passwordChecks d; env := env d |}.

Definition set_entropy (v : list N) (d : t) : t :=
  {| users := users d; certificates := certificates d; auditLogs := auditLogs d;
     auditStoreUp := auditStoreUp d; now := now d; entropy := v; nextId := nextId d;
     console := console d; passwordChecks := passwordChecks d; env := env d |}.

Definition set_nextId (v : nat) (d : t) : t :=
  {| users := users d; certificates := certificates d; auditLogs := auditLogs d;
     auditStoreUp := auditStoreUp d; now := now d; entropy := entropy d; nextId := v;
     console := console d; passwordChecks := passwordChecks d; env := env d |}.

Definition set_console (v : list string) (d : t) : t :=
  {| users := users d; certificates := certificates d; auditLogs := auditLogs d;
     auditStoreUp := auditStoreUp d; now := now d; entropy := entropy d;
     nextId := nextId d; console := v; passwordChecks := passwordChecks d;
     env := env d |}.

Definition set_passwordChecks (v : nat) (d : t) : t :=
  {| users := users d; certificates := certificates d; auditLogs := auditLogs d;
     auditStoreUp := auditStoreUp d; now := now d; entropy := entropy d;
     nextId := nextId d; console := console d; passwordChecks := v; env := env d |}.


End World.

(** Library functions whose results the development does not compute: the
    digests, bcrypt, [JSON.stringify] on the two payloads, the QR encoder
    ([None] when the [qrcode] package failed to load) and the date
    formatters. *)
Class Lib : Type := {
  sha256_hex : string -> string;
  hmac_sha256_hex : string -> string -> string;
  JSON_stringify : CertificateDoc.ChecksumData -> string;
  JSON_stringify_qr : CertificateDoc.QrData -> string;
  QRCode_toDataURL : option (string -> Outcome string);
  bcrypt_hash : string -> list N -> string;
  bcrypt_compare : string -> string -> bool;
  getFullYear : Z -> string;
  toLocaleDateString : Z -> string
}.

Module Monad.

Definition M (A : Type) : Type := World.t -> Outcome A * World.t.

Definition ret {A} (a : A) : M A := fun w => (Returns a, w).

Definition bind {A B} (m : M A) (k : A -> M B) : M B :=
  fun w =>
    match m w with
    | (Returns a, w') => k a w'
    | (Throws e, w') => (Throws e, w')
    end.

Definition throw {A} (e : Exn) : M A := fun w => (Throws e, w).

(** [try { m } catch (e) { handler(e) }]: the effects of [m] before the
    exception stay. *)
Definition try_catch {A} (m : M A) (handler : Exn -> M A) : M A :=
  fun w =>
    match m w with
    | (Returns a, w') => (Returns a, w')
    | (Throws e, w') => handler e w'
    end.

(** Reading a component of the state, and updating the state. *)
Definition gets {A} (f : World.t -> A) : M A := fun w => (Returns (f w), w).

Definition modify (f : World.t -> World.t) : M unit := fun w => (Returns tt, f w).

Definition users : M (list UserDoc.t) := gets World.users.
Definition certificates : M (list CertificateDoc.t) := gets World.certificates.
Definition getenv : M World.Env := gets World.env.

Definition update_users (f : list UserDoc.t -> list UserDoc.t) : M unit :=
  modify (fun w => World.set_users (f (World.users w)) w).

Definition update_certificates (f : list CertificateDoc.t -> list CertificateDoc.t)
    : M unit :=
  modify (fun w => World.set_certificates (f (World.certificates w)) w).

Definition lift {A} (o : Outcome A) : M A := fun w => (o, w).

(** [Date.now()] and [new Date()] *)
Definition Date_now : M Z := gets World.now.

(** [crypto.randomBytes(n)]: the next [n] bytes of the entropy source
    (zeros once it is exhausted). *)
Definition randomBytes (n : nat) : M (list N) :=
  fun w =>
    let bytes := firstn n (World.entropy w ++ repeat 0%N n) in
    (Returns bytes, World.set_entropy (skipn n (World.entropy w)) w).

(** A fresh [ObjectId], as [new Model(...)] assigns. *)
Definition newObjectId : M ObjectId :=
  fun w => (Returns (World.nextId w), World.set_nextId (S (World.nextId w)) w).

Definition console_error (msg : string) : M unit :=
  modify (fun w => World.set_console (World.console w ++ [msg]) w).

End Monad.

Import Monad.

Declare Scope monad_scope.
Delimit Scope monad_scope with monad.
Notation "x <- m ;; k" := (bind m (fun x => k))
  (at level 61, m at next level, right associativity) : monad_scope.
Notation "m ;;; k" := (bind m (fun _ => k))
  (at level 61, right associativity) : monad_scope.
Local Open Scope monad_scope.

(* ===================================================================== *)
(** * utils/jwt.js *)
(* ===================================================================== *)

Module Jwt.

(** The payload of a token, with the registered claims [jwt.sign] adds. *)
Record Claims : Type := {
  userId : option ObjectId;
  email : option string;
  role : option string;
  tokenId : option string;
  type : option string;
  iat : Z;
  exp : option Z;
  iss : option string;
  aud : option string
}.

(** Tokens are symbolic: a string that is no JWT, or claims signed with a
    key. A signature verifies under the key that made it and under no
    other. *)
Inductive Token : Type :=
| Malformed (raw : string)
| Signed (key : string) (claims : Claims).

Definition ISSUER := "certificate-rbac-system".
Definition AUDIENCE := "certificate-rbac-users".

Definition JWT_SECRET (env : World.Env) : string :=
  or_else (World.JWT_SECRET env) "cert-rbac-super-secret-change-in-production-2024".

Definition JWT_REFRESH_SECRET (env : World.Env) : string :=
  or_else (World.JWT_REFRESH_SECRET env) "cert-rbac-refresh-secret-change-2024".

(** ['15m'] and ['7d'], in seconds. *)
Definition JWT_EXPIRES_IN (env : World.Env) : Z :=
  match World.JWT_EXPIRES_IN env with Some s => s | None => 900%Z end.

Definition JWT_REFRESH_EXPIRES_IN (env : World.Env) : Z :=
  match World.JWT_REFRESH_EXPIRES_IN env with Some s => s | None => 604800%Z end.

Definition opt_eqb (a : option string) (b : string) : bool :=
  match a with Some s => s =? b | None => false end.

(** [jwt.verify(token, secret, { issuer, audience })] of jsonwebtoken: the
    signature, then [exp] against the clock in seconds, then the audience
    (when the option is given), then the issuer. *)
Definition verify (token : Token) (secret : string) (issuer : string)
    (audience : option string) (now : Z) : Outcome Claims :=
  match token with
  | Malformed _ => Throws (JsonWebTokenError "jwt malformed")
  | Signed key claims =>
      if negb (key =? secret) then Throws (JsonWebTokenError "invalid signature")
      else if match exp claims with Some e => (e <=? now / 1000)%Z | None => false end
      then Throws TokenExpiredError
      else if match audience with
              | Some a => negb (opt_eqb (aud claims) a)
              | None => false
              end
      then Throws (JsonWebTokenError
                     ("jwt audience invalid. expected: " ++ or_else audience ""))
      else if negb (opt_eqb (iss claims) issuer)
      then Throws (JsonWebTokenError ("jwt issuer invalid. expected: " ++ issuer))
      else Returns claims
  end.

(** The identity payload [generateTokenPair] builds from a user. *)
Record Payload : Type := {
  p_userId : ObjectId;
  p_email : option string;
  p_role : string
}.

Definition generateAccessToken (p : Payload) : M Token :=
  now <- Date_now ;;
  env <- getenv ;;
  let t := (now / 1000)%Z in
  ret (Signed (JWT_SECRET env)
         {| userId := Some (p_userId p); email := p_email p; role := Some (p_role p);
            tokenId := None; type := Some "access"; iat := t;
            exp := Some (t + JWT_EXPIRES_IN env)%Z;
            iss := Some ISSUER; aud := Some AUDIENCE |}).

Definition generateRefreshToken (p : Payload) : M Token :=
  bytes <- randomBytes 16 ;;
  now <- Date_now ;;
  env <- getenv ;;
  let t := (now / 1000)%Z in
  ret (Signed (JWT_REFRESH_SECRET env)
         {| userId := Some (p_userId p); email := p_email p; role := None;
            tokenId := Some (toString_hex bytes); type := Some "refresh"; iat := t;
            exp := Some (t + JWT_REFRESH_EXPIRES_IN env)%Z;
            iss := Some ISSUER; aud := None |}).

Definition verifyAccessToken (token : Token) : M Claims :=
  now <- Date_now ;;
  env <- getenv ;;
  lift (verify token (JWT_SECRET env) ISSUER (Some AUDIENCE) now).

Definition verifyRefreshToken (token : Token) : M Claims :=
  now <- Date_now ;;
  env <- getenv ;;
  lift (verify token (JWT_REFRESH_SECRET env) ISSUER None now).

Record TokenPair : Type := {
  accessToken : Token;
  refreshToken : Token;
  expiresIn : Z
}.

Definition generateTokenPair (user : UserDoc.t) : M TokenPair :=
  let payload := {| p_userId := UserDoc._id user; p_email := UserDoc.email user;
                    p_role := UserDoc.role user |} in
  a <- generateAccessToken payload ;;
  r <- generateRefreshToken payload ;;
  env <- getenv ;;
  ret {| accessToken := a; refreshToken := r; expiresIn := JWT_EXPIRES_IN env |}.

(** The [Authorization] header: [Bearer <token>], or anything else. *)
Inductive Header : Type :=
| Bearer (token : Token)
| Other (raw : string).

(** [if (!authHeader || !authHeader.startsWith('Bearer ')) return null;
    return authHeader.split(' ')[1];] *)
Definition extractTokenFromHeader (authHeader : option Header) : option Token :=
  match authHeader with
  | Some (Bearer token) => Some token
  | Some (Other _) => None
  | None => None
  end.

(** [!token] on what [extractTokenFromHeader] returned. *)
Definition no_token (token : option Token) : bool :=
  match token with
  | Some (Malformed raw) => raw =? ""
  | Some (Signed _ _) => false
  | None => true
  end.

(** [jwt.decode(token)]: the payload, unverified; [null] for a string that
    is no JWT. *)
Definition decodeToken (token : Token) : option Claims :=
  match token with
  | Signed _ claims => Some claims
  | Malformed _ => None
  end.

(** The header as the string it is. [Header] above is what this parse
    yields once the token is read as a JWT. *)
Module Text.

(** [if (!authHeader || !authHeader.startsWith('Bearer ')) return null;
    return authHeader.split(' ')[1];] *)
Definition extractTokenFromHeader (authHeader : option string) : option string :=
  match authHeader with
  | Some h =>
      if negb (truthy (Some h)) || negb (startsWith h "Bearer ") then None
      else nth_error (String_split " " h) 1
  | None => None
  end.

End Text.

End Jwt.

(* ===================================================================== *)
(** * models/User.js: statics and methods *)
(* ===================================================================== *)

Module User.

Import UserDoc.

Section WithLib.
Context {L : Lib}.

Definition has_id (id : ObjectId) (u : t) : bool := Nat.eqb (_id u) id.

Definition findById (id : ObjectId) : M (option t) :=
  us <- users ;; ret (find (has_id id) us).

Definition has_email (e : option string) (u : t) : bool :=
  match e, email u with
  | Some a, Some b => a =? b
  | _, _ => false
  end.

(** [User.findOne({ email })] *)
(** A query casts the email it is given as the schema casts the one it
    stores, through the [lowercase] and [trim] setters. *)
Definition cast_email (e : option string) : option string :=
  option_map (fun s => trim (toLowerCase s)) e.

Definition findOne_email (e : option string) : M (option t) :=
  us <- users ;; ret (find (has_email (cast_email e)) us).

(** [this.findOne({ email }).select('+password')] *)
Definition findByEmailWithPassword (e : option string) : M (option t) :=
  findOne_email e.

Fixpoint replace (u : t) (us : list t) : list t :=
  match us with
  | x :: rest => if has_id (_id u) x then u :: rest else x :: replace u rest
  | [] => []
  end.

(** The unique indexes: [email], and [nationalId] where present (sparse). *)
Definition duplicate (u : t) (x : t) : bool :=
  has_email (email u) x ||
  match nationalId u, nationalId x with
  | Some a, Some b => a =? b
  | _, _ => false
  end.

(** The fields of [User.create({...})]. *)
Record Fields : Type := {
  f_fullName : option string;
  f_email : option string;
  f_password : option string;
  f_role : option string;
  f_isActive : option bool;
  f_organization : option string;
  f_department : option string;
  f_nationalId : option string;
  f_phoneNumber : option string;
  f_createdBy : option ObjectId
}.

(** [new User(fields)]: setters and defaults applied. *)
Definition construct (id : ObjectId) (f : Fields) : t :=
  {| _id := id;
     fullName := option_map trim (f_fullName f);
     email := option_map (fun s => trim (toLowerCase s)) (f_email f);
     password := f_password f;
     role := match f_role f with Some r => r | None => Rbac.HOLDER end;
     isActive := match f_isActive f with Some b => b | None => true end;
     lastLogin := None;
     loginAttempts := 0%Z;
     lockUntil := None;
     organization := option_map trim (f_organization f);
     department := option_map trim (f_department f);
     nationalId := option_map trim (f_nationalId f);
     phoneNumber := option_map trim (f_phoneNumber f);
     createdBy := f_createdBy f |}.

(** [User.create(fields)]: validation, the pre-save hook (the password is
    new, so it is hashed with a fresh salt), then the insert. *)
Definition create (f : Fields) : M t :=
  id <- newObjectId ;;
  let u := construct id f in
  match first_failure (checks_new u) with
  | Some path => throw (ValidationError path)
  | None =>
      salt <- randomBytes 16 ;;
      let u' := set_password (Some (bcrypt_hash (template (password u)) salt)) u in
      us <- users ;;
      if existsb (duplicate u') us
      then throw (MongoServerError 11000)
      else update_users (fun us => us ++ [u']) ;;; ret u'
  end.

(** [user.save()] on a loaded document whose password was not touched: the
    pre-save hook returns at once. *)
Definition save (u : t) : M t :=
  match first_failure (checks_loaded u) with
  | Some path => throw (ValidationError path)
  | None =>
      us <- users ;;
      match find (has_id (_id u)) us with
      | None => throw DocumentNotFoundError
      | Some _ => update_users (replace u) ;;; ret u
      end
  end.

(** [this.updateOne(update)]: the update is applied to the stored document,
    without validation. *)
Definition updateOne (id : ObjectId) (update : t -> t) : M unit :=
  update_users (map (fun x => if has_id id x then update x else x)).

(** [userSchema.methods.comparePassword]:
    [bcrypt.compare(candidatePassword, this.password)], which rejects a
    hash that is not a string. *)
Definition comparePassword (candidatePassword : string) (u : t) : M bool :=
  modify (fun w => World.set_passwordChecks (S (World.passwordChecks w)) w) ;;;
  match password u with
  | Some hash => ret (bcrypt_compare candidatePassword hash)
  | None => throw (Error "Illegal arguments: string, undefined")
  end.

Definition MAX_ATTEMPTS : Z := 5.
Definition LOCK_TIME : Z := 2 * 60 * 60 * 1000.

(** [userSchema.methods.incLoginAttempts] *)
Definition incLoginAttempts (u : t) : M unit :=
  now <- Date_now ;;
  if match lockUntil u with Some l => (l <? now)%Z | None => false end
  then updateOne (_id u) (fun d => set_loginAttempts 1%Z (set_lockUntil None d))
  else
    if (MAX_ATTEMPTS <=? loginAttempts u + 1)%Z && negb (isLocked now u)
    then updateOne (_id u)
           (fun d => set_lockUntil (Some (now + LOCK_TIME)%Z)
                       (set_loginAttempts (loginAttempts d + 1)%Z d))
    else updateOne (_id u) (fun d => set_loginAttempts (loginAttempts d + 1)%Z d).

(** [userSchema.methods.resetLoginAttempts] *)
Definition resetLoginAttempts (u : t) : M unit :=
  now <- Date_now ;;
  updateOne (_id u)
    (fun d => set_lastLogin (Some now) (set_loginAttempts 0%Z (set_lockUntil None d))).

(** [User.findByIdAndDelete(id)]: the first document with the id is
    removed from the collection and returned. *)
Fixpoint remove (id : ObjectId) (us : list t) : list t :=
  match us with
  | x :: rest => if has_id id x then rest else x :: remove id rest
  | [] => []
  end.

Definition findByIdAndDelete (id : ObjectId) : M (option t) :=
  us <- users ;;
  match find (has_id id) us with
  | Some u => update_users (remove id) ;;; ret (Some u)
  | None => ret None
  end.

(** A query by [_id] with a string, as a route parameter is: the query
    casts the string, and raises a [CastError] when it is no id. *)
Definition castObjectId (id : string) : M ObjectId :=
  match ObjectId_cast id with
  | Some i => ret i
  | None => throw (CastError id "_id" "User")
  end.

Definition findById_string (id : string) : M (option t) :=
  i <- castObjectId id ;; findById i.

Definition findByIdAndDelete_string (id : string) : M (option t) :=
  i <- castObjectId id ;; findByIdAndDelete i.

(** The cast of a [Boolean] path: [true], ['true'], [1], ['1'] and ['yes']
    are true, [false], ['false'], [0], ['0'] and ['no'] are false, and
    anything else is a cast error, which the next validation reports. *)
Definition castBoolean (v : Value) : option bool :=
  match v with
  | VBool b => Some b
  | VNum n =>
      if (n =? 1)%Z then Some true
      else if (n =? 0)%Z then Some false
      else None
  | VStr s =>
      if includes s ["true"; "1"; "yes"] then Some true
      else if includes s ["false"; "0"; "no"] then Some false
      else None
  end.

(** [user.isActive = v; await user.save()] on a loaded document. *)
Definition save_isActive (v : Value) (u : t) : M t :=
  match castBoolean v with
  | Some b => save (set_isActive b u)
  | None => throw (ValidationError "isActive")
  end.

(** A document as a query returns it: [password] is [select: false]. *)
Definition selected (u : t) : t := set_password None u.

End WithLib.

End User.

(* ===================================================================== *)
(** * models/Certificate.js: hooks, methods and statics *)
(* ===================================================================== *)

Module Certificate.

Import CertificateDoc.

Section WithLib.
Context {L : Lib}.

Definition has_id (id : ObjectId) (c : t) : bool := Nat.eqb (_id c) id.

Definition findById (id : ObjectId) : M (option t) :=
  cs <- certificates ;; ret (find (has_id id) cs).

Definition has_token (token : string) (c : t) : bool :=
  match verificationToken c with
  | Some s => s =? token
  | None => false
  end.

(** [Certificate.findOne({ verificationToken: token })] *)
Definition findOne_verificationToken (token : string) : M (option t) :=
  cs <- certificates ;; ret (find (has_token token) cs).

(** ** [certificateSchema.pre('save', ...)] *)

Definition generate_certificateId (c : t) : M t :=
  if negb (truthy (certificateId c))
  then
    now <- Date_now ;;
    bytes <- randomBytes 4 ;;
    ret (set_certificateId
           (Some ("CERT-" ++ getFullYear now ++ "-" ++ toUpperCase (toString_hex bytes))%string) c)
  else ret c.

Definition generate_serialNumber (c : t) : M t :=
  if negb (truthy (serialNumber c))
  then
    bytes <- randomBytes 8 ;;
    ret (set_serialNumber (Some (toUpperCase (toString_hex bytes))) c)
  else ret c.

Definition generate_verificationToken (c : t) : M t :=
  if negb (truthy (verificationToken c))
  then
    bytes <- randomBytes 32 ;;
    ret (set_verificationToken (Some (toString_hex bytes)) c)
  else ret c.

Definition compute_checksum (c : t) : string :=
  sha256_hex (JSON_stringify (checksumData c)).

(** The hook, on a document whose [holder] path holds [h]. *)
Definition pre_save_of (h : option Reference) (c : t) : M t :=
  c1 <- generate_certificateId c ;;
  c2 <- generate_serialNumber c1 ;;
  c3 <- generate_verificationToken c2 ;;
  env <- getenv ;;
  let baseUrl := or_else (World.APP_BASE_URL env) "http://localhost:3000" in
  let c4 := set_verificationUrl
              (Some (baseUrl ++ "/verify/" ++ template (verificationToken c3))%string) c3 in
  ret (set_checksum (Some (sha256_hex (JSON_stringify (checksumData_of h c4)))) c4).

(** On a document that was constructed, or loaded without [populate]. *)
Definition pre_save (c : t) : M t :=
  pre_save_of (option_map Unpopulated (holder c)) c.

(** ** [document.save()]

    Validation runs first, then the pre-save hook, then the write. The
    whole document is validated: on a document that was valid when it was
    loaded this is the check Mongoose makes of the modified paths. The
    unique indexes on [certificateId] and [serialNumber] are checked by the
    store. *)
Definition opt_same (a b : option string) : bool :=
  match a, b with
  | Some x, Some y => x =? y
  | None, None => true
  | _, _ => false
  end.

Definition duplicate (c x : t) : bool :=
  negb (has_id (_id c) x) &&
  (opt_same (certificateId c) (certificateId x) ||
   opt_same (serialNumber c) (serialNumber x)).

Fixpoint replace (c : t) (cs : list t) : list t :=
  match cs with
  | x :: rest => if has_id (_id c) x then c :: rest else x :: replace c rest
  | [] => []
  end.

Definition write (isNew : bool) (c : t) : M unit :=
  cs <- certificates ;;
  if existsb (duplicate c) cs
  then throw (MongoServerError 11000)
  else
    match find (has_id (_id c)) cs with
    | Some _ =>
        if isNew then throw (MongoServerError 11000)
        else update_certificates (replace c)
    | None =>
        if isNew
        then update_certificates (fun cs => cs ++ [c])
        else throw DocumentNotFoundError
    end.

Definition save (isNew : bool) (c : t) : M t :=
  match first_failure (checks c) with
  | Some path => throw (ValidationError path)
  | None =>
      c' <- pre_save c ;;
      write isNew c' ;;;
      ret c'
  end.

(** [.populate(path, 'fullName email organization')], or without the
    organization: [null] when the reference is missing or names no user. *)
Definition populate (withOrganization : bool) (ref : option ObjectId)
    (us : list UserDoc.t) : option Party :=
  match ref with
  | Some id =>
      match find (User.has_id id) us with
      | Some u =>
          Some {| party_id := UserDoc._id u;
                  party_fullName := UserDoc.fullName u;
                  party_email := UserDoc.email u;
                  party_organization :=
                    if withOrganization then UserDoc.organization u else None |}
      | None => None
      end
  | None => None
  end.

(** [document.save()] on a document that was loaded with [holder] and
    [issuedBy] populated. The validators and the hook see the populated
    paths; the references themselves were not modified, so they are
    written back as stored. *)
Definition save_populated (h i : option Party) (c : t) : M t :=
  match first_failure (checks (with_parties h i c)) with
  | Some path => throw (ValidationError path)
  | None =>
      c' <- pre_save_of (option_map PopulatedWith h) c ;;
      write false c' ;;;
      ret c'
  end.

(** ** [certificateSchema.methods.signCertificate] *)
Definition payload (c : t) : string :=
  (template (certificateId c) ++ "|" ++ template (serialNumber c) ++ "|" ++
   template (checksum c))%string.

Definition signCertificate (secretKey : string) (c : t) : string * t :=
  let signature := hmac_sha256_hex secretKey (payload c) in
  (signature, set_digitalSignature (Some signature) c).

(** ** [certificateSchema.methods.verifySignature] *)
Definition verifySignature (secretKey : string) (c : t) : Outcome bool :=
  match digitalSignature c with
  | Some signature =>
      if signature =? "" then Returns false
      else
        let expected := hmac_sha256_hex secretKey (payload c) in
        timingSafeEqual (Buffer_from_hex signature) (Buffer_from_hex expected)
  | None => Returns false
  end.

(** ** [certificateSchema.statics.autoExpireCertificates] *)
Definition autoExpireCertificates : M unit :=
  now <- Date_now ;;
  update_certificates
    (map (fun c => if (status c =? ACTIVE) && isExpired now c
                   then set_status EXPIRED c else c)).

(** The fields of [new Certificate({...})] that [createCertificate]
    passes. *)
Record Fields : Type := {
  f_title : option string;
  f_description : option string;
  f_type : option string;
  f_holder : option ObjectId;
  f_holderName : option string;
  f_holderNationalId : option string;
  f_issuedBy : option ObjectId;
  f_issuerName : option string;
  f_issuingOrganization : option string;
  f_issuingDepartment : option string;
  f_expiresAt : option Z;
  f_score : option Z;
  f_credits : option Z;
  f_status : option string
}.

(** [new Certificate(fields)]: a fresh [_id], the [trim] setters and the
    schema defaults ([status: 'draft'], [issuedAt: Date.now],
    [signatureAlgorithm]). *)
Definition construct (f : Fields) : M t :=
  id <- newObjectId ;;
  now <- Date_now ;;
  ret {| _id := id; certificateId := None; serialNumber := None;
         title := option_map trim (f_title f);
         description := option_map trim (f_description f);
         type := f_type f;
         status := match f_status f with Some s => s | None => DRAFT end;
         holder := f_holder f; holderName := f_holderName f;
         holderNationalId := f_holderNationalId f;
         issuedBy := f_issuedBy f; issuerName := f_issuerName f;
         issuingOrganization := option_map trim (f_issuingOrganization f);
         issuingDepartment := option_map trim (f_issuingDepartment f);
         issuedAt := now; expiresAt := f_expiresAt f;
         revokedAt := None; revokedBy := None; revocationReason := None;
         digitalSignature := None; signatureAlgorithm := "SHA-256-HMAC";
         checksum := None; qrCode := None; verificationUrl := None;
         verificationToken := None;
         score := f_score f; credits := f_credits f;
         verificationHistory := [] |}.

(** A document as a query returns it unless it asks for more:
    [digitalSignature] is [select: false]. *)
Definition selected (c : t) : t := set_digitalSignature None c.

End WithLib.

End Certificate.

(* ===================================================================== *)
(** * models/AuditLog.js: [auditSchema.statics.log] *)
(* ===================================================================== *)

Module AuditLog.

Import AuditEntry.

(** [err.message] *)
Definition message (e : Exn) : string :=
  match e with
  | TypeError m => m
  | RangeError m => m
  | ValidationError path => ("AuditLog validation failed: " ++ path)%string
  | MongoServerError _ => "write failed"
  | DocumentNotFoundError => "No document found"
  | CastError value path model =>
      ("Cast to ObjectId failed for value " ++ quote ++ value ++ quote ++
       " (type string) at path " ++ quote ++ path ++ quote ++
       " for model " ++ quote ++ model ++ quote)%string
  | JsonWebTokenError m => m
  | TokenExpiredError => "jwt expired"
  | Error m => m
  end.

Definition entry_of (data : Data) (now : Z) : t :=
  {| action := d_action data;
     severity := or_else (d_severity data) INFO;
     performedBy := d_userId data;
     performedByEmail := d_userEmail data;
     performedByRole := d_userRole data;
     targetResource := d_resource data;
     targetId := d_resourceId data;
     targetName := d_resourceName data;
     ipAddress := d_ipAddress data;
     userAgent := d_userAgent data;
     requestMethod := d_method data;
     requestPath := d_path data;
     success := match d_success data with Some b => b | None => true end;
     errorMessage := d_errorMessage data;
     statusCode := d_statusCode data;
     details := match d_details data with Some d => d | None => [] end;
     changes := d_changes data;
     timestamp := now |}.

(** [entry.save()]: validation, then the write, which the store rejects
    when it is down. *)
Definition save (e : t) : M t :=
  match first_failure (checks e) with
  | Some path => throw (ValidationError path)
  | None =>
      up <- gets World.auditStoreUp ;;
      if (up : bool)
      then modify (fun w => World.set_auditLogs (World.auditLogs w ++ [e]) w) ;;; ret e
      else throw (MongoServerError 0)
  end.

(** [try { const entry = new this({...}); await entry.save(); return entry; }
     catch (err) { console.error('Audit log failed:', err.message); }] *)
Definition log (data : Data) : M (option t) :=
  try_catch
    (now <- Date_now ;;
     e <- save (entry_of data now) ;;
     ret (Some e))
    (fun err => console_error ("Audit log failed: " ++ message err)%string ;;; ret None).

(** An event with only an action: the other fields are filled by record
    update at the call sites. *)
Definition event (action : string) : Data :=
  {| d_action := Some action; d_severity := None; d_userId := None;
     d_userEmail := None; d_userRole := None; d_resource := None;
     d_resourceId := None; d_resourceName := None; d_ipAddress := None;
     d_userAgent := None; d_method := None; d_path := None; d_success := None;
     d_errorMessage := None; d_statusCode := None; d_details := None;
     d_changes := None |}.

End AuditLog.

(* ===================================================================== *)
(** * Requests and responses *)
(* ===================================================================== *)

Module Http.

(** What the handlers read of an Express request, apart from the body and
    the route parameters, which each handler takes as arguments. *)
Record Req : Type := {
  ip : option string;
  remoteAddress : option string;
  user_agent : option string;
  authorization : option Jwt.Header;
  method : string;
  originalUrl : string;
  user : option UserDoc.t
}.

(** The redacted certificate summary of the public verification. *)
Record VerifySummary : Type := {
  v_certificateId : option string;
  v_serialNumber : option string;
  v_title : option string;
  v_type : option string;
  v_status : string;
  v_holderName : option string;
  v_issuingOrganization : option string;
  v_issuedAt : Z;
  v_expiresAt : option Z;
  v_revokedAt : option Z;
  v_revocationReason : option string;
  v_isValid : bool;
  v_verifiedAt : Z
}.

Record UserSummary : Type := {
  s_id : ObjectId;
  s_fullName : option string;
  s_email : option string;
  s_role : string;
  s_organization : option string;
  s_lastLogin : option Z
}.

Record RoleChange : Type := {
  r_userId : ObjectId;
  r_email : option string;
  r_previousRole : string;
  r_newRole : string
}.

Inductive Data : Type :=
| NoData
| WithCertificate (certificate : CertificateDoc.t)
| WithVerification (summary : VerifySummary)
| WithUser (u : UserSummary)
| WithLogin (u : UserSummary) (tokens : Jwt.TokenPair)
| WithTokens (tokens : Jwt.TokenPair)
| WithRoleChange (change : RoleChange).

(** [res.status(n).json({ success, result, message, error, code, lockUntil,
    data })] *)
Record Response : Type := {
  status : Z;
  success : bool;
  result : option string;
  message : option string;
  error : option string;
  code : option string;
  lockUntil : option Z;
  data : Data
}.

Definition failure (status : Z) (error : string) (code : option string) : Response :=
  {| status := status; success := false; result := None; message := None;
     error := Some error; code := code; lockUntil := None; data := NoData |}.

Definition ok (status : Z) (message : option string) (data : Data) : Response :=
  {| status := status; success := true; result := None; message := message;
     error := None; code := None; lockUntil := None; data := data |}.

(** [getRequestMeta(req)], merged into an audit event. *)
Definition with_meta (req : Req) (d : AuditEntry.Data) : AuditEntry.Data :=
  {| AuditEntry.d_action := AuditEntry.d_action d;
     AuditEntry.d_severity := AuditEntry.d_severity d;
     AuditEntry.d_userId := AuditEntry.d_userId d;
     AuditEntry.d_userEmail := AuditEntry.d_userEmail d;
     AuditEntry.d_userRole := AuditEntry.d_userRole d;
     AuditEntry.d_resource := AuditEntry.d_resource d;
     AuditEntry.d_resourceId := AuditEntry.d_resourceId d;
     AuditEntry.d_resourceName := AuditEntry.d_resourceName d;
     AuditEntry.d_ipAddress := or_opt (ip req) (remoteAddress req);
     AuditEntry.d_userAgent := user_agent req;
     AuditEntry.d_method := Some (method req);
     AuditEntry.d_path := Some (originalUrl req);
     AuditEntry.d_success := AuditEntry.d_success d;
     AuditEntry.d_errorMessage := AuditEntry.d_errorMessage d;
     AuditEntry.d_statusCode := AuditEntry.d_statusCode d;
     AuditEntry.d_details := AuditEntry.d_details d;
     AuditEntry.d_changes := AuditEntry.d_changes d |}.

(** The other fields of an audit event, set in one go. *)
Definition audit (req : Req) (action : string) (severity : option string)
    (actor : option UserDoc.t) (with_role : bool)
    (resource : option string) (resourceId : option ObjectId)
    (resourceName : option string) (success : option bool)
    (statusCode : option Z) (details : option (list (string * string)))
    (changes : option (list (string * string) * list (string * string)))
    : AuditEntry.Data :=
  with_meta req
    {| AuditEntry.d_action := Some action;
       AuditEntry.d_severity := severity;
       AuditEntry.d_userId := option_map UserDoc._id actor;
       AuditEntry.d_userEmail :=
         match actor with Some u => UserDoc.email u | None => None end;
       AuditEntry.d_userRole :=
         if with_role then option_map UserDoc.role actor else None;
       AuditEntry.d_resource := resource;
       AuditEntry.d_resourceId := resourceId;
       AuditEntry.d_resourceName := resourceName;
       AuditEntry.d_ipAddress := None;
       AuditEntry.d_userAgent := None;
       AuditEntry.d_method := None;
       AuditEntry.d_path := None;
       AuditEntry.d_success := success;
       AuditEntry.d_errorMessage := None;
       AuditEntry.d_statusCode := statusCode;
       AuditEntry.d_details := details;
       AuditEntry.d_changes := changes |}.

(** [req.user] where the handler dereferences it: a [TypeError] when no
    middleware set it. *)
Definition req_user (req : Req) : M UserDoc.t :=
  match user req with
  | Some u => ret u
  | None => throw (TypeError "Cannot read properties of undefined")
  end.

(** [req.user = user], as [authenticate] leaves the request for the
    middleware and the handler that follow. *)
Definition set_user (u : option UserDoc.t) (req : Req) : Req :=
  {| ip := ip req; remoteAddress := remoteAddress req; user_agent := user_agent req;
     authorization := authorization req; method := method req;
     originalUrl := originalUrl req; user := u |}.

(** A response whose [data] has a shape of its own:
    [res.status(n).json({ success, message, error, code, data })]. *)
Record Answer (D : Type) : Type := {
  a_status : Z;
  a_success : bool;
  a_message : option string;
  a_error : option string;
  a_code : option string;
  a_data : option D
}.
Arguments a_status {D} _.
Arguments a_success {D} _.
Arguments a_message {D} _.
Arguments a_error {D} _.
Arguments a_code {D} _.
Arguments a_data {D} _.

Definition refused {D} (status : Z) (error : string) (code : option string) : Answer D :=
  {| a_status := status; a_success := false; a_message := None; a_error := Some error;
     a_code := code; a_data := None |}.

Definition answered {D} (status : Z) (message : option string) (data : D) : Answer D :=
  {| a_status := status; a_success := true; a_message := message; a_error := None;
     a_code := None; a_data := Some data |}.

End Http.

(* ===================================================================== *)
(** * middleware/auth.js *)
(* ===================================================================== *)

Module Auth.

Import Http.

(** What a middleware does: it answers, or it calls [next()] with the
    request it has extended. *)
Inductive Step (A : Type) : Type :=
| Respond (r : Response)
| Next (a : A).
Arguments Respond {A} r.
Arguments Next {A} a.

Definition is_expired_error (e : Exn) : bool :=
  match e with TokenExpiredError => true | _ => false end.

(** [authenticate]: [next()] runs with [req.user] and [req.token] set. *)
Definition authenticate (req : Req) : M (Step (UserDoc.t * Jwt.Claims)) :=
  try_catch
    (let token := Jwt.extractTokenFromHeader (authorization req) in
     match token with
     | Some tok =>
         if Jwt.no_token token
         then
           AuditLog.log (audit req AuditEntry.SECURITY_UNAUTHORIZED
                           (Some AuditEntry.WARNING) None false None None None
                           (Some false) (Some 401%Z)
                           (Some [("reason", "No token provided")]) None) ;;;
           ret (Respond (failure 401
                           "Authentication required. Please provide a valid token."
                           (Some "AUTH_REQUIRED")))
         else
           r <- try_catch (decoded <- Jwt.verifyAccessToken tok ;; ret (inr decoded))
                          (fun err => ret (inl err)) ;;
           match r with
           | inl err =>
               let isExpired := is_expired_error err in
               AuditLog.log (audit req AuditEntry.SECURITY_UNAUTHORIZED
                               (Some AuditEntry.WARNING) None false None None None
                               (Some false) (Some 401%Z)
                               (Some [("reason",
                                       if isExpired then "Token expired" else "Invalid token");
                                      ("error", AuditLog.message err)]) None) ;;;
               ret (Respond (failure 401
                               (if isExpired
                                then "Token expired. Please refresh your session."
                                else "Invalid token.")
                               (Some (if isExpired then "TOKEN_EXPIRED" else "TOKEN_INVALID"))))
           | inr decoded =>
               if negb (Jwt.opt_eqb (Jwt.type decoded) "access")
               then ret (Respond (failure 401 "Invalid token type."
                                    (Some "TOKEN_TYPE_INVALID")))
               else
                 u <- match Jwt.userId decoded with
                      | Some id => User.findById id
                      | None => ret None
                      end ;;
                 match u with
                 | None => ret (Respond (failure 401 "User not found."
                                           (Some "USER_NOT_FOUND")))
                 | Some user =>
                     if negb (UserDoc.isActive user)
                     then
                       AuditLog.log (audit req AuditEntry.SECURITY_UNAUTHORIZED
                                       (Some AuditEntry.WARNING) (Some user) true
                                       None None None (Some false) (Some 401%Z)
                                       (Some [("reason", "Account deactivated")]) None) ;;;
                       ret (Respond (failure 401
                                       "Account is deactivated. Contact administrator."
                                       (Some "ACCOUNT_INACTIVE")))
                     else ret (Next (user, decoded))
                 end
           end
     | None =>
         AuditLog.log (audit req AuditEntry.SECURITY_UNAUTHORIZED
                         (Some AuditEntry.WARNING) None false None None None
                         (Some false) (Some 401%Z)
                         (Some [("reason", "No token provided")]) None) ;;;
         ret (Respond (failure 401
                         "Authentication required. Please provide a valid token."
                         (Some "AUTH_REQUIRED")))
     end)
    (fun _ => ret (Respond (failure 500 "Authentication service error."
                              (Some "AUTH_SERVICE_ERROR")))).

(** [authorize(permission)] *)
Definition authorize (permission : string) (req : Req) : M (Step unit) :=
  try_catch
    (match user req with
     | None => ret (Respond (failure 401 "Authentication required." (Some "AUTH_REQUIRED")))
     | Some u =>
         allowed <- lift (Rbac.hasPermission (UserDoc.role u) permission) ;;
         if negb allowed
         then
           AuditLog.log (audit req AuditEntry.SECURITY_FORBIDDEN
                           (Some AuditEntry.WARNING) (Some u) true None None None
                           (Some false) (Some 403%Z)
                           (Some [("requiredPermission", permission);
                                  ("userRole", UserDoc.role u)]) None) ;;;
           ret (Respond (failure 403
                           ("Access denied. Required permission: " ++ permission)%string
                           (Some "PERMISSION_DENIED")))
         else ret (Next tt)
     end)
    (fun _ => ret (Respond (failure 500 "Authorization service error."
                              (Some "AUTHZ_SERVICE_ERROR")))).

(** [authorizeAny(permissions)] *)
Definition authorizeAny (permissions : list string) (req : Req) : M (Step unit) :=
  try_catch
    (match user req with
     | None => ret (Respond (failure 401 "Authentication required." (Some "AUTH_REQUIRED")))
     | Some u =>
         allowed <- lift (Rbac.hasAnyPermission (UserDoc.role u) permissions) ;;
         if negb allowed
         then
           AuditLog.log (audit req AuditEntry.SECURITY_FORBIDDEN
                           (Some AuditEntry.WARNING) (Some u) true None None None
                           (Some false) (Some 403%Z)
                           (Some [("requiredPermissions", join permissions);
                                  ("userRole", UserDoc.role u)]) None) ;;;
           ret (Respond (failure 403 "Access denied. Insufficient permissions."
                           (Some "PERMISSION_DENIED")))
         else ret (Next tt)
     end)
    (fun _ => ret (Respond (failure 500 "Authorization service error." None))).

(** [roles.flat()] on the rest parameter of [authorizeRole(...roles)],
    whose elements are roles or arrays of roles. *)
Definition flat (roles : list (string + list string)) : list string :=
  flat_map (fun r => match r with inl role => [role] | inr more => more end) roles.

(** [authorizeRole(...roles)] *)
Definition authorizeRole (roles : list (string + list string)) (req : Req)
    : M (Step unit) :=
  try_catch
    (match user req with
     | None => ret (Respond (failure 401 "Authentication required." (Some "AUTH_REQUIRED")))
     | Some u =>
         let flatRoles := flat roles in
         if negb (includes (UserDoc.role u) flatRoles)
         then
           AuditLog.log (audit req AuditEntry.SECURITY_FORBIDDEN
                           (Some AuditEntry.WARNING) (Some u) true None None None
                           (Some false) (Some 403%Z)
                           (Some [("allowedRoles", join flatRoles);
                                  ("userRole", UserDoc.role u)]) None) ;;;
           ret (Respond (failure 403 "Access denied. Insufficient role."
                           (Some "ROLE_DENIED")))
         else ret (Next tt)
     end)
    (fun _ => ret (Respond (failure 500 "Authorization service error." None))).

(** [authorizeOwnerOrAdmin(adminPermission = PERMISSIONS.USER_READ)]. The
    route parameters [userId] and [id] are absent or name an [ObjectId]:
    [req.user._id.toString() === targetId] then compares two ids. *)
Definition authorizeOwnerOrAdmin (adminPermission : option string)
    (params_userId params_id : option ObjectId) (req : Req) : M (Step unit) :=
  let adminPermission :=
    match adminPermission with Some p => p | None => Rbac.USER_READ end in
  try_catch
    (match user req with
     | None => ret (Respond (failure 401 "Authentication required." (Some "AUTH_REQUIRED")))
     | Some u =>
         let targetId :=
           match params_userId with Some i => Some i | None => params_id end in
         let isOwner :=
           match targetId with Some t => Nat.eqb (UserDoc._id u) t | None => false end in
         isAdmin <- lift (Rbac.hasPermission (UserDoc.role u) adminPermission) ;;
         if negb isOwner && negb isAdmin
         then
           AuditLog.log (audit req AuditEntry.SECURITY_FORBIDDEN
                           (Some AuditEntry.WARNING) (Some u) true None None None
                           (Some false) (Some 403%Z)
                           (Some (("reason", "Not owner and no admin permission") ::
                                  match targetId with
                                  | Some t => [("targetId", ObjectId_toString t)]
                                  | None => []
                                  end)) None) ;;;
           ret (Respond (failure 403
                           "Access denied. You can only access your own resources."
                           (Some "OWNERSHIP_REQUIRED")))
         else ret (Next tt)
     end)
    (fun _ => ret (Respond (failure 500 "Authorization service error." None))).

End Auth.

(* ===================================================================== *)
(** * controllers/authController.js *)
(* ===================================================================== *)

Module AuthController.

Import Http.

Section WithLib.
Context {L : Lib}.

Definition summary (u : UserDoc.t) : UserSummary :=
  {| s_id := UserDoc._id u; s_fullName := UserDoc.fullName u;
     s_email := UserDoc.email u; s_role := UserDoc.role u;
     s_organization := UserDoc.organization u; s_lastLogin := UserDoc.lastLogin u |}.

Definition show_lock (l : option Z) : string :=
  match l with Some _ => "date" | None => "undefined" end.

(** [POST /api/auth/login] *)
Definition login (req : Req) (email : option string) (password : string) : M Response :=
  try_catch
    (found <- User.findByEmailWithPassword email ;;
     match found with
     | None =>
         AuditLog.log (audit req AuditEntry.AUTH_LOGIN_FAILED (Some AuditEntry.WARNING)
                         None false None None None (Some false) None
                         (Some [("email", template email); ("reason", "User not found")])
                         None) ;;;
         ret (failure 401 "Invalid email or password." (Some "INVALID_CREDENTIALS"))
     | Some user =>
         now <- Date_now ;;
         if UserDoc.isLocked now user
         then
           AuditLog.log (audit req AuditEntry.AUTH_ACCOUNT_LOCKED (Some AuditEntry.CRITICAL)
                           (Some user) false None None None (Some false) None
                           (Some [("lockUntil", show_lock (UserDoc.lockUntil user))])
                           None) ;;;
           ret {| status := 423; success := false; result := None; message := None;
                  error := Some "Account locked due to multiple failed login attempts. Try again in 2 hours.";
                  code := Some "ACCOUNT_LOCKED";
                  lockUntil := UserDoc.lockUntil user; data := NoData |}
         else if negb (UserDoc.isActive user)
         then ret (failure 401 "Account deactivated. Contact administrator."
                     (Some "ACCOUNT_INACTIVE"))
         else
           isPasswordValid <- User.comparePassword password user ;;
           if negb isPasswordValid
           then
             User.incLoginAttempts user ;;;
             AuditLog.log (audit req AuditEntry.AUTH_LOGIN_FAILED (Some AuditEntry.WARNING)
                             (Some user) false None None None (Some false) None
                             (Some [("reason", "Wrong password")]) None) ;;;
             ret (failure 401 "Invalid email or password." (Some "INVALID_CREDENTIALS"))
           else
             User.resetLoginAttempts user ;;;
             tokens <- Jwt.generateTokenPair user ;;
             AuditLog.log (audit req AuditEntry.AUTH_LOGIN None (Some user) true
                             (Some "user") (Some (UserDoc._id user)) None None None
                             (Some [("role", UserDoc.role user)]) None) ;;;
             ret (ok 200 (Some "Login successful.") (WithLogin (summary user) tokens))
     end)
    (fun _ => ret (failure 500 "Login failed. Please try again." (Some "LOGIN_FAILED"))).

(** [POST /api/auth/refresh] *)
Definition refreshToken (req : Req) (token : option Jwt.Token) : M Response :=
  try_catch
    (match token with
     | Some tok =>
         if Jwt.no_token token
         then ret (failure 401 "Refresh token required." (Some "REFRESH_TOKEN_REQUIRED"))
         else
           r <- try_catch (decoded <- Jwt.verifyRefreshToken tok ;; ret (Some decoded))
                          (fun _ => ret None) ;;
           match r with
           | None => ret (failure 401 "Invalid or expired refresh token."
                            (Some "REFRESH_TOKEN_INVALID"))
           | Some decoded =>
               u <- match Jwt.userId decoded with
                    | Some id => User.findById id
                    | None => ret None
                    end ;;
               match u with
               | Some user =>
                   if negb (UserDoc.isActive user)
                   then ret (failure 401 "User not found or inactive." (Some "USER_INACTIVE"))
                   else
                     tokens <- Jwt.generateTokenPair user ;;
                     AuditLog.log (audit req AuditEntry.AUTH_TOKEN_REFRESH None (Some user)
                                     true None None None None None None None) ;;;
                     ret (ok 200 (Some "Token refreshed.") (WithTokens tokens))
               | None => ret (failure 401 "User not found or inactive." (Some "USER_INACTIVE"))
               end
           end
     | None => ret (failure 401 "Refresh token required." (Some "REFRESH_TOKEN_REQUIRED"))
     end)
    (fun _ => ret (failure 500 "Token refresh failed." None)).

(** The body of [POST /api/auth/register]. *)
Record RegisterBody : Type := {
  rb_fullName : option string;
  rb_email : option string;
  rb_password : option string;
  rb_organization : option string;
  rb_department : option string;
  rb_nationalId : option string;
  rb_phoneNumber : option string
}.

(** The argument of [User.create({...})] in [register]: the role is
    [ROLES.HOLDER], and [createdBy] is [req.user?._id]. *)
Definition registration (req : Req) (body : RegisterBody) : User.Fields :=
  {| User.f_fullName := rb_fullName body;
     User.f_email := rb_email body;
     User.f_password := rb_password body;
     User.f_role := Some Rbac.HOLDER;
     User.f_isActive := None;
     User.f_organization := rb_organization body;
     User.f_department := rb_department body;
     User.f_nationalId := rb_nationalId body;
     User.f_phoneNumber := rb_phoneNumber body;
     User.f_createdBy := option_map UserDoc._id (user req) |}.

(** [POST /api/auth/register] *)
Definition register (req : Req) (body : RegisterBody) : M Response :=
  try_catch
    (existingUser <- User.findOne_email (rb_email body) ;;
     match existingUser with
     | Some _ => ret (failure 409 "Email already registered." (Some "EMAIL_TAKEN"))
     | None =>
         user <- User.create (registration req body) ;;
         tokens <- Jwt.generateTokenPair user ;;
         AuditLog.log (audit req AuditEntry.AUTH_REGISTER None (Some user) true
                         (Some "user") (Some (UserDoc._id user)) (UserDoc.fullName user)
                         None None
                         (Some [("email", template (UserDoc.email user));
                                ("role", UserDoc.role user)]) None) ;;;
         ret (ok 201 (Some "Registration successful.")
                (WithLogin {| s_id := UserDoc._id user; s_fullName := UserDoc.fullName user;
                              s_email := UserDoc.email user; s_role := UserDoc.role user;
                              s_organization := UserDoc.organization user;
                              s_lastLogin := None |} tokens))
     end)
    (fun _ => ret (failure 500 "Registration failed. Please try again."
                     (Some "REGISTER_FAILED"))).

(** [POST /api/auth/logout] *)
Definition logout (req : Req) : M Response :=
  try_catch
    (user <- req_user req ;;
     AuditLog.log (audit req AuditEntry.AUTH_LOGOUT None (Some user) true
                     None None None None None None None) ;;;
     ret (ok 200 (Some "Logged out successfully.") NoData))
    (fun _ => ret (failure 500 "Logout failed." None)).

End WithLib.

End AuthController.

(* ===================================================================== *)
(** * controllers/userController.js *)
(* ===================================================================== *)

Module UserController.

Import Http.

Section WithLib.
Context {L : Lib}.

(** [[ROLES.ADMIN, ROLES.SUPER_ADMIN].includes(role)] *)
Definition is_management_role (role : option string) : bool :=
  match role with
  | Some r => includes r [Rbac.ADMIN; Rbac.SUPER_ADMIN]
  | None => false
  end.

(** The body of [POST /api/users]. *)
Record CreateBody : Type := {
  b_fullName : option string;
  b_email : option string;
  b_password : option string;
  b_role : option string;
  b_organization : option string;
  b_department : option string;
  b_nationalId : option string;
  b_phoneNumber : option string
}.

(** The argument of [User.create({...})]. *)
Definition fields (caller : UserDoc.t) (body : CreateBody) : User.Fields :=
  {| User.f_fullName := b_fullName body;
     User.f_email := b_email body;
     User.f_password := b_password body;
     User.f_role := Some (or_else (b_role body) Rbac.HOLDER);
     User.f_isActive := None;
     User.f_organization := b_organization body;
     User.f_department := b_department body;
     User.f_nationalId := b_nationalId body;
     User.f_phoneNumber := b_phoneNumber body;
     User.f_createdBy := Some (UserDoc._id caller) |}.

(** [POST /api/users] *)
Definition createUser (req : Req) (body : CreateBody) : M Response :=
  try_catch
    (denied <- (if is_management_role (b_role body)
                then caller <- req_user req ;;
                     ret (negb (UserDoc.role caller =? Rbac.SUPER_ADMIN))
                else ret false) ;;
     if (denied : bool)
     then ret (failure 403 "Only super admins can create admin accounts."
                 (Some "INSUFFICIENT_PRIVILEGE"))
     else
       existing <- User.findOne_email (b_email body) ;;
       match existing with
       | Some _ => ret (failure 409 "Email already in use." (Some "EMAIL_TAKEN"))
       | None =>
           caller <- req_user req ;;
           user <- User.create (fields caller body) ;;
           AuditLog.log (audit req AuditEntry.USER_CREATE None (Some caller) true
                           (Some "user") (Some (UserDoc._id user)) (UserDoc.fullName user)
                           None None
                           (Some [("email", template (UserDoc.email user));
                                  ("role", UserDoc.role user)]) None) ;;;
           ret (ok 201 (Some "User created successfully.")
                  (WithUser {| s_id := UserDoc._id user; s_fullName := UserDoc.fullName user;
                               s_email := UserDoc.email user; s_role := UserDoc.role user;
                               s_organization := UserDoc.organization user;
                               s_lastLogin := None |}))
       end)
    (fun _ => ret (failure 500 "Failed to create user." None)).

(** [PATCH /api/users/:id/role] *)
Definition assignRole (req : Req) (id : ObjectId) (role : option string) : M Response :=
  try_catch
    (if negb (match role with Some r => includes r Rbac.ROLES_values | None => false end)
     then ret (failure 400 "Invalid role." (Some "INVALID_ROLE"))
     else
       denied <- (if is_management_role role
                  then caller <- req_user req ;;
                       ret (negb (UserDoc.role caller =? Rbac.SUPER_ADMIN))
                  else ret false) ;;
       if (denied : bool)
       then ret (failure 403 "Only super admins can assign admin roles."
                   (Some "INSUFFICIENT_PRIVILEGE"))
       else
         found <- User.findById id ;;
         match found with
         | None => ret (failure 404 "User not found." None)
         | Some user =>
             let previousRole := UserDoc.role user in
             let newRole := template role in
             saved <- User.save (UserDoc.set_role newRole user) ;;
             caller <- req_user req ;;
             AuditLog.log (audit req AuditEntry.USER_ROLE_ASSIGN (Some AuditEntry.WARNING)
                             (Some caller) true (Some "user") (Some (UserDoc._id saved))
                             (UserDoc.fullName saved) None None None
                             (Some ([("role", previousRole)], [("role", newRole)]))) ;;;
             ret (ok 200 (Some ("Role updated to " ++ quote ++ newRole ++ quote ++ " successfully."))%string
                    (WithRoleChange {| r_userId := UserDoc._id saved;
                                       r_email := UserDoc.email saved;
                                       r_previousRole := previousRole;
                                       r_newRole := newRole |}))
         end)
    (fun _ => ret (failure 500 "Failed to assign role." None)).

(** [GET /api/users/:id] *)
Definition getUser (req : Req) (id : ObjectId) : M (Answer UserDoc.t) :=
  try_catch
    (found <- User.findById id ;;
     match found with
     | None => ret (refused 404 "User not found." None)
     | Some user => ret (answered 200 None (User.selected user))
     end)
    (fun _ => ret (refused 500 "Failed to fetch user." None)).

(** [data: { userId: user._id, isActive: user.isActive }] *)
Record StatusChange : Type := {
  sc_userId : ObjectId;
  sc_isActive : bool
}.

(** [PATCH /api/users/:id/status]. [id] is [req.params.id] as it came:
    the guard compares the string, the query casts it. *)
Definition toggleUserStatus (req : Req) (id : string) (isActive : Value)
    : M (Answer StatusChange) :=
  try_catch
    (caller <- req_user req ;;
     if (id =? ObjectId_toString (UserDoc._id caller)) && negb (ToBoolean isActive)
     then ret (refused 400 "Cannot deactivate your own account." (Some "SELF_DEACTIVATION"))
     else
       found <- User.findById_string id ;;
       match found with
       | None => ret (refused 404 "User not found." None)
       | Some user =>
           saved <- User.save_isActive isActive user ;;
           AuditLog.log (audit req
                           (if ToBoolean isActive
                            then AuditEntry.USER_ACTIVATE
                            else AuditEntry.USER_DEACTIVATE)
                           (Some AuditEntry.WARNING) (Some caller) true (Some "user")
                           (Some (UserDoc._id saved)) (UserDoc.fullName saved)
                           None None None None) ;;;
           ret (answered 200
                  (Some ("User " ++
                         (if ToBoolean isActive then "activated" else "deactivated") ++
                         " successfully.")%string)
                  {| sc_userId := UserDoc._id saved; sc_isActive := UserDoc.isActive saved |})
       end)
    (fun _ => ret (refused 500 "Failed to update user status." None)).

(** [DELETE /api/users/:id]. [id] is [req.params.id] as it came: the
    guard compares the string, the query casts it. *)
Definition deleteUser (req : Req) (id : string) : M Response :=
  try_catch
    (caller <- req_user req ;;
     if id =? ObjectId_toString (UserDoc._id caller)
     then ret (failure 400 "Cannot delete your own account." None)
     else
       found <- User.findByIdAndDelete_string id ;;
       match found with
       | None => ret (failure 404 "User not found." None)
       | Some user =>
           AuditLog.log (audit req AuditEntry.USER_DELETE (Some AuditEntry.CRITICAL)
                           (Some caller) true (Some "user") (Some (UserDoc._id user))
                           (UserDoc.fullName user) None None None None) ;;;
           ret (ok 200 (Some "User deleted successfully.") NoData)
       end)
    (fun _ => ret (failure 500 "Failed to delete user." None)).

End WithLib.

End UserController.

(* ===================================================================== *)
(** * controllers/certificateController.js *)
(* ===================================================================== *)

Module CertificateController.

Import Http.

Section WithLib.
Context {L : Lib}.

(** [process.env.CERT_SIGNING_SECRET || 'cert-signing-secret-2024'] *)
Definition SIGNING_SECRET (env : World.Env) : string :=
  or_else (World.CERT_SIGNING_SECRET env) "cert-signing-secret-2024".

(** The body of [POST /api/certificates]. *)
Record CreateBody : Type := {
  b_title : option string;
  b_description : option string;
  b_type : option string;
  b_holderId : option ObjectId;
  b_holderEmail : option string;
  b_holderName : option string;
  b_holderNationalId : option string;
  b_issuingOrganization : option string;
  b_issuingDepartment : option string;
  b_expiresAt : option Z;
  b_score : option Z;
  b_credits : option Z
}.

(** What the handler resolves before it builds the document: the holder's
    id, name and national id. *)
Definition resolve_holder (body : CreateBody)
    : M (Response + (option ObjectId * option string * option string)) :=
  if truthy (b_holderEmail body) &&
     match b_holderId body with Some _ => false | None => true end
  then
    found <- User.findOne_email (b_holderEmail body) ;;
    match found with
    | None =>
        ret (inl (failure 404
                    ("User with email " ++ template (b_holderEmail body) ++ " not found.")%string
                    (Some "HOLDER_NOT_FOUND")))
    | Some holder =>
        ret (inr (Some (UserDoc._id holder),
                  or_opt (b_holderName body) (UserDoc.fullName holder),
                  or_opt (b_holderNationalId body) (UserDoc.nationalId holder)))
    end
  else ret (inr (b_holderId body, b_holderName body, b_holderNationalId body)).

(** The argument of [new Certificate({...})]. *)
Definition fields (caller : UserDoc.t) (body : CreateBody)
    (holderId : option ObjectId) (finalHolderName finalHolderNationalId : option string)
    : Certificate.Fields :=
  {| Certificate.f_title := b_title body;
     Certificate.f_description := b_description body;
     Certificate.f_type := b_type body;
     Certificate.f_holder := holderId;
     Certificate.f_holderName := Some (or_else finalHolderName "Unknown");
     Certificate.f_holderNationalId := finalHolderNationalId;
     Certificate.f_issuedBy := Some (UserDoc._id caller);
     Certificate.f_issuerName := UserDoc.fullName caller;
     Certificate.f_issuingOrganization :=
       or_opt (b_issuingOrganization body) (UserDoc.organization caller);
     Certificate.f_issuingDepartment :=
       or_opt (b_issuingDepartment body) (UserDoc.department caller);
     Certificate.f_expiresAt := b_expiresAt body;
     Certificate.f_score := b_score body;
     Certificate.f_credits := b_credits body;
     Certificate.f_status := Some CertificateDoc.PENDING |}.

(** The QR code: generated when the package is there; a failure is
    logged and ignored. *)
Definition generate_qr (c : CertificateDoc.t) : CertificateDoc.t :=
  match QRCode_toDataURL with
  | Some toDataURL =>
      let qrData :=
        JSON_stringify_qr
          {| CertificateDoc.qr_id := CertificateDoc.certificateId c;
             CertificateDoc.qr_serial := CertificateDoc.serialNumber c;
             CertificateDoc.qr_verifyUrl := CertificateDoc.verificationUrl c;
             CertificateDoc.qr_holder := CertificateDoc.holderName c;
             CertificateDoc.qr_issuer := CertificateDoc.issuingOrganization c;
             CertificateDoc.qr_issuedAt := CertificateDoc.issuedAt c |} in
      match toDataURL qrData with
      | Returns url => CertificateDoc.set_qrCode (Some url) c
      | Throws _ => c
      end
  | None => c
  end.

(** The auto-sign block of [createCertificate]. *)
Definition sign_and_activate (c : CertificateDoc.t) : M CertificateDoc.t :=
  env <- getenv ;;
  let signed := snd (Certificate.signCertificate (SIGNING_SECRET env) c) in
  let active := CertificateDoc.set_status CertificateDoc.ACTIVE signed in
  Certificate.save false (generate_qr active).

(** [POST /api/certificates] *)
Definition createCertificate (req : Req) (body : CreateBody) : M Response :=
  try_catch
    (resolved <- resolve_holder body ;;
     match resolved with
     | inl response => ret response
     | inr (None, _, _) =>
         ret (failure 400
                "Certificate holder is required. Provide holderId or holderEmail."
                (Some "HOLDER_REQUIRED"))
     | inr (Some holderId, finalHolderName, finalHolderNationalId) =>
         caller <- req_user req ;;
         doc <- Certificate.construct
                  (fields caller body (Some holderId) finalHolderName finalHolderNationalId) ;;
         saved <- Certificate.save true doc ;;
         canSign <- lift (Rbac.hasPermission (UserDoc.role caller) Rbac.CERTIFICATE_SIGN) ;;
         certificate <- (if (canSign : bool) then sign_and_activate saved else ret saved) ;;
         AuditLog.log (audit req AuditEntry.CERT_CREATE None (Some caller) true
                         (Some "certificate") (Some (CertificateDoc._id certificate))
                         (CertificateDoc.title certificate) None None
                         (Some [("certificateId", template (CertificateDoc.certificateId certificate));
                                ("type", template (CertificateDoc.type certificate));
                                ("holder", template (CertificateDoc.holderName certificate));
                                ("status", CertificateDoc.status certificate)]) None) ;;;
         ret (ok 201 (Some "Certificate created successfully.") (WithCertificate certificate))
     end)
    (fun _ => ret (failure 500 "Failed to create certificate." (Some "CREATE_FAILED"))).

(** [PUT /api/certificates/:id/revoke] *)
Definition revokeCertificate (req : Req) (id : ObjectId) (reason : option string)
    : M Response :=
  try_catch
    (found <- Certificate.findById id ;;
     match found with
     | None => ret (failure 404 "Certificate not found." (Some "CERT_NOT_FOUND"))
     | Some certificate =>
         if CertificateDoc.status certificate =? CertificateDoc.REVOKED
         then ret (failure 400 "Certificate is already revoked." (Some "ALREADY_REVOKED"))
         else
           let prevStatus := CertificateDoc.status certificate in
           now <- Date_now ;;
           caller <- req_user req ;;
           let revoked :=
             CertificateDoc.set_revocationReason
               (Some (trim (or_else reason "No reason provided")))
               (CertificateDoc.set_revokedBy (Some (UserDoc._id caller))
                  (CertificateDoc.set_revokedAt (Some now)
                     (CertificateDoc.set_status CertificateDoc.REVOKED certificate))) in
           saved <- Certificate.save false revoked ;;
           AuditLog.log (audit req AuditEntry.CERT_REVOKE (Some AuditEntry.CRITICAL)
                           (Some caller) true (Some "certificate")
                           (Some (CertificateDoc._id saved)) (CertificateDoc.title saved)
                           None None
                           (Some [("certificateId", template (CertificateDoc.certificateId saved));
                                  ("reason", template reason);
                                  ("previousStatus", prevStatus)]) None) ;;;
           ret (ok 200 (Some "Certificate revoked successfully.") (WithCertificate saved))
     end)
    (fun _ => ret (failure 500 "Failed to revoke certificate." None)).

(** The status checks of [verifyCertificate]: the result and the message.
    The signature is verified only when the certificate is active, not
    expired, and carries one. *)
Definition evaluate (secret : string) (now : Z) (c : CertificateDoc.t)
    : Outcome (string * string) :=
  if CertificateDoc.status c =? CertificateDoc.REVOKED
  then Returns ("revoked",
                ("Certificate has been revoked. Reason: " ++
                 template (CertificateDoc.revocationReason c))%string)
  else if CertificateDoc.status c =? CertificateDoc.SUSPENDED
  then Returns ("suspended", "Certificate is currently suspended.")
  else if CertificateDoc.isExpired now c
  then Returns ("expired",
                ("Certificate expired on " ++
                 match CertificateDoc.expiresAt c with
                 | Some e => toLocaleDateString e
                 | None => ""
                 end ++ ".")%string)
  else if negb (CertificateDoc.status c =? CertificateDoc.ACTIVE)
  then Returns ("invalid", "Certificate is not active.")
  else if truthy (CertificateDoc.digitalSignature c)
  then
    match Certificate.verifySignature secret c with
    | Returns true => Returns ("valid", "Certificate is valid and authentic.")
    | Returns false =>
        Returns ("invalid",
                 "Certificate signature verification failed. Data may have been tampered.")
    | Throws e => Throws e
    end
  else Returns ("valid", "Certificate is valid and authentic.").

Definition summary (c : CertificateDoc.t) (verificationResult : string) (now : Z)
    : VerifySummary :=
  {| v_certificateId := CertificateDoc.certificateId c;
     v_serialNumber := CertificateDoc.serialNumber c;
     v_title := CertificateDoc.title c;
     v_type := CertificateDoc.type c;
     v_status := CertificateDoc.status c;
     v_holderName := CertificateDoc.holderName c;
     v_issuingOrganization := CertificateDoc.issuingOrganization c;
     v_issuedAt := CertificateDoc.issuedAt c;
     v_expiresAt := CertificateDoc.expiresAt c;
     v_revokedAt := CertificateDoc.revokedAt c;
     v_revocationReason := CertificateDoc.revocationReason c;
     v_isValid := verificationResult =? "valid";
     v_verifiedAt := now |}.

(** [GET|POST /api/verify/:token] *)
Definition verifyCertificate (req : Req) (token : string) : M Response :=
  try_catch
    (found <- Certificate.findOne_verificationToken token ;;
     match found with
     | None =>
         AuditLog.log (audit req AuditEntry.CERT_VERIFY_FAILED (Some AuditEntry.WARNING)
                         None false None None None (Some false) None
                         (Some [("token", token); ("reason", "Certificate not found")])
                         None) ;;;
         ret {| status := 404; success := false; result := Some "invalid"; message := None;
                error := Some "Certificate not found."; code := Some "CERT_NOT_FOUND";
                lockUntil := None; data := NoData |}
     | Some certificate =>
         us <- users ;;
         let holder := Certificate.populate false (CertificateDoc.holder certificate) us in
         let issuedBy :=
           Certificate.populate true (CertificateDoc.issuedBy certificate) us in
         env <- getenv ;;
         now <- Date_now ;;
         verdict <- lift (evaluate (SIGNING_SECRET env) now certificate) ;;
         let (verificationResult, message) := (verdict : string * string) in
         let attempt :=
           {| CertificateDoc.verifiedBy := option_map UserDoc._id (user req);
              CertificateDoc.verifiedAt := now;
              CertificateDoc.ipAddress := ip req;
              CertificateDoc.userAgent := user_agent req;
              CertificateDoc.result := Some verificationResult |} in
         saved <- Certificate.save_populated holder issuedBy
                    (CertificateDoc.set_verificationHistory
                       (CertificateDoc.verificationHistory certificate ++ [attempt])
                       certificate) ;;
         AuditLog.log (audit req AuditEntry.CERT_VERIFY None (user req) true
                         (Some "certificate") (Some (CertificateDoc._id saved))
                         (CertificateDoc.title saved)
                         (Some (verificationResult =? "valid")) None
                         (Some [("result", verificationResult);
                                ("certificateId", template (CertificateDoc.certificateId saved))])
                         None) ;;;
         ret {| status := 200; success := true; result := Some verificationResult;
                message := Some message; error := None; code := None; lockUntil := None;
                data := WithVerification (summary saved verificationResult now) |}
     end)
    (fun _ => ret {| status := 500; success := false; result := Some "error";
                     message := None; error := Some "Verification service error.";
                     code := None; lockUntil := None; data := NoData |}).

(** A certificate with its three references populated. *)
Record Populated : Type := {
  p_certificate : CertificateDoc.t;
  p_holder : option CertificateDoc.Party;
  p_issuedBy : option CertificateDoc.Party;
  p_revokedBy : option CertificateDoc.Party
}.

(** [GET /api/certificates/:id] *)
Definition getCertificate (req : Req) (id : ObjectId) : M (Answer Populated) :=
  try_catch
    (found <- Certificate.findById id ;;
     us <- users ;;
     match found with
     | None => ret (refused 404 "Certificate not found." (Some "CERT_NOT_FOUND"))
     | Some stored =>
         let certificate :=
           {| p_certificate := Certificate.selected stored;
              p_holder := Certificate.populate true (CertificateDoc.holder stored) us;
              p_issuedBy := Certificate.populate true (CertificateDoc.issuedBy stored) us;
              p_revokedBy := Certificate.populate false (CertificateDoc.revokedBy stored) us |} in
         caller <- req_user req ;;
         canRead <- lift (Rbac.hasPermission (UserDoc.role caller) Rbac.CERTIFICATE_READ) ;;
         ownOnly <- (if negb canRead
                     then lift (Rbac.hasPermission (UserDoc.role caller)
                                  Rbac.CERTIFICATE_READ_OWN)
                     else ret false) ;;
         notOwner <- (if (ownOnly : bool)
                      then match p_holder certificate with
                           | Some holder =>
                               ret (negb (Nat.eqb (CertificateDoc.party_id holder)
                                                  (UserDoc._id caller)))
                           | None => throw (TypeError "Cannot read properties of null")
                           end
                      else ret false) ;;
         if (notOwner : bool)
         then
           AuditLog.log (audit req AuditEntry.CERT_ACCESS_DENIED (Some AuditEntry.WARNING)
                           (Some caller) true (Some "certificate")
                           (Some (CertificateDoc._id stored)) None
                           (Some false) (Some 403%Z) None None) ;;;
           ret (refused 403 "Access denied. This is not your certificate." (Some "NOT_OWNER"))
         else
           AuditLog.log (audit req AuditEntry.CERT_VIEW None (Some caller) true
                           (Some "certificate") (Some (CertificateDoc._id stored))
                           (CertificateDoc.title stored) None None None None) ;;;
           ret (answered 200 None certificate)
     end)
    (fun _ => ret (refused 500 "Failed to fetch certificate." None)).

End WithLib.

End CertificateController.

(* ===================================================================== *)
(** * middleware/validateRequest.js and the validation chains of the routes *)
(* ===================================================================== *)

Module Validator.

(** An element of [validationResult(req).array()], as [validateRequest]
    maps it: [{ field: e.path, message: e.msg, value: e.value }]. *)
Record FieldError : Type := {
  field : string;
  message : string;
  value : option Value
}.

(** What [isLength] of the validator library measures: the UTF-16 length
    less one for each surrogate pair and for each of the variation
    selectors U+FE0E and U+FE0F. A surrogate pair is a code point of four
    bytes; the selectors are the bytes 239, 184 and 142 or 143. *)
Fixpoint surrogatePairs (s : string) : nat :=
  match s with
  | String c rest =>
      (if (240 <=? nat_of_ascii c)%nat then 1 else 0) + surrogatePairs rest
  | EmptyString => 0
  end.

Fixpoint presentationSequences (s : string) : nat :=
  match s with
  | String _ rest =>
      (match strip_one [bytes [239; 184; 142]; bytes [239; 184; 143]] s with
       | Some _ => 1
       | None => 0
       end) + presentationSequences rest
  | EmptyString => 0
  end.

Definition len (s : string) : nat :=
  utf16_length s - presentationSequences s - surrogatePairs s.

(** [body('reason').optional().trim().isLength({ max: 500 })]: an absent
    field is left alone; a present one is trimmed in the body, then
    measured. The chain yields the field as the handler will read it, and
    its errors. *)
Definition reason (v : option string) : option string * list FieldError :=
  match v with
  | Some s =>
      let s' := trim s in
      (Some s',
       if (len s' <=? 500)%nat then []
       else [{| field := "reason"; message := "Invalid value"; value := Some (VStr s') |}])
  | None => (None, [])
  end.

(** [body('role').notEmpty().isIn(Object.values(ROLES)).withMessage('Invalid role')]:
    both validators run, the second with the message given. *)
Definition role (v : option string) : list FieldError :=
  (if truthy v then []
   else [{| field := "role"; message := "Invalid value"; value := option_map VStr v |}]) ++
  (if match v with Some r => includes r Rbac.ROLES_values | None => false end then []
   else [{| field := "role"; message := "Invalid role"; value := option_map VStr v |}]).

(** [isBoolean()] of the validator library on the value as a string:
    ['true'], ['false'], ['1'] and ['0'] pass. *)
Definition isBoolean (v : option Value) : bool :=
  match v with
  | Some (VBool _) => true
  | Some (VNum n) => (n =? 0)%Z || (n =? 1)%Z
  | Some (VStr s) => includes s ["true"; "false"; "1"; "0"]
  | None => false
  end.

(** [body('isActive').isBoolean().withMessage('isActive must be boolean')] *)
Definition isActive (v : option Value) : list FieldError :=
  if isBoolean v then []
  else [{| field := "isActive"; message := "isActive must be boolean"; value := v |}].

End Validator.

(* ===================================================================== *)
(** * The routes: each handler behind its chain of middleware *)
(* ===================================================================== *)

Module Routes.

Import Http Auth.

(** Who answered a request: a middleware of [auth.js], [validateRequest]
    (422, 'Validation failed', VALIDATION_ERROR, with the errors), or the
    handler. *)
Inductive Reply (A : Type) : Type :=
| Stopped (r : Response)
| Invalid (errors : list Validator.FieldError)
| Handled (a : A).
Arguments Stopped {A} r.
Arguments Invalid {A} errors.
Arguments Handled {A} a.

(** [router.use(authenticate)]: what follows runs with [req.user] set. *)
Definition authenticated {A} (req : Req) (next : Req -> M (Reply A)) : M (Reply A) :=
  step <- authenticate req ;;
  match step with
  | Respond r => ret (Stopped r)
  | Next (u, _) => next (set_user (Some u) req)
  end.

(** A middleware of the chain that answers or calls [next()]. *)
Definition guarded {A} (middleware : Req -> M (Step unit)) (req : Req)
    (next : M (Reply A)) : M (Reply A) :=
  step <- middleware req ;;
  match step with
  | Respond r => ret (Stopped r)
  | Next _ => next
  end.

(** [validateRequest]: [if (!errors.isEmpty()) return res.status(422)...;
    next();] *)
Definition validateRequest {A} (errors : list Validator.FieldError)
    (next : M (Reply A)) : M (Reply A) :=
  match errors with
  | [] => next
  | _ :: _ => ret (Invalid errors)
  end.

(** The handler at the end of the chain. *)
Definition handler {A} (h : M A) : M (Reply A) := a <- h ;; ret (Handled a).

Section WithLib.
Context {L : Lib}.

(** ** routes/certificateRoutes.js *)

(** [router.put('/:id/revoke', authorize(PERMISSIONS.CERTIFICATE_REVOKE),
    [body('reason')...], validateRequest, certController.revokeCertificate)] *)
Definition put_certificate_revoke (req : Req) (id : ObjectId) (reason : option string)
    : M (Reply Response) :=
  authenticated req (fun req =>
    guarded (authorize Rbac.CERTIFICATE_REVOKE) req
      (let (reason', errors) := Validator.reason reason in
       validateRequest errors
         (handler (CertificateController.revokeCertificate req id reason')))).

(** [router.get('/:id', authorizeAny([PERMISSIONS.CERTIFICATE_READ,
    PERMISSIONS.CERTIFICATE_READ_OWN]), certController.getCertificate)] *)
Definition get_certificate (req : Req) (id : ObjectId)
    : M (Reply (Answer CertificateController.Populated)) :=
  authenticated req (fun req =>
    guarded (authorizeAny [Rbac.CERTIFICATE_READ; Rbac.CERTIFICATE_READ_OWN]) req
      (handler (CertificateController.getCertificate req id))).

(** ** routes/userRoutes.js *)

(** [router.get('/:id', authorizeOwnerOrAdmin(PERMISSIONS.USER_READ),
    userController.getUser)] *)
Definition get_user (req : Req) (id : ObjectId) : M (Reply (Answer UserDoc.t)) :=
  authenticated req (fun req =>
    guarded (authorizeOwnerOrAdmin (Some Rbac.USER_READ) None (Some id)) req
      (handler (UserController.getUser req id))).

(** [router.patch('/:id/role', authorize(PERMISSIONS.USER_ASSIGN_ROLE),
    [body('role')...], validateRequest, userController.assignRole)] *)
Definition patch_user_role (req : Req) (id : ObjectId) (role : option string)
    : M (Reply Response) :=
  authenticated req (fun req =>
    guarded (authorize Rbac.USER_ASSIGN_ROLE) req
      (validateRequest (Validator.role role)
         (handler (UserController.assignRole req id role)))).

(** [router.patch('/:id/status', authorize(PERMISSIONS.USER_UPDATE),
    [body('isActive')...], validateRequest, userController.toggleUserStatus)].
    The handler is reached with a value that passed [isBoolean()]. *)
Definition patch_user_status (req : Req) (id : string) (isActive : option Value)
    : M (Reply (Answer UserController.StatusChange)) :=
  authenticated req (fun req =>
    guarded (authorize Rbac.USER_UPDATE) req
      (validateRequest (Validator.isActive isActive)
         (match isActive with
          | Some v => handler (UserController.toggleUserStatus req id v)
          | None => ret (Invalid (Validator.isActive isActive))
          end))).

(** [router.delete('/:id', authorizeRole(ROLES.SUPER_ADMIN),
    userController.deleteUser)] *)
Definition delete_user (req : Req) (id : string) : M (Reply Response) :=
  authenticated req (fun req =>
    guarded (authorizeRole [inl Rbac.SUPER_ADMIN]) req
      (handler (UserController.deleteUser req id))).

(** ** routes/authRoutes.js *)

(** [router.post('/logout', authenticate, authController.logout)] *)
Definition post_logout (req : Req) : M (Reply Response) :=
  authenticated req (fun req => handler (AuthController.logout req)).

(** ** routes/verifyRoutes.js *)

(** [router.get('/:token', certController.verifyCertificate)] and the same
    for [post]: no middleware, so the handler sees the request as it came. *)
Definition get_verify (req : Req) (token : string) : M (Reply Response) :=
  handler (CertificateController.verifyCertificate req token).

End WithLib.

End Routes.

(* ===================================================================== *)
(** * The front end's copy of the permission catalogue *)
(* ===================================================================== *)

Module Frontend.

Import Rbac.

(** [ROLE_PERMISSIONS] of [AuthContext]: the object literal. *)
Definition ROLE_PERMISSIONS : list (string * list string) :=
  [ ("super_admin", ["all"]);
    ("admin",
      [ "certificate:create"; "certificate:read"; "certificate:update";
        "certificate:delete"; "certificate:revoke"; "certificate:verify";
        "certificate:export"; "certificate:sign";
        "user:create"; "user:read"; "user:update"; "user:delete"; "user:assign_role";
        "role:read"; "audit:read"; "audit:export" ]);
    ("issuer",
      [ "certificate:create"; "certificate:read"; "certificate:update";
        "certificate:revoke"; "certificate:verify"; "certificate:export";
        "certificate:sign"; "user:read"; "audit:read" ]);
    ("verifier",
      [ "certificate:read"; "certificate:verify"; "user:read:own"; "user:update:own" ]);
    ("holder",
      [ "certificate:read:own"; "certificate:verify"; "user:read:own"; "user:update:own" ]) ].

(** [ROLE_PERMISSIONS[role]], a property read like the back end's. *)
Definition get (role : string) : Property :=
  match own role ROLE_PERMISSIONS with
  | Some perms => PArray perms
  | None => if includes role Object_prototype_keys then PInherited else PUndefined
  end.

(** [hasPermission] of the context. The user is the [user] of the login
    response, or [null]:
    [if (!user) return false;
     const perms = ROLE_PERMISSIONS[user.role] || [];
     return perms.includes('all') || perms.includes(permission);] *)
Definition hasPermission (user : option Http.UserSummary) (permission : string)
    : Outcome bool :=
  match user with
  | None => Returns false
  | Some u =>
      match get (Http.s_role u) with
      | PArray perms => Returns (includes "all" perms || includes permission perms)
      | PUndefined => Returns (includes "all" [] || includes permission [])
      | PInherited => Throws (TypeError "perms.includes is not a function")
      end
  end.

(** [permissions.some(p => hasPermission(p))] *)
Fixpoint hasAnyPermission (user : option Http.UserSummary) (permissions : list string)
    : Outcome bool :=
  match permissions with
  | p :: rest =>
      match hasPermission user p with
      | Returns true => Returns true
      | Returns false => hasAnyPermission user rest
      | Throws e => Throws e
      end
  | [] => Returns false
  end.

(** [hasRole(...roles)]: [user && roles.includes(user.role)], as a
    condition. *)
Definition hasRole (user : option Http.UserSummary) (roles : list string) : bool :=
  match user with
  | Some u => includes (Http.s_role u) roles
  | None => false
  end.

(** What a route element renders. *)
Inductive Element : Type :=
| Navigate (to : string)
| Children.

(** [ProtectedRoute] of [App.jsx] *)
Definition ProtectedRoute (isAuthenticated : bool) (user : option Http.UserSummary)
    (requiredPermission : option string) : Outcome Element :=
  if negb isAuthenticated then Returns (Navigate "/login")
  else if truthy requiredPermission
  then
    match hasPermission user (template requiredPermission) with
    | Returns true => Returns Children
    | Returns false => Returns (Navigate "/dashboard")
    | Throws e => Throws e
    end
  else Returns Children.

(** [PublicRoute] of [App.jsx] *)
Definition PublicRoute (isAuthenticated : bool) : Element :=
  if isAuthenticated then Navigate "/dashboard" else Children.

End Frontend.

(* ===================================================================== *)
(** * A concrete library, for worked examples *)
(* ===================================================================== *)

Module Sample.

(** A 32-byte stand-in digest: the string read as a number in base 257,
    modulo [2^256], least significant byte first. *)
Fixpoint number (s : string) (acc : N) : N :=
  match s with
  | String c rest => number rest ((acc * 257 + N_of_ascii c + 1) mod 2 ^ 256)%N
  | EmptyString => acc
  end.

Fixpoint bytes_of (n : nat) (v : N) : list N :=
  match n with
  | S n' => (v mod 256)%N :: bytes_of n' (v / 256)%N
  | O => []
  end.

Definition digest (s : string) : string := toString_hex (bytes_of 32 (number s 0%N)).

Definition show (v : option string) : string := template v.

(** [id.toString()] of an id, and a rendering of a populated document. *)
Definition show_reference (r : option CertificateDoc.Reference) : string :=
  match r with
  | Some (CertificateDoc.Unpopulated id) => ObjectId_toString id
  | Some (CertificateDoc.PopulatedWith p) =>
      ("{ _id: " ++ ObjectId_toString (CertificateDoc.party_id p) ++
       ", fullName: " ++ show (CertificateDoc.party_fullName p) ++
       ", email: " ++ show (CertificateDoc.party_email p) ++ " }")%string
  | None => "undefined"
  end.

Definition stringify (d : CertificateDoc.ChecksumData) : string :=
  (show (CertificateDoc.cd_title d) ++ "," ++
   show_reference (CertificateDoc.cd_holder d) ++ "," ++
   show (CertificateDoc.cd_holderName d) ++ "," ++
   show (CertificateDoc.cd_issuingOrganization d) ++ "," ++
   show (CertificateDoc.cd_type d))%string.

Definition stringify_qr (d : CertificateDoc.QrData) : string :=
  (show (CertificateDoc.qr_id d) ++ "," ++ show (CertificateDoc.qr_serial d))%string.

(** A stand-in for bcrypt: the hash is the salt followed by the password. *)
Definition hash (password : string) (salt : list N) : string :=
  (toString_hex salt ++ password)%string.

Definition compare (candidate hashed : string) : bool :=
  substring 32 (String.length hashed - 32) hashed =? candidate.

Definition lib : Lib :=
  {| sha256_hex := digest;
     hmac_sha256_hex := fun key msg => digest (key ++ "/" ++ msg)%string;
     JSON_stringify := stringify;
     JSON_stringify_qr := stringify_qr;
     QRCode_toDataURL := Some (fun s => Returns ("data:image/png;base64," ++ s)%string);
     bcrypt_hash := hash;
     bcrypt_compare := compare;
     getFullYear := fun _ => "2024";
     toLocaleDateString := fun _ => "1/1/2024" |}.

Definition env : World.Env :=
  {| World.CERT_SIGNING_SECRET := Some "test-cert-signing-2024";
     World.APP_BASE_URL := None;
     World.JWT_SECRET := Some "test-secret-key-2024";
     World.JWT_REFRESH_SECRET := Some "test-refresh-secret-2024";
     World.JWT_EXPIRES_IN := None;
     World.JWT_REFRESH_EXPIRES_IN := None |}.

Definition user (id : ObjectId) (name email role : string) : UserDoc.t :=
  {| UserDoc._id := id; UserDoc.fullName := Some name; UserDoc.email := Some email;
     UserDoc.password := Some (hash "TestPass123!" (repeat 7%N 16));
     UserDoc.role := role; UserDoc.isActive := true; UserDoc.lastLogin := None;
     UserDoc.loginAttempts := 0; UserDoc.lockUntil := None;
     UserDoc.organization := Some "Test University"; UserDoc.department := None;
     UserDoc.nationalId := None; UserDoc.phoneNumber := None;
     UserDoc.createdBy := None |}.

Definition superAdmin := user 1 "Test super_admin 1" "super_admin1@test.com" Rbac.SUPER_ADMIN.
Definition admin := user 2 "Test admin 1" "admin1@test.com" Rbac.ADMIN.
Definition issuer := user 3 "Test issuer 1" "issuer1@test.com" Rbac.ISSUER.
Definition verifier := user 4 "Test verifier 1" "verifier1@test.com" Rbac.VERIFIER.
Definition holder := user 5 "Test holder 1" "holder1@test.com" Rbac.HOLDER.

(** A stored certificate of [holder], issued by [issuer], in a given
    status and with a given expiry. *)
Definition certificate (id : ObjectId) (token status : string) (expiresAt : option Z)
    : CertificateDoc.t :=
  {| CertificateDoc._id := id;
     CertificateDoc.certificateId := Some "CERT-2024-0A0B0C0D";
     CertificateDoc.serialNumber := Some "0102030405060708";
     CertificateDoc.title := Some "Verifiable Certificate";
     CertificateDoc.description := None;
     CertificateDoc.type := Some "professional";
     CertificateDoc.status := status;
     CertificateDoc.holder := Some 5;
     CertificateDoc.holderName := Some "Test holder 1";
     CertificateDoc.holderNationalId := None;
     CertificateDoc.issuedBy := Some 3;
     CertificateDoc.issuerName := Some "Test issuer 1";
     CertificateDoc.issuingOrganization := Some "Test Org";
     CertificateDoc.issuingDepartment := None;
     CertificateDoc.issuedAt := 1000;
     CertificateDoc.expiresAt := expiresAt;
     CertificateDoc.revokedAt := None;
     CertificateDoc.revokedBy := None;
     CertificateDoc.revocationReason := None;
     CertificateDoc.digitalSignature := None;
     CertificateDoc.signatureAlgorithm := "SHA-256-HMAC";
     CertificateDoc.checksum := Some "00";
     CertificateDoc.qrCode := None;
     CertificateDoc.verificationUrl := None;
     CertificateDoc.verificationToken := Some token;
     CertificateDoc.score := None;
     CertificateDoc.credits := None;
     CertificateDoc.verificationHistory := [] |}.

Definition world (certificates : list CertificateDoc.t) (now : Z) : World.t :=
  {| World.users := [superAdmin; admin; issuer; verifier; holder];
     World.certificates := certificates;
     World.auditLogs := [];
     World.auditStoreUp := true;
     World.now := now;
     World.entropy := [1; 2; 3; 4; 5; 6; 7; 8; 9; 10; 11; 12; 13; 14; 15; 16]%N;
     World.nextId := 100;
     World.console := [];
     World.passwordChecks := 0;
     World.env := env |}.

Definition request (caller : option UserDoc.t) : Http.Req :=
  {| Http.ip := Some "127.0.0.1"; Http.remoteAddress := None;
     Http.user_agent := Some "jest"; Http.authorization := None;
     Http.method := "POST"; Http.originalUrl := "/api";
     Http.user := caller |}.

End Sample.

(* ===================================================================== *)
(** * Properties of the run-time fragments and of the monad *)
(* ===================================================================== *)

Module JsFacts.

Lemma includes_In x xs : includes x xs = true <-> In x xs.
Proof.
  unfold includes. rewrite existsb_exists. split.
  - intros [y [Hin Heq]]. apply String.eqb_eq in Heq. now subst.
  - intros Hin. exists x. split; [assumption | apply String.eqb_refl].
Qed.

Lemma includes_false x xs : includes x xs = false <-> ~ In x xs.
Proof.
  rewrite <- includes_In. destruct (includes x xs); split; intros H; congruence.
Qed.

Lemma toString_hex_length bs : String.length (toString_hex bs) = 2 * List.length bs.
Proof. induction bs as [|b bs IH]; simpl; [reflexivity | rewrite IH; lia]. Qed.

Lemma toUpperCase_length s : String.length (toUpperCase s) = String.length s.
Proof. induction s as [|c s IH]; simpl; congruence. Qed.

Lemma truthy_length s : 0 < String.length s -> truthy (Some s) = true.
Proof. destruct s; simpl; [lia | reflexivity]. Qed.

Lemma truthy_append a b : truthy (Some a) = true -> truthy (Some (a ++ b)%string) = true.
Proof. destruct a; simpl; [discriminate | reflexivity]. Qed.

Lemma first_failure_none checks :
  first_failure checks = None <-> Forall (fun c => snd c = true) checks.
Proof.
  induction checks as [|[path ok] rest IH]; simpl.
  - split; [constructor | reflexivity].
  - destruct ok; split; intros H.
    + constructor; [reflexivity | now apply IH].
    + inversion H; subst. now apply IH.
    + discriminate.
    + inversion H; subst. discriminate.
Qed.

Lemma first_failure_some checks path :
  first_failure checks = Some path -> In (path, false) checks.
Proof.
  induction checks as [|[p ok] rest IH]; simpl; [discriminate|].
  destruct ok; intros H.
  - right. now apply IH.
  - left. congruence.
Qed.

End JsFacts.

Module MonadFacts.

Lemma bind_returns {A B} {m : M A} (k : A -> M B) {w a w'} :
  m w = (Returns a, w') -> bind m k w = k a w'.
Proof. intros H. unfold bind. now rewrite H. Qed.

Lemma bind_throws {A B} {m : M A} (k : A -> M B) {w e w'} :
  m w = (Throws e, w') -> bind m k w = (Throws e, w').
Proof. intros H. unfold bind. now rewrite H. Qed.

Lemma try_catch_returns {A} {m : M A} h {w a w'} :
  m w = (Returns a, w') -> try_catch m h w = (Returns a, w').
Proof. intros H. unfold try_catch. now rewrite H. Qed.

Lemma try_catch_throws {A} {m : M A} h {w e w'} :
  m w = (Throws e, w') -> try_catch m h w = h e w'.
Proof. intros H. unfold try_catch. now rewrite H. Qed.

Lemma bind_inv {A B} (m : M A) (k : A -> M B) w b w2 :
  bind m k w = (Returns b, w2) ->
  exists a w1, m w = (Returns a, w1) /\ k a w1 = (Returns b, w2).
Proof.
  unfold bind. destruct (m w) as [[a|e] w1]; intros H.
  - now exists a, w1.
  - discriminate.
Qed.

End MonadFacts.

(* ===================================================================== *)
(** * Properties of the permission catalogue *)
(* ===================================================================== *)

Module RbacFacts.

Import Rbac.

(** Every permission array of the catalogue holds permission constants
    only. *)
Lemma entries_are_permissions role perms p :
  own role ROLE_PERMISSIONS = Some perms -> In p perms -> In p PERMISSIONS_values.
Proof.
  intros Hown Hin. apply JsFacts.includes_In.
  unfold ROLE_PERMISSIONS in Hown. cbn [own] in Hown.
  repeat match type of Hown with
         | (if ?b then _ else _) = _ => destruct b
         end;
    try discriminate; injection Hown as <-;
    cbn [In] in Hin;
    repeat (destruct Hin as [<- | Hin]; [vm_compute; reflexivity|]); contradiction.
Qed.

(** On a role that is no inherited property name, [hasPermission] returns
    whether the role's array holds the permission. *)
Lemma hasPermission_entry role permission :
  includes role Object_prototype_keys = false ->
  hasPermission role permission = Returns (includes permission (entry role)).
Proof.
  intros Hproto. unfold hasPermission, get, entry.
  destruct (own role ROLE_PERMISSIONS); [reflexivity|].
  now rewrite Hproto.
Qed.

Lemma own_roles role perms :
  own role ROLE_PERMISSIONS = Some perms -> In role ROLES_values.
Proof.
  unfold ROLE_PERMISSIONS. cbn [own].
  repeat match goal with
         | |- (if ?k =? role then _ else _) = _ -> _ =>
             destruct (String.eqb_spec k role) as [<- | _];
             [intros _; unfold ROLES_values; cbn [In]; tauto|]
         end.
  discriminate.
Qed.

(** A role outside [ROLES] that is no inherited property name holds
    nothing. *)
Lemma hasPermission_unknown_role role permission :
  ~ In role ROLES_values ->
  includes role Object_prototype_keys = false ->
  hasPermission role permission = Returns false.
Proof.
  intros Hrole Hproto. rewrite hasPermission_entry by assumption.
  unfold entry. destruct (own role ROLE_PERMISSIONS) eqn:Hown; [|reflexivity].
  exfalso. apply Hrole. eapply own_roles; eassumption.
Qed.

(** No role holds a string that is not a permission constant. *)
Lemma hasPermission_unknown_permission role permission :
  ~ In permission PERMISSIONS_values ->
  includes role Object_prototype_keys = false ->
  hasPermission role permission = Returns false.
Proof.
  intros Hperm Hproto. rewrite hasPermission_entry by assumption.
  f_equal. apply JsFacts.includes_false. intros Hin. apply Hperm.
  unfold entry in Hin. destruct (own role ROLE_PERMISSIONS) eqn:Hown.
  - eapply entries_are_permissions; eassumption.
  - contradiction.
Qed.

(** [super_admin] holds every permission constant. *)
Lemma super_admin_holds_all permission :
  In permission PERMISSIONS_values -> hasPermission SUPER_ADMIN permission = Returns true.
Proof.
  intros Hin. rewrite hasPermission_entry by reflexivity.
  f_equal. now apply JsFacts.includes_In.
Qed.

End RbacFacts.

(* ===================================================================== *)
(** * Properties of the certificate model *)
(* ===================================================================== *)

Module CertificateFacts.

Import CertificateDoc.

Section WithLib.
Context {L : Lib}.

Lemma save_invalid isNew c w path :
  first_failure (checks c) = Some path ->
  Certificate.save isNew c w = (Throws (ValidationError path), w).
Proof. intros H. unfold Certificate.save. now rewrite H. Qed.

Lemma save_valid isNew c w c' w' :
  Certificate.save isNew c w = (Returns c', w') ->
  first_failure (checks c) = None.
Proof.
  unfold Certificate.save. destruct (first_failure (checks c)); [|reflexivity].
  discriminate.
Qed.

(** The last validator of the schema: every history entry carries an
    allowed result. *)
Lemma checks_history c :
  first_failure (checks c) = None -> forallb history_ok (verificationHistory c) = true.
Proof.
  intros H. apply JsFacts.first_failure_none in H.
  rewrite Forall_forall in H.
  apply (H ("verificationHistory.result", forallb history_ok (verificationHistory c))).
  unfold checks. cbn [In]. tauto.
Qed.

Lemma history_ok_allowed h :
  history_ok h = true ->
  result h = None \/ exists r, result h = Some r /\ In r HISTORY_RESULT_values.
Proof.
  unfold history_ok, enum. destruct (result h) as [r|]; [|now left].
  intros H. right. exists r. split; [reflexivity | now apply JsFacts.includes_In].
Qed.

Lemma appended_suspended_is_invalid c h :
  result h = Some "suspended" ->
  exists path,
    first_failure (checks (set_verificationHistory (verificationHistory c ++ [h]) c))
    = Some path.
Proof.
  intros Hres.
  destruct (first_failure _) as [path|] eqn:Hff; [now exists path|].
  apply checks_history in Hff. cbn [verificationHistory set_verificationHistory] in Hff.
  rewrite forallb_app in Hff. apply andb_true_iff in Hff as [_ Hh].
  cbn [forallb] in Hh. unfold history_ok in Hh. rewrite Hres in Hh.
  vm_compute in Hh. discriminate.
Qed.

Lemma save_populated_invalid h i c w path :
  first_failure (checks (with_parties h i c)) = Some path ->
  Certificate.save_populated h i c w = (Throws (ValidationError path), w).
Proof. intros H. unfold Certificate.save_populated. now rewrite H. Qed.

Lemma appended_suspended_is_invalid_populated h i c a :
  result a = Some "suspended" ->
  exists path,
    first_failure
      (checks (with_parties h i (set_verificationHistory (verificationHistory c ++ [a]) c)))
    = Some path.
Proof.
  intros Hres.
  destruct (first_failure _) as [path|] eqn:Hff; [now exists path|].
  apply checks_history in Hff.
  cbn [verificationHistory set_verificationHistory with_parties] in Hff.
  rewrite forallb_app in Hff. apply andb_true_iff in Hff as [_ Hh].
  cbn [forallb] in Hh. unfold history_ok in Hh. rewrite Hres in Hh.
  vm_compute in Hh. discriminate.
Qed.

(** ** The pre-save hook *)

(** The paths the hook never writes. *)
Definition same_content (c c' : t) : Prop :=
  _id c' = _id c /\ title c' = title c /\ description c' = description c /\
  type c' = type c /\ status c' = status c /\ holder c' = holder c /\
  holderName c' = holderName c /\ holderNationalId c' = holderNationalId c /\
  issuedBy c' = issuedBy c /\ issuerName c' = issuerName c /\
  issuingOrganization c' = issuingOrganization c /\
  issuingDepartment c' = issuingDepartment c /\ issuedAt c' = issuedAt c /\
  expiresAt c' = expiresAt c /\ revokedAt c' = revokedAt c /\
  revokedBy c' = revokedBy c /\ revocationReason c' = revocationReason c /\
  digitalSignature c' = digitalSignature c /\
  signatureAlgorithm c' = signatureAlgorithm c /\ qrCode c' = qrCode c /\
  score c' = score c /\ credits c' = credits c /\
  verificationHistory c' = verificationHistory c.

(** The hook touches the entropy source only. *)
Definition same_stores (w w' : World.t) : Prop :=
  exists e, w' = World.set_entropy e w.

Lemma same_content_refl c : same_content c c.
Proof. unfold same_content. repeat split. Qed.

Lemma same_content_trans {a b c} :
  same_content a b -> same_content b c -> same_content a c.
Proof.
  unfold same_content. intros Hab Hbc.
  repeat match goal with H : _ /\ _ |- _ => destruct H end.
  repeat split; congruence.
Qed.

Lemma same_stores_refl w : same_stores w w.
Proof. exists (World.entropy w). now destruct w. Qed.

Lemma same_stores_trans a b c : same_stores a b -> same_stores b c -> same_stores a c.
Proof. intros [e1 ->] [e2 ->]. exists e2. reflexivity. Qed.

Lemma randomBytes_returns n w :
  exists bytes, randomBytes n w =
    (Returns bytes, World.set_entropy (skipn n (World.entropy w)) w) /\
    List.length bytes = n.
Proof.
  eexists. split; [reflexivity|].
  rewrite firstn_length_le; [reflexivity|].
  rewrite length_app, repeat_length. lia.
Qed.

Lemma hex_truthy n bytes :
  List.length bytes = S n -> truthy (Some (toString_hex bytes)) = true.
Proof.
  intros H. apply JsFacts.truthy_length. rewrite JsFacts.toString_hex_length. lia.
Qed.

Lemma upper_hex_truthy n bytes :
  List.length bytes = S n -> truthy (Some (toUpperCase (toString_hex bytes))) = true.
Proof.
  intros H. apply JsFacts.truthy_length.
  rewrite JsFacts.toUpperCase_length, JsFacts.toString_hex_length. lia.
Qed.

Lemma generate_certificateId_spec c w :
  exists c' w', Certificate.generate_certificateId c w = (Returns c', w') /\
    same_stores w w' /\ same_content c c' /\
    truthy (certificateId c') = true /\
    (truthy (certificateId c) = true -> certificateId c' = certificateId c) /\
    serialNumber c' = serialNumber c /\ verificationToken c' = verificationToken c.
Proof.
  unfold Certificate.generate_certificateId.
  destruct (truthy (certificateId c)) eqn:Ht; cbn [negb].
  - exists c, w. repeat split; auto using same_stores_refl.
  - destruct (randomBytes_returns 4 w) as (bytes & Hr & Hlen).
    eexists. eexists. split.
    { unfold bind, Date_now, gets. rewrite Hr. reflexivity. }
    repeat split; try discriminate.
    + eexists. reflexivity.
Qed.

Lemma generate_serialNumber_spec c w :
  exists c' w', Certificate.generate_serialNumber c w = (Returns c', w') /\
    same_stores w w' /\ same_content c c' /\
    truthy (serialNumber c') = true /\
    (truthy (serialNumber c) = true -> serialNumber c' = serialNumber c) /\
    certificateId c' = certificateId c /\ verificationToken c' = verificationToken c.
Proof.
  unfold Certificate.generate_serialNumber.
  destruct (truthy (serialNumber c)) eqn:Ht; cbn [negb].
  - exists c, w. repeat split; auto using same_stores_refl.
  - destruct (randomBytes_returns 8 w) as (bytes & Hr & Hlen).
    eexists. eexists. split.
    { unfold bind. rewrite Hr. reflexivity. }
    repeat split; try discriminate.
    + eexists. reflexivity.
    + cbn [serialNumber set_serialNumber]. eapply upper_hex_truthy; eassumption.
Qed.

Lemma generate_verificationToken_spec c w :
  exists c' w', Certificate.generate_verificationToken c w = (Returns c', w') /\
    same_stores w w' /\ same_content c c' /\
    truthy (verificationToken c') = true /\
    (truthy (verificationToken c) = true -> verificationToken c' = verificationToken c) /\
    certificateId c' = certificateId c /\ serialNumber c' = serialNumber c.
Proof.
  unfold Certificate.generate_verificationToken.
  destruct (truthy (verificationToken c)) eqn:Ht; cbn [negb].
  - exists c, w. repeat split; auto using same_stores_refl.
  - destruct (randomBytes_returns 32 w) as (bytes & Hr & Hlen).
    eexists. eexists. split.
    { unfold bind. rewrite Hr. reflexivity. }
    repeat split; try discriminate.
    + eexists. reflexivity.
    + cbn [verificationToken set_verificationToken]. eapply hex_truthy; eassumption.
Qed.

(** The hook returns; it keeps every identifier that is already there,
    leaves three non-empty identifiers, and stores the checksum of the
    document's current content. *)
Lemma pre_save_of_spec h c w :
  exists c' w', Certificate.pre_save_of h c w = (Returns c', w') /\
    same_stores w w' /\ same_content c c' /\
    truthy (certificateId c') = true /\
    truthy (serialNumber c') = true /\
    truthy (verificationToken c') = true /\
    (truthy (certificateId c) = true -> certificateId c' = certificateId c) /\
    (truthy (serialNumber c) = true -> serialNumber c' = serialNumber c) /\
    (truthy (verificationToken c) = true -> verificationToken c' = verificationToken c) /\
    checksum c' = Some (sha256_hex (JSON_stringify (checksumData_of h c))).
Proof.
  destruct (generate_certificateId_spec c w)
    as (c1 & w1 & H1 & Hw1 & Hc1 & Ht1 & Hk1 & Hs1 & Hv1).
  destruct (generate_serialNumber_spec c1 w1)
    as (c2 & w2 & H2 & Hw2 & Hc2 & Ht2 & Hk2 & Hs2 & Hv2).
  destruct (generate_verificationToken_spec c2 w2)
    as (c3 & w3 & H3 & Hw3 & Hc3 & Ht3 & Hk3 & Hs3 & Hv3).
  eexists. exists w3. split.
  { unfold Certificate.pre_save_of.
    rewrite (MonadFacts.bind_returns _ H1), (MonadFacts.bind_returns _ H2),
      (MonadFacts.bind_returns _ H3).
    reflexivity. }
  pose proof (same_content_trans Hc1 (same_content_trans Hc2 Hc3)) as Hc.
  split; [eauto using same_stores_trans|].
  split.
  { unfold same_content in *. cbn.
    repeat match goal with H : _ /\ _ |- _ => destruct H end.
    repeat split; assumption. }
  cbn.
  repeat split.
  - congruence.
  - congruence.
  - assumption.
  - intros Ht. rewrite Hs3, Hs2. auto.
  - intros Ht. rewrite Hv3. rewrite Hk2 by congruence. assumption.
  - intros Ht. rewrite Hk3 by congruence. congruence.
  - unfold checksumData_of. cbn.
    unfold same_content in Hc.
    repeat match goal with H : _ /\ _ |- _ => destruct H end.
    congruence.
Qed.

Lemma pre_save_spec c w :
  exists c' w', Certificate.pre_save c w = (Returns c', w') /\
    same_stores w w' /\ same_content c c' /\
    truthy (certificateId c') = true /\
    truthy (serialNumber c') = true /\
    truthy (verificationToken c') = true /\
    (truthy (certificateId c) = true -> certificateId c' = certificateId c) /\
    (truthy (serialNumber c) = true -> serialNumber c' = serialNumber c) /\
    (truthy (verificationToken c) = true -> verificationToken c' = verificationToken c) /\
    checksum c' = Some (sha256_hex (JSON_stringify (checksumData c))).
Proof. exact (pre_save_of_spec (option_map Unpopulated (holder c)) c w). Qed.

(** A save that returns has validated the document; the document it
    returns and stores differs from the one it was given by what the
    hook wrote. *)
Lemma save_returns isNew c w c' w' :
  Certificate.save isNew c w = (Returns c', w') ->
  first_failure (checks c) = None /\ same_content c c' /\
  exists w1, Certificate.pre_save c w = (Returns c', w1) /\
             Certificate.write isNew c' w1 = (Returns tt, w').
Proof.
  unfold Certificate.save.
  destruct (first_failure (checks c)); [discriminate|].
  destruct (pre_save_spec c w) as (c1 & w1 & Hpre & _ & Hc & _).
  rewrite (MonadFacts.bind_returns _ Hpre).
  unfold bind at 1.
  destruct (Certificate.write isNew c1 w1) as [[[]|e] w2] eqn:Hw; [|discriminate].
  unfold ret. intros H. injection H as <- <-.
  split; [reflexivity|]. split; [assumption|]. exists w1. now split.
Qed.

(** Every history entry of a document that a save accepted carries an
    allowed result, when it carries one. *)
Lemma saved_history_allowed isNew c w c' w' :
  Certificate.save isNew c w = (Returns c', w') ->
  Forall (fun h => forall r, result h = Some r -> In r HISTORY_RESULT_values)
         (verificationHistory c').
Proof.
  intros Hsave. apply save_returns in Hsave as (Hvalid & Hc & _).
  assert (Hh : verificationHistory c' = verificationHistory c)
    by (unfold same_content in Hc; tauto).
  rewrite Hh. apply checks_history in Hvalid.
  rewrite forallb_forall in Hvalid. apply Forall_forall. intros h Hin r Hr.
  destruct (history_ok_allowed h (Hvalid h Hin)) as [Hnone | (r' & Hr' & Hin')];
    congruence.
Qed.

End WithLib.

End CertificateFacts.

(* ===================================================================== *)
(** * Properties of the public verification *)
(* ===================================================================== *)

Module VerifyFacts.

Import Http CertificateController.

Section WithLib.
Context {L : Lib}.

Definition service_error : Response :=
  {| status := 500; success := false; result := Some "error"; message := None;
     error := Some "Verification service error."; code := None; lockUntil := None;
     data := NoData |}.

Lemma evaluate_revoked secret now c :
  CertificateDoc.status c = CertificateDoc.REVOKED ->
  evaluate secret now c =
  Returns ("revoked",
           ("Certificate has been revoked. Reason: " ++ template (CertificateDoc.revocationReason c))%string).
Proof. intros H. unfold evaluate. now rewrite H. Qed.

Lemma evaluate_suspended secret now c :
  CertificateDoc.status c = CertificateDoc.SUSPENDED ->
  evaluate secret now c = Returns ("suspended", "Certificate is currently suspended.").
Proof. intros H. unfold evaluate. now rewrite H. Qed.

(** The handler on a certificate that was found, up to the save. *)
Lemma verifyCertificate_found req token w c :
  Certificate.findOne_verificationToken token w = (Returns (Some c), w) ->
  verifyCertificate req token w =
  try_catch
    (verdict <- lift (evaluate (SIGNING_SECRET (World.env w)) (World.now w) c) ;;
     let (verificationResult, message) := (verdict : string * string) in
     let attempt :=
       {| CertificateDoc.verifiedBy := option_map UserDoc._id (user req);
          CertificateDoc.verifiedAt := World.now w;
          CertificateDoc.ipAddress := ip req;
          CertificateDoc.userAgent := user_agent req;
          CertificateDoc.result := Some verificationResult |} in
     saved <- Certificate.save_populated
                (Certificate.populate false (CertificateDoc.holder c) (World.users w))
                (Certificate.populate true (CertificateDoc.issuedBy c) (World.users w))
                (CertificateDoc.set_verificationHistory
                   (CertificateDoc.verificationHistory c ++ [attempt]) c) ;;
     AuditLog.log (audit req AuditEntry.CERT_VERIFY None (user req) true
                     (Some "certificate") (Some (CertificateDoc._id saved))
                     (CertificateDoc.title saved)
                     (Some (verificationResult =? "valid")) None
                     (Some [("result", verificationResult);
                            ("certificateId",
                             template (CertificateDoc.certificateId saved))])
                     None) ;;;
     ret {| status := 200; success := true; result := Some verificationResult;
            message := Some message; error := None; code := None; lockUntil := None;
            data := WithVerification (summary saved verificationResult (World.now w)) |})
    (fun _ => ret service_error) w.
Proof.
  intros Hfind. unfold verifyCertificate, try_catch.
  rewrite (MonadFacts.bind_returns _ Hfind).
  reflexivity.
Qed.

End WithLib.

End VerifyFacts.

Module PublicVerification.

Import Http CertificateController.

(** C10. The schema restricts the result of a verification-history entry
    to valid, invalid, expired and revoked, and a save that succeeds leaves
    no other result in the history. Hence, for a certificate found by its
    token whose status is suspended: the save of the document with the
    attempt appended fails validation and changes nothing, whether its
    references are populated, as the handler has them, or not, and the handler
    answers 500 with result error, in an unchanged world, instead of the
    result suspended. *)
Theorem suspended_verification_is_not_recorded {L : Lib} req token w c :
  Certificate.findOne_verificationToken token w = (Returns (Some c), w) ->
  CertificateDoc.status c = CertificateDoc.SUSPENDED ->
  CertificateDoc.HISTORY_RESULT_values = ["valid"; "invalid"; "expired"; "revoked"] /\
  (forall isNew d w0 d' w1,
      Certificate.save isNew d w0 = (Returns d', w1) ->
      Forall (fun h => forall r, CertificateDoc.result h = Some r ->
                                 In r CertificateDoc.HISTORY_RESULT_values)
             (CertificateDoc.verificationHistory d')) /\
  (forall attempt,
      CertificateDoc.result attempt = Some "suspended" ->
      exists path,
        Certificate.save false
          (CertificateDoc.set_verificationHistory
             (CertificateDoc.verificationHistory c ++ [attempt]) c) w
        = (Throws (ValidationError path), w)) /\
  (forall holder issuedBy attempt,
      CertificateDoc.result attempt = Some "suspended" ->
      exists path,
        Certificate.save_populated holder issuedBy
          (CertificateDoc.set_verificationHistory
             (CertificateDoc.verificationHistory c ++ [attempt]) c) w
        = (Throws (ValidationError path), w)) /\
  verifyCertificate req token w = (Returns VerifyFacts.service_error, w).
Proof.
  intros Hfind Hstatus.
  split; [reflexivity|].
  split; [intros isNew d w0 d' w1; apply CertificateFacts.saved_history_allowed|].
  assert (Hfail : forall attempt,
             CertificateDoc.result attempt = Some "suspended" ->
             exists path,
               Certificate.save false
                 (CertificateDoc.set_verificationHistory
                    (CertificateDoc.verificationHistory c ++ [attempt]) c) w
               = (Throws (ValidationError path), w)).
  { intros attempt Hres.
    destruct (CertificateFacts.appended_suspended_is_invalid c attempt Hres) as [path Hpath].
    exists path. now apply CertificateFacts.save_invalid. }
  split; [exact Hfail|].
  assert (Hfail' : forall holder issuedBy attempt,
             CertificateDoc.result attempt = Some "suspended" ->
             exists path,
               Certificate.save_populated holder issuedBy
                 (CertificateDoc.set_verificationHistory
                    (CertificateDoc.verificationHistory c ++ [attempt]) c) w
               = (Throws (ValidationError path), w)).
  { intros holder issuedBy attempt Hres.
    destruct (CertificateFacts.appended_suspended_is_invalid_populated
                holder issuedBy c attempt Hres) as [path Hpath].
    exists path. now apply CertificateFacts.save_populated_invalid. }
  split; [exact Hfail'|].
  rewrite (VerifyFacts.verifyCertificate_found req token w c Hfind).
  rewrite (VerifyFacts.evaluate_suspended _ _ c Hstatus).
  match goal with
  | |- try_catch (bind _ ?k) _ _ = _ =>
      change (try_catch (k ("suspended", "Certificate is currently suspended.")) (fun _ => ret VerifyFacts.service_error) w
              = (Returns VerifyFacts.service_error, w))
  end.
  cbv beta iota zeta.
  match goal with
  | |- try_catch (bind (Certificate.save_populated ?h ?i
                          (CertificateDoc.set_verificationHistory (_ ++ [?a]) c)) _) _ _ = _ =>
      destruct (Hfail' h i a eq_refl) as [path Hsave]
  end.
  erewrite MonadFacts.try_catch_throws
    by (apply MonadFacts.bind_throws; exact Hsave).
  reflexivity.
Qed.

Definition suspended_certificate : CertificateDoc.t :=
  Sample.certificate 10 "4f1c" CertificateDoc.SUSPENDED None.

(** A world whose only certificate is suspended. *)
Lemma suspended_verification_witness :
  verifyCertificate (L := Sample.lib) (Sample.request None) "4f1c"
    (Sample.world [suspended_certificate] 5000)
  = (Returns VerifyFacts.service_error, Sample.world [suspended_certificate] 5000).
Proof.
  refine (proj2 (proj2 (proj2 (proj2
    (@suspended_verification_is_not_recorded Sample.lib (Sample.request None) "4f1c"
       (Sample.world [suspended_certificate] 5000) suspended_certificate _ _)))));
    reflexivity.
Defined.

(** C1, at a suspended certificate. The handler computes the result
    suspended, the history entry that carries it fails validation, and the
    response is the 500 of the catch branch: result error, not
    suspended. *)
Theorem verify_suspended_reports_service_error :
  CertificateDoc.status suspended_certificate = "suspended" /\
  evaluate (L := Sample.lib) "test-cert-signing-2024" 5000 suspended_certificate
  = Returns ("suspended", "Certificate is currently suspended.") /\
  fst (verifyCertificate (L := Sample.lib) (Sample.request None) "4f1c"
         (Sample.world [suspended_certificate] 5000))
  = Returns {| status := 500; success := false; result := Some "error";
               message := None; error := Some "Verification service error.";
               code := None; lockUntil := None; data := NoData |}.
Proof. repeat split; vm_compute; reflexivity. Qed.

End PublicVerification.

(* ===================================================================== *)
(** * Properties of the audit recorder *)
(* ===================================================================== *)

Module AuditFacts.

(** Everything in the state but the audit collection, its health and the
    console. *)
Definition primary (w : World.t) :=
  (World.users w, World.certificates w, World.now w, World.entropy w,
   World.nextId w, World.passwordChecks w, World.env w).

(** [AuditLog.log] returns, whatever the event and the state, and writes to
    the audit collection or to the console only. *)
Lemma log_returns data w :
  exists r w', AuditLog.log data w = (Returns r, w') /\
               primary w' = primary w /\
               World.auditStoreUp w' = World.auditStoreUp w.
Proof.
  unfold AuditLog.log, AuditLog.save, try_catch, bind, Date_now, gets.
  destruct (first_failure _).
  - eexists. eexists. split; [reflexivity|]. split; reflexivity.
  - destruct (World.auditStoreUp w) eqn:Hup.
    + eexists. eexists. split; [reflexivity|]. split; [reflexivity|]. exact Hup.
    + eexists. eexists. split; [reflexivity|]. split; [reflexivity|]. exact Hup.
Qed.

(** When the store is down the entry is lost and the failure is written
    to the console. *)
Lemma log_store_down data w :
  World.auditStoreUp w = false ->
  exists msg,
    AuditLog.log data w =
    (Returns None, World.set_console (World.console w ++ [msg]) w).
Proof.
  intros Hdown.
  unfold AuditLog.log, AuditLog.save, try_catch, bind, Date_now, gets.
  destruct (first_failure _).
  - eexists. reflexivity.
  - rewrite Hdown. eexists. reflexivity.
Qed.

Lemma primary_users w w' : primary w' = primary w -> World.users w' = World.users w.
Proof. unfold primary. congruence. Qed.

Lemma primary_certificates w w' :
  primary w' = primary w -> World.certificates w' = World.certificates w.
Proof. unfold primary. congruence. Qed.

Lemma primary_passwordChecks w w' :
  primary w' = primary w -> World.passwordChecks w' = World.passwordChecks w.
Proof. unfold primary. congruence. Qed.

End AuditFacts.

(** One step of a handler: an audit event is recorded, or lost, and the
    handler goes on. *)
Ltac log_step r w2 Hlog Hprim :=
  match goal with
  | |- context [bind (AuditLog.log ?d) ?k ?w0] =>
      destruct (AuditFacts.log_returns d w0) as (r & w2 & Hlog & Hprim & _);
      rewrite (MonadFacts.bind_returns k Hlog)
  end.

(* ===================================================================== *)
(** * Properties of the certificate collection *)
(* ===================================================================== *)

Module StoreFacts.

Import CertificateDoc.

(** A document that passes the validators of the schema. *)
Definition valid (c : t) : Prop := first_failure (checks c) = None.

(** A document as the model persists it: it has its three identifiers,
    and no other document of the collection shares its [certificateId] or
    its [serialNumber] (the unique indexes). *)
Definition persisted (w : World.t) (c : t) : Prop :=
  truthy (certificateId c) = true /\
  truthy (serialNumber c) = true /\
  truthy (verificationToken c) = true /\
  existsb (Certificate.duplicate c) (World.certificates w) = false.

Lemma first_failure_forallb checks :
  first_failure checks = None <-> forallb snd checks = true.
Proof.
  induction checks as [|[path ok] rest IH]; cbn [first_failure forallb snd].
  - tauto.
  - destruct ok; cbn [andb]; [exact IH | split; discriminate].
Qed.


Lemma find_replace id cs c c' :
  find (Certificate.has_id id) cs = Some c -> _id c' = id ->
  find (Certificate.has_id id) (Certificate.replace c' cs) = Some c'.
Proof.
  intros Hfind Hid. induction cs as [|x rest IH]; [discriminate|].
  cbn [find Certificate.replace] in *. rewrite Hid.
  destruct (Certificate.has_id id x) eqn:Hx.
  - cbn [find]. unfold Certificate.has_id. rewrite Hid, Nat.eqb_refl. reflexivity.
  - cbn [find]. rewrite Hx. now apply IH.
Qed.

(** The unique indexes look at three paths only. *)
Lemma duplicate_ext c c' cs :
  _id c' = _id c -> certificateId c' = certificateId c ->
  serialNumber c' = serialNumber c ->
  existsb (Certificate.duplicate c') cs = existsb (Certificate.duplicate c) cs.
Proof.
  intros H1 H2 H3. induction cs as [|x rest IH]; [reflexivity|].
  cbn [existsb]. rewrite IH. f_equal.
  unfold Certificate.duplicate, Certificate.has_id. now rewrite H1, H2, H3.
Qed.

Lemma checks_same_content c c' :
  CertificateFacts.same_content c c' -> checks c' = checks c.
Proof.
  unfold CertificateFacts.same_content, checks. intros H.
  repeat match goal with H : _ /\ _ |- _ => destruct H end.
  repeat match goal with H : _ = _ |- _ => rewrite H; clear H end.
  reflexivity.
Qed.

(** ** The invariant of the collection

    Every stored certificate passes the validators of the schema, has its
    three identifiers, and shares [certificateId] and [serialNumber] with
    no other stored certificate. It holds of the empty collection, and
    every write that the store accepts of a valid document keeps it. *)
Definition sound_list (cs : list t) : Prop :=
  forall c, In c cs ->
    valid c /\
    truthy (certificateId c) = true /\
    truthy (serialNumber c) = true /\
    truthy (verificationToken c) = true /\
    existsb (Certificate.duplicate c) cs = false.

Definition sound (w : World.t) : Prop := sound_list (World.certificates w).



Lemma sound_nil : sound_list [].
Proof. intros c []. Qed.

Lemma opt_same_sym a b : Certificate.opt_same a b = Certificate.opt_same b a.
Proof. destruct a, b; cbn; try reflexivity. apply String.eqb_sym. Qed.

Lemma duplicate_sym c x : Certificate.duplicate c x = Certificate.duplicate x c.
Proof.
  unfold Certificate.duplicate, Certificate.has_id.
  rewrite (Nat.eqb_sym (_id x) (_id c)).
  now rewrite (opt_same_sym (certificateId c)), (opt_same_sym (serialNumber c)).
Qed.

Lemma duplicate_self c : Certificate.duplicate c c = false.
Proof.
  unfold Certificate.duplicate, Certificate.has_id. now rewrite Nat.eqb_refl.
Qed.

Lemma existsb_false_in {A} (f : A -> bool) xs x :
  existsb f xs = false -> In x xs -> f x = false.
Proof.
  intros H Hin. destruct (f x) eqn:Hf; [|reflexivity].
  assert (existsb f xs = true) by (apply existsb_exists; now exists x). congruence.
Qed.

Lemma in_replace c' cs x :
  In x (Certificate.replace c' cs) -> x = c' \/ In x cs.
Proof.
  induction cs as [|y rest IH]; cbn [Certificate.replace]; [tauto|].
  destruct (Certificate.has_id (_id c') y); cbn [In]; intuition auto.
Qed.

Lemma existsb_replace (f : t -> bool) c' cs :
  f c' = false -> existsb f cs = false -> existsb f (Certificate.replace c' cs) = false.
Proof.
  intros Hc. induction cs as [|y rest IH]; [reflexivity|].
  cbn [existsb Certificate.replace]. intros H. apply orb_false_iff in H as (Hy & Hrest).
  destruct (Certificate.has_id (_id c') y); cbn [existsb].
  - now rewrite Hc, Hrest.
  - now rewrite Hy, IH.
Qed.

(** What the store checks before a write, and what the write stores. *)
Lemma sound_written cs cs' c' :
  sound_list cs ->
  valid c' ->
  truthy (certificateId c') = true ->
  truthy (serialNumber c') = true ->
  truthy (verificationToken c') = true ->
  existsb (Certificate.duplicate c') cs = false ->
  (forall x, In x cs' -> x = c' \/ In x cs) ->
  (forall f, f c' = false -> existsb f cs = false -> existsb f cs' = false) ->
  sound_list cs'.
Proof.
  intros Hs Hvalid Hcid Hsn Htok Hdup Hin Hex x Hx.
  destruct (Hin x Hx) as [-> | Hold].
  - repeat split; try assumption. apply Hex; [apply duplicate_self | exact Hdup].
  - destruct (Hs x Hold) as (H1 & H2 & H3 & H4 & H5).
    repeat split; try assumption. apply Hex; [|exact H5].
    rewrite duplicate_sym. now apply (existsb_false_in _ cs).
Qed.

(** The validators see a populated reference as they see an id. *)
Lemma with_parties_valid h i c :
  valid c -> first_failure (checks (with_parties (Some h) (Some i) c)) = None.
Proof.
  unfold valid. rewrite !first_failure_forallb. unfold checks.
  cbn [forallb snd with_parties option_map title description type status holder holderName
       issuedBy issuerName issuingOrganization revocationReason score credits
       verificationHistory].
  intros H. repeat (apply andb_true_iff in H as [? H]).
  repeat match goal with
         | |- (_ && _)%bool = true =>
             apply andb_true_iff; split; [first [assumption | reflexivity]|]
         end.
  assumption.
Qed.

Section WithLib.
Context {L : Lib}.


(** The same of a document that was loaded with its two references
    populated, both users found: the checksum stored is that of the
    document with the populated holder. *)
Lemma save_populated_existing h i c w c0 :
  valid c -> persisted w c ->
  find (Certificate.has_id (_id c)) (World.certificates w) = Some c0 ->
  exists c' w',
    Certificate.save_populated (Some h) (Some i) c w = (Returns c', w') /\
    CertificateFacts.same_content c c' /\
    certificateId c' = certificateId c /\
    serialNumber c' = serialNumber c /\
    verificationToken c' = verificationToken c /\
    checksum c'
    = Some (sha256_hex (JSON_stringify (checksumData_of (Some (PopulatedWith h)) c))) /\
    World.certificates w' = Certificate.replace c' (World.certificates w) /\
    World.users w' = World.users w /\
    World.now w' = World.now w /\
    World.env w' = World.env w /\
    World.auditStoreUp w' = World.auditStoreUp w.
Proof.
  intros Hvalid (Hcid & Hsn & Htok & Hdup) Hfind.
  destruct (CertificateFacts.pre_save_of_spec (Some (PopulatedWith h)) c w)
    as (c' & w1 & Hpre & [e ->] & Hc & _ & _ & _ & Kcid & Ksn & Ktok & Hsum).
  specialize (Kcid Hcid). specialize (Ksn Hsn). specialize (Ktok Htok).
  assert (Hid : _id c' = _id c) by (unfold CertificateFacts.same_content in Hc; tauto).
  exists c'. eexists. split.
  { unfold Certificate.save_populated. rewrite (with_parties_valid h i c Hvalid).
    cbn [option_map]. rewrite (MonadFacts.bind_returns _ Hpre).
    unfold Certificate.write, bind, certificates, gets, update_certificates, modify, ret, throw.
    cbn [World.certificates World.set_entropy].
    rewrite (duplicate_ext c c' _ Hid Kcid Ksn), Hdup, Hid, Hfind.
    reflexivity. }
  split; [exact Hc|].
  cbn. repeat split; assumption.
Qed.

(** A reference that names no user is [null] once populated, and the
    save is refused. *)
Lemma save_populated_missing h i c w :
  h = None \/ i = None ->
  exists path, Certificate.save_populated h i c w = (Throws (ValidationError path), w).
Proof.
  intros Hmissing.
  destruct (first_failure (checks (with_parties h i c))) as [path|] eqn:Hff.
  - exists path. now apply CertificateFacts.save_populated_invalid.
  - exfalso. apply first_failure_forallb in Hff.
    unfold checks in Hff. cbn [forallb snd holder issuedBy with_parties] in Hff.
    repeat (apply andb_true_iff in Hff as [? Hff]).
    destruct Hmissing as [-> | ->]; cbn [option_map] in *; discriminate.
Qed.

(** A save that returns keeps the invariant. *)
Lemma write_sound isNew c w w' :
  sound w -> valid c ->
  truthy (certificateId c) = true ->
  truthy (serialNumber c) = true ->
  truthy (verificationToken c) = true ->
  Certificate.write isNew c w = (Returns tt, w') ->
  sound w' /\ World.users w' = World.users w.
Proof.
  intros Hs Hvalid Hcid Hsn Htok.
  unfold Certificate.write, bind, certificates, gets, throw, update_certificates, modify.
  destruct (existsb _ _) eqn:Hdup; [discriminate|].
  destruct (find _ (World.certificates w)); destruct isNew; try discriminate;
    intros H; injection H as <-; (split; [|reflexivity]);
    unfold sound; cbn [World.certificates World.set_certificates];
    apply (sound_written (World.certificates w) _ c Hs Hvalid Hcid Hsn Htok Hdup).
  - apply in_replace.
  - intros f. apply existsb_replace.
  - intros x Hx. apply in_app_or in Hx as [Hx | [<- | []]]; auto.
  - intros f Hc Hold. rewrite existsb_app, Hold. cbn [existsb]. now rewrite Hc.
Qed.

Lemma sound_same_stores w w' :
  CertificateFacts.same_stores w w' -> sound w -> sound w'.
Proof. intros [e ->] Hs. exact Hs. Qed.

Lemma save_sound isNew c w c' w' :
  sound w ->
  Certificate.save isNew c w = (Returns c', w') ->
  sound w' /\ World.users w' = World.users w.
Proof.
  intros Hs Hsave.
  pose proof (CertificateFacts.save_returns _ _ _ _ _ Hsave) as (Hvalid & Hc & w1 & Hpre & Hwrite).
  destruct (CertificateFacts.pre_save_spec c w)
    as (c1 & w2 & Hpre' & Hstores & _ & Hcid & Hsn & Htok & _).
  rewrite Hpre in Hpre'. injection Hpre' as <- <-.
  destruct (write_sound isNew c' w1 w' (sound_same_stores _ _ Hstores Hs)) as (Hs' & Hu);
    try assumption.
  - unfold valid. now rewrite (checks_same_content _ _ Hc).
  - split; [exact Hs'|]. rewrite Hu. destruct Hstores as [e ->]. reflexivity.
Qed.

End WithLib.

End StoreFacts.

(* ===================================================================== *)
(** * The invariant of the certificate collection is kept *)
(* ===================================================================== *)

Module StoreInvariant.

Import Http CertificateDoc.

(** A computation keeps the invariant when every run from a state that
    satisfies it ends, with a value or with an exception, in a state that
    satisfies it. *)
Definition keeps {A} (m : M A) : Prop :=
  forall w, StoreFacts.sound w -> StoreFacts.sound (snd (m w)).

Lemma keeps_ret {A} (a : A) : keeps (ret a).
Proof. intros w H. exact H. Qed.

Lemma keeps_throw {A} e : keeps (@throw A e).
Proof. intros w H. exact H. Qed.

Lemma keeps_lift {A} (o : Outcome A) : keeps (lift o).
Proof. intros w H. exact H. Qed.

Lemma keeps_gets {A} (f : World.t -> A) : keeps (gets f).
Proof. intros w H. exact H. Qed.

Lemma keeps_modify (f : World.t -> World.t) :
  (forall w, World.certificates (f w) = World.certificates w) -> keeps (modify f).
Proof. intros Hf w H. unfold StoreFacts.sound, modify. cbn [snd]. now rewrite Hf. Qed.

Lemma keeps_bind {A B} (m : M A) (k : A -> M B) :
  keeps m -> (forall a, keeps (k a)) -> keeps (bind m k).
Proof.
  intros Hm Hk w H. unfold bind. specialize (Hm w H).
  destruct (m w) as [[a|e] w']; cbn [snd] in *; [now apply Hk | exact Hm].
Qed.

(** The same, when the continuation needs what the first step found in a
    state that satisfies the invariant. *)
Lemma keeps_bind_found {A B} (P : A -> Prop) (m : M A) (k : A -> M B) :
  keeps m ->
  (forall w a w', StoreFacts.sound w -> m w = (Returns a, w') -> P a) ->
  (forall a, P a -> keeps (k a)) ->
  keeps (bind m k).
Proof.
  intros Hm HP Hk w H. unfold bind. specialize (Hm w H).
  destruct (m w) as [[a|e] w'] eqn:Hrun; cbn [snd] in *; [|exact Hm].
  apply Hk; [|exact Hm]. exact (HP w a w' H Hrun).
Qed.

Lemma keeps_try_catch {A} (m : M A) (h : Exn -> M A) :
  keeps m -> (forall e, keeps (h e)) -> keeps (try_catch m h).
Proof.
  intros Hm Hh w H. unfold try_catch. specialize (Hm w H).
  destruct (m w) as [[a|e] w']; cbn [snd] in *; [exact Hm | now apply Hh].
Qed.

Lemma keeps_log data : keeps (AuditLog.log data).
Proof.
  intros w H. destruct (AuditFacts.log_returns data w) as (r & w' & Hrun & Hprim & _).
  rewrite Hrun. unfold StoreFacts.sound. cbn [snd].
  now rewrite (AuditFacts.primary_certificates _ _ Hprim).
Qed.

Lemma keeps_randomBytes n : keeps (randomBytes n).
Proof. intros w H. exact H. Qed.

Lemma keeps_newObjectId : keeps newObjectId.
Proof. intros w H. exact H. Qed.

Lemma keeps_users : keeps users.
Proof. apply keeps_gets. Qed.

Lemma keeps_certificates : keeps certificates.
Proof. apply keeps_gets. Qed.

Lemma keeps_getenv : keeps getenv.
Proof. apply keeps_gets. Qed.

Lemma keeps_Date_now : keeps Date_now.
Proof. apply keeps_gets. Qed.

Lemma keeps_update_users f : keeps (update_users f).
Proof. apply keeps_modify. reflexivity. Qed.

Lemma keeps_console_error msg : keeps (console_error msg).
Proof. apply keeps_modify. reflexivity. Qed.

Create HintDb keep.
#[export] Hint Resolve keeps_users keeps_certificates keeps_getenv keeps_Date_now
  keeps_update_users keeps_console_error keeps_randomBytes keeps_newObjectId
  keeps_log : keep.

(** The invariant follows the structure of a computation. *)
Ltac keep :=
  repeat first
    [ apply keeps_ret
    | apply keeps_throw
    | apply keeps_lift
    | solve [auto with keep]
    | apply keeps_modify; intros ?; reflexivity
    | apply keeps_gets
    | apply keeps_bind; [| intros ?]
    | apply keeps_try_catch; [| intros ?]
    | match goal with
      | |- keeps (match ?x with _ => _ end) => destruct x
      end
    | progress cbv beta zeta ].

(** ** The writes of the certificate model *)

(** A write that the store refuses changes nothing. *)
Lemma write_throws isNew c w e w' :
  Certificate.write isNew c w = (Throws e, w') -> w' = w.
Proof.
  unfold Certificate.write, bind, certificates, gets, throw, update_certificates, modify.
  destruct (existsb _ _); [congruence|].
  destruct (find _ _); destruct isNew; congruence.
Qed.

Section WithLib.
Context {L : Lib}.

Lemma keeps_save isNew c : keeps (Certificate.save isNew c).
Proof.
  intros w H.
  destruct (Certificate.save isNew c w) as [[c'|e] w'] eqn:Hrun; cbn [snd].
  - exact (proj1 (StoreFacts.save_sound isNew c w c' w' H Hrun)).
  - revert Hrun. unfold Certificate.save.
    destruct (first_failure (checks c)); [intros Hrun; injection Hrun as _ <-; exact H|].
    destruct (CertificateFacts.pre_save_spec c w) as (c1 & w1 & Hpre & Hstores & _).
    rewrite (MonadFacts.bind_returns _ Hpre). unfold bind at 1.
    destruct (Certificate.write isNew c1 w1) as [[[]|e1] w2] eqn:Hwrite; [discriminate|].
    intros Hrun. injection Hrun as _ <-.
    rewrite (write_throws _ _ _ _ _ Hwrite).
    exact (StoreFacts.sound_same_stores _ _ Hstores H).
Qed.

(** The validators pass on a document with its two references populated
    only when they pass on the document with the references as stored,
    provided these are there. *)
Lemma with_parties_valid_inv h i c :
  holder c <> None -> issuedBy c <> None ->
  first_failure (checks (with_parties h i c)) = None -> StoreFacts.valid c.
Proof.
  unfold StoreFacts.valid. rewrite !StoreFacts.first_failure_forallb. unfold checks.
  cbn [forallb snd with_parties title description type status holder holderName
       issuedBy issuerName issuingOrganization revocationReason score credits
       verificationHistory].
  intros Hh Hi H. repeat (apply andb_true_iff in H as [? H]).
  destruct (holder c); [|congruence]. destruct (issuedBy c); [|congruence].
  repeat match goal with
         | |- (_ && _)%bool = true =>
             apply andb_true_iff; split; [first [assumption | reflexivity]|]
         end.
  assumption.
Qed.

Lemma keeps_save_populated h i c :
  holder c <> None -> issuedBy c <> None -> keeps (Certificate.save_populated h i c).
Proof.
  intros Hh Hi w H. unfold Certificate.save_populated.
  destruct (first_failure (checks (with_parties h i c))) eqn:Hff; [exact H|].
  pose proof (with_parties_valid_inv h i c Hh Hi Hff) as Hvalid.
  destruct (CertificateFacts.pre_save_of_spec (option_map PopulatedWith h) c w)
    as (c1 & w1 & Hpre & Hstores & Hc & Hcid & Hsn & Htok & _).
  rewrite (MonadFacts.bind_returns _ Hpre). unfold bind at 1.
  pose proof (StoreFacts.sound_same_stores _ _ Hstores H) as H1.
  destruct (Certificate.write false c1 w1) as [[[]|e1] w2] eqn:Hwrite; cbn [snd].
  - refine (proj1 (StoreFacts.write_sound false c1 w1 w2 H1 _ Hcid Hsn Htok Hwrite)).
    unfold StoreFacts.valid. now rewrite (StoreFacts.checks_same_content _ _ Hc).
  - now rewrite (write_throws _ _ _ _ _ Hwrite).
Qed.

(** [autoExpireCertificates] changes statuses from active to expired. *)
Lemma expired_valid c :
  StoreFacts.valid c -> StoreFacts.valid (set_status EXPIRED c).
Proof.
  unfold StoreFacts.valid. rewrite !StoreFacts.first_failure_forallb. unfold checks.
  cbn [forallb snd set_status title description type status holder holderName
       issuedBy issuerName issuingOrganization revocationReason score credits
       verificationHistory].
  intros H. repeat (apply andb_true_iff in H as [? H]).
  repeat match goal with
         | |- (_ && _)%bool = true =>
             apply andb_true_iff; split; [first [assumption | reflexivity]|]
         end.
  assumption.
Qed.

Lemma keeps_autoExpireCertificates : keeps Certificate.autoExpireCertificates.
Proof.
  intros w H. unfold Certificate.autoExpireCertificates, bind, Date_now, gets,
    update_certificates, modify, StoreFacts.sound. cbn [snd World.certificates
    World.set_certificates].
  set (f := fun c => if (status c =? ACTIVE) && isExpired (World.now w) c
                     then set_status EXPIRED c else c).
  assert (Hdup : forall x y, Certificate.duplicate (f x) (f y) = Certificate.duplicate x y).
  { intros x y. unfold f.
    destruct ((status x =? ACTIVE) && _), ((status y =? ACTIVE) && _); reflexivity. }
  intros c' Hin. apply in_map_iff in Hin as (c & <- & Hin).
  destruct (H c Hin) as (Hvalid & Hcid & Hsn & Htok & Hnodup).
  split.
  { unfold f. destruct ((status c =? ACTIVE) && _); [now apply expired_valid | exact Hvalid]. }
  assert (Hsame : forall g : t -> option string,
             (forall x, g (set_status EXPIRED x) = g x) -> g (f c) = g c).
  { intros g Hg. unfold f. destruct ((status c =? ACTIVE) && _); [apply Hg | reflexivity]. }
  rewrite (Hsame certificateId), (Hsame serialNumber), (Hsame verificationToken)
    by reflexivity.
  repeat split; try assumption.
  rewrite <- Hnodup. clear -Hdup.
  induction (World.certificates w) as [|y rest IH]; [reflexivity|].
  cbn [map existsb]. now rewrite Hdup, IH.
Qed.

#[local] Hint Resolve keeps_save keeps_autoExpireCertificates : keep.

(** ** The middleware and the handlers *)

Lemma keeps_authenticate req : keeps (Auth.authenticate req).
Proof.
  unfold Auth.authenticate, Jwt.verifyAccessToken, User.findById. keep.
Qed.

Lemma keeps_authorize permission req : keeps (Auth.authorize permission req).
Proof. unfold Auth.authorize. keep. Qed.

Lemma keeps_authorizeAny permissions req : keeps (Auth.authorizeAny permissions req).
Proof. unfold Auth.authorizeAny. keep. Qed.

Lemma keeps_authorizeRole roles req : keeps (Auth.authorizeRole roles req).
Proof. unfold Auth.authorizeRole. keep. Qed.

Lemma keeps_authorizeOwnerOrAdmin permission owner id req :
  keeps (Auth.authorizeOwnerOrAdmin permission owner id req).
Proof. unfold Auth.authorizeOwnerOrAdmin. keep. Qed.

Lemma keeps_generateTokenPair u : keeps (Jwt.generateTokenPair u).
Proof.
  unfold Jwt.generateTokenPair, Jwt.generateAccessToken, Jwt.generateRefreshToken. keep.
Qed.

#[local] Hint Resolve keeps_generateTokenPair : keep.

Lemma keeps_login req email password : keeps (AuthController.login req email password).
Proof.
  unfold AuthController.login, User.findByEmailWithPassword, User.findOne_email,
    User.comparePassword, User.incLoginAttempts, User.resetLoginAttempts, User.updateOne,
    User.save.
  keep.
Qed.

Lemma keeps_refreshToken req token : keeps (AuthController.refreshToken req token).
Proof.
  unfold AuthController.refreshToken, Jwt.verifyRefreshToken, User.findById. keep.
Qed.

Lemma keeps_register req body : keeps (AuthController.register req body).
Proof.
  unfold AuthController.register, User.findOne_email, User.create. keep.
Qed.

Lemma keeps_logout req : keeps (AuthController.logout req).
Proof. unfold AuthController.logout, req_user. keep. Qed.

Lemma keeps_createUser req body : keeps (UserController.createUser req body).
Proof.
  unfold UserController.createUser, req_user, User.findOne_email, User.create. keep.
Qed.

Lemma keeps_assignRole req id role : keeps (UserController.assignRole req id role).
Proof.
  unfold UserController.assignRole, req_user, User.findById, User.save. keep.
Qed.

Lemma keeps_getUser req id : keeps (UserController.getUser req id).
Proof. unfold UserController.getUser, User.findById. keep. Qed.

Lemma keeps_toggleUserStatus req id isActive :
  keeps (UserController.toggleUserStatus req id isActive).
Proof.
  unfold UserController.toggleUserStatus, req_user, User.findById_string,
    User.castObjectId, User.findById, User.save_isActive, User.save.
  keep.
Qed.

Lemma keeps_deleteUser req id : keeps (UserController.deleteUser req id).
Proof.
  unfold UserController.deleteUser, req_user, User.findByIdAndDelete_string,
    User.castObjectId, User.findByIdAndDelete.
  keep.
Qed.

Lemma keeps_createCertificate req body :
  keeps (CertificateController.createCertificate req body).
Proof.
  unfold CertificateController.createCertificate, req_user,
    CertificateController.resolve_holder, CertificateController.sign_and_activate,
    User.findById, User.findOne_email, Certificate.construct.
  keep.
Qed.

Lemma keeps_revokeCertificate req id reason :
  keeps (CertificateController.revokeCertificate req id reason).
Proof.
  unfold CertificateController.revokeCertificate, req_user, Certificate.findById. keep.
Qed.

Lemma keeps_getCertificate req id : keeps (CertificateController.getCertificate req id).
Proof.
  unfold CertificateController.getCertificate, Certificate.findById, req_user. keep.
Qed.

(** [verifyCertificate] saves the certificate that the token found: a
    stored one, which has its two references. *)
Lemma keeps_verifyCertificate req token :
  keeps (CertificateController.verifyCertificate req token).
Proof.
  unfold CertificateController.verifyCertificate.
  apply keeps_try_catch; [|intros e; keep].
  apply keeps_bind_found
    with (P := fun found => forall c, found = Some c -> StoreFacts.valid c).
  - unfold Certificate.findOne_verificationToken. keep.
  - intros w found w' Hsound Hrun c ->.
    unfold Certificate.findOne_verificationToken, bind, certificates, gets, ret in Hrun.
    injection Hrun as Hfind _. apply find_some in Hfind as [Hin _].
    exact (proj1 (Hsound c Hin)).
  - intros [c|] Hfound; [|keep].
    specialize (Hfound c eq_refl).
    assert (Hrefs : holder c <> None /\ issuedBy c <> None).
    { unfold StoreFacts.valid in Hfound.
      apply StoreFacts.first_failure_forallb in Hfound. unfold checks in Hfound.
      cbn [forallb snd] in Hfound. repeat (apply andb_true_iff in Hfound as [? Hfound]).
      destruct (holder c), (issuedBy c); split; congruence. }
    destruct Hrefs as (Hh & Hi).
    apply keeps_bind; [keep | intros us].
    apply keeps_bind; [keep | intros env].
    apply keeps_bind; [keep | intros now].
    apply keeps_bind; [keep | intros [verdict message]].
    apply keeps_bind; [now apply keeps_save_populated | intros saved].
    keep.
Qed.

(** The invariant holds of the empty collection, and every middleware and
    every handler keeps it, whatever the request and however the handler
    ends. *)
Theorem store_stays_sound :
  StoreFacts.sound_list [] /\
  keeps Certificate.autoExpireCertificates /\
  (forall req, keeps (Auth.authenticate req)) /\
  (forall permission req, keeps (Auth.authorize permission req)) /\
  (forall permissions req, keeps (Auth.authorizeAny permissions req)) /\
  (forall roles req, keeps (Auth.authorizeRole roles req)) /\
  (forall permission owner id req,
      keeps (Auth.authorizeOwnerOrAdmin permission owner id req)) /\
  (forall req email password, keeps (AuthController.login req email password)) /\
  (forall req token, keeps (AuthController.refreshToken req token)) /\
  (forall req body, keeps (AuthController.register req body)) /\
  (forall req, keeps (AuthController.logout req)) /\
  (forall req body, keeps (UserController.createUser req body)) /\
  (forall req id role, keeps (UserController.assignRole req id role)) /\
  (forall req id, keeps (UserController.getUser req id)) /\
  (forall req id isActive, keeps (UserController.toggleUserStatus req id isActive)) /\
  (forall req id, keeps (UserController.deleteUser req id)) /\
  (forall req body, keeps (CertificateController.createCertificate req body)) /\
  (forall req id reason, keeps (CertificateController.revokeCertificate req id reason)) /\
  (forall req id, keeps (CertificateController.getCertificate req id)) /\
  (forall req token, keeps (CertificateController.verifyCertificate req token)).
Proof.
  repeat match goal with |- _ /\ _ => split end; intros;
    auto using StoreFacts.sound_nil, keeps_autoExpireCertificates, keeps_authenticate,
      keeps_authorize, keeps_authorizeAny, keeps_authorizeRole,
      keeps_authorizeOwnerOrAdmin, keeps_login, keeps_refreshToken, keeps_register,
      keeps_logout, keeps_createUser, keeps_assignRole, keeps_getUser,
      keeps_toggleUserStatus, keeps_deleteUser, keeps_createCertificate,
      keeps_revokeCertificate, keeps_getCertificate, keeps_verifyCertificate.
Qed.


End WithLib.

End StoreInvariant.


(* ===================================================================== *)
(** * Revocation *)
(* ===================================================================== *)

Module Revocation.

Import Http CertificateController.

Section WithLib.
Context {L : Lib}.








End WithLib.

End Revocation.

Module RevocationExample.

Import Http CertificateController.

Definition active_certificate : CertificateDoc.t :=
  Sample.certificate 10 "4f1c" CertificateDoc.ACTIVE None.

Definition world : World.t := Sample.world [active_certificate] 5000.








End RevocationExample.

(* ===================================================================== *)
(** * The permission check on arbitrary role strings *)
(* ===================================================================== *)

Module PermissionCheck.

Import Rbac.

(** C6, at a role string that names a property every object inherits.
    ["constructor"] is none of the five roles; [ROLE_PERMISSIONS[role]] is
    then [Object], which is truthy, so the [|| []] default does not apply,
    and the call of [includes] on it raises a [TypeError]: the check
    neither returns false nor refrains from throwing. *)
Theorem hasPermission_throws_on_inherited_key :
  ~ In "constructor" ROLES_values /\
  own "constructor" ROLE_PERMISSIONS = None /\
  get "constructor" = PInherited /\
  hasPermission "constructor" CERTIFICATE_READ
  = Throws (TypeError "permissions.includes is not a function").
Proof.
  split; [now apply JsFacts.includes_false|].
  repeat split; reflexivity.
Qed.

(** X1. Away from the inherited property names the check is the
    membership test of the catalogue: it returns, and returns true exactly
    when the role's array holds the permission; [super_admin] holds every
    permission constant; an unknown role or permission yields false. *)
Theorem hasPermission_on_plain_roles role permission :
  includes role Object_prototype_keys = false ->
  (exists b, hasPermission role permission = Returns b /\
             (b = true <-> In permission (entry role))) /\
  (In permission PERMISSIONS_values ->
   hasPermission SUPER_ADMIN permission = Returns true) /\
  (~ In role ROLES_values -> hasPermission role permission = Returns false) /\
  (~ In permission PERMISSIONS_values -> hasPermission role permission = Returns false).
Proof.
  intros Hproto. repeat split.
  - exists (includes permission (entry role)). split.
    + now apply RbacFacts.hasPermission_entry.
    + apply JsFacts.includes_In.
  - apply RbacFacts.super_admin_holds_all.
  - intros Hrole. now apply RbacFacts.hasPermission_unknown_role.
  - intros Hperm. now apply RbacFacts.hasPermission_unknown_permission.
Qed.

Lemma hasPermission_on_plain_roles_witness :
  hasPermission ISSUER CERTIFICATE_SIGN = Returns true /\
  hasPermission HOLDER CERTIFICATE_CREATE = Returns false /\
  hasPermission "unknown_role" CERTIFICATE_READ = Returns false.
Proof.
  destruct (hasPermission_on_plain_roles ISSUER CERTIFICATE_SIGN eq_refl)
    as ((b & Hb & Hiff) & _).
  destruct (hasPermission_on_plain_roles HOLDER CERTIFICATE_CREATE eq_refl)
    as ((b' & Hb' & Hiff') & _).
  destruct (hasPermission_on_plain_roles "unknown_role" CERTIFICATE_READ eq_refl)
    as (_ & _ & Hunknown & _).
  split; [|split].
  - rewrite Hb. f_equal. apply Hiff. vm_compute. tauto.
  - rewrite Hb'. f_equal. destruct b'; [|reflexivity].
    exfalso. assert (H : In CERTIFICATE_CREATE (entry HOLDER)) by now apply Hiff'.
    apply JsFacts.includes_In in H. discriminate H.
  - apply Hunknown. apply JsFacts.includes_false. reflexivity.
Defined.

End PermissionCheck.

(* ===================================================================== *)
(** * Identifiers and checksum across saves *)
(* ===================================================================== *)

Module Integrity.

Import CertificateDoc.

Section WithLib.
Context {L : Lib}.

(** What a save that returns has done to the document. *)
Lemma save_spec isNew c w c' w' :
  Certificate.save isNew c w = (Returns c', w') ->
  CertificateFacts.same_content c c' /\
  truthy (certificateId c') = true /\
  truthy (serialNumber c') = true /\
  truthy (verificationToken c') = true /\
  (truthy (certificateId c) = true -> certificateId c' = certificateId c) /\
  (truthy (serialNumber c) = true -> serialNumber c' = serialNumber c) /\
  (truthy (verificationToken c) = true -> verificationToken c' = verificationToken c) /\
  checksum c' = Some (sha256_hex (JSON_stringify (checksumData c))).
Proof.
  intros Hsave.
  apply CertificateFacts.save_returns in Hsave as (_ & _ & w1 & Hpre & _).
  destruct (CertificateFacts.pre_save_spec c w) as (c1 & w2 & Hpre' & _ & Hrest).
  rewrite Hpre in Hpre'. injection Hpre' as <- <-.
  exact Hrest.
Qed.

End WithLib.

End Integrity.

(* ===================================================================== *)
(** * Creation *)
(* ===================================================================== *)

Module Creation.

Import Http CertificateController.

Section WithLib.
Context {L : Lib}.

Lemma resolve_holder_refusal body w r w' :
  resolve_holder body w = (Returns (inl r), w') -> status r = 404%Z.
Proof.
  unfold resolve_holder.
  destruct (truthy (b_holderEmail body) && _).
  - intros H. apply MonadFacts.bind_inv in H as (found & w0 & _ & H).
    destruct found; unfold ret in H; [discriminate|].
    injection H as <- _. reflexivity.
  - unfold ret. discriminate.
Qed.

Lemma req_user_returns req w caller w' :
  req_user req w = (Returns caller, w') -> user req = Some caller /\ w' = w.
Proof.
  unfold req_user. destruct (user req); unfold ret, throw; intros H.
  - injection H as <- <-. now split.
  - discriminate.
Qed.

Lemma lift_returns {A} (o : Outcome A) w a w' :
  lift o w = (Returns a, w') -> o = Returns a /\ w' = w.
Proof. unfold lift. intros H. injection H as -> <-. now split. Qed.

(** The only path of [createCertificate] that answers 201. *)
Lemma createCertificate_created req body w response w' :
  createCertificate req body w = (Returns response, w') ->
  status response = 201%Z ->
  exists caller holderId name nid w0 doc w1 saved w2 canSign certificate w3 entry,
    user req = Some caller /\
    resolve_holder body w = (Returns (inr (Some holderId, name, nid)), w0) /\
    Certificate.construct (fields caller body (Some holderId) name nid) w0
      = (Returns doc, w1) /\
    Certificate.save true doc w1 = (Returns saved, w2) /\
    Rbac.hasPermission (UserDoc.role caller) Rbac.CERTIFICATE_SIGN = Returns canSign /\
    (if canSign then sign_and_activate saved else ret saved) w2
      = (Returns certificate, w3) /\
    AuditLog.log
      (audit req AuditEntry.CERT_CREATE None (Some caller) true
         (Some "certificate") (Some (CertificateDoc._id certificate))
         (CertificateDoc.title certificate) None None
         (Some [("certificateId", template (CertificateDoc.certificateId certificate));
                ("type", template (CertificateDoc.type certificate));
                ("holder", template (CertificateDoc.holderName certificate));
                ("status", CertificateDoc.status certificate)]) None) w3
      = (Returns entry, w') /\
    response = ok 201 (Some "Certificate created successfully.")
                 (WithCertificate certificate).
Proof.
  unfold createCertificate, try_catch.
  match goal with |- context [match ?m w with _ => _ end] => destruct (m w) as [[resp|e] w''] eqn:Hrun end.
  2: { unfold ret. intros H. injection H as <- <-. discriminate. }
  intros H Hstatus. injection H as -> ->.
  apply MonadFacts.bind_inv in Hrun as (resolved & w0 & Hres & Hrun).
  destruct resolved as [r | [[[holderId|] name] nid]].
  - unfold ret in Hrun. injection Hrun as <- <-.
    apply resolve_holder_refusal in Hres. congruence.
  - apply MonadFacts.bind_inv in Hrun as (caller & w0' & Hcaller & Hrun).
    apply req_user_returns in Hcaller as (Hcaller & ->).
    apply MonadFacts.bind_inv in Hrun as (doc & w1 & Hdoc & Hrun).
    apply MonadFacts.bind_inv in Hrun as (saved & w2 & Hsave & Hrun).
    apply MonadFacts.bind_inv in Hrun as (canSign & w2' & Hperm & Hrun).
    apply lift_returns in Hperm as (Hperm & ->).
    apply MonadFacts.bind_inv in Hrun as (certificate & w3 & Hsign & Hrun).
    apply MonadFacts.bind_inv in Hrun as (entry & w4 & Hlog & Hrun).
    unfold ret in Hrun. injection Hrun as <- <-.
    exists caller, holderId, name, nid, w0, doc, w1, saved, w2, canSign, certificate, w3, entry.
    repeat split; assumption.
  - unfold ret in Hrun. injection Hrun as <- <-. discriminate.
Qed.

Lemma construct_returns f w doc w' :
  Certificate.construct f w = (Returns doc, w') ->
  CertificateDoc.status doc
    = match Certificate.f_status f with Some s => s | None => CertificateDoc.DRAFT end /\
  CertificateDoc.digitalSignature doc = None /\
  World.certificates w' = World.certificates w.
Proof.
  unfold Certificate.construct, bind, newObjectId, Date_now, gets, ret.
  intros H. injection H as <- <-. repeat split.
Qed.

Lemma generate_qr_content c :
  CertificateFacts.same_content
    (CertificateDoc.set_qrCode (CertificateDoc.qrCode (generate_qr c)) c) (generate_qr c) /\
  CertificateDoc.status (generate_qr c) = CertificateDoc.status c /\
  CertificateDoc.digitalSignature (generate_qr c) = CertificateDoc.digitalSignature c.
Proof.
  unfold generate_qr. destruct QRCode_toDataURL as [toDataURL|].
  - destruct (toDataURL _); repeat split.
  - repeat split.
Qed.

(** What is in the collection after a write that returned. *)
Lemma write_returns isNew c w w' :
  Certificate.write isNew c w = (Returns tt, w') ->
  find (Certificate.has_id (CertificateDoc._id c)) (World.certificates w') = Some c.
Proof.
  unfold Certificate.write, bind, certificates, gets, throw, update_certificates, modify.
  destruct (existsb _ _); [discriminate|].
  destruct (find _ (World.certificates w)) as [c0|] eqn:Hfind; destruct isNew;
    try discriminate; intros H; injection H as <-; cbn [World.certificates World.set_certificates].
  - eapply StoreFacts.find_replace; [exact Hfind | reflexivity].
  - induction (World.certificates w) as [|x rest IH]; cbn [app find] in *.
    + unfold Certificate.has_id. now rewrite Nat.eqb_refl.
    + destruct (Certificate.has_id _ x); [discriminate | now apply IH].
Qed.

Lemma save_stored isNew c w c' w' :
  Certificate.save isNew c w = (Returns c', w') ->
  find (Certificate.has_id (CertificateDoc._id c')) (World.certificates w') = Some c'.
Proof.
  intros H. apply CertificateFacts.save_returns in H as (_ & _ & w1 & _ & Hwrite).
  eapply write_returns. exact Hwrite.
Qed.

Lemma write_env isNew c w w' :
  Certificate.write isNew c w = (Returns tt, w') -> World.env w' = World.env w.
Proof.
  unfold Certificate.write, bind, certificates, gets, throw, update_certificates, modify.
  destruct (existsb _ _); [discriminate|].
  destruct (find _ _); destruct isNew; try discriminate;
    intros H; injection H as <-; reflexivity.
Qed.

Lemma save_env isNew c w c' w' :
  Certificate.save isNew c w = (Returns c', w') -> World.env w' = World.env w.
Proof.
  intros H. apply CertificateFacts.save_returns in H as (_ & _ & w1 & Hpre & Hwrite).
  destruct (CertificateFacts.pre_save_spec c w) as (c1 & w2 & Hpre' & [e ->] & _).
  rewrite Hpre in Hpre'. injection Hpre' as _ ->.
  now rewrite (write_env _ _ _ _ Hwrite).
Qed.

Lemma resolve_holder_world body w r w' :
  resolve_holder body w = (Returns r, w') -> w' = w.
Proof.
  unfold resolve_holder.
  destruct (truthy (b_holderEmail body) && _).
  - intros H. apply MonadFacts.bind_inv in H as (found & w0 & Hfind & H).
    unfold User.findOne_email, bind, users, gets, ret in Hfind.
    injection Hfind as _ <-.
    destruct found; unfold ret in H; injection H as _ <-; reflexivity.
  - unfold ret. intros H. injection H as _ <-. reflexivity.
Qed.

Lemma construct_env f w doc w' :
  Certificate.construct f w = (Returns doc, w') -> World.env w' = World.env w.
Proof.
  unfold Certificate.construct, bind, newObjectId, Date_now, gets, ret.
  intros H. injection H as _ <-. reflexivity.
Qed.

(** The auto-sign block on a document that was just saved. *)
Lemma sign_and_activate_returns saved w certificate w' :
  sign_and_activate saved w = (Returns certificate, w') ->
  CertificateDoc.status certificate = CertificateDoc.ACTIVE /\
  CertificateDoc.digitalSignature certificate
    = Some (hmac_sha256_hex (SIGNING_SECRET (World.env w)) (Certificate.payload saved)) /\
  find (Certificate.has_id (CertificateDoc._id certificate)) (World.certificates w')
    = Some certificate.
Proof.
  unfold sign_and_activate. intros H.
  apply MonadFacts.bind_inv in H as (env & w0 & Henv & H).
  unfold getenv, gets in Henv. injection Henv as <- <-.
  pose proof (save_stored _ _ _ _ _ H) as Hstored.
  apply CertificateFacts.save_returns in H as (_ & Hc & _).
  match type of Hc with
  | CertificateFacts.same_content (generate_qr ?a) _ =>
      destruct (generate_qr_content a) as (_ & Hs & Hd)
  end.
  unfold CertificateFacts.same_content in Hc.
  repeat split.
  - transitivity (CertificateDoc.status
                    (generate_qr
                       (CertificateDoc.set_status CertificateDoc.ACTIVE
                          (snd (Certificate.signCertificate
                                  (SIGNING_SECRET (World.env w)) saved)))));
      [tauto | rewrite Hs; reflexivity].
  - transitivity (CertificateDoc.digitalSignature
                    (generate_qr
                       (CertificateDoc.set_status CertificateDoc.ACTIVE
                          (snd (Certificate.signCertificate
                                  (SIGNING_SECRET (World.env w)) saved)))));
      [tauto | rewrite Hd; reflexivity].
  - exact Hstored.
Qed.

(** C8. Whenever [createCertificate] answers 201: the document it first
    saved has status pending and no signature; the permission check of the
    caller's role for certificate:sign returned; the certificate in the
    response is the one in the collection, and it is active, and carries
    the HMAC of the first saved document's payload, exactly when the
    check returned true; when it returned false the certificate is the
    first saved document, pending and unsigned. *)
Theorem creation_signs_iff_permitted req body w response w' :
  createCertificate req body w = (Returns response, w') ->
  status response = 201%Z ->
  exists caller first certificate canSign,
    user req = Some caller /\
    Rbac.hasPermission (UserDoc.role caller) Rbac.CERTIFICATE_SIGN = Returns canSign /\
    (exists doc w0 w1, Certificate.save true doc w0 = (Returns first, w1)) /\
    CertificateDoc.status first = CertificateDoc.PENDING /\
    CertificateDoc.digitalSignature first = None /\
    data response = WithCertificate certificate /\
    Certificate.findById (CertificateDoc._id certificate) w'
      = (Returns (Some certificate), w') /\
    (CertificateDoc.status certificate = CertificateDoc.ACTIVE <-> canSign = true) /\
    (CertificateDoc.digitalSignature certificate <> None <-> canSign = true) /\
    (canSign = true ->
     CertificateDoc.digitalSignature certificate
       = Some (hmac_sha256_hex (SIGNING_SECRET (World.env w)) (Certificate.payload first))) /\
    (canSign = false -> certificate = first).
Proof.
  intros Hrun Hstatus.
  destruct (createCertificate_created req body w response w' Hrun Hstatus)
    as (caller & holderId & name & nid & w0 & doc & w1 & saved & w2 & canSign &
        certificate & w3 & entry & Hcaller & Hres & Hdoc & Hsave & Hperm & Hsign &
        Hlog & ->).
  exists caller, saved, certificate, canSign.
  destruct (construct_returns _ _ _ _ Hdoc) as (Hpending & Hnosig & _).
  cbn [fields Certificate.f_status] in Hpending.
  pose proof (CertificateFacts.save_returns _ _ _ _ _ Hsave) as (_ & Hc & _).
  assert (Hfirst : CertificateDoc.status saved = CertificateDoc.PENDING)
    by (unfold CertificateFacts.same_content in Hc; rewrite <- Hpending; tauto).
  assert (Hfirst' : CertificateDoc.digitalSignature saved = None)
    by (unfold CertificateFacts.same_content in Hc; rewrite <- Hnosig; tauto).
  assert (Henv : World.env w2 = World.env w).
  { rewrite (save_env _ _ _ _ _ Hsave), (construct_env _ _ _ _ Hdoc).
    now rewrite (resolve_holder_world _ _ _ _ Hres). }
  destruct (AuditFacts.log_returns
              (audit req AuditEntry.CERT_CREATE None (Some caller) true
                 (Some "certificate") (Some (CertificateDoc._id certificate))
                 (CertificateDoc.title certificate) None None
                 (Some [("certificateId", template (CertificateDoc.certificateId certificate));
                        ("type", template (CertificateDoc.type certificate));
                        ("holder", template (CertificateDoc.holderName certificate));
                        ("status", CertificateDoc.status certificate)]) None) w3)
    as (r & w4 & Hlog' & Hprim & _).
  rewrite Hlog in Hlog'. injection Hlog' as <- <-.
  assert (Hlookup : forall c,
             find (Certificate.has_id (CertificateDoc._id c)) (World.certificates w3) = Some c ->
             Certificate.findById (CertificateDoc._id c) w' = (Returns (Some c), w')).
  { intros c Hc'. unfold Certificate.findById, bind, certificates, gets, ret.
    now rewrite (AuditFacts.primary_certificates _ _ Hprim), Hc'. }
  split; [exact Hcaller|]. split; [exact Hperm|].
  split; [now exists doc, w1, w2|].
  split; [exact Hfirst|]. split; [exact Hfirst'|]. split; [reflexivity|].
  destruct canSign.
  - destruct (sign_and_activate_returns _ _ _ _ Hsign) as (Hactive & Hsig & Hstored).
    rewrite Henv in Hsig.
    split; [now apply Hlookup|].
    split; [tauto|]. split; [split; [reflexivity | congruence]|].
    split; [intros _; exact Hsig | discriminate].
  - unfold ret in Hsign. injection Hsign as <- <-.
    split; [apply Hlookup; eapply save_stored; exact Hsave|].
    split; [split; [rewrite Hfirst; discriminate | discriminate]|].
    split; [split; [rewrite Hfirst'; congruence | discriminate]|].
    split; [discriminate | reflexivity].
Qed.

End WithLib.

End Creation.

Module CreationExample.

Import Http CertificateController.

Definition body : CreateBody :=
  {| b_title := Some "Python Certification";
     b_description := None;
     b_type := Some "professional";
     b_holderId := None;
     b_holderEmail := Some "holder1@test.com";
     b_holderName := None;
     b_holderNationalId := None;
     b_issuingOrganization := Some "Tech Academy";
     b_issuingDepartment := None;
     b_expiresAt := None;
     b_score := None;
     b_credits := None |}.

(** The handler called for the issuer, who holds certificate:sign, and for
    the verifier, who does not. *)
Definition by_issuer : Outcome Response * World.t :=
  Eval vm_compute in
    createCertificate (L := Sample.lib) (Sample.request (Some Sample.issuer)) body
      (Sample.world [] 5000).

Definition by_verifier : Outcome Response * World.t :=
  Eval vm_compute in
    createCertificate (L := Sample.lib) (Sample.request (Some Sample.verifier)) body
      (Sample.world [] 5000).

Definition response_of (run : Outcome Response * World.t) : Response :=
  match fst run with
  | Returns r => r
  | Throws _ => failure 500 "" None
  end.

Lemma by_issuer_run :
  createCertificate (L := Sample.lib) (Sample.request (Some Sample.issuer)) body
    (Sample.world [] 5000)
  = (Returns (response_of by_issuer), snd by_issuer).
Proof. vm_compute. reflexivity. Qed.

Lemma by_verifier_run :
  createCertificate (L := Sample.lib) (Sample.request (Some Sample.verifier)) body
    (Sample.world [] 5000)
  = (Returns (response_of by_verifier), snd by_verifier).
Proof. vm_compute. reflexivity. Qed.

Lemma creation_witness :
  (exists certificate,
      data (response_of by_issuer) = WithCertificate certificate /\
      CertificateDoc.status certificate = "active" /\
      CertificateDoc.digitalSignature certificate <> None) /\
  (exists certificate,
      data (response_of by_verifier) = WithCertificate certificate /\
      CertificateDoc.status certificate = "pending" /\
      CertificateDoc.digitalSignature certificate = None).
Proof.
  split.
  - destruct (@Creation.creation_signs_iff_permitted Sample.lib _ _ _ _ _
                by_issuer_run eq_refl)
      as (caller & first & certificate & canSign & Hcaller & Hperm & _ & _ & _ &
          Hdata & _ & Hstatus & Hsig & _).
    injection Hcaller as <-.
    assert (HcanSign : canSign = true) by (cbv in Hperm; congruence).
    exists certificate. split; [exact Hdata|]. split.
    + now apply Hstatus.
    + now apply Hsig.
  - destruct (@Creation.creation_signs_iff_permitted Sample.lib _ _ _ _ _
                by_verifier_run eq_refl)
      as (caller & first & certificate & canSign & Hcaller & Hperm & _ & Hpending &
          Hnone & Hdata & _ & _ & _ & _ & Hsame).
    injection Hcaller as <-.
    assert (HcanSign : canSign = false) by (cbv in Hperm; congruence).
    exists certificate. split; [exact Hdata|].
    rewrite (Hsame HcanSign). now split.
Defined.

End CreationExample.

(* ===================================================================== *)
(** * The checksum of a certificate that is verified *)
(* ===================================================================== *)

Module IntegrityExample.

Import Http CertificateController.

(** The certificate that the issuer of [CreationExample] obtained, and its
    token. *)
Definition issued : CertificateDoc.t :=
  Eval vm_compute in
    match data (CreationExample.response_of CreationExample.by_issuer) with
    | WithCertificate c => c
    | _ => Sample.certificate 0 "" "" None
    end.

Definition issued_token : string :=
  Eval vm_compute in template (CertificateDoc.verificationToken issued).

Lemma issued_data :
  data (CreationExample.response_of CreationExample.by_issuer) = WithCertificate issued.
Proof. vm_compute. reflexivity. Qed.

Lemma issued_token_carried : CertificateDoc.verificationToken issued = Some issued_token.
Proof. vm_compute. reflexivity. Qed.

Lemma issued_found :
  Certificate.findOne_verificationToken issued_token (snd CreationExample.by_issuer)
  = (Returns (Some issued), snd CreationExample.by_issuer).
Proof. vm_compute. reflexivity. Qed.

(** The state after one public verification of the certificate, by a
    visitor who is not signed in, and the certificate as it is stored
    then. *)
Definition verified_once : World.t :=
  Eval vm_compute in
    snd (verifyCertificate (L := Sample.lib) (Sample.request None) issued_token
           (snd CreationExample.by_issuer)).

Definition stored_then : CertificateDoc.t :=
  Eval vm_compute in
    match find (Certificate.has_id (CertificateDoc._id issued))
            (World.certificates verified_once) with
    | Some c => c
    | None => issued
    end.

Definition reported (run : Outcome Response * World.t) : option string :=
  match fst run with
  | Returns r => result r
  | Throws _ => None
  end.

(** C2, at a certificate that the issuer created and a visitor verified
    once. The creation stored the certificate with its checksum and the
    signature over it, and the verification reported it valid. The save
    of that verification kept the three identifiers, but it ran the hook
    on the document with its holder populated: the stored certificate,
    with the same title, holder, holder name, organization, date and type
    and the same signature, has another checksum than at its creation.
    The signature no longer verifies, and the next verification of the
    same token reports the certificate invalid. *)
Theorem verification_rewrites_the_checksum :
  createCertificate (L := Sample.lib) (Sample.request (Some Sample.issuer))
    CreationExample.body (Sample.world [] 5000)
  = (Returns (ok 201 (Some "Certificate created successfully.") (WithCertificate issued)),
     snd CreationExample.by_issuer) /\
  Certificate.findById (CertificateDoc._id issued) (snd CreationExample.by_issuer)
  = (Returns (Some issued), snd CreationExample.by_issuer) /\
  Certificate.verifySignature (L := Sample.lib) "test-cert-signing-2024" issued
  = Returns true /\
  reported (verifyCertificate (L := Sample.lib) (Sample.request None) issued_token
              (snd CreationExample.by_issuer)) = Some "valid" /\
  Certificate.findById (CertificateDoc._id issued) verified_once
  = (Returns (Some stored_then), verified_once) /\
  CertificateDoc.certificateId stored_then = CertificateDoc.certificateId issued /\
  CertificateDoc.serialNumber stored_then = CertificateDoc.serialNumber issued /\
  CertificateDoc.verificationToken stored_then = CertificateDoc.verificationToken issued /\
  CertificateDoc.checksumData stored_then = CertificateDoc.checksumData issued /\
  CertificateDoc.digitalSignature stored_then = CertificateDoc.digitalSignature issued /\
  CertificateDoc.status stored_then = CertificateDoc.status issued /\
  CertificateDoc.checksum stored_then <> CertificateDoc.checksum issued /\
  Certificate.verifySignature (L := Sample.lib) "test-cert-signing-2024" stored_then
  = Returns false /\
  reported (verifyCertificate (L := Sample.lib) (Sample.request None) issued_token
              verified_once) = Some "invalid".
Proof.
  repeat split; try (vm_compute; reflexivity).
  vm_compute. discriminate.
Qed.

End IntegrityExample.

(* ===================================================================== *)
(** * Privilege escalation guard *)
(* ===================================================================== *)

Module Privilege.

Import Http UserController.

Section WithLib.
Context {L : Lib}.

Definition insufficient_assign : Response :=
  failure 403 "Only super admins can assign admin roles." (Some "INSUFFICIENT_PRIVILEGE").

Definition insufficient_create : Response :=
  failure 403 "Only super admins can create admin accounts." (Some "INSUFFICIENT_PRIVILEGE").

Definition role_updated (target : UserDoc.t) (role : string) : Response :=
  ok 200 (Some ("Role updated to " ++ quote ++ role ++ quote ++ " successfully.")%string)
    (WithRoleChange {| r_userId := UserDoc._id target; r_email := UserDoc.email target;
                       r_previousRole := UserDoc.role target; r_newRole := role |}).

Definition user_created (u : UserDoc.t) : Response :=
  ok 201 (Some "User created successfully.")
    (WithUser {| s_id := UserDoc._id u; s_fullName := UserDoc.fullName u;
                 s_email := UserDoc.email u; s_role := UserDoc.role u;
                 s_organization := UserDoc.organization u; s_lastLogin := None |}).

Lemma management_role_cases role :
  In role [Rbac.ADMIN; Rbac.SUPER_ADMIN] ->
  is_management_role (Some role) = true /\ includes role Rbac.ROLES_values = true.
Proof.
  intros [<- | [<- | []]]; split; reflexivity.
Qed.

Lemma find_user_replace id us u u' :
  find (User.has_id id) us = Some u -> UserDoc._id u' = id ->
  find (User.has_id id) (User.replace u' us) = Some u'.
Proof.
  intros Hfind Hid. induction us as [|x rest IH]; [discriminate|].
  cbn [find User.replace] in *. rewrite Hid.
  destruct (User.has_id id x) eqn:Hx.
  - cbn [find]. unfold User.has_id. rewrite Hid, Nat.eqb_refl. reflexivity.
  - cbn [find]. rewrite Hx. now apply IH.
Qed.

Lemma find_user_id id us u : find (User.has_id id) us = Some u -> UserDoc._id u = id.
Proof.
  intros H. apply find_some in H as [_ H].
  unfold User.has_id in H. now apply Nat.eqb_eq in H.
Qed.

(** A loaded user stays valid when its role becomes one of [ROLES]. *)
Lemma set_role_valid role u :
  includes role Rbac.ROLES_values = true ->
  first_failure (UserDoc.checks_loaded u) = None ->
  first_failure (UserDoc.checks_loaded (UserDoc.set_role role u)) = None.
Proof.
  intros Hrole. rewrite !StoreFacts.first_failure_forallb.
  unfold UserDoc.checks_loaded.
  cbn [forallb snd UserDoc.fullName UserDoc.email UserDoc.role UserDoc.organization
       UserDoc.department UserDoc.set_role].
  intros H.
  repeat (apply andb_true_iff in H as [? H]).
  repeat match goal with
         | |- (_ && _)%bool = true =>
             apply andb_true_iff; split; [first [assumption | idtac]|]
         end;
    try reflexivity.
Qed.

Lemma guard_returns req caller role w :
  user req = Some caller ->
  (if is_management_role role
   then caller <- req_user req ;;
        ret (negb (UserDoc.role caller =? Rbac.SUPER_ADMIN))
   else ret false) w
  = (Returns (is_management_role role && negb (UserDoc.role caller =? Rbac.SUPER_ADMIN)), w).
Proof.
  intros Hcaller. destruct (is_management_role role); [|reflexivity].
  unfold bind, req_user. now rewrite Hcaller.
Qed.

Lemma req_user_some req caller w :
  user req = Some caller -> req_user req w = (Returns caller, w).
Proof. intros H. unfold req_user. now rewrite H. Qed.

Lemma user_save_returns u w u0 :
  first_failure (UserDoc.checks_loaded u) = None ->
  find (User.has_id (UserDoc._id u)) (World.users w) = Some u0 ->
  User.save u w = (Returns u, World.set_users (User.replace u (World.users w)) w).
Proof.
  intros Hvalid Hfind. unfold User.save. rewrite Hvalid.
  unfold bind, users, gets. rewrite Hfind. reflexivity.
Qed.

(** [User.create] on fields that validate and collide with no stored
    user: the user is appended, with the password hashed. *)
Lemma create_returns f w :
  first_failure (UserDoc.checks_new (User.construct (World.nextId w) f)) = None ->
  existsb (User.duplicate (User.construct (World.nextId w) f)) (World.users w) = false ->
  exists u w',
    User.create f w = (Returns u, w') /\
    UserDoc.role u = UserDoc.role (User.construct (World.nextId w) f) /\
    UserDoc._id u = World.nextId w /\
    World.users w' = World.users w ++ [u] /\
    World.certificates w' = World.certificates w.
Proof.
  intros Hvalid Hdup.
  eexists. eexists. split.
  { unfold User.create, bind, newObjectId.
    cbv beta iota zeta. rewrite Hvalid.
    unfold randomBytes, users, gets, update_users, modify, ret.
    cbn [World.users World.set_entropy World.set_nextId].
    change (existsb (User.duplicate (UserDoc.set_password ?p ?u)) ?us)
      with (existsb (User.duplicate u) us).
    rewrite Hdup. reflexivity. }
  repeat split.
Qed.

(** C3. With an authenticated caller: when the caller's role is not
    super_admin, assigning the role admin or super_admin, and creating a
    user with one of them, are answered 403 INSUFFICIENT_PRIVILEGE and the
    state (the target user with it) is unchanged; when the caller's role
    is super_admin, the assignment to an existing, valid user is answered
    200 and the stored user is the target with the role asked as its role
    and every other field as it was, and the creation with a
    free email and fields that validate is answered 201 and the new user,
    with the requested role, is in the collection. *)
Theorem management_roles_need_super_admin req caller w :
  user req = Some caller ->
  (UserDoc.role caller <> Rbac.SUPER_ADMIN ->
   (forall id role, In role [Rbac.ADMIN; Rbac.SUPER_ADMIN] ->
      assignRole req id (Some role) w = (Returns insufficient_assign, w)) /\
   (forall body role, b_role body = Some role -> In role [Rbac.ADMIN; Rbac.SUPER_ADMIN] ->
      createUser req body w = (Returns insufficient_create, w))) /\
  (UserDoc.role caller = Rbac.SUPER_ADMIN ->
   (forall id role target,
      In role [Rbac.ADMIN; Rbac.SUPER_ADMIN] ->
      User.findById id w = (Returns (Some target), w) ->
      first_failure (UserDoc.checks_loaded target) = None ->
      exists w',
        assignRole req id (Some role) w = (Returns (role_updated target role), w') /\
        User.findById id w' = (Returns (Some (UserDoc.set_role role target)), w') /\
        UserDoc.role (UserDoc.set_role role target) = role /\
        UserDoc.set_role (UserDoc.role target) (UserDoc.set_role role target) = target) /\
   (forall body role,
      b_role body = Some role -> In role [Rbac.ADMIN; Rbac.SUPER_ADMIN] ->
      User.findOne_email (b_email body) w = (Returns None, w) ->
      first_failure
        (UserDoc.checks_new (User.construct (World.nextId w) (fields caller body))) = None ->
      existsb (User.duplicate (User.construct (World.nextId w) (fields caller body)))
        (World.users w) = false ->
      exists created w',
        createUser req body w = (Returns (user_created created), w') /\
        UserDoc.role created = role /\
        World.users w' = World.users w ++ [created])).
Proof.
  intros Hcaller. split.
  - intros Hrole. apply String.eqb_neq in Hrole. split.
    + intros id role Hin. destruct (management_role_cases role Hin) as (Hm & Hr).
      unfold assignRole, try_catch. rewrite Hr. cbn [negb].
      rewrite (MonadFacts.bind_returns _ (guard_returns req caller (Some role) w Hcaller)).
      rewrite Hm, Hrole. reflexivity.
    + intros body role Hbody Hin. destruct (management_role_cases role Hin) as (Hm & _).
      unfold createUser, try_catch.
      rewrite (MonadFacts.bind_returns _ (guard_returns req caller (b_role body) w Hcaller)).
      rewrite Hbody, Hm, Hrole. reflexivity.
  - intros Hsuper. apply String.eqb_eq in Hsuper. split.
    + intros id role target Hin Hfind Hvalid.
      destruct (management_role_cases role Hin) as (Hm & Hr).
      assert (Hfind' : find (User.has_id id) (World.users w) = Some target).
      { unfold User.findById, bind, users, gets, ret in Hfind. congruence. }
      pose proof (find_user_id _ _ _ Hfind') as Hid.
      assert (Hsave : User.save (UserDoc.set_role role target) w
                      = (Returns (UserDoc.set_role role target),
                         World.set_users
                           (User.replace (UserDoc.set_role role target) (World.users w)) w)).
      { apply user_save_returns with (u0 := target).
        - now apply set_role_valid.
        - cbn [UserDoc._id UserDoc.set_role]. now rewrite Hid. }
      destruct (AuditFacts.log_returns
                  (audit req AuditEntry.USER_ROLE_ASSIGN (Some AuditEntry.WARNING)
                     (Some caller) true (Some "user")
                     (Some (UserDoc._id (UserDoc.set_role role target)))
                     (UserDoc.fullName (UserDoc.set_role role target)) None None None
                     (Some ([("role", UserDoc.role target)], [("role", template (Some role))])))
                  (World.set_users
                     (User.replace (UserDoc.set_role role target) (World.users w)) w))
        as (r & w2 & Hlog & Hprim & _).
      exists w2. split.
      * unfold assignRole, try_catch. rewrite Hr. cbn [negb].
        rewrite (MonadFacts.bind_returns _ (guard_returns req caller (Some role) w Hcaller)).
        rewrite Hm, Hsuper. cbn [negb andb].
        rewrite (MonadFacts.bind_returns _ Hfind).
        cbv zeta.
        rewrite (MonadFacts.bind_returns _ Hsave).
        rewrite (MonadFacts.bind_returns _ (req_user_some req caller _ Hcaller)).
        rewrite (MonadFacts.bind_returns _ Hlog).
        reflexivity.
      * split; [|split; [reflexivity | now destruct target]].
        unfold User.findById, bind, users, gets, ret.
        rewrite (AuditFacts.primary_users _ _ Hprim).
        cbn [World.users World.set_users].
        erewrite find_user_replace; [reflexivity | exact Hfind' | exact Hid].
    + intros body role Hbody Hin Hfree Hvalid Hdup.
      destruct (management_role_cases role Hin) as (Hm & _).
      destruct (create_returns (fields caller body) w Hvalid Hdup)
        as (created & w1 & Hcreate & Hcrole & _ & Husers & _).
      destruct (AuditFacts.log_returns
                  (audit req AuditEntry.USER_CREATE None (Some caller) true
                     (Some "user") (Some (UserDoc._id created)) (UserDoc.fullName created)
                     None None
                     (Some [("email", template (UserDoc.email created));
                            ("role", UserDoc.role created)]) None) w1)
        as (r & w2 & Hlog & Hprim & _).
      exists created, w2. split; [|split].
      * unfold createUser, try_catch.
        rewrite (MonadFacts.bind_returns _ (guard_returns req caller (b_role body) w Hcaller)).
        rewrite Hbody, Hm, Hsuper. cbn [negb andb].
        rewrite (MonadFacts.bind_returns _ Hfree).
        rewrite (MonadFacts.bind_returns _ (req_user_some req caller _ Hcaller)).
        rewrite (MonadFacts.bind_returns _ Hcreate), (MonadFacts.bind_returns _ Hlog).
        reflexivity.
      * rewrite Hcrole. cbn. rewrite Hbody.
        destruct Hin as [<- | [<- | []]]; reflexivity.
      * now rewrite (AuditFacts.primary_users _ _ Hprim).
Qed.

End WithLib.

End Privilege.

Module PrivilegeExample.

Import Http UserController.

Definition world0 : World.t := Sample.world [] 5000.

Definition new_admin : CreateBody :=
  {| b_fullName := Some "Second Admin";
     b_email := Some "admin2@test.com";
     b_password := Some "TestPass123!";
     b_role := Some "admin";
     b_organization := None;
     b_department := None;
     b_nationalId := None;
     b_phoneNumber := None |}.

(** The admin is refused the assignment of super_admin to the holder and
    the creation of an admin; the super admin makes the holder an admin
    and creates an admin. *)
Lemma management_roles_witness :
  assignRole (Sample.request (Some Sample.admin)) 5 (Some "super_admin") world0
  = (Returns Privilege.insufficient_assign, world0) /\
  createUser (L := Sample.lib) (Sample.request (Some Sample.admin)) new_admin world0
  = (Returns Privilege.insufficient_create, world0) /\
  (exists stored w',
      assignRole (Sample.request (Some Sample.superAdmin)) 5 (Some "admin") world0
      = (Returns (Privilege.role_updated Sample.holder "admin"), w') /\
      User.findById 5 w' = (Returns (Some stored), w') /\
      UserDoc.role stored = "admin" /\
      UserDoc.email stored = Some "holder1@test.com") /\
  (exists created w',
      createUser (L := Sample.lib) (Sample.request (Some Sample.superAdmin)) new_admin world0
      = (Returns (Privilege.user_created created), w') /\
      UserDoc.role created = "admin" /\
      World.users w' = World.users world0 ++ [created]).
Proof.
  destruct (@Privilege.management_roles_need_super_admin Sample.lib
              (Sample.request (Some Sample.admin)) Sample.admin world0 eq_refl)
    as (Hdenied & _).
  destruct Hdenied as (Hassign & Hcreate); [discriminate|].
  destruct (@Privilege.management_roles_need_super_admin Sample.lib
              (Sample.request (Some Sample.superAdmin)) Sample.superAdmin world0 eq_refl)
    as (_ & Hallowed).
  destruct (Hallowed eq_refl) as (Hassign' & Hcreate').
  split; [apply Hassign; right; left; reflexivity|].
  split; [apply (Hcreate new_admin "admin" eq_refl); left; reflexivity|].
  split.
  - destruct (Hassign' 5 "admin" Sample.holder (or_introl eq_refl) eq_refl eq_refl)
      as (w' & Hrun & Hstored & Hrole & _).
    exists (UserDoc.set_role "admin" Sample.holder), w'.
    split; [exact Hrun|]. split; [exact Hstored|]. split; [exact Hrole | reflexivity].
  - apply (Hcreate' new_admin "admin" eq_refl).
    + left; reflexivity.
    + vm_compute. reflexivity.
    + vm_compute. reflexivity.
    + vm_compute. reflexivity.
Defined.

End PrivilegeExample.

(* ===================================================================== *)
(** * Account lockout *)
(* ===================================================================== *)

Module Lockout.

Import Http AuthController.

Section WithLib.
Context {L : Lib}.

Definition account_locked (u : UserDoc.t) : Response :=
  {| status := 423; success := false; result := None; message := None;
     error := Some "Account locked due to multiple failed login attempts. Try again in 2 hours.";
     code := Some "ACCOUNT_LOCKED";
     lockUntil := UserDoc.lockUntil u; data := NoData |}.

Definition invalid_credentials : Response :=
  failure 401 "Invalid email or password." (Some "INVALID_CREDENTIALS").

(** The lock window of the account has passed at [now]. *)
Definition lock_passed (now : Z) (u : UserDoc.t) : bool :=
  match UserDoc.lockUntil u with
  | Some l => (l <? now)%Z
  | None => false
  end.

(** What [incLoginAttempts], called on the loaded user [u], does to the
    stored user [d]. *)
Definition after_failure (now : Z) (u d : UserDoc.t) : UserDoc.t :=
  if lock_passed now u
  then UserDoc.set_loginAttempts 1%Z (UserDoc.set_lockUntil None d)
  else if (User.MAX_ATTEMPTS <=? UserDoc.loginAttempts u + 1)%Z
          && negb (UserDoc.isLocked now u)
  then UserDoc.set_lockUntil (Some (now + User.LOCK_TIME)%Z)
         (UserDoc.set_loginAttempts (UserDoc.loginAttempts d + 1)%Z d)
  else UserDoc.set_loginAttempts (UserDoc.loginAttempts d + 1)%Z d.

(** What [resetLoginAttempts] does to the stored user. *)
Definition after_success (now : Z) (d : UserDoc.t) : UserDoc.t :=
  UserDoc.set_lastLogin (Some now)
    (UserDoc.set_loginAttempts 0%Z (UserDoc.set_lockUntil None d)).

Definition update (id : ObjectId) (f : UserDoc.t -> UserDoc.t) (us : list UserDoc.t)
    : list UserDoc.t :=
  map (fun x => if User.has_id id x then f x else x) us.

Lemma incLoginAttempts_returns u w :
  User.incLoginAttempts u w
  = (Returns tt,
     World.set_users
       (update (UserDoc._id u) (after_failure (World.now w) u) (World.users w)) w).
Proof.
  unfold User.incLoginAttempts, bind, Date_now, gets, after_failure, lock_passed, update.
  destruct (match UserDoc.lockUntil u with Some l => (l <? World.now w)%Z | None => false end).
  - reflexivity.
  - destruct ((User.MAX_ATTEMPTS <=? UserDoc.loginAttempts u + 1)%Z
              && negb (UserDoc.isLocked (World.now w) u)); reflexivity.
Qed.

Lemma resetLoginAttempts_returns u w :
  User.resetLoginAttempts u w
  = (Returns tt,
     World.set_users
       (update (UserDoc._id u) (after_success (World.now w)) (World.users w)) w).
Proof. reflexivity. Qed.

Lemma comparePassword_returns candidate u hash w :
  UserDoc.password u = Some hash ->
  User.comparePassword candidate u w
  = (Returns (bcrypt_compare candidate hash),
     World.set_passwordChecks (S (World.passwordChecks w)) w).
Proof.
  intros H. unfold User.comparePassword, bind, modify. now rewrite H.
Qed.

Lemma generateTokenPair_returns u w :
  exists tokens e,
    Jwt.generateTokenPair u w = (Returns tokens, World.set_entropy e w).
Proof. eexists. eexists. reflexivity. Qed.

Lemma find_update id f us u :
  (forall d, UserDoc._id (f d) = UserDoc._id d) ->
  find (User.has_id id) us = Some u ->
  find (User.has_id id) (update id f us) = Some (f u).
Proof.
  intros Hid. induction us as [|x rest IH]; [discriminate|].
  unfold update in *. cbn [find map].
  destruct (User.has_id id x) eqn:Hx.
  - intros H. injection H as <-.
    unfold User.has_id in *. now rewrite Hid, Hx.
  - rewrite Hx. exact IH.
Qed.

Lemma findById_users id w u :
  User.findById id w = (Returns (Some u), w) ->
  find (User.has_id id) (World.users w) = Some u.
Proof. unfold User.findById, bind, users, gets, ret. congruence. Qed.

Lemma findById_of id w u :
  find (User.has_id id) (World.users w) = Some u ->
  User.findById id w = (Returns (Some u), w).
Proof. unfold User.findById, bind, users, gets, ret. now intros ->. Qed.

Lemma now_returns w : Date_now w = (Returns (World.now w), w).
Proof. reflexivity. Qed.

Lemma login_locked_run req email password w u :
  User.findByEmailWithPassword email w = (Returns (Some u), w) ->
  UserDoc.isLocked (World.now w) u = true ->
  exists w',
    login req email password w = (Returns (account_locked u), w') /\
    AuditFacts.primary w' = AuditFacts.primary w.
Proof.
  intros Hemail Hlocked.
  unfold login, try_catch.
  rewrite (MonadFacts.bind_returns _ Hemail).
  rewrite (MonadFacts.bind_returns _ (now_returns w)).
  rewrite Hlocked.
  log_step r w2 Hlog Hprim.
  exists w2. split; [reflexivity | exact Hprim].
Qed.

Lemma login_failed_run req email password w u hash :
  User.findByEmailWithPassword email w = (Returns (Some u), w) ->
  UserDoc.isLocked (World.now w) u = false ->
  UserDoc.isActive u = true ->
  UserDoc.password u = Some hash ->
  bcrypt_compare password hash = false ->
  exists w',
    login req email password w = (Returns invalid_credentials, w') /\
    World.passwordChecks w' = S (World.passwordChecks w) /\
    World.users w'
      = update (UserDoc._id u) (after_failure (World.now w) u) (World.users w).
Proof.
  intros Hemail Hunlocked Hactive Hhash Hwrong.
  unfold login, try_catch.
  rewrite (MonadFacts.bind_returns _ Hemail).
  rewrite (MonadFacts.bind_returns _ (now_returns w)).
  rewrite Hunlocked, Hactive. cbn [negb].
  rewrite (MonadFacts.bind_returns _ (comparePassword_returns password u hash w Hhash)).
  rewrite Hwrong. cbn [negb].
  rewrite (MonadFacts.bind_returns _ (incLoginAttempts_returns u _)).
  log_step r w2 Hlog Hprim.
  exists w2. split; [reflexivity|]. split.
  - now rewrite (AuditFacts.primary_passwordChecks _ _ Hprim).
  - now rewrite (AuditFacts.primary_users _ _ Hprim).
Qed.

Lemma login_succeeded_run req email password w u hash :
  User.findByEmailWithPassword email w = (Returns (Some u), w) ->
  UserDoc.isLocked (World.now w) u = false ->
  UserDoc.isActive u = true ->
  UserDoc.password u = Some hash ->
  bcrypt_compare password hash = true ->
  exists w' tokens,
    login req email password w
      = (Returns (ok 200 (Some "Login successful.") (WithLogin (summary u) tokens)), w') /\
    World.passwordChecks w' = S (World.passwordChecks w) /\
    World.users w' = update (UserDoc._id u) (after_success (World.now w)) (World.users w).
Proof.
  intros Hemail Hunlocked Hactive Hhash Hright.
  unfold login, try_catch.
  rewrite (MonadFacts.bind_returns _ Hemail).
  rewrite (MonadFacts.bind_returns _ (now_returns w)).
  rewrite Hunlocked, Hactive. cbn [negb].
  rewrite (MonadFacts.bind_returns _ (comparePassword_returns password u hash w Hhash)).
  rewrite Hright. cbn [negb].
  rewrite (MonadFacts.bind_returns _ (resetLoginAttempts_returns u _)).
  match goal with
  | |- context [bind (Jwt.generateTokenPair u) ?k ?w0] =>
      destruct (generateTokenPair_returns u w0) as (tokens & e & Htok);
      rewrite (MonadFacts.bind_returns k Htok)
  end.
  log_step r w2 Hlog Hprim.
  exists w2, tokens. split; [reflexivity|]. split.
  - now rewrite (AuditFacts.primary_passwordChecks _ _ Hprim).
  - now rewrite (AuditFacts.primary_users _ _ Hprim).
Qed.

(** C4. For an account found by its email (and by its id):
    - while [lockUntil] is in the future the login is answered 423
      ACCOUNT_LOCKED, no password comparison is made and the account is
      unchanged;
    - otherwise, on an active account, a failed password check is answered
      401 INVALID_CREDENTIALS after one comparison, and the stored account
      has its counter set to 1 and its lock cleared when a lock had passed,
      and else its counter incremented, with [lockUntil] set to now + 2
      hours when the counter reaches 5 (or more) and left as it was below
      5;
    - a successful check is answered 200, and the stored account has
      counter 0, no lock, and [lastLogin] the current instant. *)
Theorem login_lockout req email password w u :
  User.findByEmailWithPassword email w = (Returns (Some u), w) ->
  User.findById (UserDoc._id u) w = (Returns (Some u), w) ->
  (UserDoc.isLocked (World.now w) u = true ->
   exists w',
     login req email password w = (Returns (account_locked u), w') /\
     World.passwordChecks w' = World.passwordChecks w /\
     World.users w' = World.users w) /\
  (UserDoc.isLocked (World.now w) u = false ->
   UserDoc.isActive u = true ->
   forall hash, UserDoc.password u = Some hash ->
   (bcrypt_compare password hash = false ->
    exists w' u',
      login req email password w = (Returns invalid_credentials, w') /\
      World.passwordChecks w' = S (World.passwordChecks w) /\
      User.findById (UserDoc._id u) w' = (Returns (Some u'), w') /\
      (lock_passed (World.now w) u = true ->
       UserDoc.loginAttempts u' = 1%Z /\ UserDoc.lockUntil u' = None) /\
      (lock_passed (World.now w) u = false ->
       UserDoc.loginAttempts u' = (UserDoc.loginAttempts u + 1)%Z /\
       ((5 <= UserDoc.loginAttempts u + 1)%Z ->
        UserDoc.lockUntil u' = Some (World.now w + 2 * 60 * 60 * 1000)%Z) /\
       ((UserDoc.loginAttempts u + 1 < 5)%Z ->
        UserDoc.lockUntil u' = UserDoc.lockUntil u))) /\
   (bcrypt_compare password hash = true ->
    exists w' u' tokens,
      login req email password w
        = (Returns (ok 200 (Some "Login successful.") (WithLogin (summary u) tokens)), w') /\
      User.findById (UserDoc._id u) w' = (Returns (Some u'), w') /\
      UserDoc.loginAttempts u' = 0%Z /\
      UserDoc.lockUntil u' = None /\
      UserDoc.lastLogin u' = Some (World.now w))).
Proof.
  intros Hemail Hid.
  apply findById_users in Hid.
  split.
  - intros Hlocked.
    destruct (login_locked_run req email password w u Hemail Hlocked) as (w' & Hrun & Hprim).
    exists w'. split; [exact Hrun|]. split.
    + now apply AuditFacts.primary_passwordChecks.
    + now apply AuditFacts.primary_users.
  - intros Hunlocked Hactive hash Hhash. split.
    + intros Hwrong.
      destruct (login_failed_run req email password w u hash
                  Hemail Hunlocked Hactive Hhash Hwrong)
        as (w' & Hrun & Hchecks & Husers).
      exists w', (after_failure (World.now w) u u).
      split; [exact Hrun|]. split; [exact Hchecks|]. split.
      { apply findById_of. rewrite Husers. apply find_update; [|exact Hid].
        intros d. unfold after_failure.
        destruct (lock_passed _ _); [reflexivity|].
        destruct (_ && _); reflexivity. }
      unfold after_failure. split.
      * intros Hpassed. rewrite Hpassed. split; reflexivity.
      * intros Hpassed. rewrite Hpassed, Hunlocked. cbn [negb].
        rewrite andb_true_r. unfold User.MAX_ATTEMPTS.
        destruct (Z.leb_spec 5 (UserDoc.loginAttempts u + 1)) as [Hge | Hlt].
        -- split; [reflexivity|]. split; [intros _; reflexivity | lia].
        -- split; [reflexivity|]. split; [lia | intros _; reflexivity].
    + intros Hright.
      destruct (login_succeeded_run req email password w u hash
                  Hemail Hunlocked Hactive Hhash Hright)
        as (w' & tokens & Hrun & _ & Husers).
      exists w', (after_success (World.now w) u), tokens.
      split; [exact Hrun|]. split.
      { apply findById_of. rewrite Husers. apply find_update; [|exact Hid].
        intros d. reflexivity. }
      repeat split.
Qed.


End WithLib.

End Lockout.

Module LockoutExample.

Import Http AuthController.

(** The holder after four failed attempts, and after the fifth. *)
Definition four_failures : UserDoc.t := UserDoc.set_loginAttempts 4 Sample.holder.

Definition locked : UserDoc.t :=
  UserDoc.set_lockUntil (Some 7205000%Z) (UserDoc.set_loginAttempts 5 Sample.holder).

Definition world_with (u : UserDoc.t) (now : Z) : World.t :=
  World.set_users [u] (Sample.world [] now).

(** A fifth failure at instant 5000 locks the account until 5000 + 2 hours;
    an attempt inside the window, even with the right password, is
    rejected without a password check; the right password after the
    window is accepted and resets the account. *)
Lemma login_lockout_witness :
  (exists w' u',
      login (L := Sample.lib) (Sample.request None) (Some "holder1@test.com") "WrongPassword"
        (world_with four_failures 5000)
      = (Returns Lockout.invalid_credentials, w') /\
      User.findById 5 w' = (Returns (Some u'), w') /\
      UserDoc.loginAttempts u' = 5%Z /\
      UserDoc.lockUntil u' = Some 7205000%Z) /\
  (exists w',
      login (L := Sample.lib) (Sample.request None) (Some "holder1@test.com") "TestPass123!"
        (world_with locked 6000)
      = (Returns (Lockout.account_locked locked), w') /\
      World.passwordChecks w' = 0) /\
  (exists w' u' tokens,
      login (L := Sample.lib) (Sample.request None) (Some "holder1@test.com") "TestPass123!"
        (world_with locked 7205001)
      = (Returns (ok 200 (Some "Login successful.") (WithLogin (summary locked) tokens)), w') /\
      User.findById 5 w' = (Returns (Some u'), w') /\
      UserDoc.loginAttempts u' = 0%Z /\
      UserDoc.lockUntil u' = None).
Proof.
  split; [|split].
  - destruct (@Lockout.login_lockout Sample.lib (Sample.request None)
                (Some "holder1@test.com") "WrongPassword"
                (world_with four_failures 5000) four_failures eq_refl eq_refl)
      as (_ & Hopen).
    destruct (Hopen eq_refl eq_refl _ eq_refl) as (Hwrong & _).
    destruct Hwrong as (w' & u' & Hrun & _ & Hfound & _ & Hcount);
      [vm_compute; reflexivity|].
    destruct (Hcount eq_refl) as (Hattempts & Hlock & _).
    exists w', u'. split; [exact Hrun|]. split; [exact Hfound|].
    split; [exact Hattempts|]. apply Hlock. vm_compute. discriminate.
  - destruct (@Lockout.login_lockout Sample.lib (Sample.request None)
                (Some "holder1@test.com") "TestPass123!"
                (world_with locked 6000) locked eq_refl eq_refl)
      as (Hlocked & _).
    destruct (Hlocked eq_refl) as (w' & Hrun & Hchecks & _).
    exists w'. split; [exact Hrun | exact Hchecks].
  - destruct (@Lockout.login_lockout Sample.lib (Sample.request None)
                (Some "holder1@test.com") "TestPass123!"
                (world_with locked 7205001) locked eq_refl eq_refl)
      as (_ & Hopen).
    destruct (Hopen eq_refl eq_refl _ eq_refl) as (_ & Hright).
    destruct Hright as (w' & u' & tokens & Hrun & Hfound & Hattempts & Hlock & _);
      [vm_compute; reflexivity|].
    exists w', u', tokens. repeat split; assumption.
Defined.

End LockoutExample.

(* ===================================================================== *)
(** * Token verification *)
(* ===================================================================== *)

Module Tokens.

Import Http Auth.

(** The token has not expired at [now] (milliseconds). *)
Definition unexpired (now : Z) (claims : Jwt.Claims) : Prop :=
  match Jwt.exp claims with
  | Some e => (now / 1000 < e)%Z
  | None => True
  end.

Lemma opt_eqb_eq a b : Jwt.opt_eqb a b = true <-> a = Some b.
Proof.
  unfold Jwt.opt_eqb. destruct a as [s|].
  - rewrite String.eqb_eq. split; congruence.
  - split; discriminate.
Qed.

Lemma exp_check now claims :
  match Jwt.exp claims with Some e => (e <=? now / 1000)%Z | None => false end = false
  <-> unexpired now claims.
Proof.
  unfold unexpired. destruct (Jwt.exp claims); [|tauto]. rewrite Z.leb_gt. tauto.
Qed.

Lemma aud_check audience claims :
  match audience with
  | Some a => negb (Jwt.opt_eqb (Jwt.aud claims) a)
  | None => false
  end = false
  <-> match audience with Some a => Jwt.aud claims = Some a | None => True end.
Proof.
  destruct audience as [a|]; [|tauto].
  rewrite negb_false_iff. apply opt_eqb_eq.
Qed.

(** What [jwt.verify] accepts: exactly the tokens signed with the secret,
    unexpired, with the expected issuer and, when one is asked for, the
    expected audience. The [type] claim plays no part. *)
Lemma verify_returns token secret issuer audience now claims :
  Jwt.verify token secret issuer audience now = Returns claims <->
  token = Jwt.Signed secret claims /\
  unexpired now claims /\
  match audience with Some a => Jwt.aud claims = Some a | None => True end /\
  Jwt.iss claims = Some issuer.
Proof.
  unfold Jwt.verify. destruct token as [raw | key c].
  - split; [discriminate | intros (H & _); discriminate].
  - destruct (String.eqb_spec key secret) as [-> | Hkey]; cbn [negb].
    2: { split; [discriminate | intros (H & _); congruence]. }
    destruct (match Jwt.exp c with Some e => (e <=? now / 1000)%Z | None => false end) eqn:He.
    { split; [discriminate|]. intros (H & Hun & _). injection H as <-.
      apply (exp_check now c) in Hun. congruence. }
    apply (exp_check now c) in He.
    destruct (match audience with
              | Some a => negb (Jwt.opt_eqb (Jwt.aud c) a)
              | None => false
              end) eqn:Ha.
    { split; [discriminate|]. intros (H & _ & Hau & _). injection H as <-.
      apply (aud_check audience c) in Hau. congruence. }
    apply (aud_check audience c) in Ha.
    destruct (Jwt.opt_eqb (Jwt.iss c) issuer) eqn:Hi; cbn [negb].
    + apply opt_eqb_eq in Hi. split.
      * intros H. injection H as <-. tauto.
      * intros (H & _). injection H as <-. reflexivity.
    + split; [discriminate|]. intros (H & _ & _ & Hiss). injection H as <-.
      apply opt_eqb_eq in Hiss. congruence.
Qed.

Lemma verifyAccessToken_run token w :
  Jwt.verifyAccessToken token w
  = (Jwt.verify token (Jwt.JWT_SECRET (World.env w)) Jwt.ISSUER (Some Jwt.AUDIENCE)
       (World.now w), w).
Proof. reflexivity. Qed.

Lemma verifyRefreshToken_run token w :
  Jwt.verifyRefreshToken token w
  = (Jwt.verify token (Jwt.JWT_REFRESH_SECRET (World.env w)) Jwt.ISSUER None
       (World.now w), w).
Proof. reflexivity. Qed.

Definition token_type_invalid : Response :=
  failure 401 "Invalid token type." (Some "TOKEN_TYPE_INVALID").

Definition token_rejected (e : Exn) : Response :=
  failure 401
    (if is_expired_error e
     then "Token expired. Please refresh your session."
     else "Invalid token.")
    (Some (if is_expired_error e then "TOKEN_EXPIRED" else "TOKEN_INVALID")).

(** C5, as the code has it. [verifyAccessToken] accepts exactly the tokens
    signed with the access secret, unexpired, with the issuer and the
    audience of the system; [verifyRefreshToken] accepts exactly the tokens
    signed with the refresh secret, unexpired, with the issuer (no audience
    is asked); neither looks at [type]. The [authenticate] middleware
    answers 401 TOKEN_TYPE_INVALID to a bearer token that
    [verifyAccessToken] accepted and whose type is not access, and 401
    TOKEN_EXPIRED or TOKEN_INVALID to one that it rejected. *)
Theorem verifiers_and_type_check token w :
  (forall claims,
      Jwt.verifyAccessToken token w = (Returns claims, w) <->
      token = Jwt.Signed (Jwt.JWT_SECRET (World.env w)) claims /\
      unexpired (World.now w) claims /\
      Jwt.aud claims = Some Jwt.AUDIENCE /\
      Jwt.iss claims = Some Jwt.ISSUER) /\
  (forall claims,
      Jwt.verifyRefreshToken token w = (Returns claims, w) <->
      token = Jwt.Signed (Jwt.JWT_REFRESH_SECRET (World.env w)) claims /\
      unexpired (World.now w) claims /\
      Jwt.iss claims = Some Jwt.ISSUER) /\
  (forall req claims,
      Jwt.extractTokenFromHeader (authorization req) = Some token ->
      Jwt.verifyAccessToken token w = (Returns claims, w) ->
      Jwt.type claims <> Some "access" ->
      authenticate req w = (Returns (Respond token_type_invalid), w)) /\
  (forall req e,
      Jwt.extractTokenFromHeader (authorization req) = Some token ->
      Jwt.no_token (Some token) = false ->
      Jwt.verifyAccessToken token w = (Throws e, w) ->
      exists w',
        authenticate req w = (Returns (Respond (token_rejected e)), w') /\
        AuditFacts.primary w' = AuditFacts.primary w).
Proof.
  split; [|split; [|split]].
  - intros claims. rewrite verifyAccessToken_run.
    rewrite <- (verify_returns token _ Jwt.ISSUER (Some Jwt.AUDIENCE) (World.now w) claims).
    split; [intros H; now injection H | intros ->; reflexivity].
  - intros claims. rewrite verifyRefreshToken_run.
    pose proof (verify_returns token (Jwt.JWT_REFRESH_SECRET (World.env w)) Jwt.ISSUER None
                  (World.now w) claims) as Hv.
    split.
    + intros H. injection H as H. apply Hv in H. tauto.
    + intros (H1 & H2 & H3). f_equal. apply Hv. tauto.
  - intros req claims Hext Hver Htype.
    unfold authenticate. apply MonadFacts.try_catch_returns.
    rewrite Hext.
    assert (Hsigned : Jwt.no_token (Some token) = false).
    { destruct token; [|reflexivity]. rewrite verifyAccessToken_run in Hver. discriminate. }
    rewrite Hsigned.
    assert (Hinner : try_catch (decoded <- Jwt.verifyAccessToken token ;; ret (inr decoded))
                       (fun err => ret (inl err)) w
                     = (Returns (inr claims : Exn + Jwt.Claims), w)).
    { apply MonadFacts.try_catch_returns.
      now rewrite (MonadFacts.bind_returns _ Hver). }
    rewrite (MonadFacts.bind_returns _ Hinner).
    assert (Hneq : Jwt.opt_eqb (Jwt.type claims) "access" = false).
    { destruct (Jwt.opt_eqb (Jwt.type claims) "access") eqn:H; [|reflexivity].
      apply opt_eqb_eq in H. contradiction. }
    rewrite Hneq. reflexivity.
  - intros req e Hext Hsome Hver.
    assert (Hinner : try_catch (decoded <- Jwt.verifyAccessToken token ;; ret (inr decoded))
                       (fun err => ret (inl err)) w
                     = (Returns (inl e : Exn + Jwt.Claims), w)).
    { rewrite (MonadFacts.try_catch_throws _ (MonadFacts.bind_throws _ Hver)).
      reflexivity. }
    unfold authenticate, try_catch at 1.
    rewrite Hext, Hsome.
    rewrite (MonadFacts.bind_returns _ Hinner).
    cbv zeta.
    log_step r w2 Hlog Hprim.
    exists w2. split; [reflexivity | exact Hprim].
Qed.

End Tokens.

Module TokensExample.

Import Http Auth.

Definition world0 : World.t := Sample.world [] 5000.

Definition holder_payload : Jwt.Payload :=
  {| Jwt.p_userId := 5; Jwt.p_email := Some "holder1@test.com"; Jwt.p_role := "holder" |}.

(** The refresh token the system issues to the holder, and the world
    after it was issued. *)
Definition refresh_token : Jwt.Token :=
  Eval vm_compute in
    match fst (Jwt.generateRefreshToken holder_payload world0) with
    | Returns t => t
    | Throws _ => Jwt.Malformed ""
    end.

Definition world1 : World.t :=
  Eval vm_compute in snd (Jwt.generateRefreshToken holder_payload world0).

(** Claims of type access under the refresh secret. *)
Definition access_typed : Jwt.Claims :=
  {| Jwt.userId := Some 5; Jwt.email := Some "holder1@test.com"; Jwt.role := Some "holder";
     Jwt.tokenId := None; Jwt.type := Some "access"; Jwt.iat := 5;
     Jwt.exp := Some 905%Z; Jwt.iss := Some Jwt.ISSUER; Jwt.aud := Some Jwt.AUDIENCE |}.

Definition bearer (token : Jwt.Token) : Req :=
  {| ip := Some "127.0.0.1"; remoteAddress := None; user_agent := Some "jest";
     authorization := Some (Jwt.Bearer token); method := "GET";
     originalUrl := "/api/auth/me"; user := None |}.

(** C5 as stated fails. [verifyRefreshToken] accepts a token whose type is
    access; and the refresh token that [generateRefreshToken] issues,
    presented as a bearer token, is a token of the wrong type that
    [authenticate] answers with TOKEN_INVALID, not TOKEN_TYPE_INVALID. *)
Lemma wrong_type_is_not_reported_as_such :
  (Jwt.type access_typed = Some "access" /\
   Jwt.verifyRefreshToken (Jwt.Signed "test-refresh-secret-2024" access_typed) world0
   = (Returns access_typed, world0)) /\
  (Jwt.generateRefreshToken holder_payload world0 = (Returns refresh_token, world1) /\
   (exists claims key, refresh_token = Jwt.Signed key claims /\
                       Jwt.type claims = Some "refresh") /\
   fst (authenticate (bearer refresh_token) world1)
   = Returns (Respond (failure 401 "Invalid token." (Some "TOKEN_INVALID")))).
Proof.
  split; [split; [reflexivity | vm_compute; reflexivity]|].
  split; [vm_compute; reflexivity|].
  split; [|vm_compute; reflexivity].
  eexists. eexists. split; reflexivity.
Qed.

End TokensExample.

(* ===================================================================== *)
(** * The audit recorder cannot fail a handler *)
(* ===================================================================== *)

Module Isolation.

Import AuditFacts.

(** Two runs agree when they complete alike, with the same value or the
    same exception, and leave the same state outside the audit collection
    and the console. *)
Definition agree {A} (r1 r2 : Outcome A * World.t) : Prop :=
  fst r1 = fst r2 /\ primary (snd r1) = primary (snd r2).

(** A computation is independent of the audit store when its runs from
    two states that differ in the audit collection, its health and the
    console only agree. *)
Definition independent {A} (m : M A) : Prop :=
  forall w1 w2, primary w1 = primary w2 -> agree (m w1) (m w2).

Lemma ind_ret {A} (a : A) : independent (ret a).
Proof. intros w1 w2 H. now split. Qed.

Lemma ind_throw {A} e : independent (@throw A e).
Proof. intros w1 w2 H. now split. Qed.

Lemma ind_lift {A} (o : Outcome A) : independent (lift o).
Proof. intros w1 w2 H. now split. Qed.

Lemma ind_bind {A B} (m : M A) (k : A -> M B) :
  independent m -> (forall a, independent (k a)) -> independent (bind m k).
Proof.
  intros Hm Hk w1 w2 H. unfold bind.
  destruct (Hm w1 w2 H) as (Hv & Hw).
  destruct (m w1) as [[a1|e1] w1'], (m w2) as [[a2|e2] w2']; cbn [fst snd] in *;
    try discriminate.
  - injection Hv as <-. now apply Hk.
  - injection Hv as <-. split; [reflexivity | exact Hw].
Qed.

Lemma ind_try_catch {A} (m : M A) (h : Exn -> M A) :
  independent m -> (forall e, independent (h e)) -> independent (try_catch m h).
Proof.
  intros Hm Hh w1 w2 H. unfold try_catch.
  destruct (Hm w1 w2 H) as (Hv & Hw).
  destruct (m w1) as [[a1|e1] w1'], (m w2) as [[a2|e2] w2']; cbn [fst snd] in *;
    try discriminate.
  - split; assumption.
  - injection Hv as <-. now apply Hh.
Qed.

(** The recorder, with its result dropped as every call site drops it. *)
Lemma ind_log {A} data (k : M A) :
  independent k -> independent (bind (AuditLog.log data) (fun _ => k)).
Proof.
  intros Hk w1 w2 H.
  destruct (log_returns data w1) as (r1 & w1' & H1 & P1 & _).
  destruct (log_returns data w2) as (r2 & w2' & H2 & P2 & _).
  rewrite (MonadFacts.bind_returns _ H1), (MonadFacts.bind_returns _ H2).
  apply Hk. congruence.
Qed.

Lemma ind_gets {A} (f : World.t -> A) :
  (forall w1 w2, primary w1 = primary w2 -> f w1 = f w2) -> independent (gets f).
Proof. intros Hf w1 w2 H. split; cbn; [f_equal; now apply Hf | exact H]. Qed.

Lemma ind_modify (f : World.t -> World.t) :
  (forall w1 w2, primary w1 = primary w2 -> primary (f w1) = primary (f w2)) ->
  independent (modify f).
Proof. intros Hf w1 w2 H. split; cbn; [reflexivity | now apply Hf]. Qed.

Lemma ind_users : independent users.
Proof. apply ind_gets. unfold primary. congruence. Qed.

Lemma ind_certificates : independent certificates.
Proof. apply ind_gets. unfold primary. congruence. Qed.

Lemma ind_getenv : independent getenv.
Proof. apply ind_gets. unfold primary. congruence. Qed.

Lemma ind_Date_now : independent Date_now.
Proof. apply ind_gets. unfold primary. congruence. Qed.

Lemma ind_update_users f : independent (update_users f).
Proof. apply ind_modify. unfold primary. cbn. congruence. Qed.

Lemma ind_update_certificates f : independent (update_certificates f).
Proof. apply ind_modify. unfold primary. cbn. congruence. Qed.

Lemma ind_randomBytes n : independent (randomBytes n).
Proof.
  intros w1 w2 H. unfold randomBytes, agree, primary in *. cbn.
  injection H as H1 H2 H3 H4 H5 H6 H7. rewrite H4. split; congruence.
Qed.

Lemma ind_newObjectId : independent newObjectId.
Proof.
  intros w1 w2 H. unfold newObjectId, agree, primary in *. cbn.
  injection H as H1 H2 H3 H4 H5 H6 H7. split; congruence.
Qed.

Lemma ind_passwordChecks :
  independent
    (modify (fun w => World.set_passwordChecks (S (World.passwordChecks w)) w)).
Proof. apply ind_modify. unfold primary. cbn. congruence. Qed.

Create HintDb indep.
#[export] Hint Resolve ind_users ind_certificates ind_getenv ind_Date_now
  ind_update_users ind_update_certificates ind_randomBytes ind_newObjectId
  ind_passwordChecks : indep.

(** Independence follows the structure of a computation. *)
Ltac indep :=
  repeat first
    [ apply ind_ret
    | apply ind_throw
    | apply ind_lift
    | solve [auto with indep]
    | apply ind_log
    | apply ind_bind; [| intros ?]
    | apply ind_try_catch; [| intros ?]
    | match goal with
      | |- independent (match ?x with _ => _ end) => destruct x
      end
    | progress cbv beta zeta ].

End Isolation.

Module AuditContainment.

Import Isolation.

Section WithLib.
Context {L : Lib}.

(** ** The models *)

Lemma ind_findById id : independent (User.findById id).
Proof. unfold User.findById. indep. Qed.

Lemma ind_findOne_email e : independent (User.findOne_email e).
Proof. unfold User.findOne_email. indep. Qed.

Lemma ind_user_create f : independent (User.create f).
Proof. unfold User.create. indep. Qed.

Lemma ind_user_save u : independent (User.save u).
Proof. unfold User.save. indep. Qed.

Lemma ind_comparePassword p u : independent (User.comparePassword p u).
Proof. unfold User.comparePassword. indep. Qed.

Lemma ind_incLoginAttempts u : independent (User.incLoginAttempts u).
Proof. unfold User.incLoginAttempts, User.updateOne. indep. Qed.

Lemma ind_resetLoginAttempts u : independent (User.resetLoginAttempts u).
Proof. unfold User.resetLoginAttempts, User.updateOne. indep. Qed.

Lemma ind_generateTokenPair u : independent (Jwt.generateTokenPair u).
Proof.
  unfold Jwt.generateTokenPair, Jwt.generateAccessToken, Jwt.generateRefreshToken. indep.
Qed.

Lemma ind_verifyAccessToken t : independent (Jwt.verifyAccessToken t).
Proof. unfold Jwt.verifyAccessToken. indep. Qed.

Lemma ind_verifyRefreshToken t : independent (Jwt.verifyRefreshToken t).
Proof. unfold Jwt.verifyRefreshToken. indep. Qed.

Lemma ind_cert_findById id : independent (Certificate.findById id).
Proof. unfold Certificate.findById. indep. Qed.

Lemma ind_findOne_verificationToken t :
  independent (Certificate.findOne_verificationToken t).
Proof. unfold Certificate.findOne_verificationToken. indep. Qed.

Lemma ind_pre_save_of h c : independent (Certificate.pre_save_of h c).
Proof.
  unfold Certificate.pre_save_of, Certificate.generate_certificateId,
    Certificate.generate_serialNumber, Certificate.generate_verificationToken.
  indep.
Qed.

Lemma ind_pre_save c : independent (Certificate.pre_save c).
Proof. apply ind_pre_save_of. Qed.

Lemma ind_write isNew c : independent (Certificate.write isNew c).
Proof. unfold Certificate.write. indep. Qed.

Lemma ind_cert_save isNew c : independent (Certificate.save isNew c).
Proof.
  unfold Certificate.save.
  destruct (first_failure _); [apply ind_throw|].
  apply ind_bind; [apply ind_pre_save | intros c'].
  apply ind_bind; [apply ind_write | intros _]. apply ind_ret.
Qed.

Lemma ind_save_populated h i c : independent (Certificate.save_populated h i c).
Proof.
  unfold Certificate.save_populated.
  destruct (first_failure _); [apply ind_throw|].
  apply ind_bind; [apply ind_pre_save_of | intros c'].
  apply ind_bind; [apply ind_write | intros _]. apply ind_ret.
Qed.

Lemma ind_construct f : independent (Certificate.construct f).
Proof. unfold Certificate.construct. indep. Qed.

Lemma ind_req_user req : independent (Http.req_user req).
Proof. unfold Http.req_user. indep. Qed.

#[local] Hint Resolve ind_findById ind_findOne_email ind_user_create ind_user_save
  ind_comparePassword ind_incLoginAttempts ind_resetLoginAttempts
  ind_generateTokenPair ind_verifyAccessToken ind_verifyRefreshToken
  ind_cert_findById ind_findOne_verificationToken ind_cert_save ind_save_populated
  ind_construct
  ind_req_user : indep.

(** ** The middleware and the handlers *)

Lemma ind_authenticate req : independent (Auth.authenticate req).
Proof. unfold Auth.authenticate. indep. Qed.

Lemma ind_authorize permission req : independent (Auth.authorize permission req).
Proof. unfold Auth.authorize. indep. Qed.

Lemma ind_login req email password :
  independent (AuthController.login req email password).
Proof. unfold AuthController.login, User.findByEmailWithPassword. indep. Qed.

Lemma ind_refreshToken req token : independent (AuthController.refreshToken req token).
Proof. unfold AuthController.refreshToken. indep. Qed.

Lemma ind_createUser req body : independent (UserController.createUser req body).
Proof. unfold UserController.createUser. indep. Qed.

Lemma ind_assignRole req id role : independent (UserController.assignRole req id role).
Proof. unfold UserController.assignRole. indep. Qed.

Lemma ind_createCertificate req body :
  independent (CertificateController.createCertificate req body).
Proof.
  unfold CertificateController.createCertificate,
    CertificateController.resolve_holder, CertificateController.sign_and_activate.
  indep.
Qed.

Lemma ind_revokeCertificate req id reason :
  independent (CertificateController.revokeCertificate req id reason).
Proof. unfold CertificateController.revokeCertificate. indep. Qed.

Lemma ind_verifyCertificate req token :
  independent (CertificateController.verifyCertificate req token).
Proof. unfold CertificateController.verifyCertificate. indep. Qed.

(** A state and the same state with the audit store down. *)
Lemma primary_down w :
  AuditFacts.primary (World.set_auditStoreUp false w) = AuditFacts.primary w.
Proof. reflexivity. Qed.

(** C9. [AuditLog.log] returns for every event in every state: it never
    raises. When the write to the audit store fails the entry is dropped,
    the failure goes to the console, and nothing else changes. And every
    handler and middleware completes with the same response, and leaves
    the same users and certificates, whether the audit store is down or
    not. *)
Theorem audit_failures_are_contained :
  (forall data w, exists entry w', AuditLog.log data w = (Returns entry, w')) /\
  (forall data w,
      World.auditStoreUp w = false ->
      exists message,
        AuditLog.log data w
        = (Returns None, World.set_console (World.console w ++ [message]) w)) /\
  (forall w,
      (forall req email password,
          agree (AuthController.login req email password (World.set_auditStoreUp false w))
                (AuthController.login req email password w)) /\
      (forall req token,
          agree (AuthController.refreshToken req token (World.set_auditStoreUp false w))
                (AuthController.refreshToken req token w)) /\
      (forall req body,
          agree (UserController.createUser req body (World.set_auditStoreUp false w))
                (UserController.createUser req body w)) /\
      (forall req id role,
          agree (UserController.assignRole req id role (World.set_auditStoreUp false w))
                (UserController.assignRole req id role w)) /\
      (forall req body,
          agree (CertificateController.createCertificate req body
                   (World.set_auditStoreUp false w))
                (CertificateController.createCertificate req body w)) /\
      (forall req id reason,
          agree (CertificateController.revokeCertificate req id reason
                   (World.set_auditStoreUp false w))
                (CertificateController.revokeCertificate req id reason w)) /\
      (forall req token,
          agree (CertificateController.verifyCertificate req token
                   (World.set_auditStoreUp false w))
                (CertificateController.verifyCertificate req token w)) /\
      (forall req,
          agree (Auth.authenticate req (World.set_auditStoreUp false w))
                (Auth.authenticate req w)) /\
      (forall permission req,
          agree (Auth.authorize permission req (World.set_auditStoreUp false w))
                (Auth.authorize permission req w))).
Proof.
  split; [|split].
  - intros data w. destruct (AuditFacts.log_returns data w) as (r & w' & H & _).
    now exists r, w'.
  - intros data w. apply AuditFacts.log_store_down.
  - intros w. pose proof (primary_down w) as Hdown.
    repeat split.
    + apply ind_login; exact Hdown.
    + apply ind_login; exact Hdown.
    + apply ind_refreshToken; exact Hdown.
    + apply ind_refreshToken; exact Hdown.
    + apply ind_createUser; exact Hdown.
    + apply ind_createUser; exact Hdown.
    + apply ind_assignRole; exact Hdown.
    + apply ind_assignRole; exact Hdown.
    + apply ind_createCertificate; exact Hdown.
    + apply ind_createCertificate; exact Hdown.
    + apply ind_revokeCertificate; exact Hdown.
    + apply ind_revokeCertificate; exact Hdown.
    + apply ind_verifyCertificate; exact Hdown.
    + apply ind_verifyCertificate; exact Hdown.
    + apply ind_authenticate; exact Hdown.
    + apply ind_authenticate; exact Hdown.
    + apply ind_authorize; exact Hdown.
    + apply ind_authorize; exact Hdown.
Qed.

End WithLib.

End AuditContainment.


(* ===================================================================== *)
(** * Sets of permissions *)
(* ===================================================================== *)

Module PermissionSets.

Import Rbac.


Lemma hasAnyPermission_entry role permissionList :
  includes role Object_prototype_keys = false ->
  hasAnyPermission role permissionList
  = Returns (existsb (fun p => includes p (entry role)) permissionList).
Proof.
  intros Hplain. induction permissionList as [|p rest IH]; [reflexivity|].
  cbn [hasAnyPermission existsb].
  rewrite (RbacFacts.hasPermission_entry role p Hplain).
  destruct (includes p (entry role)); [reflexivity | exact IH].
Qed.

(** X2. [hasAnyPermission] on the empty list returns false for every
    role string, the inherited property names included, since the callback
    never runs. On a role that is no inherited property name it returns,
    and returns true exactly when the role holds one of the listed
    permissions. *)
Theorem hasAnyPermission_holds_one role permissionList :
  hasAnyPermission role [] = Returns false /\
  (includes role Object_prototype_keys = false ->
   exists b,
     hasAnyPermission role permissionList = Returns b /\
     (b = true <->
      exists p, In p permissionList /\ hasPermission role p = Returns true)).
Proof.
  split; [reflexivity|]. intros Hplain.
  exists (existsb (fun p => includes p (entry role)) permissionList).
  split; [now apply hasAnyPermission_entry|].
  rewrite existsb_exists. split.
  - intros (p & Hin & Hp). exists p. split; [exact Hin|].
    rewrite (RbacFacts.hasPermission_entry role p Hplain). now rewrite Hp.
  - intros (p & Hin & Hp). exists p. split; [exact Hin|].
    rewrite (RbacFacts.hasPermission_entry role p Hplain) in Hp. congruence.
Qed.

Lemma hasAnyPermission_holds_one_witness :
  hasAnyPermission "constructor" [] = Returns false /\
  exists b,
    hasAnyPermission HOLDER [CERTIFICATE_READ_OWN; CERTIFICATE_CREATE] = Returns b /\
    (b = true <->
     exists p, In p [CERTIFICATE_READ_OWN; CERTIFICATE_CREATE] /\
               hasPermission HOLDER p = Returns true).
Proof.
  split.
  - exact (proj1 (hasAnyPermission_holds_one "constructor" [])).
  - apply (proj2 (hasAnyPermission_holds_one HOLDER
                    [CERTIFICATE_READ_OWN; CERTIFICATE_CREATE])).
    reflexivity.
Defined.

(** A role that holds something is one of the five. *)
Lemma holder_of_a_permission role permission :
  hasPermission role permission = Returns true -> In role ROLES_values.
Proof.
  unfold hasPermission, get.
  destruct (own role ROLE_PERMISSIONS) as [perms|] eqn:Hown.
  - intros _. eapply RbacFacts.own_roles; eassumption.
  - destruct (includes role Object_prototype_keys); discriminate.
Qed.

Ltac by_role H :=
  unfold ROLES_values in H; cbn [In] in H;
  destruct H as [<- | [<- | [<- | [<- | [<- | []]]]]].

Ltac by_permission H :=
  cbn [In] in H;
  repeat (destruct H as [<- | H]); [..| contradiction].

(** X3. Who holds what, by [hasPermission] on any role string. The
    permissions system:config, system:backup, role:create, role:update and
    role:delete are held by super_admin and by nobody else; user:create,
    user:update, user:delete, user:assign_role, certificate:delete,
    audit:export and role:read by admin and super_admin and by nobody
    else; certificate:create, certificate:sign, certificate:revoke,
    certificate:update, certificate:export, user:read and audit:read by
    issuer, admin and super_admin and by nobody else. *)
Theorem reserved_permissions role permission :
  (In permission [SYSTEM_CONFIG; SYSTEM_BACKUP; ROLE_CREATE; ROLE_UPDATE; ROLE_DELETE] ->
   (hasPermission role permission = Returns true <-> role = SUPER_ADMIN)) /\
  (In permission [USER_CREATE; USER_UPDATE; USER_DELETE; USER_ASSIGN_ROLE;
                  CERTIFICATE_DELETE; AUDIT_EXPORT; ROLE_READ] ->
   (hasPermission role permission = Returns true <-> In role [ADMIN; SUPER_ADMIN])) /\
  (In permission [CERTIFICATE_CREATE; CERTIFICATE_SIGN; CERTIFICATE_REVOKE;
                  CERTIFICATE_UPDATE; CERTIFICATE_EXPORT; USER_READ; AUDIT_READ] ->
   (hasPermission role permission = Returns true <->
    In role [ISSUER; ADMIN; SUPER_ADMIN])).
Proof.
  split; [|split]; intros Hp; split.
  - intros Hheld. pose proof (holder_of_a_permission role permission Hheld) as Hrole.
    by_role Hrole; by_permission Hp; first [discriminate Hheld | reflexivity].
  - intros ->. by_permission Hp; reflexivity.
  - intros Hheld. pose proof (holder_of_a_permission role permission Hheld) as Hrole.
    by_role Hrole; by_permission Hp; first [discriminate Hheld | cbn [In]; tauto].
  - intros Hrole. cbn [In] in Hrole. destruct Hrole as [<- | [<- | []]];
      by_permission Hp; reflexivity.
  - intros Hheld. pose proof (holder_of_a_permission role permission Hheld) as Hrole.
    by_role Hrole; by_permission Hp; first [discriminate Hheld | cbn [In]; tauto].
  - intros Hrole. cbn [In] in Hrole. destruct Hrole as [<- | [<- | [<- | []]]];
      by_permission Hp; reflexivity.
Qed.

(** The issuer reads users and does not create them. *)
Lemma reserved_permissions_witness :
  hasPermission ISSUER USER_READ = Returns true /\
  hasPermission ISSUER USER_CREATE <> Returns true /\
  hasPermission ADMIN SYSTEM_CONFIG <> Returns true.
Proof.
  split; [|split].
  - apply (proj2 (proj2 (reserved_permissions ISSUER USER_READ))).
    + cbn [In]. tauto.
    + cbn [In]. tauto.
  - intros H.
    apply (proj1 (proj2 (reserved_permissions ISSUER USER_CREATE))) in H;
      [|cbn [In]; tauto].
    cbn [In] in H. destruct H as [H | [H | []]]; discriminate H.
  - intros H.
    apply (proj1 (reserved_permissions ADMIN SYSTEM_CONFIG)) in H; [|cbn [In]; tauto].
    discriminate H.
Defined.

End PermissionSets.


Module Hierarchy.

Import Rbac.

Lemma held role permission :
  includes role Object_prototype_keys = false ->
  hasPermission role permission = Returns true -> In permission (entry role).
Proof.
  intros Hplain. rewrite (RbacFacts.hasPermission_entry role permission Hplain).
  intros H. apply JsFacts.includes_In. congruence.
Qed.

(** X4. [ROLE_HIERARCHY] and the permission arrays. From issuer upwards a
    higher role holds all that the role below it holds: admin every
    permission of issuer, super_admin every permission of admin. Below
    issuer this is not so: holder holds certificate:read:own, which
    verifier does not, and verifier holds user:read:own, which issuer does
    not. *)
Theorem permissions_along_the_hierarchy permission :
  ROLE_HIERARCHY = [HOLDER; VERIFIER; ISSUER; ADMIN; SUPER_ADMIN] /\
  (hasPermission ISSUER permission = Returns true ->
   hasPermission ADMIN permission = Returns true) /\
  (hasPermission ADMIN permission = Returns true ->
   hasPermission SUPER_ADMIN permission = Returns true) /\
  (hasPermission HOLDER CERTIFICATE_READ_OWN = Returns true /\
   hasPermission VERIFIER CERTIFICATE_READ_OWN = Returns false) /\
  (hasPermission VERIFIER USER_READ_OWN = Returns true /\
   hasPermission ISSUER USER_READ_OWN = Returns false).
Proof.
  split; [reflexivity|].
  split; [|split; [|split; split; reflexivity]].
  - intros H. apply held in H; [|reflexivity].
    cbn in H. repeat (destruct H as [<- | H]; [reflexivity|]). contradiction.
  - intros H. apply held in H; [|reflexivity].
    cbn in H. repeat (destruct H as [<- | H]; [reflexivity|]). contradiction.
Qed.

End Hierarchy.


(* ===================================================================== *)
(** * The front end's catalogue against the back end's *)
(* ===================================================================== *)

Module FrontendFacts.

Import Rbac.

(** The two checks on the five roles and the permission constants. *)
Lemma frontend_hasPermission_agrees user permission :
  In (Http.s_role user) ROLES_values ->
  In permission PERMISSIONS_values ->
  Frontend.hasPermission (Some user) permission
  = Rbac.hasPermission (Http.s_role user) permission.
Proof.
  intros Hrole Hperm.
  unfold Frontend.hasPermission.
  unfold ROLES_values in Hrole. cbn [In] in Hrole.
  unfold PERMISSIONS_values in Hperm. cbn [In] in Hperm.
  destruct Hrole as [<- | [<- | [<- | [<- | [<- | []]]]]];
    repeat (destruct Hperm as [<- | Hperm]; [vm_compute; reflexivity|]);
    contradiction.
Qed.

(** X5. The front end's [hasPermission] agrees with the back end's on
    every one of the five roles and every permission constant: a page or a
    button guarded by a permission shows exactly when the back end grants
    it. Without a user it answers false. *)
Theorem frontend_agrees_with_backend user permission :
  In (Http.s_role user) ROLES_values ->
  In permission PERMISSIONS_values ->
  Frontend.hasPermission (Some user) permission
  = Rbac.hasPermission (Http.s_role user) permission /\
  Frontend.hasPermission None permission = Returns false.
Proof.
  intros Hrole Hperm. split; [|reflexivity].
  now apply frontend_hasPermission_agrees.
Qed.

Definition issuer : Http.UserSummary := AuthController.summary Sample.issuer.

Lemma frontend_agrees_with_backend_witness :
  Frontend.hasPermission (Some issuer) CERTIFICATE_SIGN
  = Rbac.hasPermission ISSUER CERTIFICATE_SIGN /\
  Frontend.hasPermission None CERTIFICATE_SIGN = Returns false.
Proof.
  apply (frontend_agrees_with_backend issuer CERTIFICATE_SIGN).
  - vm_compute. tauto.
  - vm_compute. tauto.
Defined.

(** X6. [ProtectedRoute]. Without a session it sends to the login page,
    whoever the user and whatever the permission required, or none. With
    a session, a route that requires no permission renders its page; one
    that requires a permission constant, for a user of one of the five
    roles, renders its page exactly when the back end's [hasPermission]
    grants the permission to the role and sends to the dashboard
    otherwise; and without a user it sends to the dashboard. *)
Theorem protected_route_follows_backend :
  (forall user requiredPermission,
      Frontend.ProtectedRoute false user requiredPermission
      = Returns (Frontend.Navigate "/login")) /\
  (forall user, Frontend.ProtectedRoute true user None = Returns Frontend.Children) /\
  (forall permission,
      In permission PERMISSIONS_values ->
      Frontend.ProtectedRoute true None (Some permission)
      = Returns (Frontend.Navigate "/dashboard") /\
      forall user,
        In (Http.s_role user) ROLES_values ->
        (Rbac.hasPermission (Http.s_role user) permission = Returns true ->
         Frontend.ProtectedRoute true (Some user) (Some permission)
         = Returns Frontend.Children) /\
        (Rbac.hasPermission (Http.s_role user) permission = Returns false ->
         Frontend.ProtectedRoute true (Some user) (Some permission)
         = Returns (Frontend.Navigate "/dashboard"))).
Proof.
  split; [reflexivity|]. split; [reflexivity|].
  intros permission Hperm.
  assert (Htruthy : truthy (Some permission) = true).
  { unfold PERMISSIONS_values in Hperm. cbn [In] in Hperm.
    repeat (destruct Hperm as [<- | Hperm]; [reflexivity|]). contradiction. }
  split.
  { unfold Frontend.ProtectedRoute. cbn [negb]. now rewrite Htruthy. }
  intros user Hrole.
  pose proof (frontend_hasPermission_agrees user permission Hrole Hperm) as Hagree.
  unfold Frontend.ProtectedRoute. cbn [negb]. rewrite Htruthy. cbn [template].
  rewrite Hagree. split; intros ->; reflexivity.
Qed.

Definition holder : Http.UserSummary := AuthController.summary Sample.holder.

Lemma protected_route_witness :
  Frontend.ProtectedRoute false None None = Returns (Frontend.Navigate "/login") /\
  Frontend.ProtectedRoute true (Some holder) (Some CERTIFICATE_READ_OWN)
  = Returns Frontend.Children /\
  Frontend.ProtectedRoute true (Some holder) (Some CERTIFICATE_READ)
  = Returns (Frontend.Navigate "/dashboard").
Proof.
  destruct protected_route_follows_backend as (Hlogin & _ & Hguarded).
  split; [apply Hlogin|].
  split.
  - apply (proj2 (Hguarded CERTIFICATE_READ_OWN ltac:(vm_compute; tauto)) holder
             ltac:(vm_compute; tauto)).
    reflexivity.
  - apply (proj2 (Hguarded CERTIFICATE_READ ltac:(vm_compute; tauto)) holder
             ltac:(vm_compute; tauto)).
    reflexivity.
Defined.

End FrontendFacts.


(* ===================================================================== *)
(** * The bearer token of the [Authorization] header *)
(* ===================================================================== *)

Module BearerHeader.

(** No occurrence of the character in the string. *)
Fixpoint free_of (sep : ascii) (s : string) : Prop :=
  match s with
  | String c rest => c <> sep /\ free_of sep rest
  | EmptyString => True
  end.

Lemma prefix_app p s : String.prefix p s = true -> exists rest, s = (p ++ rest)%string.
Proof.
  revert s. induction p as [|a p IH]; intros s H.
  - exists s. reflexivity.
  - destruct s as [|b s]; [discriminate|]. cbn [String.prefix] in H.
    destruct (ascii_dec a b) as [<- | _]; [|discriminate].
    destruct (IH s H) as [rest ->]. exists rest. reflexivity.
Qed.

Lemma app_prefix p rest : String.prefix p (p ++ rest)%string = true.
Proof.
  induction p as [|a p IH]; [destruct rest; reflexivity|].
  cbn [append String.prefix]. destruct (ascii_dec a a); [exact IH | contradiction].
Qed.

(** The first piece of a split: the text up to the first separator. *)
Lemma split_first sep s :
  exists piece pieces,
    String_split sep s = piece :: pieces /\
    free_of sep piece /\
    ((s = piece /\ pieces = []) \/
     exists rest, s = (piece ++ String sep rest)%string /\ pieces = String_split sep rest).
Proof.
  induction s as [|c s IH].
  - exists EmptyString, []. cbn. split; [reflexivity|]. split; [exact I|]. now left.
  - cbn [String_split]. destruct (Ascii.eqb_spec c sep) as [-> | Hc].
    + exists EmptyString, (String_split sep s).
      split; [reflexivity|]. split; [exact I|]. right. exists s. now split.
    + destruct IH as (piece & pieces & -> & Hfree & Hs).
      exists (String c piece), pieces.
      split; [reflexivity|]. split; [now split|].
      destruct Hs as [(-> & ->) | (rest & -> & ->)].
      * now left.
      * right. exists rest. now split.
Qed.

Lemma split_free sep piece :
  free_of sep piece -> String_split sep piece = [piece].
Proof.
  induction piece as [|c s IH]; [reflexivity|].
  intros (Hc & Hs). cbn [String_split].
  destruct (Ascii.eqb_spec c sep); [contradiction|]. now rewrite IH.
Qed.

Lemma split_app sep piece rest :
  free_of sep piece ->
  String_split sep (piece ++ String sep rest)%string = piece :: String_split sep rest.
Proof.
  induction piece as [|c s IH].
  - intros _. cbn. now rewrite Ascii.eqb_refl.
  - intros (Hc & Hs). cbn [append String_split].
    destruct (Ascii.eqb_spec c sep); [contradiction|]. now rewrite IH.
Qed.

Lemma bearer_free : free_of " " "Bearer".
Proof. cbn. repeat split; discriminate. Qed.

Lemma split_bearer rest :
  String_split " " ("Bearer " ++ rest)%string = "Bearer" :: String_split " " rest.
Proof. exact (split_app " " "Bearer" rest bearer_free). Qed.

Lemma append_empty s : (s ++ "")%string = s.
Proof. induction s as [|c s IH]; [reflexivity | cbn; now rewrite IH]. Qed.

(** X7. [extractTokenFromHeader] on the header string. It returns a token
    exactly for a header that starts with ['Bearer '], and the token is the
    text from there up to the next space, or to the end: it holds no space,
    and what follows a second space is dropped. For every other header,
    and without one, it returns [null]. *)
Theorem extractTokenFromHeader_takes_the_second_word authHeader :
  match Jwt.Text.extractTokenFromHeader authHeader with
  | Some token =>
      free_of " " token /\
      exists rest,
        authHeader = Some ("Bearer " ++ token ++ rest)%string /\
        (rest = "" \/ exists more, rest = String " " more)
  | None => forall rest, authHeader <> Some ("Bearer " ++ rest)%string
  end.
Proof.
  unfold Jwt.Text.extractTokenFromHeader.
  destruct authHeader as [h|]; [|discriminate].
  unfold startsWith.
  destruct (String.prefix "Bearer " h) eqn:Hprefix.
  - apply prefix_app in Hprefix as [x ->].
    replace (negb (truthy (Some ("Bearer " ++ x)%string))) with false by reflexivity.
    cbn [negb orb].
    rewrite split_bearer. cbn [nth_error].
    destruct (split_first " " x) as (piece & pieces & -> & Hfree & Hx).
    split; [exact Hfree|].
    destruct Hx as [(-> & _) | (more & -> & _)].
    + exists "". split; [now rewrite append_empty | now left].
    + exists (String " " more). split; [reflexivity | right; now exists more].
  - rewrite orb_true_r. intros rest H. injection H as ->.
    pose proof (app_prefix "Bearer " rest) as Hp. cbn [append] in Hp.
    congruence.
Qed.

End BearerHeader.


(* ===================================================================== *)
(** * Issued tokens *)
(* ===================================================================== *)

Module IssuedTokens.

Import Jwt.

(** The instant of a state in seconds, as [jsonwebtoken] reads the clock. *)
Definition seconds (w : World.t) : Z := (World.now w / 1000)%Z.

Definition access_claims (p : Payload) (w : World.t) : Claims :=
  {| userId := Some (p_userId p); email := p_email p; role := Some (p_role p);
     tokenId := None; type := Some "access"; iat := seconds w;
     exp := Some (seconds w + JWT_EXPIRES_IN (World.env w))%Z;
     iss := Some ISSUER; aud := Some AUDIENCE |}.

Definition refresh_claims (p : Payload) (w : World.t) : Claims :=
  {| userId := Some (p_userId p); email := p_email p; role := None;
     tokenId := Some (toString_hex (firstn 16 (World.entropy w ++ repeat 0%N 16)));
     type := Some "refresh"; iat := seconds w;
     exp := Some (seconds w + JWT_REFRESH_EXPIRES_IN (World.env w))%Z;
     iss := Some ISSUER; aud := None |}.

Lemma generateAccessToken_returns p w :
  generateAccessToken p w
  = (Returns (Signed (JWT_SECRET (World.env w)) (access_claims p w)), w).
Proof. reflexivity. Qed.

Lemma generateRefreshToken_returns p w :
  generateRefreshToken p w
  = (Returns (Signed (JWT_REFRESH_SECRET (World.env w)) (refresh_claims p w)),
     World.set_entropy (skipn 16 (World.entropy w)) w).
Proof. reflexivity. Qed.

Lemma verify_signed key claims issuer audience now :
  verify (Signed key claims) key issuer audience now
  = if match exp claims with Some e => (e <=? now / 1000)%Z | None => false end
    then Throws TokenExpiredError
    else if match audience with
            | Some a => negb (opt_eqb (aud claims) a)
            | None => false
            end
    then Throws (JsonWebTokenError
                   ("jwt audience invalid. expected: " ++ or_else audience ""))
    else if negb (opt_eqb (iss claims) issuer)
    then Throws (JsonWebTokenError ("jwt issuer invalid. expected: " ++ issuer))
    else Returns claims.
Proof. unfold verify. now rewrite String.eqb_refl. Qed.

Lemma verify_other_key key key' claims issuer audience now :
  key <> key' ->
  verify (Signed key claims) key' issuer audience now
  = Throws (JsonWebTokenError "invalid signature").
Proof. intros H. unfold verify. apply String.eqb_neq in H. now rewrite H. Qed.

(** X8. A token verifies until it expires. In a later state of the same
    environment, [verifyAccessToken] returns the claims that
    [generateAccessToken] signed, with the user's id, email and role and the
    type access, as long as fewer seconds than the access lifetime have
    passed, and raises [TokenExpiredError] from then on; and the same holds
    of [generateRefreshToken] and [verifyRefreshToken] with the refresh
    lifetime, the claims carrying no role and the type refresh. *)
Theorem issued_tokens_verify_until_expiry p w w' :
  World.env w' = World.env w ->
  exists a r w1,
    generateAccessToken p w = (Returns a, w) /\
    generateRefreshToken p w = (Returns r, w1) /\
    ((seconds w' < seconds w + JWT_EXPIRES_IN (World.env w))%Z ->
     exists claims,
       verifyAccessToken a w' = (Returns claims, w') /\
       userId claims = Some (p_userId p) /\ email claims = p_email p /\
       role claims = Some (p_role p) /\ type claims = Some "access") /\
    ((seconds w + JWT_EXPIRES_IN (World.env w) <= seconds w')%Z ->
     verifyAccessToken a w' = (Throws TokenExpiredError, w')) /\
    ((seconds w' < seconds w + JWT_REFRESH_EXPIRES_IN (World.env w))%Z ->
     exists claims,
       verifyRefreshToken r w' = (Returns claims, w') /\
       userId claims = Some (p_userId p) /\ email claims = p_email p /\
       role claims = None /\ type claims = Some "refresh") /\
    ((seconds w + JWT_REFRESH_EXPIRES_IN (World.env w) <= seconds w')%Z ->
     verifyRefreshToken r w' = (Throws TokenExpiredError, w')).
Proof.
  intros Henv.
  eexists. eexists. eexists.
  split; [apply generateAccessToken_returns|].
  split; [apply generateRefreshToken_returns|].
  unfold verifyAccessToken, verifyRefreshToken, bind, Date_now, getenv, gets, lift.
  rewrite Henv, !verify_signed. fold (seconds w').
  cbn [exp aud iss access_claims refresh_claims opt_eqb negb].
  rewrite !String.eqb_refl. cbn [negb].
  repeat split.
  - intros Hlt. apply Z.leb_gt in Hlt. rewrite Hlt.
    eexists. split; [reflexivity|]. repeat split.
  - intros Hle. apply Z.leb_le in Hle. now rewrite Hle.
  - intros Hlt. apply Z.leb_gt in Hlt. rewrite Hlt.
    eexists. split; [reflexivity|]. repeat split.
  - intros Hle. apply Z.leb_le in Hle. now rewrite Hle.
Qed.

Definition holder_payload : Payload :=
  {| p_userId := 5; p_email := Some "holder1@test.com"; p_role := "holder" |}.

(** The holder's tokens, issued at 5 s and used at 65 s. *)
Lemma issued_tokens_witness :
  exists a r,
    fst (generateAccessToken holder_payload (Sample.world [] 5000)) = Returns a /\
    fst (generateRefreshToken holder_payload (Sample.world [] 5000)) = Returns r /\
    (exists claims,
        verifyAccessToken a (Sample.world [] 65000)
        = (Returns claims, Sample.world [] 65000) /\
        role claims = Some "holder" /\ type claims = Some "access") /\
    (exists claims,
        verifyRefreshToken r (Sample.world [] 65000)
        = (Returns claims, Sample.world [] 65000) /\
        role claims = None /\ type claims = Some "refresh").
Proof.
  destruct (issued_tokens_verify_until_expiry holder_payload
              (Sample.world [] 5000) (Sample.world [] 65000) eq_refl)
    as (a & r & w1 & Ha & Hr & Hlive & _ & Hlive' & _).
  exists a, r.
  split; [now rewrite Ha|]. split; [now rewrite Hr|]. split.
  - destruct Hlive as (claims & Hv & _ & _ & Hrole & Htype); [vm_compute; reflexivity|].
    exists claims. now repeat split.
  - destruct Hlive' as (claims & Hv & _ & _ & Hrole & Htype); [vm_compute; reflexivity|].
    exists claims. now repeat split.
Defined.

(** X9. The two kinds of token are kept apart by the keys and the audience,
    not by the type claim. [verifyAccessToken] never accepts a token that
    [generateRefreshToken] made. [verifyRefreshToken] rejects a token that
    [generateAccessToken] made, with an invalid signature, when the two
    secrets differ; when they are equal it accepts it until it expires,
    type access and all. *)
Theorem token_kinds_are_kept_apart_by_the_keys p w w' :
  World.env w' = World.env w ->
  exists a r w1,
    generateAccessToken p w = (Returns a, w) /\
    generateRefreshToken p w = (Returns r, w1) /\
    (forall claims, fst (verifyAccessToken r w') <> Returns claims) /\
    (JWT_SECRET (World.env w) <> JWT_REFRESH_SECRET (World.env w) ->
     verifyRefreshToken a w'
     = (Throws (JsonWebTokenError "invalid signature"), w')) /\
    (JWT_SECRET (World.env w) = JWT_REFRESH_SECRET (World.env w) ->
     (seconds w' < seconds w + JWT_EXPIRES_IN (World.env w))%Z ->
     exists claims,
       verifyRefreshToken a w' = (Returns claims, w') /\ type claims = Some "access").
Proof.
  intros Henv.
  eexists. eexists. eexists.
  split; [apply generateAccessToken_returns|].
  split; [apply generateRefreshToken_returns|].
  unfold verifyAccessToken, verifyRefreshToken, bind, Date_now, getenv, gets, lift.
  rewrite Henv. fold (seconds w'). cbn [fst].
  split; [|split].
  - intros claims.
    destruct (String.eqb_spec (JWT_REFRESH_SECRET (World.env w)) (JWT_SECRET (World.env w)))
      as [Heq | Hneq].
    + rewrite Heq, verify_signed.
      cbn [exp aud iss refresh_claims opt_eqb negb].
      destruct (_ <=? _)%Z; discriminate.
    + rewrite (verify_other_key _ _ _ _ _ _ Hneq). discriminate.
  - intros Hneq. now rewrite (verify_other_key _ _ _ _ _ _ Hneq).
  - intros Heq Hlt. rewrite Heq, verify_signed. fold (seconds w').
    cbn [exp aud iss access_claims opt_eqb negb].
    apply Z.leb_gt in Hlt. rewrite Hlt.
    rewrite String.eqb_refl. cbn [negb].
    eexists. split; reflexivity.
Qed.

Lemma token_kinds_witness :
  exists a r,
    fst (generateAccessToken holder_payload (Sample.world [] 5000)) = Returns a /\
    fst (generateRefreshToken holder_payload (Sample.world [] 5000)) = Returns r /\
    (forall claims, fst (verifyAccessToken r (Sample.world [] 65000)) <> Returns claims) /\
    verifyRefreshToken a (Sample.world [] 65000)
    = (Throws (JsonWebTokenError "invalid signature"), Sample.world [] 65000).
Proof.
  destruct (token_kinds_are_kept_apart_by_the_keys holder_payload
              (Sample.world [] 5000) (Sample.world [] 65000) eq_refl)
    as (a & r & w1 & Ha & Hr & Hnever & Hdiffer & _).
  exists a, r.
  split; [now rewrite Ha|]. split; [now rewrite Hr|]. split; [exact Hnever|].
  apply Hdiffer. vm_compute. discriminate.
Defined.

End IssuedTokens.


(* ===================================================================== *)
(** * The middleware of [auth.js] *)
(* ===================================================================== *)

Module Middleware.

Import Http Auth.

(** The codes with which [authenticate] refuses a request. *)
Definition refusals : list (option string) :=
  [ Some "AUTH_REQUIRED"; Some "TOKEN_EXPIRED"; Some "TOKEN_INVALID";
    Some "TOKEN_TYPE_INVALID"; Some "USER_NOT_FOUND"; Some "ACCOUNT_INACTIVE" ].

(** The request carries an access token that verifies in the state and
    names a stored, active user. *)
Definition signed_in (req : Req) (w : World.t) (u : UserDoc.t) (claims : Jwt.Claims)
    : Prop :=
  exists token,
    Jwt.extractTokenFromHeader (authorization req) = Some token /\
    Jwt.verifyAccessToken token w = (Returns claims, w) /\
    Jwt.type claims = Some "access" /\
    Jwt.userId claims = Some (UserDoc._id u) /\
    find (User.has_id (UserDoc._id u)) (World.users w) = Some u /\
    UserDoc.isActive u = true.

Lemma verified_is_signed token w claims :
  Jwt.verifyAccessToken token w = (Returns claims, w) -> Jwt.no_token (Some token) = false.
Proof.
  destruct token; [|reflexivity]. rewrite Tokens.verifyAccessToken_run. discriminate.
Qed.

Lemma found_by_id id us u : find (User.has_id id) us = Some u -> UserDoc._id u = id.
Proof.
  intros H. apply find_some in H as [_ H].
  unfold User.has_id in H. now apply Nat.eqb_eq in H.
Qed.

Lemma decoded_or_error token w :
  try_catch (decoded <- Jwt.verifyAccessToken token ;; ret (inr decoded))
    (fun err => ret (inl err)) w
  = (Returns (match Jwt.verify token (Jwt.JWT_SECRET (World.env w)) Jwt.ISSUER
                      (Some Jwt.AUDIENCE) (World.now w) with
              | Returns claims => inr claims
              | Throws e => inl e
              end : Exn + Jwt.Claims), w).
Proof.
  unfold try_catch, bind. rewrite Tokens.verifyAccessToken_run.
  destruct (Jwt.verify _ _ _ _ _); reflexivity.
Qed.

Lemma findById_run id w :
  User.findById id w = (Returns (find (User.has_id id) (World.users w)), w).
Proof. reflexivity. Qed.


(** What [authenticate] makes of a request. *)
Lemma authenticate_outcome req w :
  exists step w',
    authenticate req w = (Returns step, w') /\
    AuditFacts.primary w' = AuditFacts.primary w /\
    match step with
    | Next (u, claims) => w' = w /\ signed_in req w u claims
    | Respond r => status r = 401%Z /\ success r = false /\ In (code r) refusals
    end.
Proof.
  unfold authenticate, try_catch at 1.
  destruct (Jwt.extractTokenFromHeader (authorization req)) as [token|] eqn:Hext.
  2: { log_step r w2 Hlog Hprim.
       eexists. exists w2. split; [reflexivity|]. split; [exact Hprim|].
       cbn. tauto. }
  destruct (Jwt.no_token (Some token)) eqn:Hempty.
  { log_step r w2 Hlog Hprim.
    eexists. exists w2. split; [reflexivity|]. split; [exact Hprim|].
    cbn. tauto. }
  rewrite (MonadFacts.bind_returns _ (decoded_or_error token w)).
  destruct (Jwt.verify token _ _ _ _) as [claims|e] eqn:Hverify.
  2: { cbv zeta.
       log_step r w2 Hlog Hprim.
       eexists. exists w2. split; [reflexivity|]. split; [exact Hprim|].
       destruct (is_expired_error e); cbn; tauto. }
  destruct (Jwt.opt_eqb (Jwt.type claims) "access") eqn:Htype; cbn [negb].
  2: { eexists. exists w. split; [reflexivity|]. split; [reflexivity|]. cbn. tauto. }
  destruct (Jwt.userId claims) as [id|] eqn:Hid.
  2: { eexists. exists w. split; [reflexivity|]. split; [reflexivity|]. cbn. tauto. }
  rewrite (MonadFacts.bind_returns _ (findById_run id w)).
  destruct (find (User.has_id id) (World.users w)) as [u|] eqn:Hfind.
  2: { eexists. exists w. split; [reflexivity|]. split; [reflexivity|]. cbn. tauto. }
  destruct (UserDoc.isActive u) eqn:Hactive; cbn [negb].
  - eexists. exists w. split; [reflexivity|]. split; [reflexivity|].
    split; [reflexivity|].
    exists token. pose proof (found_by_id _ _ _ Hfind) as Hu. subst id.
    repeat split; try assumption.
    + rewrite Tokens.verifyAccessToken_run. now rewrite Hverify.
    + now apply Tokens.opt_eqb_eq.
  - log_step r w2 Hlog Hprim.
    eexists. exists w2. split; [reflexivity|]. split; [exact Hprim|].
    cbn. tauto.
Qed.

(** X10. [authenticate] always answers or passes on, and changes no user
    and no certificate. It passes on only a request whose bearer token
    [verifyAccessToken] accepts, with the type access, and whose user id
    names a stored user who is active; [req.user] is then that user as
    stored, not as the token describes it. Every other request is
    answered 401, with one of six codes; it never answers 500. *)
Theorem authenticate_passes_stored_active_users_only req w :
  exists step w',
    authenticate req w = (Returns step, w') /\
    AuditFacts.primary w' = AuditFacts.primary w /\
    match step with
    | Next (u, claims) => w' = w /\ signed_in req w u claims
    | Respond r => status r = 401%Z /\ success r = false /\ In (code r) refusals
    end.
Proof. exact (authenticate_outcome req w). Qed.


(** The response of [authorize] to a role that lacks the permission. *)
Definition permission_denied (permission : string) : Response :=
  failure 403 ("Access denied. Required permission: " ++ permission)%string
    (Some "PERMISSION_DENIED").

Definition authentication_required : Response :=
  failure 401 "Authentication required." (Some "AUTH_REQUIRED").

Lemma lift_run {A} (a : A) w : lift (Returns a) w = (Returns a, w).
Proof. reflexivity. Qed.

(** X11. [authorize(permission)] on a request that [authenticate] passed,
    when the user's role is no inherited property name (as every role that
    the schema admits is): the request passes, in the same state, exactly
    when the role's array holds the permission; otherwise it is answered
    403 PERMISSION_DENIED and no user and no certificate changes. Without
    [req.user] it is answered 401 AUTH_REQUIRED. *)
Theorem authorize_follows_the_catalogue permission req w :
  (user req = None ->
   authorize permission req w = (Returns (Respond authentication_required), w)) /\
  (forall u,
      user req = Some u ->
      includes (UserDoc.role u) Rbac.Object_prototype_keys = false ->
      (In permission (Rbac.entry (UserDoc.role u)) ->
       authorize permission req w = (Returns (Next tt), w)) /\
      (~ In permission (Rbac.entry (UserDoc.role u)) ->
       exists w',
         authorize permission req w = (Returns (Respond (permission_denied permission)), w') /\
         AuditFacts.primary w' = AuditFacts.primary w)).
Proof.
  split.
  - intros Hnone. unfold authorize, try_catch. now rewrite Hnone.
  - intros u Hu Hplain. unfold authorize, try_catch. rewrite Hu.
    rewrite (RbacFacts.hasPermission_entry _ permission Hplain).
    rewrite (MonadFacts.bind_returns _ (lift_run _ w)). split.
    + intros Hin. apply JsFacts.includes_In in Hin. now rewrite Hin.
    + intros Hout. apply JsFacts.includes_false in Hout. rewrite Hout. cbn [negb].
      log_step r w2 Hlog Hprim.
      exists w2. split; [reflexivity | exact Hprim].
Qed.

(** The response of [authorizeAny] to a role that holds none of the
    permissions, and of [authorizeRole] to a role that is not listed. *)
Definition insufficient_permissions : Response :=
  failure 403 "Access denied. Insufficient permissions." (Some "PERMISSION_DENIED").

Definition role_denied : Response :=
  failure 403 "Access denied. Insufficient role." (Some "ROLE_DENIED").

(** X12. [authorizeAny(permissions)], for a user whose role is no inherited
    property name: the request passes exactly when the role's array holds
    one of the permissions; otherwise it is answered 403 PERMISSION_DENIED
    and no user and no certificate changes. With an empty list nobody
    passes. *)
Theorem authorizeAny_needs_one permissions req u w :
  user req = Some u ->
  includes (UserDoc.role u) Rbac.Object_prototype_keys = false ->
  ((exists p, In p permissions /\ In p (Rbac.entry (UserDoc.role u))) ->
   authorizeAny permissions req w = (Returns (Next tt), w)) /\
  (~ (exists p, In p permissions /\ In p (Rbac.entry (UserDoc.role u))) ->
   exists w',
     authorizeAny permissions req w = (Returns (Respond insufficient_permissions), w') /\
     AuditFacts.primary w' = AuditFacts.primary w) /\
  (exists w', authorizeAny [] req w = (Returns (Respond insufficient_permissions), w')).
Proof.
  intros Hu Hplain.
  assert (Hrun : forall ps,
             existsb (fun p => includes p (Rbac.entry (UserDoc.role u))) ps = false ->
             exists w',
               authorizeAny ps req w = (Returns (Respond insufficient_permissions), w') /\
               AuditFacts.primary w' = AuditFacts.primary w).
  { intros ps Hnone. unfold authorizeAny, try_catch. rewrite Hu.
    rewrite (PermissionSets.hasAnyPermission_entry _ ps Hplain), Hnone.
    rewrite (MonadFacts.bind_returns _ (lift_run _ w)). cbn [negb].
    log_step r w2 Hlog Hprim.
    exists w2. split; [reflexivity | exact Hprim]. }
  split; [|split].
  - intros (p & Hin & Hheld). unfold authorizeAny, try_catch. rewrite Hu.
    rewrite (PermissionSets.hasAnyPermission_entry _ permissions Hplain).
    assert (Hsome : existsb (fun p => includes p (Rbac.entry (UserDoc.role u))) permissions
                    = true).
    { apply existsb_exists. exists p. split; [exact Hin | now apply JsFacts.includes_In]. }
    rewrite Hsome. now rewrite (MonadFacts.bind_returns _ (lift_run _ w)).
  - intros Hnone. apply Hrun.
    destruct (existsb _ permissions) eqn:Hsome; [|reflexivity].
    exfalso. apply Hnone. apply existsb_exists in Hsome as (p & Hin & Hheld).
    exists p. split; [exact Hin | now apply JsFacts.includes_In].
  - destruct (Hrun [] eq_refl) as (w' & H & _). now exists w'.
Qed.

(** X13. [authorizeRole(...roles)]: the request of a user passes exactly
    when the user's role is one of the roles given, one by one or in
    arrays; otherwise it is answered 403 ROLE_DENIED and no user and no
    certificate changes. It consults no permission, so it decides for
    every role string. *)
Theorem authorizeRole_admits_listed_roles roles req u w :
  user req = Some u ->
  (In (UserDoc.role u) (flat roles) ->
   authorizeRole roles req w = (Returns (Next tt), w)) /\
  (~ In (UserDoc.role u) (flat roles) ->
   exists w',
     authorizeRole roles req w = (Returns (Respond role_denied), w') /\
     AuditFacts.primary w' = AuditFacts.primary w) /\
  (forall role, In role (flat roles) <->
                In (inl role) roles \/ exists more, In (inr more) roles /\ In role more).
Proof.
  intros Hu. split; [|split].
  - intros Hin. apply JsFacts.includes_In in Hin.
    unfold authorizeRole, try_catch. rewrite Hu. cbv zeta. now rewrite Hin.
  - intros Hout. apply JsFacts.includes_false in Hout.
    unfold authorizeRole, try_catch. rewrite Hu. cbv zeta. rewrite Hout. cbn [negb].
    log_step r w2 Hlog Hprim.
    exists w2. split; [reflexivity | exact Hprim].
  - intros role. unfold flat. rewrite in_flat_map. split.
    + intros ([one | more] & Hin & Hrole).
      * destruct Hrole as [<- | []]. now left.
      * right. now exists more.
    + intros [Hin | (more & Hin & Hrole)].
      * exists (inl role). split; [exact Hin | now left].
      * exists (inr more). now split.
Qed.

Definition ownership_required : Response :=
  failure 403 "Access denied. You can only access your own resources."
    (Some "OWNERSHIP_REQUIRED").

(** X14. [authorizeOwnerOrAdmin(adminPermission)], for a user whose role is
    no inherited property name: a request for the user's own id passes
    whatever the role; a request for another id, or for none, passes
    exactly when the role holds the permission, and is otherwise answered
    403 OWNERSHIP_REQUIRED with no user and no certificate changed. The
    parameter [userId] is preferred to [id], and the permission defaults to
    user:read. *)
Theorem authorizeOwnerOrAdmin_admits_owner_and_admin adminPermission userId id req u w :
  user req = Some u ->
  includes (UserDoc.role u) Rbac.Object_prototype_keys = false ->
  let permission := match adminPermission with Some p => p | None => Rbac.USER_READ end in
  let targetId := match userId with Some i => Some i | None => id end in
  (targetId = Some (UserDoc._id u) ->
   authorizeOwnerOrAdmin adminPermission userId id req w = (Returns (Next tt), w)) /\
  (In permission (Rbac.entry (UserDoc.role u)) ->
   authorizeOwnerOrAdmin adminPermission userId id req w = (Returns (Next tt), w)) /\
  (targetId <> Some (UserDoc._id u) ->
   ~ In permission (Rbac.entry (UserDoc.role u)) ->
   exists w',
     authorizeOwnerOrAdmin adminPermission userId id req w
     = (Returns (Respond ownership_required), w') /\
     AuditFacts.primary w' = AuditFacts.primary w).
Proof.
  intros Hu Hplain permission targetId.
  unfold authorizeOwnerOrAdmin, try_catch. rewrite Hu. cbv zeta.
  fold permission. fold targetId.
  rewrite (RbacFacts.hasPermission_entry _ permission Hplain).
  rewrite (MonadFacts.bind_returns _ (lift_run _ w)).
  split; [|split].
  - intros ->. now rewrite Nat.eqb_refl.
  - intros Hin. apply JsFacts.includes_In in Hin. rewrite Hin.
    now rewrite andb_false_r.
  - intros Hother Hout. apply JsFacts.includes_false in Hout. rewrite Hout.
    assert (Hnot : match targetId with
                   | Some t => Nat.eqb (UserDoc._id u) t
                   | None => false
                   end = false).
    { destruct targetId as [t|]; [|reflexivity].
      apply Nat.eqb_neq. congruence. }
    rewrite Hnot. cbn [negb andb].
    log_step r w2 Hlog Hprim.
    exists w2. split; [reflexivity | exact Hprim].
Qed.

(** [authenticate] on a bearer token that verifies, with the type access
    and a user id: the answer depends on the stored user alone. *)
Lemma authenticate_verified req token claims id w :
  Jwt.extractTokenFromHeader (authorization req) = Some token ->
  Jwt.verifyAccessToken token w = (Returns claims, w) ->
  Jwt.type claims = Some "access" ->
  Jwt.userId claims = Some id ->
  authenticate req w
  = match find (User.has_id id) (World.users w) with
    | None => (Returns (Respond (failure 401 "User not found." (Some "USER_NOT_FOUND"))), w)
    | Some stored =>
        if UserDoc.isActive stored
        then (Returns (Next (stored, claims)), w)
        else
          (AuditLog.log
             (audit req AuditEntry.SECURITY_UNAUTHORIZED (Some AuditEntry.WARNING)
                (Some stored) true None None None (Some false) (Some 401%Z)
                (Some [("reason", "Account deactivated")]) None) ;;;
           ret (Respond (failure 401 "Account is deactivated. Contact administrator."
                           (Some "ACCOUNT_INACTIVE")))) w
    end.
Proof.
  intros Hext Hver Htype Hid.
  unfold authenticate. rewrite Hext, (verified_is_signed token w claims Hver).
  unfold try_catch at 1.
  rewrite (MonadFacts.bind_returns _ (decoded_or_error token w)).
  rewrite Tokens.verifyAccessToken_run in Hver. injection Hver as ->.
  apply Tokens.opt_eqb_eq in Htype. rewrite Htype, Hid. cbn [negb].
  rewrite (MonadFacts.bind_returns _ (findById_run id w)).
  destruct (find _ _) as [stored|]; [|reflexivity].
  destruct (UserDoc.isActive stored); cbn [negb]; [reflexivity|].
  log_step r w2 Hlog Hprim. reflexivity.
Qed.


End Middleware.


(* ===================================================================== *)
(** * Sessions: what an issued access token opens *)
(* ===================================================================== *)

Module Sessions.

Import Http Auth.

Definition payload_of (u : UserDoc.t) : Jwt.Payload :=
  {| Jwt.p_userId := UserDoc._id u; Jwt.p_email := UserDoc.email u;
     Jwt.p_role := UserDoc.role u |}.

Lemma generateTokenPair_run u w :
  Jwt.generateTokenPair u w
  = (Returns
       {| Jwt.accessToken :=
            Jwt.Signed (Jwt.JWT_SECRET (World.env w))
              (IssuedTokens.access_claims (payload_of u) w);
          Jwt.refreshToken :=
            Jwt.Signed (Jwt.JWT_REFRESH_SECRET (World.env w))
              (IssuedTokens.refresh_claims (payload_of u) w);
          Jwt.expiresIn := Jwt.JWT_EXPIRES_IN (World.env w) |},
     World.set_entropy (skipn 16 (World.entropy w)) w).
Proof. reflexivity. Qed.

Definition token_expired : Response :=
  failure 401 "Token expired. Please refresh your session." (Some "TOKEN_EXPIRED").

Definition user_not_found : Response :=
  failure 401 "User not found." (Some "USER_NOT_FOUND").

Definition account_inactive : Response :=
  failure 401 "Account is deactivated. Contact administrator." (Some "ACCOUNT_INACTIVE").

(** The access token of the pair verifies in a later state of the same
    environment until its lifetime has passed. *)
Lemma access_token_verifies u w w' :
  World.env w' = World.env w ->
  Jwt.verify
    (Jwt.Signed (Jwt.JWT_SECRET (World.env w)) (IssuedTokens.access_claims (payload_of u) w))
    (Jwt.JWT_SECRET (World.env w')) Jwt.ISSUER (Some Jwt.AUDIENCE) (World.now w')
  = if (IssuedTokens.seconds w + Jwt.JWT_EXPIRES_IN (World.env w)
       <=? IssuedTokens.seconds w')%Z
    then Throws TokenExpiredError
    else Returns (IssuedTokens.access_claims (payload_of u) w).
Proof.
  intros ->. rewrite IssuedTokens.verify_signed.
  cbn [Jwt.exp Jwt.aud Jwt.iss IssuedTokens.access_claims Jwt.opt_eqb negb].
  rewrite !String.eqb_refl. cbn [negb]. reflexivity.
Qed.

(** X15. An access token opens requests as the user is stored when the
    request comes, not as the token describes the user. For the access
    token of a pair that [generateTokenPair] made for a user, presented as
    the bearer token in a later state of the same environment:
    once its lifetime has passed the request is answered 401
    TOKEN_EXPIRED; before that, it is answered 401 USER_NOT_FOUND when no
    user with the id is stored any more, 401 ACCOUNT_INACTIVE when the
    stored user is deactivated, and it passes, with the stored user as
    [req.user], when the stored user is active, although the token's role
    claim is still the role at issue. *)
Theorem access_token_follows_the_stored_user u w tokens w1 req w' :
  Jwt.generateTokenPair u w = (Returns tokens, w1) ->
  authorization req = Some (Jwt.Bearer (Jwt.accessToken tokens)) ->
  World.env w' = World.env w ->
  ((IssuedTokens.seconds w + Jwt.JWT_EXPIRES_IN (World.env w) <= IssuedTokens.seconds w')%Z ->
   exists w'', authenticate req w' = (Returns (Respond token_expired), w'')) /\
  ((IssuedTokens.seconds w' < IssuedTokens.seconds w + Jwt.JWT_EXPIRES_IN (World.env w))%Z ->
   (find (User.has_id (UserDoc._id u)) (World.users w') = None ->
    authenticate req w' = (Returns (Respond user_not_found), w')) /\
   (forall stored,
       find (User.has_id (UserDoc._id u)) (World.users w') = Some stored ->
       (UserDoc.isActive stored = false ->
        exists w'', authenticate req w' = (Returns (Respond account_inactive), w'')) /\
       (UserDoc.isActive stored = true ->
        exists claims,
          authenticate req w' = (Returns (Next (stored, claims)), w') /\
          Jwt.role claims = Some (UserDoc.role u)))).
Proof.
  intros Hpair Hauth Henv.
  rewrite generateTokenPair_run in Hpair. injection Hpair as <- <-.
  cbn [Jwt.accessToken] in Hauth.
  assert (Hopen : authenticate req w'
                  = match
                      (if (IssuedTokens.seconds w + Jwt.JWT_EXPIRES_IN (World.env w)
                           <=? IssuedTokens.seconds w')%Z
                       then inl TokenExpiredError
                       else inr (IssuedTokens.access_claims (payload_of u) w))
                    with
                    | inl _ =>
                        (AuditLog.log
                           (audit req AuditEntry.SECURITY_UNAUTHORIZED
                              (Some AuditEntry.WARNING) None false None None None
                              (Some false) (Some 401%Z)
                              (Some [("reason", "Token expired");
                                     ("error", AuditLog.message TokenExpiredError)])
                              None) ;;;
                         ret (Respond token_expired)) w'
                    | inr claims =>
                        match find (User.has_id (UserDoc._id u)) (World.users w') with
                        | None => (Returns (Respond user_not_found), w')
                        | Some stored =>
                            if UserDoc.isActive stored
                            then (Returns (Next (stored, claims)), w')
                            else
                              (AuditLog.log
                                 (audit req AuditEntry.SECURITY_UNAUTHORIZED
                                    (Some AuditEntry.WARNING) (Some stored) true
                                    None None None (Some false) (Some 401%Z)
                                    (Some [("reason", "Account deactivated")]) None) ;;;
                               ret (Respond account_inactive)) w'
                        end
                    end).
  { unfold authenticate. rewrite Hauth. cbn [Jwt.extractTokenFromHeader Jwt.no_token].
    unfold try_catch at 1.
    rewrite (MonadFacts.bind_returns _ (Middleware.decoded_or_error _ w')).
    rewrite (access_token_verifies u w w' Henv).
    destruct (_ <=? _)%Z.
    - cbv zeta. cbn [is_expired_error].
      log_step r w2 Hlog Hprim. rewrite (MonadFacts.bind_returns _ Hlog). reflexivity.
    - cbn [Jwt.type Jwt.userId IssuedTokens.access_claims Jwt.opt_eqb payload_of
           Jwt.p_userId negb].
      rewrite String.eqb_refl. cbn [negb].
      rewrite (MonadFacts.bind_returns _ (Middleware.findById_run _ w')).
      destruct (find _ _) as [stored|]; [|reflexivity].
      destruct (UserDoc.isActive stored); cbn [negb]; [reflexivity|].
      log_step r w2 Hlog Hprim. rewrite (MonadFacts.bind_returns _ Hlog). reflexivity. }
  rewrite Hopen. clear Hopen.
  split.
  - intros Hle. apply Z.leb_le in Hle. rewrite Hle.
    log_step r w2 Hlog Hprim. exists w2. reflexivity.
  - intros Hlt. apply Z.leb_gt in Hlt. rewrite Hlt. split.
    + intros ->. reflexivity.
    + intros stored ->. split.
      * intros ->. log_step r w2 Hlog Hprim. exists w2. reflexivity.
      * intros ->. eexists. split; reflexivity.
Qed.

End Sessions.


(* ===================================================================== *)
(** * Registration, logout and refresh *)
(* ===================================================================== *)

Module Accounts.

Import Http AuthController.

Section WithLib.
Context {L : Lib}.

(** What [User.create] has done when it returns. *)
Lemma create_stores f w u w' :
  User.create f w = (Returns u, w') ->
  UserDoc._id u = World.nextId w /\
  UserDoc.role u = UserDoc.role (User.construct (World.nextId w) f) /\
  UserDoc.isActive u = UserDoc.isActive (User.construct (World.nextId w) f) /\
  UserDoc.email u = UserDoc.email (User.construct (World.nextId w) f) /\
  UserDoc.createdBy u = User.f_createdBy f /\
  World.users w' = World.users w ++ [u] /\
  World.certificates w' = World.certificates w /\
  World.env w' = World.env w /\
  World.now w' = World.now w.
Proof.
  unfold User.create, bind, newObjectId. cbv beta iota zeta.
  destruct (first_failure _); [unfold throw; discriminate|].
  unfold randomBytes, users, gets, update_users, modify, ret, throw.
  cbn [World.users World.set_entropy World.set_nextId].
  destruct (existsb _ _); [discriminate|].
  intros H. injection H as <- <-. repeat split.
Qed.

Definition email_taken : Response :=
  failure 409 "Email already registered." (Some "EMAIL_TAKEN").

Definition registered (u : UserDoc.t) (tokens : Jwt.TokenPair) : Response :=
  ok 201 (Some "Registration successful.")
    (WithLogin {| s_id := UserDoc._id u; s_fullName := UserDoc.fullName u;
                  s_email := UserDoc.email u; s_role := UserDoc.role u;
                  s_organization := UserDoc.organization u; s_lastLogin := None |}
       tokens).

(** X16. Registration creates holders only. [register] always answers, with
    201, 409 or 500. When a user with the email of the body is stored it
    answers 409 EMAIL_TAKEN and changes nothing. When it answers 201,
    exactly one user was added to the collection: its role is holder
    whatever the request, it is active, and the response carries this user
    and the token pair that [generateTokenPair] made for it; no certificate
    changed. *)
Theorem register_creates_holders_only req body w :
  exists response w',
    register req body w = (Returns response, w') /\
    In (status response) [201; 409; 500]%Z /\
    (forall existing,
        User.findOne_email (rb_email body) w = (Returns (Some existing), w) ->
        response = email_taken /\ w' = w) /\
    (status response = 201%Z ->
     exists created tokens w1 w2,
       response = registered created tokens /\
       User.create (registration req body) w = (Returns created, w1) /\
       Jwt.generateTokenPair created w1 = (Returns tokens, w2) /\
       UserDoc.role created = Rbac.HOLDER /\
       UserDoc.isActive created = true /\
       World.users w' = World.users w ++ [created] /\
       World.certificates w' = World.certificates w).
Proof.
  unfold register, try_catch.
  unfold User.findOne_email at 1, bind at 1, bind at 1, users, gets, ret at 1.
  destruct (find (User.has_email (User.cast_email (rb_email body))) (World.users w))
    as [existing|] eqn:Hfind.
  { eexists. eexists. split; [reflexivity|]. split; [cbn; tauto|]. split.
    - intros _ _. now split.
    - discriminate. }
  destruct (User.create (registration req body) w) as [[created|e] w1] eqn:Hcreate.
  2: { rewrite (MonadFacts.bind_throws _ Hcreate).
       eexists. eexists. split; [reflexivity|]. split; [cbn; tauto|]. split.
       - intros existing H. unfold User.findOne_email, bind, users, gets, ret in H.
         congruence.
       - discriminate. }
  rewrite (MonadFacts.bind_returns _ Hcreate).
  rewrite (MonadFacts.bind_returns _ (Sessions.generateTokenPair_run created w1)).
  log_step r w2 Hlog Hprim.
  eexists. exists w2. split; [reflexivity|]. split; [cbn; tauto|]. split.
  - intros existing H. unfold User.findOne_email, bind, users, gets, ret in H.
    congruence.
  - intros _.
    destruct (create_stores _ _ _ _ Hcreate)
      as (_ & Hrole & Hactive & _ & _ & Husers & Hcerts & _).
    eexists. eexists. eexists. eexists.
    split; [reflexivity|]. split; [reflexivity|].
    split; [apply Sessions.generateTokenPair_run|].
    split; [exact Hrole|]. split; [exact Hactive|]. split.
    + rewrite (AuditFacts.primary_users _ _ Hprim). exact Husers.
    + rewrite (AuditFacts.primary_certificates _ _ Hprim). exact Hcerts.
Qed.

Definition logged_out : Response := ok 200 (Some "Logged out successfully.") NoData.

(** X17. Logout invalidates nothing. For a request that [authenticate]
    passed, [logout] answers 200 and changes no user, no certificate, no
    secret and no clock; so every request carries on as before: whatever
    [authenticate] and the refresh endpoint answered to a token before the
    logout they answer after it. *)
Theorem logout_invalidates_nothing req caller w :
  user req = Some caller ->
  exists w',
    logout req w = (Returns logged_out, w') /\
    AuditFacts.primary w' = AuditFacts.primary w /\
    (forall req',
        Isolation.agree (Auth.authenticate req' w') (Auth.authenticate req' w)) /\
    (forall req' token,
        Isolation.agree (refreshToken req' token w') (refreshToken req' token w)).
Proof.
  intros Hcaller. unfold logout, try_catch.
  rewrite (MonadFacts.bind_returns _ (Privilege.req_user_some req caller w Hcaller)).
  log_step r w2 Hlog Hprim.
  exists w2. split; [reflexivity|]. split; [exact Hprim|]. split.
  - intros req'. now apply AuditContainment.ind_authenticate.
  - intros req' token. now apply AuditContainment.ind_refreshToken.
Qed.

Definition refreshed (tokens : Jwt.TokenPair) : Response :=
  ok 200 (Some "Token refreshed.") (WithTokens tokens).

Definition user_inactive : Response :=
  failure 401 "User not found or inactive." (Some "USER_INACTIVE").

Definition refresh_token_invalid : Response :=
  failure 401 "Invalid or expired refresh token." (Some "REFRESH_TOKEN_INVALID").

Lemma refresh_decoded token w :
  try_catch (decoded <- Jwt.verifyRefreshToken token ;; ret (Some decoded))
    (fun _ => ret None) w
  = (Returns (match Jwt.verify token (Jwt.JWT_REFRESH_SECRET (World.env w)) Jwt.ISSUER
                      None (World.now w) with
              | Returns claims => Some claims
              | Throws _ => None
              end), w).
Proof.
  unfold try_catch, bind. rewrite Tokens.verifyRefreshToken_run.
  destruct (Jwt.verify _ _ _ _ _); reflexivity.
Qed.

(** X18. The refresh endpoint issues for the user as stored, and keeps the
    token it was given. For a token that [verifyRefreshToken] accepts:
    when no user with its id is stored, or the stored user is deactivated,
    the answer is 401 USER_INACTIVE and nothing changes; when the stored
    user is active the answer is 200 with the pair that [generateTokenPair]
    makes for the stored user, so the new access token carries the role
    the user has now; no user and no certificate changes, and the token
    presented verifies afterwards as it did before. A token that
    [verifyRefreshToken] rejects is answered 401 REFRESH_TOKEN_INVALID. *)
Theorem refresh_issues_for_the_stored_user req token w :
  (forall e, Jwt.verifyRefreshToken token w = (Throws e, w) ->
             Jwt.no_token (Some token) = false ->
             refreshToken req (Some token) w = (Returns refresh_token_invalid, w)) /\
  (forall claims id,
      Jwt.verifyRefreshToken token w = (Returns claims, w) ->
      Jwt.userId claims = Some id ->
      (find (User.has_id id) (World.users w) = None ->
       refreshToken req (Some token) w = (Returns user_inactive, w)) /\
      (forall stored,
          find (User.has_id id) (World.users w) = Some stored ->
          (UserDoc.isActive stored = false ->
           refreshToken req (Some token) w = (Returns user_inactive, w)) /\
          (UserDoc.isActive stored = true ->
           exists tokens w1 w',
             refreshToken req (Some token) w = (Returns (refreshed tokens), w') /\
             Jwt.generateTokenPair stored w = (Returns tokens, w1) /\
             World.users w' = World.users w /\
             World.certificates w' = World.certificates w /\
             Jwt.verifyRefreshToken token w' = (Returns claims, w')))).
Proof.
  split.
  - intros e Hver Hsigned. unfold refreshToken, try_catch at 1. rewrite Hsigned.
    rewrite (MonadFacts.bind_returns _ (refresh_decoded token w)).
    rewrite Tokens.verifyRefreshToken_run in Hver. injection Hver as ->. reflexivity.
  - intros claims id Hver Hid.
    assert (Hsigned : Jwt.no_token (Some token) = false).
    { destruct token; [|reflexivity]. rewrite Tokens.verifyRefreshToken_run in Hver.
      discriminate. }
    pose proof Hver as Hver'. rewrite Tokens.verifyRefreshToken_run in Hver'.
    injection Hver' as Hver'.
    assert (Hopen : forall P : Outcome Response * World.t -> Prop,
               P (try_catch
                    (u <- User.findById id ;;
                     match u with
                     | Some user =>
                         if negb (UserDoc.isActive user)
                         then ret user_inactive
                         else
                           tokens <- Jwt.generateTokenPair user ;;
                           AuditLog.log (audit req AuditEntry.AUTH_TOKEN_REFRESH None
                                           (Some user) true None None None None None None
                                           None) ;;;
                           ret (refreshed tokens)
                     | None => ret user_inactive
                     end)
                    (fun _ => ret (failure 500 "Token refresh failed." None)) w) ->
               P (refreshToken req (Some token) w)).
    { intros P HP. unfold refreshToken, try_catch at 1. rewrite Hsigned.
      rewrite (MonadFacts.bind_returns _ (refresh_decoded token w)).
      rewrite Hver', Hid. exact HP. }
    split.
    + intros Hnone. apply Hopen. unfold try_catch.
      rewrite (MonadFacts.bind_returns _ (Middleware.findById_run id w)), Hnone.
      reflexivity.
    + intros stored Hfind. split.
      * intros Hinactive. apply Hopen. unfold try_catch.
        rewrite (MonadFacts.bind_returns _ (Middleware.findById_run id w)), Hfind, Hinactive.
        reflexivity.
      * intros Hactive.
        destruct (AuditFacts.log_returns
                    (audit req AuditEntry.AUTH_TOKEN_REFRESH None (Some stored) true
                       None None None None None None None)
                    (World.set_entropy (skipn 16 (World.entropy w)) w))
          as (r & w2 & Hlog & Hprim & _).
        eexists. eexists. exists w2.
        split.
        { apply Hopen. unfold try_catch.
          rewrite (MonadFacts.bind_returns _ (Middleware.findById_run id w)), Hfind, Hactive.
          cbn [negb].
          rewrite (MonadFacts.bind_returns _ (Sessions.generateTokenPair_run stored w)).
          rewrite (MonadFacts.bind_returns _ Hlog). reflexivity. }
        split; [apply Sessions.generateTokenPair_run|].
        split; [now rewrite (AuditFacts.primary_users _ _ Hprim)|].
        split; [now rewrite (AuditFacts.primary_certificates _ _ Hprim)|].
        rewrite Tokens.verifyRefreshToken_run.
        assert (Henv : World.env w2 = World.env w)
          by (unfold AuditFacts.primary in Hprim; cbn in Hprim; congruence).
        assert (Hnow : World.now w2 = World.now w)
          by (unfold AuditFacts.primary in Hprim; cbn in Hprim; congruence).
        now rewrite Henv, Hnow, Hver'.
Qed.

End WithLib.

End Accounts.

(* ===================================================================== *)
(** * Ids and their strings *)
(* ===================================================================== *)

Module ObjectIdFacts.

Lemma hexval_hexdigit n : (n < 16)%N -> hexval (hexdigit n) = Some n.
Proof.
  intros H.
  assert (Hn : In n [0;1;2;3;4;5;6;7;8;9;10;11;12;13;14;15]%N).
  { destruct n as [|p]; [now left|].
    do 16 (try (destruct p as [p|p|]; try lia)); cbn; tauto. }
  cbn [In] in Hn.
  repeat (destruct Hn as [<- | Hn]; [reflexivity|]). destruct Hn.
Qed.

Lemma Buffer_from_hex_toString_hex bs :
  Forall (fun b => b < 256)%N bs -> Buffer_from_hex (toString_hex bs) = bs.
Proof.
  induction 1 as [|b rest Hb _ IH]; [reflexivity|].
  cbn [toString_hex Buffer_from_hex].
  rewrite !hexval_hexdigit.
  - rewrite IH. f_equal. rewrite (N.mod_small b 256) by exact Hb.
    pose proof (N.div_mod b 16). lia.
  - apply N.mod_lt. lia.
  - apply N.Div0.div_lt_upper_bound. pose proof (N.mod_lt b 256). lia.
Qed.

Lemma be_bytes_length n v : List.length (be_bytes n v) = n.
Proof.
  revert v. induction n as [|n IH]; intros v; [reflexivity|].
  cbn [be_bytes]. rewrite length_app, IH. cbn. lia.
Qed.

Lemma be_bytes_small n v : Forall (fun b => b < 256)%N (be_bytes n v).
Proof.
  revert v. induction n as [|n IH]; intros v; [constructor|].
  cbn [be_bytes]. apply Forall_app. split; [apply IH|].
  constructor; [|constructor]. apply N.mod_lt. lia.
Qed.

Lemma from_be_bytes_app xs ys acc :
  from_be_bytes (xs ++ ys) acc = from_be_bytes ys (from_be_bytes xs acc).
Proof. revert acc. induction xs as [|x xs IH]; intros acc; [reflexivity|]. apply IH. Qed.

Lemma from_be_bytes_be_bytes n v :
  from_be_bytes (be_bytes n v) 0 = (v mod 256 ^ N.of_nat n)%N.
Proof.
  revert v. induction n as [|n IH]; intros v.
  - cbn. now rewrite N.mod_1_r.
  - cbn [be_bytes]. rewrite from_be_bytes_app, IH. cbn [from_be_bytes].
    rewrite Nnat.Nat2N.inj_succ, N.pow_succ_r'.
    rewrite N.Div0.mod_mul_r. lia.
Qed.

(** An id of twelve bytes is read back from its string. *)
Lemma cast_toString (id : ObjectId) :
  (N.of_nat id < 2 ^ 96)%N -> ObjectId_cast (ObjectId_toString id) = Some id.
Proof.
  intros Hid. unfold ObjectId_cast, ObjectId_toString.
  rewrite Buffer_from_hex_toString_hex by apply be_bytes_small.
  rewrite JsFacts.toString_hex_length, be_bytes_length.
  cbn [Nat.eqb Nat.mul Nat.add andb]. 
  change (2 * 12 =? 24)%nat with true. cbn [andb].
  rewrite from_be_bytes_be_bytes.
  change (256 ^ N.of_nat 12)%N with (2 ^ 96)%N.
  rewrite N.mod_small by exact Hid. now rewrite Nnat.Nat2N.id.
Qed.

End ObjectIdFacts.


(* ===================================================================== *)
(** * Deactivating and deleting users *)
(* ===================================================================== *)

Module UserAdministration.

Import Http UserController.

(** The ids of the collection are pairwise distinct. *)
Definition distinct_ids (w : World.t) : Prop := NoDup (map UserDoc._id (World.users w)).

Lemma find_not_in id us :
  ~ In id (map UserDoc._id us) -> find (User.has_id id) us = None.
Proof.
  induction us as [|x rest IH]; [reflexivity|].
  cbn [map In find]. intros H. unfold User.has_id at 1.
  destruct (Nat.eqb_spec (UserDoc._id x) id) as [Heq | _]; [tauto|].
  apply IH. tauto.
Qed.

Lemma find_remove_same id us :
  NoDup (map UserDoc._id us) -> find (User.has_id id) (User.remove id us) = None.
Proof.
  induction us as [|x rest IH]; [reflexivity|].
  cbn [map User.remove]. intros Hnd. inversion Hnd as [|? ? Hnotin Hrest]; subst.
  destruct (User.has_id id x) eqn:Hx.
  - unfold User.has_id in Hx. apply Nat.eqb_eq in Hx. subst id.
    now apply find_not_in.
  - cbn [find]. rewrite Hx. now apply IH.
Qed.

Lemma find_remove_other id j us :
  j <> id -> find (User.has_id j) (User.remove id us) = find (User.has_id j) us.
Proof.
  intros Hneq. induction us as [|x rest IH]; [reflexivity|].
  cbn [User.remove]. destruct (User.has_id id x) eqn:Hx.
  - cbn [find]. unfold User.has_id in *. apply Nat.eqb_eq in Hx.
    destruct (Nat.eqb_spec (UserDoc._id x) j); [congruence | reflexivity].
  - cbn [find]. now rewrite IH.
Qed.

Lemma find_replace_other j u us :
  j <> UserDoc._id u ->
  find (User.has_id j) (User.replace u us) = find (User.has_id j) us.
Proof.
  intros Hneq. induction us as [|x rest IH]; [reflexivity|].
  cbn [User.replace]. destruct (User.has_id (UserDoc._id u) x) eqn:Hx.
  - cbn [find]. unfold User.has_id in *. apply Nat.eqb_eq in Hx.
    destruct (Nat.eqb_spec (UserDoc._id u) j); [congruence|].
    destruct (Nat.eqb_spec (UserDoc._id x) j); [congruence | reflexivity].
  - cbn [find]. now rewrite IH.
Qed.

(** A loaded user stays valid when [isActive] changes. *)
Lemma set_isActive_valid b u :
  first_failure (UserDoc.checks_loaded u) = None ->
  first_failure (UserDoc.checks_loaded (UserDoc.set_isActive b u)) = None.
Proof. intros H. exact H. Qed.

(** The queries by a string id: the cast, then the query by the id. *)
Lemma findById_string_run id i w :
  ObjectId_cast id = Some i ->
  User.findById_string id w = (Returns (find (User.has_id i) (World.users w)), w).
Proof. intros H. unfold User.findById_string, User.castObjectId, bind. now rewrite H. Qed.

Lemma findById_string_throws id w :
  ObjectId_cast id = None ->
  User.findById_string id w = (Throws (CastError id "_id" "User"), w).
Proof. intros H. unfold User.findById_string, User.castObjectId, bind. now rewrite H. Qed.

Lemma findByIdAndDelete_string_run id i w :
  ObjectId_cast id = Some i ->
  User.findByIdAndDelete_string id w = User.findByIdAndDelete i w.
Proof.
  intros H. unfold User.findByIdAndDelete_string, User.castObjectId, bind at 1.
  now rewrite H.
Qed.

Lemma findByIdAndDelete_string_throws id w :
  ObjectId_cast id = None ->
  User.findByIdAndDelete_string id w = (Throws (CastError id "_id" "User"), w).
Proof.
  intros H. unfold User.findByIdAndDelete_string, User.castObjectId, bind. now rewrite H.
Qed.

Definition self_deactivation : Answer StatusChange :=
  refused 400 "Cannot deactivate your own account." (Some "SELF_DEACTIVATION").

Definition status_failed : Answer StatusChange :=
  refused 500 "Failed to update user status." None.

Definition status_changed (activated : bool) (id : ObjectId) (isActive : bool)
    : Answer StatusChange :=
  answered 200
    (Some ("User " ++ (if activated then "activated" else "deactivated") ++
           " successfully.")%string)
    {| sc_userId := id; sc_isActive := isActive |}.

(** [toggleUserStatus] past the guard, on an id that casts to the id of
    a stored, valid user, and a value that casts to a boolean. *)
Lemma toggleUserStatus_saves req caller id target_id v b target w :
  user req = Some caller ->
  (id =? ObjectId_toString (UserDoc._id caller))%string && negb (ToBoolean v) = false ->
  ObjectId_cast id = Some target_id ->
  User.castBoolean v = Some b ->
  find (User.has_id target_id) (World.users w) = Some target ->
  first_failure (UserDoc.checks_loaded target) = None ->
  exists w',
    toggleUserStatus req id v w
    = (Returns (status_changed (ToBoolean v) target_id b), w') /\
    World.users w' = User.replace (UserDoc.set_isActive b target) (World.users w) /\
    find (User.has_id target_id) (World.users w') = Some (UserDoc.set_isActive b target) /\
    World.certificates w' = World.certificates w /\
    World.env w' = World.env w /\
    World.now w' = World.now w /\
    World.passwordChecks w' = World.passwordChecks w.
Proof.
  intros Hcaller Hguard Hid_cast Hcast Hfind Hvalid.
  pose proof (Middleware.found_by_id _ _ _ Hfind) as Hid.
  assert (Hsave : User.save_isActive v target w
                  = (Returns (UserDoc.set_isActive b target),
                     World.set_users
                       (User.replace (UserDoc.set_isActive b target) (World.users w)) w)).
  { unfold User.save_isActive. rewrite Hcast.
    apply Privilege.user_save_returns with (u0 := target).
    - now apply set_isActive_valid.
    - cbn [UserDoc._id UserDoc.set_isActive]. now rewrite Hid. }
  unfold toggleUserStatus, try_catch.
  rewrite (MonadFacts.bind_returns _ (Privilege.req_user_some req caller w Hcaller)).
  rewrite Hguard.
  rewrite (MonadFacts.bind_returns _ (findById_string_run id target_id w Hid_cast)), Hfind.
  rewrite (MonadFacts.bind_returns _ Hsave).
  log_step r w2 Hlog Hprim.
  exists w2. split.
  { unfold status_changed. cbn [UserDoc._id UserDoc.set_isActive UserDoc.isActive].
    now rewrite Hid. }
  assert (Husers : World.users w2
                   = User.replace (UserDoc.set_isActive b target) (World.users w))
    by now rewrite (AuditFacts.primary_users _ _ Hprim).
  split; [exact Husers|]. split.
  { rewrite Husers. apply Privilege.find_user_replace with (u := target);
      [exact Hfind | exact Hid]. }
  unfold AuditFacts.primary in Hprim. cbn in Hprim.
  repeat split; congruence.
Qed.

(** X19. The guard against self-deactivation compares the id as the
    request spells it with the string of the caller's id, and the query
    casts the id afterwards. With [isActive] a falsy value,
    [toggleUserStatus] on the string of the caller's own id answers 400
    SELF_DEACTIVATION and changes nothing. On any other string the guard is
    passed: a string that is no id is answered 500 and nothing changes,
    and with [isActive] false a string that casts to the id of a stored,
    valid user (the caller's own id in another spelling included) is
    answered 200, the stored user is inactive from then on, no other user
    and no certificate changes; and from then on a login with the user's
    email is answered 401 ACCOUNT_INACTIVE without a password comparison,
    and a request with an access token of the user that verifies is
    answered 401 ACCOUNT_INACTIVE. *)
Theorem deactivation_is_immediate {L : Lib} req caller w :
  user req = Some caller ->
  (forall v, ToBoolean v = false ->
     toggleUserStatus req (ObjectId_toString (UserDoc._id caller)) v w
     = (Returns self_deactivation, w)) /\
  (forall id,
      id <> ObjectId_toString (UserDoc._id caller) ->
      (ObjectId_cast id = None ->
       forall v, toggleUserStatus req id v w = (Returns status_failed, w)) /\
      (forall target_id target,
          ObjectId_cast id = Some target_id ->
          find (User.has_id target_id) (World.users w) = Some target ->
          first_failure (UserDoc.checks_loaded target) = None ->
          exists w',
            toggleUserStatus req id (VBool false) w
            = (Returns (status_changed false target_id false), w') /\
            find (User.has_id target_id) (World.users w')
            = Some (UserDoc.set_isActive false target) /\
            (forall j, j <> target_id ->
                       find (User.has_id j) (World.users w')
                       = find (User.has_id j) (World.users w)) /\
            World.certificates w' = World.certificates w /\
            (forall req' email password,
                User.findByEmailWithPassword email w'
                = (Returns (Some (UserDoc.set_isActive false target)), w') ->
                UserDoc.isLocked (World.now w') target = false ->
                AuthController.login req' email password w'
                = (Returns (failure 401 "Account deactivated. Contact administrator."
                              (Some "ACCOUNT_INACTIVE")), w')) /\
            (forall req' token claims,
                Jwt.extractTokenFromHeader (authorization req') = Some token ->
                Jwt.verifyAccessToken token w' = (Returns claims, w') ->
                Jwt.type claims = Some "access" ->
                Jwt.userId claims = Some target_id ->
                exists w'',
                  Auth.authenticate req' w'
                  = (Returns (Auth.Respond Sessions.account_inactive), w'')))).
Proof.
  intros Hcaller. split.
  - intros v Hfalsy. unfold toggleUserStatus, try_catch.
    rewrite (MonadFacts.bind_returns _ (Privilege.req_user_some req caller w Hcaller)).
    now rewrite String.eqb_refl, Hfalsy.
  - intros id Hother. apply String.eqb_neq in Hother. split.
    { intros Hnone v. unfold toggleUserStatus, try_catch.
      rewrite (MonadFacts.bind_returns _ (Privilege.req_user_some req caller w Hcaller)).
      rewrite Hother. cbn [andb].
      now rewrite (MonadFacts.bind_throws _ (findById_string_throws id w Hnone)). }
    intros target_id target Hid_cast Hfind Hvalid.
    assert (Hguard : (id =? ObjectId_toString (UserDoc._id caller))%string
                     && negb (ToBoolean (VBool false)) = false)
      by now rewrite Hother.
    destruct (toggleUserStatus_saves req caller id target_id (VBool false) false target w
                Hcaller Hguard Hid_cast eq_refl Hfind Hvalid)
      as (w' & Hrun & Husers & Hstored & Hcerts & _ & _ & _).
    exists w'. split; [exact Hrun|]. split; [exact Hstored|]. split; [|split; [exact Hcerts|]].
    { intros j Hj. rewrite Husers. apply find_replace_other.
      cbn [UserDoc._id UserDoc.set_isActive].
      rewrite (Middleware.found_by_id _ _ _ Hfind). exact Hj. }
    split.
    + intros req' email password Hemail Hunlocked.
      unfold AuthController.login, try_catch.
      rewrite (MonadFacts.bind_returns _ Hemail).
      rewrite (MonadFacts.bind_returns _ (Lockout.now_returns w')).
      unfold UserDoc.isLocked in *. cbn [UserDoc.lockUntil UserDoc.set_isActive].
      rewrite Hunlocked. reflexivity.
    + intros req' token claims Hext Hver Htype Hid.
      rewrite (Middleware.authenticate_verified req' token claims target_id w'
                 Hext Hver Htype Hid).
      rewrite Hstored. cbn [UserDoc.isActive UserDoc.set_isActive].
      log_step r w2 Hlog Hprim. exists w2. reflexivity.
Qed.

(** X20. The guard against self-deactivation tests the truthiness of the
    value, and the schema casts the value afterwards. The strings ['false']
    and ['0'] pass the route's [isBoolean()] check, are truthy, and cast to
    false: with one of them [toggleUserStatus] on the caller's own id, in
    any spelling that the query casts to it (its own string is one,
    [ObjectIdFacts.cast_toString]), answers 200, with the message of an
    activation, and the caller's stored account is inactive afterwards. *)
Theorem truthy_false_deactivates_own_account req caller id stored v w :
  user req = Some caller ->
  ObjectId_cast id = Some (UserDoc._id caller) ->
  In v [VStr "false"; VStr "0"] ->
  find (User.has_id (UserDoc._id caller)) (World.users w) = Some stored ->
  first_failure (UserDoc.checks_loaded stored) = None ->
  Validator.isActive (Some v) = [] /\
  ToBoolean v = true /\
  exists w',
    toggleUserStatus req id v w
    = (Returns (status_changed true (UserDoc._id caller) false), w') /\
    a_message (status_changed true (UserDoc._id caller) false)
    = Some "User activated successfully." /\
    find (User.has_id (UserDoc._id caller)) (World.users w')
    = Some (UserDoc.set_isActive false stored).
Proof.
  intros Hcaller Hid_cast Hv Hfind Hvalid.
  assert (Hfacts : Validator.isActive (Some v) = [] /\ ToBoolean v = true /\
                   User.castBoolean v = Some false).
  { destruct Hv as [<- | [<- | []]]; repeat split. }
  destruct Hfacts as (Hpass & Htruthy & Hcast).
  split; [exact Hpass|]. split; [exact Htruthy|].
  assert (Hguard : (id =? ObjectId_toString (UserDoc._id caller))%string
                   && negb (ToBoolean v) = false)
    by (rewrite Htruthy; apply andb_false_r).
  destruct (toggleUserStatus_saves req caller id (UserDoc._id caller) v false stored w
              Hcaller Hguard Hid_cast Hcast Hfind Hvalid)
    as (w' & Hrun & _ & Hstored & _).
  exists w'. rewrite Htruthy in Hrun.
  split; [exact Hrun|]. split; [reflexivity | exact Hstored].
Qed.

Definition own_account : Response := failure 400 "Cannot delete your own account." None.

Definition no_such_user : Response := failure 404 "User not found." None.

Definition user_deleted : Response := ok 200 (Some "User deleted successfully.") NoData.

Definition delete_failed : Response := failure 500 "Failed to delete user." None.

(** What [deleteUser] concludes of an id that is not the string of the
    caller's id and that the query casts to [target_id]. *)
Definition deletes (req : Req) (id : string) (target_id : ObjectId) (w : World.t) : Prop :=
  (find (User.has_id target_id) (World.users w) = None ->
   deleteUser req id w = (Returns no_such_user, w)) /\
  (forall target,
      find (User.has_id target_id) (World.users w) = Some target ->
      exists w',
        deleteUser req id w = (Returns user_deleted, w') /\
        World.users w' = User.remove target_id (World.users w) /\
        (forall j, j <> target_id ->
                   find (User.has_id j) (World.users w')
                   = find (User.has_id j) (World.users w)) /\
        World.certificates w' = World.certificates w /\
        (distinct_ids w ->
         find (User.has_id target_id) (World.users w') = None /\
         forall req' token claims,
           Jwt.extractTokenFromHeader (authorization req') = Some token ->
           Jwt.verifyAccessToken token w' = (Returns claims, w') ->
           Jwt.type claims = Some "access" ->
           Jwt.userId claims = Some target_id ->
           Auth.authenticate req' w'
           = (Returns (Auth.Respond Sessions.user_not_found), w'))).

(** The answers of [deleteUser]. *)
Lemma deleteUser_outcome req caller id w :
  user req = Some caller ->
  (id = ObjectId_toString (UserDoc._id caller) ->
   deleteUser req id w = (Returns own_account, w)) /\
  (id <> ObjectId_toString (UserDoc._id caller) ->
   (ObjectId_cast id = None -> deleteUser req id w = (Returns delete_failed, w)) /\
   (forall target_id, ObjectId_cast id = Some target_id -> deletes req id target_id w)).
Proof.
  intros Hcaller.
  assert (Hstart : forall P : Outcome Response * World.t -> Prop,
             P (try_catch
                  (if (id =? ObjectId_toString (UserDoc._id caller))%string
                   then ret own_account
                   else
                     found <- User.findByIdAndDelete_string id ;;
                     match found with
                     | None => ret no_such_user
                     | Some user =>
                         AuditLog.log
                           (audit req AuditEntry.USER_DELETE (Some AuditEntry.CRITICAL)
                              (Some caller) true (Some "user") (Some (UserDoc._id user))
                              (UserDoc.fullName user) None None None None) ;;;
                         ret user_deleted
                     end)
                  (fun _ => ret delete_failed) w) ->
             P (deleteUser req id w)).
  { intros P HP. unfold deleteUser, try_catch at 1.
    rewrite (MonadFacts.bind_returns _ (Privilege.req_user_some req caller w Hcaller)).
    exact HP. }
  split.
  - intros ->. apply Hstart. unfold try_catch. now rewrite String.eqb_refl.
  - intros Hother. apply String.eqb_neq in Hother. split.
    { intros Hnone. apply Hstart. unfold try_catch. rewrite Hother.
      now rewrite (MonadFacts.bind_throws _ (findByIdAndDelete_string_throws id w Hnone)). }
    intros target_id Hid_cast. split.
    + intros Hnone. apply Hstart. unfold try_catch. rewrite Hother.
      unfold bind at 1. rewrite (findByIdAndDelete_string_run id target_id w Hid_cast).
      unfold User.findByIdAndDelete, bind at 1, users, gets.
      now rewrite Hnone.
    + intros target Hfind.
      assert (Hdelete : User.findByIdAndDelete_string id w
                        = (Returns (Some target),
                           World.set_users (User.remove target_id (World.users w)) w)).
      { rewrite (findByIdAndDelete_string_run id target_id w Hid_cast).
        unfold User.findByIdAndDelete, bind, users, gets. now rewrite Hfind. }
      destruct (AuditFacts.log_returns
                  (audit req AuditEntry.USER_DELETE (Some AuditEntry.CRITICAL)
                     (Some caller) true (Some "user") (Some (UserDoc._id target))
                     (UserDoc.fullName target) None None None None)
                  (World.set_users (User.remove target_id (World.users w)) w))
        as (r & w2 & Hlog & Hprim & _).
      assert (Husers : World.users w2 = User.remove target_id (World.users w))
        by now rewrite (AuditFacts.primary_users _ _ Hprim).
      exists w2. split.
      { apply Hstart. unfold try_catch. rewrite Hother.
        rewrite (MonadFacts.bind_returns _ Hdelete), (MonadFacts.bind_returns _ Hlog).
        reflexivity. }
      split; [exact Husers|]. split.
      { intros j Hj. rewrite Husers. now apply find_remove_other. }
      split; [now rewrite (AuditFacts.primary_certificates _ _ Hprim)|].
      intros Hdistinct.
      assert (Hgone : find (User.has_id target_id) (World.users w2) = None)
        by (rewrite Husers; now apply find_remove_same).
      split; [exact Hgone|].
      intros req' token claims Hext Hver Htype Hid.
      rewrite (Middleware.authenticate_verified req' token claims target_id w2
                 Hext Hver Htype Hid).
      now rewrite Hgone.
Qed.

(** X21. [deleteUser] removes the user that the id casts to, and nothing
    else; its guard compares the id as the request spells it with the
    string of the caller's id. On that string it answers 400 and changes
    nothing. On any other string: one that is no id is answered 500 and
    nothing changes; one that casts to an id that names no stored user,
    404 and nothing changes; one that casts to the id of a stored user
    (the caller's own id in another spelling included), 200: the first
    user with the id is removed, every user with another id stays as
    stored, no certificate changes (those of the deleted user are left
    with their holder reference), and, the ids of the collection being
    distinct, no user with the id is stored afterwards, so a request with
    an access token of the deleted user that verifies is answered 401
    USER_NOT_FOUND. *)
Theorem deleteUser_removes_the_user_named req caller id w :
  user req = Some caller ->
  (id = ObjectId_toString (UserDoc._id caller) ->
   deleteUser req id w = (Returns own_account, w)) /\
  (id <> ObjectId_toString (UserDoc._id caller) ->
   (ObjectId_cast id = None -> deleteUser req id w = (Returns delete_failed, w)) /\
   (forall target_id,
       ObjectId_cast id = Some target_id ->
       (find (User.has_id target_id) (World.users w) = None ->
        deleteUser req id w = (Returns no_such_user, w)) /\
       (forall target,
           find (User.has_id target_id) (World.users w) = Some target ->
           exists w',
             deleteUser req id w = (Returns user_deleted, w') /\
             World.users w' = User.remove target_id (World.users w) /\
             (forall j, j <> target_id ->
                        find (User.has_id j) (World.users w')
                        = find (User.has_id j) (World.users w)) /\
             World.certificates w' = World.certificates w /\
             (distinct_ids w ->
              find (User.has_id target_id) (World.users w') = None /\
              forall req' token claims,
                Jwt.extractTokenFromHeader (authorization req') = Some token ->
                Jwt.verifyAccessToken token w' = (Returns claims, w') ->
                Jwt.type claims = Some "access" ->
                Jwt.userId claims = Some target_id ->
                Auth.authenticate req' w'
                = (Returns (Auth.Respond Sessions.user_not_found), w'))))).
Proof. exact (deleteUser_outcome req caller id w). Qed.

End UserAdministration.


(* ===================================================================== *)
(** * Reading a certificate *)
(* ===================================================================== *)

Module CertificateAccess.

Import Http CertificateController.

(** The certificate as the handler returns it. *)
Definition populated (stored : CertificateDoc.t) (w : World.t) : Populated :=
  {| p_certificate := Certificate.selected stored;
     p_holder := Certificate.populate true (CertificateDoc.holder stored) (World.users w);
     p_issuedBy := Certificate.populate true (CertificateDoc.issuedBy stored) (World.users w);
     p_revokedBy := Certificate.populate false (CertificateDoc.revokedBy stored) (World.users w) |}.

Definition not_owner : Answer Populated :=
  refused 403 "Access denied. This is not your certificate." (Some "NOT_OWNER").

Definition fetch_failed : Answer Populated :=
  refused 500 "Failed to fetch certificate." None.

Lemma cert_findById_run id w :
  Certificate.findById id w
  = (Returns (find (Certificate.has_id id) (World.certificates w)), w).
Proof. reflexivity. Qed.

Lemma users_run w : users w = (Returns (World.users w), w).
Proof. reflexivity. Qed.

Lemma populate_some withOrganization h us hu :
  find (User.has_id h) us = Some hu ->
  exists party,
    Certificate.populate withOrganization (Some h) us = Some party /\ CertificateDoc.party_id party = h.
Proof.
  intros Hfind. unfold Certificate.populate. rewrite Hfind. eexists. split; [reflexivity|].
  cbn [CertificateDoc.party_id]. exact (Middleware.found_by_id _ _ _ Hfind).
Qed.

(** X22. Who reads a certificate. [getCertificate] on a stored certificate,
    for a caller whose role is no inherited property name. A role that
    holds certificate:read is answered 200 with the certificate, whoever
    holds it. A role that does not, and holds certificate:read:own, is
    answered 200 when the caller is the holder, 403 NOT_OWNER when the
    holder is another stored user, and 500 when the holder names no stored
    user. No answer changes a user or a certificate, and the certificate
    returned carries no digital signature. An id that names no certificate
    is answered 404 CERT_NOT_FOUND. *)
Theorem holders_read_their_own_certificates req caller id w :
  user req = Some caller ->
  includes (UserDoc.role caller) Rbac.Object_prototype_keys = false ->
  (find (Certificate.has_id id) (World.certificates w) = None ->
   getCertificate req id w
   = (Returns (refused 404 "Certificate not found." (Some "CERT_NOT_FOUND")), w)) /\
  (forall stored,
      find (Certificate.has_id id) (World.certificates w) = Some stored ->
      CertificateDoc.digitalSignature (p_certificate (populated stored w)) = None /\
      (In Rbac.CERTIFICATE_READ (Rbac.entry (UserDoc.role caller)) ->
       exists w',
         getCertificate req id w = (Returns (answered 200 None (populated stored w)), w') /\
         AuditFacts.primary w' = AuditFacts.primary w) /\
      (~ In Rbac.CERTIFICATE_READ (Rbac.entry (UserDoc.role caller)) ->
       In Rbac.CERTIFICATE_READ_OWN (Rbac.entry (UserDoc.role caller)) ->
       (forall h holder,
           CertificateDoc.holder stored = Some h ->
           find (User.has_id h) (World.users w) = Some holder ->
           (h = UserDoc._id caller ->
            exists w',
              getCertificate req id w
              = (Returns (answered 200 None (populated stored w)), w') /\
              AuditFacts.primary w' = AuditFacts.primary w) /\
           (h <> UserDoc._id caller ->
            exists w',
              getCertificate req id w = (Returns not_owner, w') /\
              AuditFacts.primary w' = AuditFacts.primary w)) /\
       (p_holder (populated stored w) = None ->
        getCertificate req id w = (Returns fetch_failed, w)))).
Proof.
  intros Hcaller Hplain. split.
  - intros Hnone. unfold getCertificate, try_catch.
    rewrite (MonadFacts.bind_returns _ (cert_findById_run id w)).
    rewrite (MonadFacts.bind_returns _ (users_run w)).
    now rewrite Hnone.
  - intros stored Hfind. split; [reflexivity|].
    assert (Hstart : forall P : Outcome (Answer Populated) * World.t -> Prop,
               P (try_catch
                    (let certificate := populated stored w in
                     let canRead :=
                       includes Rbac.CERTIFICATE_READ (Rbac.entry (UserDoc.role caller)) in
                     ownOnly <- (if negb canRead
                                 then lift (Rbac.hasPermission (UserDoc.role caller)
                                              Rbac.CERTIFICATE_READ_OWN)
                                 else ret false) ;;
                     notOwner <- (if (ownOnly : bool)
                                  then match p_holder certificate with
                                       | Some holder =>
                                           ret (negb (Nat.eqb (CertificateDoc.party_id holder)
                                                        (UserDoc._id caller)))
                                       | None =>
                                           throw (TypeError "Cannot read properties of null")
                                       end
                                  else ret false) ;;
                     if (notOwner : bool)
                     then
                       AuditLog.log
                         (audit req AuditEntry.CERT_ACCESS_DENIED (Some AuditEntry.WARNING)
                            (Some caller) true (Some "certificate")
                            (Some (CertificateDoc._id stored)) None
                            (Some false) (Some 403%Z) None None) ;;;
                       ret not_owner
                     else
                       AuditLog.log
                         (audit req AuditEntry.CERT_VIEW None (Some caller) true
                            (Some "certificate") (Some (CertificateDoc._id stored))
                            (CertificateDoc.title stored) None None None None) ;;;
                       ret (answered 200 None certificate))
                    (fun _ => ret fetch_failed) w) ->
               P (getCertificate req id w)).
    { intros P HP. unfold getCertificate, try_catch at 1.
      rewrite (MonadFacts.bind_returns _ (cert_findById_run id w)).
      rewrite (MonadFacts.bind_returns _ (users_run w)).
      rewrite Hfind. cbv zeta.
      rewrite (MonadFacts.bind_returns _ (Privilege.req_user_some req caller w Hcaller)).
      rewrite (RbacFacts.hasPermission_entry _ Rbac.CERTIFICATE_READ Hplain).
      rewrite (MonadFacts.bind_returns _ (Middleware.lift_run _ w)).
      exact HP. }
    split.
    + intros Hread. apply JsFacts.includes_In in Hread.
      destruct (AuditFacts.log_returns
                  (audit req AuditEntry.CERT_VIEW None (Some caller) true
                     (Some "certificate") (Some (CertificateDoc._id stored))
                     (CertificateDoc.title stored) None None None None) w)
        as (r & w2 & Hlog & Hprim & _).
      exists w2. split; [|exact Hprim].
      apply Hstart. unfold try_catch. cbv zeta. rewrite Hread. cbn [negb].
      unfold ret at 1, bind at 1. unfold ret at 1, bind at 1.
      now rewrite (MonadFacts.bind_returns _ Hlog).
    + intros Hnoread Hown.
      apply JsFacts.includes_false in Hnoread. apply JsFacts.includes_In in Hown.
      assert (Hguard : forall P : Outcome (Answer Populated) * World.t -> Prop,
                 P (try_catch
                      (notOwner <- match p_holder (populated stored w) with
                                   | Some holder =>
                                       ret (negb (Nat.eqb (CertificateDoc.party_id holder)
                                                    (UserDoc._id caller)))
                                   | None =>
                                       throw (TypeError "Cannot read properties of null")
                                   end ;;
                       if (notOwner : bool)
                       then
                         AuditLog.log
                           (audit req AuditEntry.CERT_ACCESS_DENIED
                              (Some AuditEntry.WARNING)
                              (Some caller) true (Some "certificate")
                              (Some (CertificateDoc._id stored)) None
                              (Some false) (Some 403%Z) None None) ;;;
                         ret not_owner
                       else
                         AuditLog.log
                           (audit req AuditEntry.CERT_VIEW None (Some caller) true
                              (Some "certificate") (Some (CertificateDoc._id stored))
                              (CertificateDoc.title stored) None None None None) ;;;
                         ret (answered 200 None (populated stored w)))
                      (fun _ => ret fetch_failed) w) ->
                 P (getCertificate req id w)).
      { intros P HP. apply Hstart. unfold try_catch at 1. cbv zeta.
        rewrite Hnoread. cbn [negb].
        rewrite (RbacFacts.hasPermission_entry _ Rbac.CERTIFICATE_READ_OWN Hplain), Hown.
        rewrite (MonadFacts.bind_returns _ (Middleware.lift_run _ w)).
        exact HP. }
      split.
      * intros h holder Hholder Hh.
        destruct (populate_some true h (World.users w) holder Hh) as (party & Hparty & Hpid).
        assert (Hpop : p_holder (populated stored w) = Some party)
          by (cbn [p_holder populated]; now rewrite Hholder).
        split.
        -- intros ->.
           destruct (AuditFacts.log_returns
                       (audit req AuditEntry.CERT_VIEW None (Some caller) true
                          (Some "certificate") (Some (CertificateDoc._id stored))
                          (CertificateDoc.title stored) None None None None) w)
             as (r & w2 & Hlog & Hprim & _).
           exists w2. split; [|exact Hprim].
           apply Hguard. unfold try_catch. rewrite Hpop, Hpid, Nat.eqb_refl. cbn [negb].
           unfold ret at 1, bind at 1.
           now rewrite (MonadFacts.bind_returns _ Hlog).
        -- intros Hother.
           destruct (AuditFacts.log_returns
                       (audit req AuditEntry.CERT_ACCESS_DENIED (Some AuditEntry.WARNING)
                          (Some caller) true (Some "certificate")
                          (Some (CertificateDoc._id stored)) None
                          (Some false) (Some 403%Z) None None) w)
             as (r & w2 & Hlog & Hprim & _).
           exists w2. split; [|exact Hprim].
           apply Hguard. unfold try_catch. rewrite Hpop, Hpid.
           apply Nat.eqb_neq in Hother. rewrite Hother. cbn [negb].
           unfold ret at 1, bind at 1.
           now rewrite (MonadFacts.bind_returns _ Hlog).
      * intros Hnull. apply Hguard. unfold try_catch. now rewrite Hnull.
Qed.

End CertificateAccess.


(* ===================================================================== *)
(** * The public verification of a certificate that is not suspended *)
(* ===================================================================== *)

Module Verification.

Import Http CertificateController.

Section WithLib.
Context {L : Lib}.

(** The attempt that the handler appends to the history. *)
Definition attempt (req : Req) (now : Z) (verdict : string) : CertificateDoc.HistoryEntry :=
  {| CertificateDoc.verifiedBy := option_map UserDoc._id (user req);
     CertificateDoc.verifiedAt := now;
     CertificateDoc.ipAddress := ip req;
     CertificateDoc.userAgent := user_agent req;
     CertificateDoc.result := Some verdict |}.

Definition recorded (req : Req) (now : Z) (verdict : string) (c : CertificateDoc.t)
    : CertificateDoc.t :=
  CertificateDoc.set_verificationHistory
    (CertificateDoc.verificationHistory c ++ [attempt req now verdict]) c.

(** The verdicts of [evaluate]. *)
Lemma evaluate_verdicts secret now c verdict message :
  evaluate secret now c = Returns (verdict, message) ->
  In verdict ["revoked"; "suspended"; "expired"; "invalid"; "valid"].
Proof.
  unfold evaluate.
  destruct (_ =? CertificateDoc.REVOKED).
  { intros H. injection H as <- _. cbn. tauto. }
  destruct (_ =? CertificateDoc.SUSPENDED).
  { intros H. injection H as <- _. cbn. tauto. }
  destruct (CertificateDoc.isExpired now c).
  { intros H. injection H as <- _. cbn. tauto. }
  destruct (negb _).
  { intros H. injection H as <- _. cbn. tauto. }
  destruct (truthy _).
  - destruct (Certificate.verifySignature secret c) as [[|]|e];
      [| |discriminate]; intros H; injection H as <- _; cbn; tauto.
  - intros H. injection H as <- _. cbn. tauto.
Qed.

Lemma evaluate_not_suspended secret now c verdict message :
  evaluate secret now c = Returns (verdict, message) ->
  CertificateDoc.status c <> CertificateDoc.SUSPENDED ->
  In verdict CertificateDoc.HISTORY_RESULT_values.
Proof.
  intros Heval Hstatus.
  pose proof (evaluate_verdicts _ _ _ _ _ Heval) as Hin.
  cbn [In] in Hin. destruct Hin as [<- | [<- | [<- | [<- | [<- | []]]]]];
    try (cbn; tauto).
  exfalso. revert Heval. unfold evaluate.
  destruct (_ =? CertificateDoc.REVOKED); [discriminate|].
  apply String.eqb_neq in Hstatus. rewrite Hstatus.
  destruct (CertificateDoc.isExpired now c); [discriminate|].
  destruct (negb _); [discriminate|].
  destruct (truthy _); [|discriminate].
  destruct (Certificate.verifySignature secret c) as [[|]|e]; discriminate.
Qed.

(** A valid document stays valid when an attempt with an admitted result
    is appended. *)
Lemma recorded_valid req now verdict c :
  StoreFacts.valid c ->
  In verdict CertificateDoc.HISTORY_RESULT_values ->
  StoreFacts.valid (recorded req now verdict c).
Proof.
  unfold StoreFacts.valid. rewrite !StoreFacts.first_failure_forallb.
  unfold CertificateDoc.checks, recorded.
  cbn [forallb snd CertificateDoc.title CertificateDoc.description CertificateDoc.type
       CertificateDoc.status CertificateDoc.holder CertificateDoc.holderName
       CertificateDoc.issuedBy CertificateDoc.issuerName
       CertificateDoc.issuingOrganization CertificateDoc.revocationReason
       CertificateDoc.score CertificateDoc.credits CertificateDoc.verificationHistory
       CertificateDoc.set_verificationHistory].
  intros H Hverdict.
  repeat (apply andb_true_iff in H as [? H]).
  repeat match goal with
         | |- (_ && _)%bool = true =>
             apply andb_true_iff; split; [first [assumption | reflexivity | idtac]|]
         end;
    try reflexivity.
  rewrite forallb_app. apply andb_true_iff. split; [assumption|].
  cbn [forallb]. rewrite andb_true_r.
  unfold CertificateDoc.history_ok, enum, attempt. cbn [CertificateDoc.result].
  now apply JsFacts.includes_In.
Qed.

Definition verified (saved : CertificateDoc.t) (verdict message : string) (now : Z)
    : Response :=
  {| status := 200; success := true; result := Some verdict; message := Some message;
     error := None; code := None; lockUntil := None;
     data := WithVerification (summary saved verdict now) |}.

(** The handler on a stored certificate, from the verdict on. *)
Lemma verifyCertificate_records req token w c c0 holder issuedBy verdict message :
  Certificate.findOne_verificationToken token w = (Returns (Some c), w) ->
  find (Certificate.has_id (CertificateDoc._id c)) (World.certificates w) = Some c0 ->
  StoreFacts.valid c ->
  StoreFacts.persisted w c ->
  Certificate.populate false (CertificateDoc.holder c) (World.users w) = Some holder ->
  Certificate.populate true (CertificateDoc.issuedBy c) (World.users w) = Some issuedBy ->
  CertificateDoc.status c <> CertificateDoc.SUSPENDED ->
  evaluate (SIGNING_SECRET (World.env w)) (World.now w) c = Returns (verdict, message) ->
  exists saved w',
    verifyCertificate req token w
    = (Returns (verified saved verdict message (World.now w)), w') /\
    CertificateDoc.verificationHistory saved
    = CertificateDoc.verificationHistory c ++ [attempt req (World.now w) verdict] /\
    CertificateDoc.status saved = CertificateDoc.status c /\
    CertificateDoc.certificateId saved = CertificateDoc.certificateId c /\
    CertificateDoc.serialNumber saved = CertificateDoc.serialNumber c /\
    CertificateDoc.verificationToken saved = CertificateDoc.verificationToken c /\
    CertificateDoc.digitalSignature saved = CertificateDoc.digitalSignature c /\
    CertificateDoc.checksum saved
    = Some (sha256_hex
              (JSON_stringify
                 (CertificateDoc.checksumData_of
                    (Some (CertificateDoc.PopulatedWith holder)) c))) /\
    find (Certificate.has_id (CertificateDoc._id c)) (World.certificates w') = Some saved /\
    World.users w' = World.users w.
Proof.
  intros Hfind Hid Hvalid Hpers Hholder Hissuer Hstatus Heval.
  pose proof (evaluate_not_suspended _ _ _ _ _ Heval Hstatus) as Hverdict.
  set (doc := recorded req (World.now w) verdict c).
  assert (Hpers' : StoreFacts.persisted w doc).
  { destruct Hpers as (H1 & H2 & H3 & H4). repeat split; assumption. }
  destruct (StoreFacts.save_populated_existing holder issuedBy doc w c0
              (recorded_valid req (World.now w) verdict c Hvalid Hverdict) Hpers' Hid)
    as (saved & w1 & Hsave & Hc & Hcid & Hsn & Htok & Hsum & Hcerts & Husers & _).
  destruct (AuditFacts.log_returns
              (audit req AuditEntry.CERT_VERIFY None (user req) true
                 (Some "certificate") (Some (CertificateDoc._id saved))
                 (CertificateDoc.title saved)
                 (Some (verdict =? "valid")) None
                 (Some [("result", verdict);
                        ("certificateId",
                         template (CertificateDoc.certificateId saved))])
                 None) w1)
    as (r & w2 & Hlog & Hprim & _).
  exists saved, w2. split.
  { rewrite (VerifyFacts.verifyCertificate_found req token w c Hfind).
    rewrite Hholder, Hissuer.
    unfold try_catch. rewrite Heval.
    rewrite (MonadFacts.bind_returns _ (Middleware.lift_run _ w)).
    cbv beta iota zeta.
    fold (attempt req (World.now w) verdict). fold (recorded req (World.now w) verdict c).
    fold doc.
    rewrite (MonadFacts.bind_returns _ Hsave), (MonadFacts.bind_returns _ Hlog).
    reflexivity. }
  unfold CertificateFacts.same_content in Hc.
  split; [transitivity (CertificateDoc.verificationHistory doc); [tauto | reflexivity]|].
  split; [transitivity (CertificateDoc.status doc); [tauto | reflexivity]|].
  split; [exact Hcid|]. split; [exact Hsn|]. split; [exact Htok|].
  split; [transitivity (CertificateDoc.digitalSignature doc); [tauto | reflexivity]|].
  split; [exact Hsum|].
  split.
  + rewrite (AuditFacts.primary_certificates _ _ Hprim), Hcerts.
    eapply StoreFacts.find_replace; [exact Hid|].
    transitivity (CertificateDoc._id doc); [tauto | reflexivity].
  + now rewrite (AuditFacts.primary_users _ _ Hprim).
Qed.

(** X23. The verification of a stored certificate that is not suspended is
    answered and recorded. For a certificate found by its token, valid
    and persisted, whose holder and issuer are stored users (the handler
    populates both references before it saves), whose status is not
    suspended and whose signature check does not raise: the handler
    answers 200 with the verdict and the message of [evaluate]; the stored
    certificate has one more history entry, the last, with this verdict,
    the instant, and the caller when there is one; its status, its
    [certificateId], its [serialNumber], its [verificationToken] and its
    signature are as before, its checksum is the digest of the checksum
    data with the populated holder in the place of the holder's id, and no
    user changes. The verdict is revoked for a revoked certificate,
    whatever its expiry; otherwise expired once [expiresAt] has passed;
    otherwise invalid when the status is not active. *)
Theorem verification_is_answered_and_recorded
    req token w c c0 holder issuedBy verdict message :
  Certificate.findOne_verificationToken token w = (Returns (Some c), w) ->
  find (Certificate.has_id (CertificateDoc._id c)) (World.certificates w) = Some c0 ->
  StoreFacts.valid c ->
  StoreFacts.persisted w c ->
  Certificate.populate false (CertificateDoc.holder c) (World.users w) = Some holder ->
  Certificate.populate true (CertificateDoc.issuedBy c) (World.users w) = Some issuedBy ->
  CertificateDoc.status c <> CertificateDoc.SUSPENDED ->
  evaluate (SIGNING_SECRET (World.env w)) (World.now w) c = Returns (verdict, message) ->
  (exists saved w',
      verifyCertificate req token w
      = (Returns (verified saved verdict message (World.now w)), w') /\
      CertificateDoc.verificationHistory saved
      = CertificateDoc.verificationHistory c ++ [attempt req (World.now w) verdict] /\
      CertificateDoc.status saved = CertificateDoc.status c /\
      CertificateDoc.certificateId saved = CertificateDoc.certificateId c /\
      CertificateDoc.serialNumber saved = CertificateDoc.serialNumber c /\
      CertificateDoc.verificationToken saved = CertificateDoc.verificationToken c /\
      CertificateDoc.digitalSignature saved = CertificateDoc.digitalSignature c /\
      CertificateDoc.checksum saved
      = Some (sha256_hex
                (JSON_stringify
                   (CertificateDoc.checksumData_of
                      (Some (CertificateDoc.PopulatedWith holder)) c))) /\
      find (Certificate.has_id (CertificateDoc._id c)) (World.certificates w') = Some saved /\
      World.users w' = World.users w) /\
  (CertificateDoc.status c = CertificateDoc.REVOKED -> verdict = "revoked") /\
  (CertificateDoc.status c <> CertificateDoc.REVOKED ->
   CertificateDoc.isExpired (World.now w) c = true -> verdict = "expired") /\
  (CertificateDoc.status c <> CertificateDoc.REVOKED ->
   CertificateDoc.isExpired (World.now w) c = false ->
   CertificateDoc.status c <> CertificateDoc.ACTIVE -> verdict = "invalid").
Proof.
  intros Hfind Hid Hvalid Hpers Hholder Hissuer Hstatus Heval.
  split.
  - exact (verifyCertificate_records req token w c c0 holder issuedBy verdict message
             Hfind Hid Hvalid Hpers Hholder Hissuer Hstatus Heval).
  - revert Heval. unfold evaluate.
    destruct (String.eqb_spec (CertificateDoc.status c) CertificateDoc.REVOKED) as [Hr | Hr].
    { intros H. injection H as <- _. repeat split; intros; congruence. }
    apply String.eqb_neq in Hstatus. rewrite Hstatus.
    destruct (CertificateDoc.isExpired (World.now w) c).
    { intros H. injection H as <- _. repeat split; intros; congruence. }
    destruct (String.eqb_spec (CertificateDoc.status c) CertificateDoc.ACTIVE) as [Ha | Ha];
      cbn [negb].
    + intros _. repeat split; intros; congruence.
    + intros H. injection H as <- _. repeat split; intros; congruence.
Qed.

End WithLib.

Definition expired_certificate : CertificateDoc.t :=
  Sample.certificate 10 "4f1c" CertificateDoc.ACTIVE (Some 4000%Z).

(** The holder and the issuer of the certificate, as the handler
    populates them. *)
Definition holder_party : CertificateDoc.Party :=
  {| CertificateDoc.party_id := 5;
     CertificateDoc.party_fullName := Some "Test holder 1";
     CertificateDoc.party_email := Some "holder1@test.com";
     CertificateDoc.party_organization := None |}.

Definition issuer_party : CertificateDoc.Party :=
  {| CertificateDoc.party_id := 3;
     CertificateDoc.party_fullName := Some "Test issuer 1";
     CertificateDoc.party_email := Some "issuer1@test.com";
     CertificateDoc.party_organization := UserDoc.organization Sample.issuer |}.

(** An active certificate past its expiry is reported as expired, and the
    attempt is recorded; the stored status stays active, the identifiers
    stay, and the checksum stored is the digest of the data with the
    populated holder. *)
Lemma verification_witness :
  exists saved w',
    verifyCertificate (L := Sample.lib) (Sample.request None) "4f1c"
      (Sample.world [expired_certificate] 5000)
    = (Returns (verified saved "expired" "Certificate expired on 1/1/2024." 5000), w') /\
    CertificateDoc.verificationHistory saved
    = [attempt (Sample.request None) 5000 "expired"] /\
    CertificateDoc.status saved = "active" /\
    CertificateDoc.serialNumber saved = Some "0102030405060708" /\
    CertificateDoc.checksum saved
    = Some (sha256_hex (Lib := Sample.lib)
              (JSON_stringify (Lib := Sample.lib)
                 (CertificateDoc.checksumData_of
                    (Some (CertificateDoc.PopulatedWith holder_party))
                    expired_certificate))).
Proof.
  destruct (proj1 (@verification_is_answered_and_recorded Sample.lib
                     (Sample.request None) "4f1c"
                     (Sample.world [expired_certificate] 5000)
                     expired_certificate expired_certificate
                     holder_party issuer_party
                     "expired" "Certificate expired on 1/1/2024."
                     eq_refl eq_refl eq_refl
                     (conj eq_refl (conj eq_refl (conj eq_refl eq_refl)))
                     eq_refl eq_refl ltac:(discriminate)
                     eq_refl))
    as (saved & w' & Hrun & Hhistory & Hstatus & _ & Hsn & _ & _ & Hsum & _).
  exists saved, w'. repeat split; assumption.
Defined.

End Verification.


(* ===================================================================== *)
(** * The expiry sweep *)
(* ===================================================================== *)

Module Expiry.

Import CertificateDoc.

(** What the sweep makes of one certificate. *)
Definition swept (now : Z) (c : t) : t :=
  if (status c =? ACTIVE) && isExpired now c then set_status EXPIRED c else c.

Lemma autoExpireCertificates_run w :
  Certificate.autoExpireCertificates w
  = (Returns tt, World.set_certificates (map (swept (World.now w)) (World.certificates w)) w).
Proof. reflexivity. Qed.

Lemma swept_settled now c : isValid now (swept now c) = (status (swept now c) =? ACTIVE).
Proof.
  unfold swept.
  destruct (status c =? ACTIVE) eqn:Hactive; cbn [andb].
  - destruct (isExpired now c) eqn:Hexpired.
    + reflexivity.
    + unfold isValid. now rewrite Hactive, Hexpired.
  - unfold isValid. now rewrite Hactive.
Qed.

Lemma swept_twice now c : swept now (swept now c) = swept now c.
Proof.
  unfold swept at 2 3.
  destruct ((status c =? ACTIVE) && isExpired now c)%bool eqn:Hc.
  - unfold swept. reflexivity.
  - unfold swept. now rewrite Hc.
Qed.

(** X24. [autoExpireCertificates] turns exactly the active certificates
    whose [expiresAt] has passed into expired ones. It returns, keeps the
    users, the number and the order of the certificates; a certificate
    that is active and past its expiry differs afterwards in its status
    only, which is expired, and every other certificate, a revoked or
    suspended one too, is as before. Afterwards a stored certificate is
    valid exactly when its status is active, and a second sweep at the
    same instant changes nothing. *)
Theorem autoExpireCertificates_expires_the_overdue w :
  exists w',
    Certificate.autoExpireCertificates w = (Returns tt, w') /\
    World.users w' = World.users w /\
    World.now w' = World.now w /\
    length (World.certificates w') = length (World.certificates w) /\
    (forall i c, nth_error (World.certificates w) i = Some c ->
       exists c', nth_error (World.certificates w') i = Some c' /\
         (status c = ACTIVE -> isExpired (World.now w) c = true ->
          c' = set_status EXPIRED c) /\
         (status c <> ACTIVE \/ isExpired (World.now w) c = false -> c' = c)) /\
    (forall c', In c' (World.certificates w') ->
       isValid (World.now w) c' = (status c' =? ACTIVE)) /\
    Certificate.autoExpireCertificates w' = (Returns tt, w').
Proof.
  rewrite autoExpireCertificates_run.
  eexists. split; [reflexivity|].
  destruct w as [us cs logs up now entropy nextId console checks env].
  cbn [World.set_certificates World.users World.now World.certificates].
  split; [reflexivity|]. split; [reflexivity|].
  split; [apply length_map|].
  split.
  { intros i c Hi. exists (swept now c). split.
    - now rewrite nth_error_map, Hi.
    - unfold swept. split.
      + intros Hs He. apply String.eqb_eq in Hs. now rewrite Hs, He.
      + intros [Hs | He].
        * apply String.eqb_neq in Hs. now rewrite Hs.
        * rewrite He, andb_false_r. reflexivity. }
  split.
  { intros c' Hin. apply in_map_iff in Hin as (c & <- & _). apply swept_settled. }
  rewrite autoExpireCertificates_run. unfold World.set_certificates.
  cbn [World.users World.now World.certificates World.auditLogs World.auditStoreUp
       World.entropy World.nextId World.console World.passwordChecks World.env].
  rewrite map_map. do 2 f_equal.
  apply map_ext. intros c. apply swept_twice.
Qed.

End Expiry.


(* ===================================================================== *)
(** * Signatures *)
(* ===================================================================== *)

Module Signatures.

Import Http CertificateController CertificateDoc.

Section WithLib.
Context {L : Lib}.

Definition expected (secret : string) (c : t) : string :=
  hmac_sha256_hex secret (Certificate.payload c).

Lemma timingSafeEqual_same bs : timingSafeEqual bs bs = Returns true.
Proof.
  unfold timingSafeEqual. rewrite Nat.eqb_refl.
  now destruct (list_eq_dec N.eq_dec bs bs).
Qed.

Lemma verifySignature_signed secret c s :
  digitalSignature c = Some s -> s <> "" ->
  Certificate.verifySignature secret c
  = timingSafeEqual (Buffer_from_hex s) (Buffer_from_hex (expected secret c)).
Proof.
  intros Hs Hne. unfold Certificate.verifySignature. rewrite Hs.
  apply String.eqb_neq in Hne. now rewrite Hne.
Qed.


(** X26. A stored signature of another length than the HMAC turns the
    public verification into a service error. For an active certificate
    that has not expired and whose signature is not empty and decodes to
    another number of bytes than the expected one, the handler answers 500
    with the result error, not 200 with the result invalid, and leaves the
    state as it was: the attempt is not recorded. *)
Theorem signature_of_another_length_is_a_service_error req token w c s :
  Certificate.findOne_verificationToken token w = (Returns (Some c), w) ->
  status c = ACTIVE ->
  isExpired (World.now w) c = false ->
  digitalSignature c = Some s ->
  s <> "" ->
  length (Buffer_from_hex s)
  <> length (Buffer_from_hex (expected (SIGNING_SECRET (World.env w)) c)) ->
  verifyCertificate req token w = (Returns VerifyFacts.service_error, w).
Proof.
  intros Hfind Hactive Hexpired Hs Hne Hlen.
  rewrite (VerifyFacts.verifyCertificate_found req token w c Hfind).
  assert (Heval : exists m, evaluate (SIGNING_SECRET (World.env w)) (World.now w) c
                            = Throws (RangeError m)).
  { unfold evaluate. rewrite Hactive, Hexpired, Hs.
    cbn [String.eqb Ascii.eqb Bool.eqb negb truthy].
    apply String.eqb_neq in Hne. rewrite Hne. cbn [negb].
    rewrite (verifySignature_signed _ c s Hs ltac:(now apply String.eqb_neq)).
    unfold timingSafeEqual. apply Nat.eqb_neq in Hlen. rewrite Hlen.
    eexists. reflexivity. }
  destruct Heval as (m & Heval).
  unfold try_catch. rewrite Heval.
  rewrite (MonadFacts.bind_throws _
             (eq_refl : lift (Throws (RangeError m)) w = (Throws (RangeError m), w))).
  reflexivity.
Qed.

End WithLib.

Definition truncated_signature : CertificateDoc.t :=
  set_digitalSignature (Some "abcd") (Sample.certificate 10 "4f1c" ACTIVE None).


Lemma signature_of_another_length_witness :
  verifyCertificate (L := Sample.lib) (Sample.request None) "4f1c"
    (Sample.world [truncated_signature] 5000)
  = (Returns VerifyFacts.service_error, Sample.world [truncated_signature] 5000).
Proof.
  apply (@signature_of_another_length_is_a_service_error Sample.lib
           (Sample.request None) "4f1c" (Sample.world [truncated_signature] 5000)
           truncated_signature "abcd" eq_refl eq_refl eq_refl eq_refl).
  - discriminate.
  - vm_compute. discriminate.
Defined.

End Signatures.


(* ===================================================================== *)
(** * From issuance to verification *)
(* ===================================================================== *)

Module Issuance.

Import Http CertificateController.

Section WithLib.
Context {L : Lib}.

Lemma replace_unique c cs :
  existsb (Certificate.duplicate c) cs = false ->
  existsb (Certificate.duplicate c) (Certificate.replace c cs) = false.
Proof.
  induction cs as [|x rest IH]; [reflexivity|].
  cbn [existsb Certificate.replace]. intros H.
  apply orb_false_iff in H as (Hx & Hrest).
  destruct (Certificate.has_id (CertificateDoc._id c) x); cbn [existsb].
  - now rewrite StoreFacts.duplicate_self, Hrest.
  - now rewrite Hx, IH.
Qed.

(** After a write, no other stored certificate shares an identifier with
    the one written. *)
Lemma write_unique isNew c w w' :
  Certificate.write isNew c w = (Returns tt, w') ->
  existsb (Certificate.duplicate c) (World.certificates w') = false.
Proof.
  unfold Certificate.write, bind, certificates, gets, throw, update_certificates, modify.
  destruct (existsb _ _) eqn:Hdup; [discriminate|].
  destruct (find _ (World.certificates w)); destruct isNew; try discriminate;
    intros H; injection H as <-; cbn [World.certificates World.set_certificates].
  - now apply replace_unique.
  - rewrite existsb_app, Hdup. cbn [existsb]. now rewrite StoreFacts.duplicate_self.
Qed.

(** What a certificate that was created and signed carries. *)
Lemma signed_certificate saved w certificate w' doc w0 w1 :
  Certificate.save true doc w0 = (Returns saved, w1) ->
  sign_and_activate saved w = (Returns certificate, w') ->
  StoreFacts.valid certificate /\
  StoreFacts.persisted w' certificate /\
  Certificate.payload certificate = Certificate.payload saved /\
  CertificateDoc.expiresAt certificate = CertificateDoc.expiresAt doc /\
  CertificateDoc.verificationToken certificate = CertificateDoc.verificationToken saved.
Proof.
  intros Hfirst Hsign.
  destruct (Integrity.save_spec _ _ _ _ _ Hfirst)
    as (Hc1 & Hcid1 & Hsn1 & Htok1 & _ & _ & _ & Hsum1).
  unfold sign_and_activate in Hsign.
  apply MonadFacts.bind_inv in Hsign as (env & w2 & Henv & Hsave).
  unfold getenv, gets in Henv. injection Henv as <- <-.
  set (signed := generate_qr
                   (CertificateDoc.set_status CertificateDoc.ACTIVE
                      (snd (Certificate.signCertificate (SIGNING_SECRET (World.env w))
                              saved)))) in Hsave.
  destruct (Creation.generate_qr_content
              (CertificateDoc.set_status CertificateDoc.ACTIVE
                 (snd (Certificate.signCertificate (SIGNING_SECRET (World.env w)) saved))))
    as (Hqr & _ & _).
  fold signed in Hqr.
  assert (Hids : CertificateDoc.certificateId signed = CertificateDoc.certificateId saved /\
                 CertificateDoc.serialNumber signed = CertificateDoc.serialNumber saved /\
                 CertificateDoc.verificationToken signed
                 = CertificateDoc.verificationToken saved).
  { unfold signed, generate_qr. destruct QRCode_toDataURL as [toDataURL|].
    - destruct (toDataURL _); repeat split.
    - repeat split. }
  destruct Hids as (Icid & Isn & Itok).
  destruct (Integrity.save_spec _ _ _ _ _ Hsave)
    as (Hc2 & _ & _ & _ & Kcid & Ksn & Ktok & Hsum2).
  rewrite Icid in Kcid. rewrite Isn in Ksn. rewrite Itok in Ktok.
  specialize (Kcid Hcid1). specialize (Ksn Hsn1). specialize (Ktok Htok1).
  pose proof (CertificateFacts.save_returns _ _ _ _ _ Hsave) as (Hvalid & _ & w3 & _ & Hwrite).
  split.
  { unfold StoreFacts.valid. now rewrite (StoreFacts.checks_same_content _ _ Hc2). }
  split.
  { repeat split; try congruence. eapply write_unique. exact Hwrite. }
  assert (Hdata : CertificateDoc.checksumData signed = CertificateDoc.checksumData doc).
  { unfold CertificateDoc.checksumData, CertificateDoc.checksumData_of.
    unfold CertificateFacts.same_content in Hqr, Hc1.
    cbn [CertificateDoc.set_qrCode CertificateDoc.set_status CertificateDoc.title
         CertificateDoc.holder CertificateDoc.holderName
         CertificateDoc.issuingOrganization CertificateDoc.issuedAt CertificateDoc.type
         Certificate.signCertificate snd CertificateDoc.set_digitalSignature] in Hqr.
    repeat match goal with H : _ /\ _ |- _ => destruct H end. congruence. }
  split.
  { unfold Certificate.payload. rewrite Kcid, Ksn, Hsum2, Hsum1, Hdata. reflexivity. }
  split; [|exact Ktok].
  unfold CertificateFacts.same_content in Hqr, Hc1, Hc2.
  cbn [CertificateDoc.set_qrCode CertificateDoc.set_status CertificateDoc.expiresAt
       Certificate.signCertificate snd CertificateDoc.set_digitalSignature] in Hqr.
  repeat match goal with H : _ /\ _ |- _ => destruct H end. congruence.
Qed.

Definition valid_and_authentic (saved : CertificateDoc.t) (now : Z) : Response :=
  Verification.verified saved "valid" "Certificate is valid and authentic." now.

(** X27. A certificate issued by a caller who may sign verifies. When
    [createCertificate] has answered 201 for a caller whose role holds
    certificate:sign, the certificate of the response carries a
    verification token, and the public verification of this token, in
    any later state with the same certificates and the same signing
    secret in which the token finds this certificate, its holder and its
    issuer are stored users and the expiry given at issuance has not
    passed, answers 200 with the result valid and records the attempt. *)
Theorem issued_certificate_verifies req body w response w' caller :
  createCertificate req body w = (Returns response, w') ->
  status response = 201%Z ->
  user req = Some caller ->
  Rbac.hasPermission (UserDoc.role caller) Rbac.CERTIFICATE_SIGN = Returns true ->
  exists certificate token,
    data response = WithCertificate certificate /\
    CertificateDoc.verificationToken certificate = Some token /\
    CertificateDoc.expiresAt certificate = b_expiresAt body /\
    forall req' w1,
      World.certificates w1 = World.certificates w' ->
      SIGNING_SECRET (World.env w1) = SIGNING_SECRET (World.env w) ->
      Certificate.findOne_verificationToken token w1 = (Returns (Some certificate), w1) ->
      Certificate.populate false (CertificateDoc.holder certificate) (World.users w1) <> None ->
      Certificate.populate true (CertificateDoc.issuedBy certificate) (World.users w1) <> None ->
      CertificateDoc.isExpired (World.now w1) certificate = false ->
      exists saved w2,
        verifyCertificate req' token w1
        = (Returns (valid_and_authentic saved (World.now w1)), w2) /\
        CertificateDoc.verificationHistory saved
        = CertificateDoc.verificationHistory certificate
          ++ [Verification.attempt req' (World.now w1) "valid"] /\
        find (Certificate.has_id (CertificateDoc._id certificate)) (World.certificates w2)
        = Some saved.
Proof.
  intros Hrun Hstatus Hcaller Hperm.
  destruct (Creation.createCertificate_created req body w response w' Hrun Hstatus)
    as (caller' & holderId & name & nid & w0 & doc & w1 & saved & w2 & canSign &
        certificate & w3 & entry & Hcaller' & Hres & Hdoc & Hsave & Hperm' & Hsign &
        Hlog & ->).
  rewrite Hcaller in Hcaller'. injection Hcaller' as <-.
  rewrite Hperm in Hperm'. injection Hperm' as <-.
  destruct (signed_certificate _ _ _ _ _ _ _ Hsave Hsign)
    as (Hvalid & Hpers & Hpayload & Hexpires & Htoken).
  destruct (Creation.sign_and_activate_returns _ _ _ _ Hsign) as (Hactive & Hsig & Hstored).
  destruct (Integrity.save_spec _ _ _ _ _ Hsave) as (_ & _ & _ & Htok1 & _).
  assert (Henv : World.env w2 = World.env w).
  { rewrite (Creation.save_env _ _ _ _ _ Hsave), (Creation.construct_env _ _ _ _ Hdoc).
    now rewrite (Creation.resolve_holder_world _ _ _ _ Hres). }
  rewrite Henv in Hsig.
  destruct (AuditFacts.log_returns
              (audit req AuditEntry.CERT_CREATE None (Some caller) true
                 (Some "certificate") (Some (CertificateDoc._id certificate))
                 (CertificateDoc.title certificate) None None
                 (Some [("certificateId", template (CertificateDoc.certificateId certificate));
                        ("type", template (CertificateDoc.type certificate));
                        ("holder", template (CertificateDoc.holderName certificate));
                        ("status", CertificateDoc.status certificate)]) None) w3)
    as (r & w4 & Hlog' & Hprim & _).
  rewrite Hlog in Hlog'. injection Hlog' as <- <-.
  destruct (CertificateDoc.verificationToken certificate) as [token|] eqn:Htok;
    [|rewrite <- Htoken in Htok1; discriminate].
  exists certificate, token.
  split; [reflexivity|]. split; [exact Htok|].
  split.
  { rewrite Hexpires. unfold Certificate.construct in Hdoc.
    apply MonadFacts.bind_inv in Hdoc as (id & w5 & _ & Hdoc).
    apply MonadFacts.bind_inv in Hdoc as (now & w6 & _ & Hdoc).
    unfold ret in Hdoc. injection Hdoc as <- _. reflexivity. }
  intros req' v Hcerts Hsecret Hfind Hholder Hissuer Hexpired.
  destruct (Certificate.populate false (CertificateDoc.holder certificate) (World.users v))
    as [holder|] eqn:Eholder; [clear Hholder | now elim Hholder].
  destruct (Certificate.populate true (CertificateDoc.issuedBy certificate) (World.users v))
    as [issuedBy|] eqn:Eissuer; [clear Hissuer | now elim Hissuer].
  assert (Heval : evaluate (SIGNING_SECRET (World.env v)) (World.now v) certificate
                  = Returns ("valid", "Certificate is valid and authentic.")).
  { unfold evaluate. rewrite Hactive, Hexpired, Hsig.
    cbn [String.eqb Ascii.eqb Bool.eqb negb truthy].
    destruct (hmac_sha256_hex (SIGNING_SECRET (World.env w)) (Certificate.payload saved) =? "")
      eqn:Hempty; cbn [negb]; [reflexivity|].
    apply String.eqb_neq in Hempty.
    rewrite (Signatures.verifySignature_signed _ certificate _ Hsig Hempty).
    unfold Signatures.expected. rewrite Hpayload, Hsecret.
    now rewrite Signatures.timingSafeEqual_same. }
  assert (Hpers' : StoreFacts.persisted v certificate).
  { destruct Hpers as (P1 & P2 & P3 & P4). repeat split; try assumption.
    now rewrite Hcerts, (AuditFacts.primary_certificates _ _ Hprim). }
  assert (Hid : find (Certificate.has_id (CertificateDoc._id certificate))
                  (World.certificates v) = Some certificate).
  { now rewrite Hcerts, (AuditFacts.primary_certificates _ _ Hprim). }
  destruct (Verification.verifyCertificate_records req' token v certificate certificate
              holder issuedBy "valid" "Certificate is valid and authentic."
              Hfind Hid Hvalid Hpers' Eholder Eissuer
              ltac:(rewrite Hactive; discriminate) Heval)
    as (stored & v' & Hverify & Hhistory & _ & _ & _ & _ & _ & _ & Hfound & _).
  exists stored, v'. repeat split; assumption.
Qed.

End WithLib.

End Issuance.



Module IssuanceExample.

Import Http CertificateController.

(** The holder and the issuer of the certificate that the issuer of
    [CreationExample] obtained are stored users. *)
Lemma issued_parties :
  Certificate.populate false (CertificateDoc.holder IntegrityExample.issued)
    (World.users (snd CreationExample.by_issuer)) <> None /\
  Certificate.populate true (CertificateDoc.issuedBy IntegrityExample.issued)
    (World.users (snd CreationExample.by_issuer)) <> None.
Proof. vm_compute. split; discriminate. Qed.

Lemma issued_certificate_witness :
  exists saved w2,
    verifyCertificate (L := Sample.lib) (Sample.request None) IntegrityExample.issued_token
      (snd CreationExample.by_issuer)
    = (Returns (Issuance.valid_and_authentic saved 5000), w2).
Proof.
  destruct (@Issuance.issued_certificate_verifies Sample.lib _ _ _ _ _ Sample.issuer
              CreationExample.by_issuer_run eq_refl eq_refl eq_refl)
    as (certificate & token & Hdata & Htoken & _ & Hverify).
  rewrite IntegrityExample.issued_data in Hdata. injection Hdata as <-.
  rewrite IntegrityExample.issued_token_carried in Htoken. injection Htoken as <-.
  destruct (Hverify (Sample.request None) (snd CreationExample.by_issuer)
              eq_refl eq_refl IntegrityExample.issued_found (proj1 issued_parties) (proj2 issued_parties)
              eq_refl)
    as (saved & w2 & Hrun & _).
  exists saved, w2. exact Hrun.
Defined.

End IssuanceExample.


(* ===================================================================== *)
(** * The routes *)
(* ===================================================================== *)

Module RouteFacts.

Import Http Auth Routes.

Lemma authenticated_stopped {A} req (next : Req -> M (Reply A)) w r w' :
  authenticate req w = (Returns (Respond r), w') ->
  authenticated req next w = (Returns (Stopped r), w').
Proof.
  intros H. unfold authenticated. now rewrite (MonadFacts.bind_returns _ H).
Qed.

Lemma authenticated_passed {A} req (next : Req -> M (Reply A)) w u claims :
  authenticate req w = (Returns (Next (u, claims)), w) ->
  authenticated req next w = next (set_user (Some u) req) w.
Proof.
  intros H. unfold authenticated. now rewrite (MonadFacts.bind_returns _ H).
Qed.

Lemma guarded_stopped {A} middleware req (next : M (Reply A)) w r w' :
  middleware req w = (Returns (Respond r), w') ->
  guarded middleware req next w = (Returns (Stopped r), w').
Proof.
  intros H. unfold guarded. now rewrite (MonadFacts.bind_returns _ H).
Qed.

Lemma guarded_passed {A} middleware req (next : M (Reply A)) w :
  middleware req w = (Returns (Next tt), w) ->
  guarded middleware req next w = next w.
Proof.
  intros H. unfold guarded. now rewrite (MonadFacts.bind_returns _ H).
Qed.

Lemma handler_returns {A} (h : M A) w a w' :
  h w = (Returns a, w') -> handler h w = (Returns (Handled a), w').
Proof.
  intros H. unfold handler. now rewrite (MonadFacts.bind_returns _ H).
Qed.


Lemma authorizeRole_run roles req u w :
  user req = Some u ->
  (In (UserDoc.role u) (flat roles) ->
   authorizeRole roles req w = (Returns (Next tt), w)) /\
  (~ In (UserDoc.role u) (flat roles) ->
   exists w',
     authorizeRole roles req w = (Returns (Respond Middleware.role_denied), w') /\
     AuditFacts.primary w' = AuditFacts.primary w).
Proof.
  intros Hu. split.
  - intros Hin. apply JsFacts.includes_In in Hin.
    unfold authorizeRole, try_catch. rewrite Hu. cbv zeta. now rewrite Hin.
  - intros Hout. apply JsFacts.includes_false in Hout.
    unfold authorizeRole, try_catch. rewrite Hu. cbv zeta. rewrite Hout. cbn [negb].
    log_step r w2 Hlog Hprim.
    exists w2. split; [reflexivity | exact Hprim].
Qed.


Section WithLib.
Context {L : Lib}.

(** X28. No route behind [authenticate] reaches its handler without a
    signed-in user. When the request carries no bearer token that
    verifies as the access token of a stored, active user, each of the
    routes of certificates, of users and of the logout is answered by
    [authenticate], with 401 and [success: false], and no user and no
    certificate changes. *)
Theorem routes_need_a_signed_in_user req w :
  (forall u claims, ~ Middleware.signed_in req w u claims) ->
  exists r w',
    status r = 401%Z /\ success r = false /\
    AuditFacts.primary w' = AuditFacts.primary w /\
    (forall id reason, put_certificate_revoke req id reason w = (Returns (Stopped r), w')) /\
    (forall id, get_certificate req id w = (Returns (Stopped r), w')) /\
    (forall id, get_user req id w = (Returns (Stopped r), w')) /\
    (forall id role, patch_user_role req id role w = (Returns (Stopped r), w')) /\
    (forall id isActive, patch_user_status req id isActive w = (Returns (Stopped r), w')) /\
    (forall id, delete_user req id w = (Returns (Stopped r), w')) /\
    post_logout req w = (Returns (Stopped r), w').
Proof.
  intros Hnone.
  destruct (Middleware.authenticate_outcome req w) as (step & w' & Hauth & Hprim & Hcase).
  destruct step as [r | [u claims]].
  2: { destruct Hcase as (_ & Hsigned). now destruct (Hnone u claims). }
  destruct Hcase as (Hstatus & Hsuccess & _).
  exists r, w'. split; [exact Hstatus|]. split; [exact Hsuccess|]. split; [exact Hprim|].
  repeat split; intros; now apply authenticated_stopped.
Qed.

(** X29. The route that deletes a user acts for super administrators
    only. [DELETE /api/users/:id] always answers and never changes a
    certificate; it changes the users only when the request carries the
    access token of a stored, active user whose role is super_admin, the
    id, as the request spells it, is not the string of this user's id,
    and the query casts it to an id; and then by removing the user with
    that id. *)
Theorem delete_route_is_for_super_admins req id w :
  exists reply w',
    delete_user req id w = (Returns reply, w') /\
    World.certificates w' = World.certificates w /\
    (World.users w' = World.users w \/
     exists u claims target_id,
       Middleware.signed_in req w u claims /\
       UserDoc.role u = Rbac.SUPER_ADMIN /\
       id <> ObjectId_toString (UserDoc._id u) /\
       ObjectId_cast id = Some target_id /\
       reply = Handled UserAdministration.user_deleted /\
       World.users w' = User.remove target_id (World.users w)).
Proof.
  destruct (Middleware.authenticate_outcome req w) as (step & w1 & Hauth & Hprim & Hcase).
  destruct step as [r | [u claims]].
  { exists (Stopped r), w1. split; [now apply authenticated_stopped|].
    split; [now rewrite (AuditFacts.primary_certificates _ _ Hprim)|].
    left. now rewrite (AuditFacts.primary_users _ _ Hprim). }
  destruct Hcase as (-> & Hsigned).
  unfold delete_user. rewrite (authenticated_passed _ _ _ _ _ Hauth).
  set (req' := set_user (Some u) req).
  assert (Hu : user req' = Some u) by reflexivity.
  destruct (authorizeRole_run [inl Rbac.SUPER_ADMIN] req' u w Hu) as (Hpass & Hdeny).
  destruct (in_dec string_dec (UserDoc.role u) (flat [inl Rbac.SUPER_ADMIN]))
    as [Hin | Hout].
  2: { destruct (Hdeny Hout) as (w2 & Hrun & Hprim2).
       exists (Stopped Middleware.role_denied), w2.
       split; [now apply guarded_stopped|].
       split; [now rewrite (AuditFacts.primary_certificates _ _ Hprim2)|].
       left. now rewrite (AuditFacts.primary_users _ _ Hprim2). }
  rewrite (guarded_passed _ _ _ _ (Hpass Hin)).
  assert (Hrole : UserDoc.role u = Rbac.SUPER_ADMIN).
  { cbn in Hin. destruct Hin as [H | []]. now symmetry. }
  destruct (UserAdministration.deleteUser_outcome req' u id w Hu) as (Hown & Hother).
  destruct (string_dec id (ObjectId_toString (UserDoc._id u))) as [Hsame | Hdiff].
  { exists (Handled UserAdministration.own_account), w.
    split; [apply handler_returns; now apply Hown|]. split; [reflexivity | now left]. }
  destruct (Hother Hdiff) as (Hnoid & Hcast).
  destruct (ObjectId_cast id) as [target_id|] eqn:Hid.
  2: { exists (Handled UserAdministration.delete_failed), w.
       split; [apply handler_returns; now apply Hnoid|]. split; [reflexivity | now left]. }
  destruct (Hcast target_id eq_refl) as (Hmissing & Hfound).
  destruct (find (User.has_id target_id) (World.users w)) as [target|] eqn:Hfind.
  - destruct (Hfound target eq_refl) as (w2 & Hrun & Husers & _ & Hcerts & _).
    exists (Handled UserAdministration.user_deleted), w2.
    split; [now apply handler_returns|]. split; [exact Hcerts|].
    right. exists u, claims, target_id. repeat split; assumption.
  - exists (Handled UserAdministration.no_such_user), w.
    split; [apply handler_returns; now apply Hmissing|]. split; [reflexivity | now left].
Qed.



End WithLib.

End RouteFacts.


(* ===================================================================== *)
(** * The theorems above on the users and certificates of the test suite *)
(* ===================================================================== *)

Module Examples.

Import Http Auth.

Definition world0 : World.t := Sample.world [RevocationExample.active_certificate] 5000.

(** The tokens that the system issues to the issuer, the state after
    issuing them, and the claims of the access token. *)
Definition issuer_tokens : Jwt.TokenPair :=
  Eval vm_compute in
    match fst (Jwt.generateTokenPair Sample.issuer world0) with
    | Returns t => t
    | Throws _ => {| Jwt.accessToken := Jwt.Malformed ""; Jwt.refreshToken := Jwt.Malformed "";
                     Jwt.expiresIn := 0 |}
    end.

Definition world1 : World.t :=
  Eval vm_compute in snd (Jwt.generateTokenPair Sample.issuer world0).


Lemma issuer_tokens_issued :
  Jwt.generateTokenPair Sample.issuer world0 = (Returns issuer_tokens, world1).
Proof. vm_compute. reflexivity. Qed.

Definition by_the_issuer : Req := TokensExample.bearer (Jwt.accessToken issuer_tokens).


Lemma nobody_signed_in u claims :
  ~ Middleware.signed_in (Sample.request None) world0 u claims.
Proof. intros (token & Hext & _). discriminate. Qed.

Lemma authorizeAny_witness :
  authorizeAny [Rbac.CERTIFICATE_READ; Rbac.CERTIFICATE_READ_OWN]
    (Sample.request (Some Sample.holder)) world0
  = (Returns (Next tt), world0).
Proof.
  apply (proj1 (Middleware.authorizeAny_needs_one
                  [Rbac.CERTIFICATE_READ; Rbac.CERTIFICATE_READ_OWN]
                  (Sample.request (Some Sample.holder)) Sample.holder world0
                  eq_refl eq_refl)).
  exists Rbac.CERTIFICATE_READ_OWN. split; vm_compute; tauto.
Defined.

Lemma authorizeRole_witness :
  authorizeRole [inl Rbac.SUPER_ADMIN] (Sample.request (Some Sample.superAdmin)) world0
  = (Returns (Next tt), world0).
Proof.
  apply (proj1 (Middleware.authorizeRole_admits_listed_roles [inl Rbac.SUPER_ADMIN]
                  (Sample.request (Some Sample.superAdmin)) Sample.superAdmin world0
                  eq_refl)).
  vm_compute. tauto.
Defined.

Lemma authorizeOwnerOrAdmin_witness :
  authorizeOwnerOrAdmin (Some Rbac.USER_READ) None (Some 5)
    (Sample.request (Some Sample.holder)) world0
  = (Returns (Next tt), world0).
Proof.
  apply (proj1 (Middleware.authorizeOwnerOrAdmin_admits_owner_and_admin
                  (Some Rbac.USER_READ) None (Some 5)
                  (Sample.request (Some Sample.holder)) Sample.holder world0
                  eq_refl eq_refl)).
  reflexivity.
Defined.

Lemma access_token_witness :
  exists claims,
    authenticate by_the_issuer world1 = (Returns (Next (Sample.issuer, claims)), world1) /\
    Jwt.role claims = Some "issuer".
Proof.
  destruct (Sessions.access_token_follows_the_stored_user Sample.issuer world0
              issuer_tokens world1 by_the_issuer world1
              issuer_tokens_issued eq_refl eq_refl) as (_ & Hvalid).
  destruct (Hvalid ltac:(vm_compute; reflexivity)) as (_ & Hstored).
  exact (proj2 (Hstored Sample.issuer eq_refl) eq_refl).
Defined.

Lemma logout_witness :
  exists w',
    AuthController.logout (Sample.request (Some Sample.holder)) world0
    = (Returns Accounts.logged_out, w').
Proof.
  destruct (Accounts.logout_invalidates_nothing (Sample.request (Some Sample.holder))
              Sample.holder world0 eq_refl) as (w' & Hrun & _).
  exists w'. exact Hrun.
Defined.

(** A second super administrator, whose id has letters among its
    digits, and the two spellings of this id. *)
Definition superAdmin2 : UserDoc.t :=
  Sample.user 171 "Test super_admin 2" "super_admin2@test.com" Rbac.SUPER_ADMIN.

Definition world2 : World.t :=
  World.set_users (World.users world0 ++ [superAdmin2]) world0.

Definition own_id : string := "0000000000000000000000ab".

Definition own_id_upper : string := "0000000000000000000000AB".

Lemma own_id_spellings :
  ObjectId_toString 171 = own_id /\
  ObjectId_cast own_id = Some 171 /\
  ObjectId_cast own_id_upper = Some 171 /\
  own_id_upper <> own_id.
Proof. repeat split; try (vm_compute; reflexivity). discriminate. Qed.

(** The administrator deactivates the holder. The second super
    administrator is refused on the string of their own id, and
    deactivates their own account with the same id in upper case. *)
Lemma deactivation_witness :
  (exists w',
      UserController.toggleUserStatus (Sample.request (Some Sample.admin))
        "000000000000000000000005" (VBool false) world0
      = (Returns (UserAdministration.status_changed false 5 false), w') /\
      find (User.has_id 5) (World.users w')
      = Some (UserDoc.set_isActive false Sample.holder)) /\
  UserController.toggleUserStatus (Sample.request (Some superAdmin2)) own_id
    (VBool false) world2
  = (Returns UserAdministration.self_deactivation, world2) /\
  (exists w',
      UserController.toggleUserStatus (Sample.request (Some superAdmin2)) own_id_upper
        (VBool false) world2
      = (Returns (UserAdministration.status_changed false 171 false), w') /\
      find (User.has_id 171) (World.users w')
      = Some (UserDoc.set_isActive false superAdmin2)).
Proof.
  split; [|split].
  - destruct (proj2 (proj2 (@UserAdministration.deactivation_is_immediate Sample.lib
                              (Sample.request (Some Sample.admin)) Sample.admin world0
                              eq_refl)
                       "000000000000000000000005" ltac:(discriminate))
                5 Sample.holder eq_refl eq_refl eq_refl)
      as (w' & Hrun & Hstored & _).
    exists w'. split; assumption.
  - exact (proj1 (@UserAdministration.deactivation_is_immediate Sample.lib
                    (Sample.request (Some superAdmin2)) superAdmin2 world2 eq_refl)
             (VBool false) eq_refl).
  - destruct (proj2 (proj2 (@UserAdministration.deactivation_is_immediate Sample.lib
                              (Sample.request (Some superAdmin2)) superAdmin2 world2
                              eq_refl)
                       own_id_upper ltac:(discriminate))
                171 superAdmin2 eq_refl eq_refl eq_refl)
      as (w' & Hrun & Hstored & _).
    exists w'. split; assumption.
Defined.

Lemma truthy_false_witness :
  exists w',
    UserController.toggleUserStatus (Sample.request (Some Sample.admin))
      "000000000000000000000002" (VStr "false") world0
    = (Returns (UserAdministration.status_changed true 2 false), w') /\
    find (User.has_id 2) (World.users w') = Some (UserDoc.set_isActive false Sample.admin).
Proof.
  destruct (UserAdministration.truthy_false_deactivates_own_account
              (Sample.request (Some Sample.admin)) Sample.admin
              "000000000000000000000002" Sample.admin
              (VStr "false") world0 eq_refl eq_refl (or_introl eq_refl) eq_refl eq_refl)
    as (_ & _ & w' & Hrun & _ & Hstored).
  exists w'. split; assumption.
Defined.

(** The super administrator deletes the holder. The second super
    administrator is refused on the string of their own id, and deletes
    their own account with the same id in upper case. *)
Lemma deleteUser_witness :
  (exists w',
      UserController.deleteUser (Sample.request (Some Sample.superAdmin))
        "000000000000000000000005" world0
      = (Returns UserAdministration.user_deleted, w') /\
      World.users w' = [Sample.superAdmin; Sample.admin; Sample.issuer; Sample.verifier]) /\
  UserController.deleteUser (Sample.request (Some superAdmin2)) own_id world2
  = (Returns UserAdministration.own_account, world2) /\
  (exists w',
      UserController.deleteUser (Sample.request (Some superAdmin2)) own_id_upper world2
      = (Returns UserAdministration.user_deleted, w') /\
      World.users w' = World.users world0) /\
  UserController.deleteUser (Sample.request (Some Sample.superAdmin)) "5" world0
  = (Returns UserAdministration.delete_failed, world0).
Proof.
  split; [|split; [|split]].
  - destruct (proj2 (proj2 (proj2 (UserAdministration.deleteUser_removes_the_user_named
                                     (Sample.request (Some Sample.superAdmin))
                                     Sample.superAdmin "000000000000000000000005"
                                     world0 eq_refl) ltac:(discriminate))
                       5 eq_refl)
                Sample.holder eq_refl)
      as (w' & Hrun & Husers & _).
    exists w'. split; assumption.
  - exact (proj1 (UserAdministration.deleteUser_removes_the_user_named
                    (Sample.request (Some superAdmin2)) superAdmin2 own_id world2 eq_refl)
             eq_refl).
  - destruct (proj2 (proj2 (proj2 (UserAdministration.deleteUser_removes_the_user_named
                                     (Sample.request (Some superAdmin2)) superAdmin2
                                     own_id_upper world2 eq_refl) ltac:(discriminate))
                       171 eq_refl)
                superAdmin2 eq_refl)
      as (w' & Hrun & Husers & _).
    exists w'. split; assumption.
  - exact (proj1 (proj2 (UserAdministration.deleteUser_removes_the_user_named
                           (Sample.request (Some Sample.superAdmin)) Sample.superAdmin
                           "5" world0 eq_refl) ltac:(discriminate))
             eq_refl).
Defined.

Lemma holders_read_witness :
  exists w',
    CertificateController.getCertificate (Sample.request (Some Sample.holder)) 10 world0
    = (Returns (answered 200 None
                  (CertificateAccess.populated RevocationExample.active_certificate world0)),
       w').
Proof.
  destruct (proj2 (CertificateAccess.holders_read_their_own_certificates
                     (Sample.request (Some Sample.holder)) Sample.holder 10 world0
                     eq_refl eq_refl)
              RevocationExample.active_certificate eq_refl) as (_ & _ & Hown).
  destruct (Hown ltac:(vm_compute; intuition discriminate) ltac:(vm_compute; tauto))
    as (Hholder & _).
  destruct (proj1 (Hholder 5 Sample.holder eq_refl eq_refl) eq_refl) as (w' & Hrun & _).
  exists w'. exact Hrun.
Defined.

Lemma routes_witness :
  exists r w',
    status r = 401%Z /\
    Routes.delete_user (Sample.request None) "000000000000000000000005" world0
    = (Returns (Routes.Stopped r), w').
Proof.
  destruct (@RouteFacts.routes_need_a_signed_in_user Sample.lib (Sample.request None) world0
              nobody_signed_in)
    as (r & w' & Hstatus & _ & _ & _ & _ & _ & _ & _ & Hdelete & _).
  exists r, w'. split; [exact Hstatus | apply Hdelete].
Defined.




End Examples.
